(** * research-tools: market-data download, dataset assembly, cointegration spread

    A shallow embedding of the Python sources

      - [researchtools/__init__.py]  (the packaged module),
      - [src/historical_data.py]     (dataset assembly),
      - [src/coint.py]               (cointegration result accessor),

    together with the properties the specification states about them.

    Conventions of the embedding.
      - Python [str] values are [string]s; tickers, intervals, dates and paths
        are ASCII, so [str.upper] is modelled on ASCII letters.
      - Python [int] and pandas [int64] values are [Z]; for [int64] columns the
        wrap-around is written out ([wrap64]).
      - pandas [float64] values (prices, quantities, eigenvector components)
        are idealised as exact rationals [Q].
      - Functions that touch the file system, the network or that raise
        exceptions run in a small state-and-exception monad over an explicit
        [world]. *)

From Stdlib Require Import ZArith QArith List String Ascii Lia Sorted.
From stdpp Require Import base gmap strings list sets pretty.
From Equations Require Import Equations.

Open Scope string_scope.
Open Scope Z_scope.

(* ===================================================================== *)
(** * Python built-ins and library functions used by the sources          *)
(* ===================================================================== *)

Module Py.

(** ** Exceptions and results *)

Inductive exn :=
| HTTPError            (* urllib.error.HTTPError *)
| URLError             (* urllib.error.URLError that is not an HTTPError *)
| ConnectionError      (* the stream breaks while it is read *)
| ValueError
| UnboundLocalError
| KeyError
| ZeroDivisionError
| IndexError
| FileNotFoundError
| IsADirectoryError
| OverflowError.

Inductive result (A : Type) :=
| Ok (a : A)
| Raise (e : exn).
Arguments Ok {A} a.
Arguments Raise {A} e.

#[global] Instance exn_eq_dec : EqDecision exn.
Proof. solve_decision. Defined.

Definition bind_result {A B} (r : result A) (k : A -> result B) : result B :=
  match r with
  | Ok a => k a
  | Raise e => Raise e
  end.

(** ** Strings *)

Definition chars (s : string) : list ascii := list_ascii_of_string s.
Definition str (cs : list ascii) : string := string_of_list_ascii cs.

Definition is_lower (c : ascii) : bool :=
  let n := Z.of_nat (nat_of_ascii c) in (97 <=? n) && (n <=? 122).

Definition upper_char (c : ascii) : ascii :=
  if is_lower c then ascii_of_nat (nat_of_ascii c - 32) else c.

(** [s.upper()] *)
Fixpoint upper (s : string) : string :=
  match s with
  | EmptyString => EmptyString
  | String c s' => String (upper_char c) (upper s')
  end.

(** truthiness of a [str]: the empty string is false *)
Definition truthy (s : string) : bool :=
  match s with EmptyString => false | _ => true end.

(** truthiness of an optional [str]: [None] and [""] are false *)
Definition truthy_opt (o : option string) : bool :=
  match o with Some s => truthy s | None => false end.

Definition starts_with_slash (s : string) : bool :=
  match s with String "/" _ => true | _ => false end.

Fixpoint ends_with_slash (s : string) : bool :=
  match s with
  | EmptyString => false
  | String c EmptyString => Ascii.eqb c "/"
  | String _ s' => ends_with_slash s'
  end.

(** [os.path.join(a, b)] (posixpath) *)
Definition os_path_join (a b : string) : string :=
  if starts_with_slash b then b
  else if negb (truthy a) || ends_with_slash a then a +:+ b
  else a +:+ "/" +:+ b.

(** [s.split(sep)] for a one-character separator *)
Fixpoint split_chars (sep : ascii) (cur : list ascii) (cs : list ascii) : list string :=
  match cs with
  | [] => [str (rev cur)]
  | c :: cs' =>
      if Ascii.eqb c sep then str (rev cur) :: split_chars sep [] cs'
      else split_chars sep (c :: cur) cs'
  end.

Definition split (sep : ascii) (s : string) : list string :=
  split_chars sep [] (chars s).

(** [c * n] for a one-character string [c]; a negative count gives [""] *)
Definition str_repeat (c : ascii) (n : Z) : string :=
  str (repeat c (Z.to_nat n)).

(** ** [int(s)] on a string *)

Definition is_digit (c : ascii) : bool :=
  let n := Z.of_nat (nat_of_ascii c) in (48 <=? n) && (n <=? 57).

Definition digit_val (c : ascii) : Z := Z.of_nat (nat_of_ascii c) - 48.

(** whitespace as [int] skips it around the digits of an ASCII text: the
    characters of C's [isspace], tab to carriage return and the space *)
Definition is_space (c : ascii) : bool :=
  let n := Z.of_nat (nat_of_ascii c) in
  ((9 <=? n) && (n <=? 13)) || (n =? 32).

Fixpoint lstrip (cs : list ascii) : list ascii :=
  match cs with
  | c :: cs' => if is_space c then lstrip cs' else cs
  | [] => []
  end.

Definition strip (cs : list ascii) : list ascii :=
  rev (lstrip (rev (lstrip cs))).

(** digits with single underscores between them, as [int] accepts *)
Fixpoint parse_digits (acc : Z) (after_digit : bool) (cs : list ascii) : option Z :=
  match cs with
  | [] => if after_digit then Some acc else None
  | c :: cs' =>
      if is_digit c then parse_digits (10 * acc + digit_val c) true cs'
      else if Ascii.eqb c "_" then
        (if after_digit then parse_digits acc false cs' else None)
      else None
  end.

Definition int (s : string) : result Z :=
  let body :=
    match strip (chars s) with
    | "+"%char :: cs => parse_digits 0 false cs
    | "-"%char :: cs => option_map Z.opp (parse_digits 0 false cs)
    | cs => parse_digits 0 false cs
    end in
  match body with
  | Some n => Ok n
  | None => Raise ValueError
  end.

(** ** [datetime.date] *)

Record date := mkdate { year : Z; month : Z; day : Z }.

Definition is_leap (y : Z) : bool :=
  ((y mod 4 =? 0) && negb (y mod 100 =? 0)) || (y mod 400 =? 0).

Definition days_in_month (y m : Z) : Z :=
  if m =? 2 then (if is_leap y then 29 else 28)
  else if (m =? 4) || (m =? 6) || (m =? 9) || (m =? 11) then 30
  else 31.

(** a C [int], the type in which [date] takes its three arguments *)
Definition fits_c_int (n : Z) : bool := (- 2147483648 <=? n) && (n <=? 2147483647).

(** [date(y, m, d)]: [OverflowError] for an argument that is no C [int],
    [ValueError] outside the calendar *)
Definition mk_date (y m d : Z) : result date :=
  if negb (fits_c_int y && fits_c_int m && fits_c_int d) then Raise OverflowError
  else if (1 <=? y) && (y <=? 9999) && (1 <=? m) && (m <=? 12)
          && (1 <=? d) && (d <=? days_in_month y m)
  then Ok (mkdate y m d) else Raise ValueError.

(** [a <= b] on dates *)
Definition date_le (a b : date) : bool :=
  (year a <? year b)
  || ((year a =? year b)
      && ((month a <? month b) || ((month a =? month b) && (day a <=? day b)))).

(** the day after [d] *)
Definition next_day (d : date) : date :=
  if day d <? days_in_month (year d) (month d) then mkdate (year d) (month d) (day d + 1)
  else if month d <? 12 then mkdate (year d) (month d + 1) 1
  else mkdate (year d + 1) 1 1.

(** [date.toordinal()]: days since 0001-01-01, counted from 1 *)
Definition days_before_year (y : Z) : Z :=
  let p := y - 1 in 365 * p + p / 4 - p / 100 + p / 400.

(** days of the months 1 .. n of year [y] *)
Fixpoint days_of_months (y : Z) (n : nat) : Z :=
  match n with
  | O => 0
  | S n' => days_of_months y n' + days_in_month y (Z.of_nat n)
  end.

Definition toordinal (d : date) : Z :=
  days_before_year (year d) + days_of_months (year d) (Z.to_nat (month d - 1)) + day d.

(** ** [datetime.strptime(s, "%Y-%m-%d")]

    The format compiles to the regular expression
    [(\d\d\d\d)-(1[0-2]|0[1-9]|[1-9])-(3[01]|[12]\d|0[1-9]|[1-9]| [1-9])];
    the whole string has to be consumed and the fields have to name a day
    of the calendar. Every failure is a [ValueError]. *)

Definition in_range (lo hi : Z) (c : ascii) : bool :=
  let n := Z.of_nat (nat_of_ascii c) in (lo <=? n) && (n <=? hi).

Definition parse_year (cs : list ascii) : option (Z * list ascii) :=
  match cs with
  | a :: b :: c :: d :: rest =>
      if is_digit a && is_digit b && is_digit c && is_digit d
      then Some (1000 * digit_val a + 100 * digit_val b + 10 * digit_val c + digit_val d, rest)
      else None
  | _ => None
  end.

Definition parse_month (cs : list ascii) : option (Z * list ascii) :=
  match cs with
  | "1"%char :: c :: rest =>
      if in_range 48 50 c then Some (10 + digit_val c, rest) else Some (1, c :: rest)
  | "0"%char :: c :: rest =>
      if in_range 49 57 c then Some (digit_val c, rest) else None
  | c :: rest => if in_range 49 57 c then Some (digit_val c, rest) else None
  | [] => None
  end.

Definition parse_day (cs : list ascii) : option (Z * list ascii) :=
  match cs with
  | "3"%char :: c :: rest =>
      if in_range 48 49 c then Some (30 + digit_val c, rest) else Some (3, c :: rest)
  | "0"%char :: c :: rest =>
      if in_range 49 57 c then Some (digit_val c, rest) else None
  | " "%char :: c :: rest =>
      if in_range 49 57 c then Some (digit_val c, rest) else None
  | c :: d :: rest =>
      if in_range 49 50 c && is_digit d then Some (10 * digit_val c + digit_val d, rest)
      else if in_range 49 57 c then Some (digit_val c, d :: rest) else None
  | [c] => if in_range 49 57 c then Some (digit_val c, []) else None
  | [] => None
  end.

Definition expect_dash (cs : list ascii) : option (list ascii) :=
  match cs with
  | "-"%char :: rest => Some rest
  | _ => None
  end.

Definition strptime (s : string) : result date :=
  match parse_year (chars s) with
  | Some (y, r1) =>
      match expect_dash r1 with
      | Some r2 =>
          match parse_month r2 with
          | Some (m, r3) =>
              match expect_dash r3 with
              | Some r4 =>
                  match parse_day r4 with
                  | Some (d, []) => mk_date y m d
                  | _ => Raise ValueError
                  end
              | None => Raise ValueError
              end
          | None => Raise ValueError
          end
      | None => Raise ValueError
      end
  | None => Raise ValueError
  end.

(** ** [date.strftime("%Y-%m-%d")] *)

Definition digit_char (n : Z) : ascii := ascii_of_nat (Z.to_nat (48 + n mod 10)).

Definition pad2 (n : Z) : string :=
  str [digit_char (n / 10); digit_char n].

Definition pad4 (n : Z) : string :=
  str [digit_char (n / 1000); digit_char (n / 100); digit_char (n / 10); digit_char n].

Definition strftime (d : date) : string :=
  pad4 (year d) +:+ "-" +:+ pad2 (month d) +:+ "-" +:+ pad2 (day d).

(** ** [pd.date_range(start, end, freq='d')]

    The days from [start] to [end], both included; empty when [end] is
    before [start]. pandas 1.x timestamps count nanoseconds in an [int64],
    so days outside 1677-09-22 .. 2262-04-11 raise [OutOfBoundsDatetime],
    a [ValueError]. *)

Definition timestamp_min : date := mkdate 1677 9 22.
Definition timestamp_max : date := mkdate 2262 4 11.

Definition in_timestamp_bounds (d : date) : bool :=
  date_le timestamp_min d && date_le d timestamp_max.

Fixpoint days_from (d : date) (n : nat) : list date :=
  match n with
  | O => []
  | S n' => d :: days_from (next_day d) n'
  end.

Definition date_range (start_ end_ : date) : result (list date) :=
  if in_timestamp_bounds start_ && in_timestamp_bounds end_
  then Ok (days_from start_ (Z.to_nat (toordinal end_ - toordinal start_ + 1)))
  else Raise ValueError.

End Py.

Import Py.

(* ===================================================================== *)
(** * researchtools/__init__.py: enums                                    *)
(* ===================================================================== *)

Definition INTERVALS : list string :=
  ["1m"; "5m"; "15m"; "30m"; "1h"; "2h"; "4h"; "6h"; "8h"; "12h"; "1d"; "3d"; "1w"; "1mo"].

Definition DAILY_INTERVALS : list string :=
  ["1m"; "5m"; "15m"; "30m"; "1h"; "2h"; "4h"; "6h"; "8h"; "12h"; "1d"].

Definition BASE_URL : string := "https://data.binance.vision/".

(** [START_DATE = date(int(YEARS[0]), MONTHS[0], 1)] with [YEARS[0] = '2017'] *)
Definition START_DATE : date := mkdate 2017 1 1.

(* ===================================================================== *)
(** * researchtools/__init__.py: utility                                  *)
(* ===================================================================== *)

Definition get_download_url (file_url : string) : string :=
  BASE_URL +:+ file_url.

Definition convert_to_date_object (d : string) : result date :=
  let fix ints (parts : list string) : result (list Z) :=
    match parts with
    | [] => Ok []
    | p :: ps =>
        bind_result (int p) (fun n => bind_result (ints ps) (fun ns => Ok (n :: ns)))
    end in
  bind_result (ints (split "-" d)) (fun ns =>
    match ns with
    | [year; month; day] => mk_date year month day
    | _ => Raise ValueError
    end).

Definition get_path (trading_type market_data_type time_period symbol : string)
    (interval : option string) : string :=
  let trading_type_path :=
    if String.eqb trading_type "spot" then "data/spot"
    else "data/futures/" +:+ trading_type in
  match interval with
  | Some interval =>
      trading_type_path +:+ "/" +:+ time_period +:+ "/" +:+ market_data_type
        +:+ "/" +:+ upper symbol +:+ "/" +:+ interval +:+ "/"
  | None =>
      trading_type_path +:+ "/" +:+ time_period +:+ "/" +:+ market_data_type
        +:+ "/" +:+ upper symbol +:+ "/"
  end.

(* ===================================================================== *)
(** * The world of the downloader                                         *)
(* ===================================================================== *)

(** What the archive answers to [urllib.request.urlopen(url)]. *)
Inductive response :=
| RespHTTPError
    (* [urlopen] raises [HTTPError], e.g. 404 *)
| RespURLError
    (* [urlopen] raises a [URLError] that is not an [HTTPError] *)
| Resp (content_length : option string) (body : list Byte.byte) (broken : bool).
    (* a stream: the [content-length] header, the bytes of the body that
       arrive (no more than the header announces, when the answer follows
       the protocol), and whether the connection breaks
       ([ConnectionError]) after them instead of ending *)

(** What the program cannot change: the environment variable, the directory
    of the module, the working directory, today's date, and the archive. *)
Record env := mkenv {
  STORE_DIRECTORY : option string;
  module_dir : string;
  cwd : string;
  today : date;
  remote : string -> response
}.

(** What it can change. Paths are identified by their text, up to trailing
    slashes. [dirs] holds the directories that exist, [files] the files
    with their contents. Permissions and files that stand where a directory
    is expected are not tracked, so [mkdir] always succeeds; [open(p,
    'wb')] fails when [p] names a directory and when the directory of [p]
    does not exist. [calls] is the trace of the calls to [download_file];
    [requests] the URLs opened. *)
Record world := mkworld {
  files : gmap string (list Byte.byte);
  dirs : gset string;
  requests : list string;
  calls : list (string * string);
  stdout : list string
}.

Definition M (A : Type) : Type := world -> result A * world.

Definition ret {A} (a : A) : M A := fun w => (Ok a, w).

Definition bind {A B} (m : M A) (k : A -> M B) : M B :=
  fun w => match m w with
           | (Ok a, w') => k a w'
           | (Raise e, w') => (Raise e, w')
           end.

Definition lift {A} (r : result A) : M A := fun w => (r, w).

(** [try: body  except exc: handler] *)
Definition try_except {A} (body : M A) (exc : exn) (handler : M A) : M A :=
  fun w => match body w with
           | (Raise e, w') => if decide (e = exc) then handler w' else (Raise e, w')
           | r => r
           end.

#[global] Instance M_ret : MRet M := @ret.
#[global] Instance M_bind : MBind M := fun A B k m => bind m k.

(** [for x in xs: body x] *)
Fixpoint for_each {A} (xs : list A) (body : A -> M unit) : M unit :=
  match xs with
  | [] => ret tt
  | x :: xs' => body x ;; for_each xs' body
  end.

(** [sys.stdout.write(text)] *)
Definition stdout_write (text : string) : M unit :=
  fun w => (Ok tt, mkworld (files w) (dirs w) (requests w) (calls w) (stdout w ++ [text])).

Definition nl : string := String (ascii_of_nat 10) "".
Definition cr : string := String (ascii_of_nat 13) "".

(** [print(text)] *)
Definition print (text : string) : M unit := stdout_write (text +:+ nl).

(** read the world without changing it *)
Definition gets {A} (f : world -> A) : M A := fun w => (Ok (f w), w).

Definition log_call (base_path file_name : string) : M unit :=
  fun w => (Ok tt, mkworld (files w) (dirs w) (requests w)
                     (calls w ++ [(base_path, file_name)]) (stdout w)).

(** ** The file system *)

Fixpoint rstrip_slashes_rev (cs : list ascii) : list ascii :=
  match cs with
  | "/"%char :: cs' => rstrip_slashes_rev cs'
  | _ => cs
  end.

(** a path without its trailing slashes; the root stays ["/"] *)
Definition norm_path (p : string) : string :=
  match rstrip_slashes_rev (rev (chars p)) with
  | [] => if truthy p then "/" else ""
  | cs => str (rev cs)
  end.

Definition is_dir (w : world) (p : string) : bool :=
  bool_decide (norm_path p ∈ dirs w).

Definition is_file (w : world) (p : string) : bool :=
  negb (ends_with_slash p) && bool_decide (is_Some (files w !! p)).

(** [os.path.exists(p)] *)
Definition os_path_exists (w : world) (p : string) : bool :=
  is_file w p || is_dir w p.

(** the path without its last component, read from the end *)
Fixpoint drop_component_rev (cs : list ascii) : list ascii :=
  match cs with
  | [] => []
  | "/"%char :: _ => cs
  | _ :: cs' => drop_component_rev cs'
  end.

(** [os.path.dirname(p)]: what stands before the last component, without
    its trailing slashes unless it holds slashes only *)
Definition dirname (p : string) : string :=
  let head := drop_component_rev (rev (chars p)) in
  match rstrip_slashes_rev head with
  | [] => str (rev head)
  | cs => str (rev cs)
  end.

(** the directories above [p]: every part of the path that ends before a
    slash, the root and the empty path left out *)
Fixpoint parents_from (pre : list ascii) (cs : list ascii) : list string :=
  match cs with
  | [] => []
  | c :: cs' =>
      (if Ascii.eqb c "/" && truthy (norm_path (str (rev pre)))
          && negb (String.eqb (norm_path (str (rev pre))) "/")
       then [norm_path (str (rev pre))] else [])
        ++ parents_from (c :: pre) cs'
  end.

Definition parents (p : string) : list string := parents_from [] (chars (norm_path p)).

(** the directory [p] and the directories above it *)
Definition made_dirs (p : string) : gset string := list_to_set (norm_path p :: parents p).
Arguments made_dirs : simpl never.

(** [Path(p).mkdir(parents=True, exist_ok=True)]: the directory and every
    directory above it that is missing *)
Definition mkdir (p : string) : M unit :=
  fun w => (Ok tt, mkworld (files w) (made_dirs p ∪ dirs w) (requests w) (calls w) (stdout w)).

(** the directory [d] of a path exists: the working directory (the empty
    path), the root, or a directory of the world *)
Definition dir_exists (w : world) (d : string) : bool :=
  negb (truthy d) || String.eqb (norm_path d) "/" || is_dir w d.

(** what [open(p, 'wb')] raises, if it does: [IsADirectoryError] when [p]
    names a directory, [FileNotFoundError] when the directory of [p] does
    not exist *)
Definition open_error (w : world) (p : string) : option exn :=
  if is_dir w p then Some IsADirectoryError
  else if negb (dir_exists w (dirname (norm_path p))) then Some FileNotFoundError
  else if ends_with_slash p then Some IsADirectoryError
  else None.

(** [open(p, 'wb')]: the file is created or truncated *)
Definition open_wb (p : string) : M unit :=
  fun w =>
    match open_error w p with
    | Some ex => (Raise ex, w)
    | None =>
        (Ok tt, mkworld (<[p := []]> (files w)) (dirs w) (requests w) (calls w) (stdout w))
    end.

(** [out_file.write(buf)] on the file opened at [p] *)
Definition write (p : string) (buf : list Byte.byte) : M unit :=
  fun w => (Ok tt, mkworld (<[p := (default [] (files w !! p) ++ buf)%list]> (files w))
                     (dirs w) (requests w) (calls w) (stdout w)).

(** [urllib.request.urlopen(url)] *)
Definition urlopen (e : env) (url : string) : M (option string * list Byte.byte * bool) :=
  fun w =>
    let w' := mkworld (files w) (dirs w) (requests w ++ [url]) (calls w) (stdout w) in
    match remote e url with
    | RespHTTPError => (Raise HTTPError, w')
    | RespURLError => (Raise URLError, w')
    | Resp len body broken => (Ok (len, body, broken), w')
    end.

(* ===================================================================== *)
(** * researchtools/__init__.py: get_destination_dir, download_file       *)
(* ===================================================================== *)

Definition get_destination_dir (e : env) (file_url : string) (folder : option string) : string :=
  let store_directory := STORE_DIRECTORY e in
  let store_directory := if truthy_opt folder then folder else store_directory in
  let store_directory :=
    if negb (truthy_opt store_directory) then Some (module_dir e) else store_directory in
  os_path_join (default "" store_directory) file_url.

(** [dl_file.read(n)]: the next [n] bytes of the stream and what is left of
    it; everything when [n] is negative. *)
Definition stream_read (n : Z) (body : list Byte.byte) : list Byte.byte * list Byte.byte :=
  if n <? 0 then (body, []) else (take (Z.to_nat n) body, drop (Z.to_nat n) body).

(** [dl_file.read(n)] raises: a read waits for [n] bytes or the end of the
    stream, so on a connection that breaks the read that reaches the break
    raises, and the bytes it had received are lost with it *)
Definition read_breaks (n : Z) (body : list Byte.byte) (broken : bool) : bool :=
  broken && ((n <? 0) || (Z.of_nat (List.length body) <? n)).

(** a value together with the equation that names it *)
Definition inspect {A : Type} (x : A) : {y : A | x = y} := exist _ x eq_refl.

(** The [while True] loop of [download_file]. [sized] holds the variables
    [length] and [blocksize], which are assigned together, or [None] when the
    header was missing or empty and [blocksize] was never assigned. The
    progress bar is [int(50 * dl_progress / length)] characters long. *)
Equations? read_loop (save_path : string) (sized : option (Z * Z))
    (broken : bool) (body : list Byte.byte) (dl_progress : Z) (w : world)
    : result unit * world by wf (List.length body) lt :=
  read_loop save_path None broken body dl_progress w := (Raise UnboundLocalError, w);
  read_loop save_path (Some (len, blocksize)) broken body dl_progress w
    with inspect (stream_read blocksize body) := {
    | exist _ ([], _) _ =>
        (* [if not buf: break], unless the read raises *)
        if read_breaks blocksize body broken then (Raise ConnectionError, w) else (Ok tt, w)
    | exist _ (b :: buf', rest) Hbuf =>
        if read_breaks blocksize body broken then (Raise ConnectionError, w)
        else
          let buf := b :: buf' in
          let dl_progress := dl_progress + Z.of_nat (List.length buf) in
          match write save_path buf w with
          | (Raise e, w1) => (Raise e, w1)
          | (Ok _, w1) =>
              if len =? 0 then (Raise ZeroDivisionError, w1)
              else
                let done := Z.quot (50 * dl_progress) len in
                match stdout_write (cr +:+ "[" +:+ str_repeat "#" done
                                     +:+ str_repeat "." (50 - done) +:+ "]") w1 with
                | (Raise e, w2) => (Raise e, w2)
                | (Ok _, w2) =>
                    read_loop save_path (Some (len, blocksize)) broken rest dl_progress w2
                end
          end
    }.
Proof.
  unfold stream_read in Hbuf.
  destruct (blocksize <? 0).
  - injection Hbuf as H1 H2. subst. simpl. lia.
  - injection Hbuf as H1 H2. subst rest.
    destruct (Z.to_nat blocksize) as [|k]; [discriminate|].
    destruct body as [|b0 body]; [discriminate|].
    rewrite length_drop. simpl. lia.
Defined.

(** the body of the [try] block of [download_file] *)
Definition fetch (e : env) (download_url save_path : string) : M unit :=
  dl_file ← urlopen e download_url;
  let '(length, body, broken) := dl_file in
  sized ← lift (if truthy_opt length
                then bind_result (int (default "" length)) (fun length =>
                     let blocksize := Z.max 4096 (length / 100) in
                     Ok (Some (length, blocksize)))
                else Ok None);
  open_wb save_path ;;
  print (nl +:+ "File Download: " +:+ save_path) ;;
  read_loop save_path sized broken body 0.

(** the [try] statement of [download_file]: only [HTTPError] is caught *)
Definition attempt (e : env) (download_url save_path : string) : M unit :=
  try_except (fetch e download_url save_path)
    HTTPError
    (print (nl +:+ "File not found: " +:+ download_url)).

Definition download_file (e : env) (base_path file_name : string)
    (date_range : option string) (folder : option string) : M unit :=
  log_call base_path file_name ;;
  let download_path := base_path +:+ file_name in
  let base_path :=
    if truthy_opt folder then os_path_join (default "" folder) base_path else base_path in
  let save_path := get_destination_dir e (os_path_join base_path file_name) folder in
  present ← gets (fun w => os_path_exists w save_path);
  if present : bool then
    print (nl +:+ "file already exists! " +:+ save_path)
  else
    (* make the directory *)
    base_present ← gets (fun w => os_path_exists w base_path);
    (if base_present : bool then ret tt else mkdir (get_destination_dir e base_path None)) ;;
    let download_url := get_download_url download_path in
    attempt e download_url save_path.

(** the local path [download_file] computes for a file: its [save_path] *)
Definition save_path_of (e : env) (base_path file_name : string) (folder : option string)
    : string :=
  let base_path :=
    if truthy_opt folder then os_path_join (default "" folder) base_path else base_path in
  get_destination_dir e (os_path_join base_path file_name) folder.

(* ===================================================================== *)
(** * researchtools/__init__.py: download_daily_klines                    *)
(* ===================================================================== *)

(** [for x in xs: body x current; current += 1] *)
Fixpoint for_each_counting {A} (xs : list A) (current : Z) (body : A -> Z -> M unit) : M unit :=
  match xs with
  | [] => ret tt
  | x :: xs' => body x current ;; for_each_counting xs' (current + 1) body
  end.

(** [list(set(intervals) & set(DAILY_INTERVALS))]; the order in which a
    Python set is listed is not specified, here it is that of [elements]. *)
Definition valid_daily_intervals (intervals : list string) : list string :=
  elements ((list_to_set intervals : gset string) ∩ list_to_set DAILY_INTERVALS).

Definition download_daily_klines (e : env) (trading_type : string) (symbols : list string)
    (num_symbols : Z) (intervals : list string) (dates : list string)
    (start_date end_date : option string) (folder : option string) (checksum : Z) : M unit :=
  let date_range :=
    if truthy_opt start_date && truthy_opt end_date
    then Some (default "" start_date +:+ " " +:+ default "" end_date) else None in
  start_date ← lift (if negb (truthy_opt start_date) then Ok START_DATE
                      else convert_to_date_object (default "" start_date));
  end_date ← lift (if negb (truthy_opt end_date) then Ok (today e)
                    else convert_to_date_object (default "" end_date));
  (* Get valid intervals for daily *)
  let intervals := valid_daily_intervals intervals in
  print ("Found " +:+ pretty num_symbols +:+ " symbols") ;;
  for_each_counting symbols 0 (fun symbol current =>
    print ("[" +:+ pretty (current + 1) +:+ "/" +:+ pretty num_symbols
             +:+ "] - start download daily " +:+ symbol +:+ " klines ") ;;
    for_each intervals (fun interval =>
      for_each dates (fun date =>
        current_date ← lift (convert_to_date_object date);
        if date_le start_date current_date && date_le current_date end_date then
          let path := get_path trading_type "klines" "daily" symbol (Some interval) in
          let file_name := upper symbol +:+ "-" +:+ interval +:+ "-" +:+ date +:+ ".zip" in
          download_file e path file_name date_range folder ;;
          if checksum =? 1 then
            let checksum_path := get_path trading_type "klines" "daily" symbol (Some interval) in
            let checksum_file_name :=
              upper symbol +:+ "-" +:+ interval +:+ "-" +:+ date +:+ ".zip.CHECKSUM" in
            download_file e checksum_path checksum_file_name date_range folder
          else ret tt
        else ret tt))).

(* ===================================================================== *)
(** * pandas and dict values used by src/historical_data.py               *)
(* ===================================================================== *)

(** A Python [dict] with [str] keys: insertion-ordered, one entry per key. *)
Definition pydict (V : Type) : Type := list (string * V).

Definition dict_keys {V} (d : pydict V) : list string := map fst d.

(** [d[k]] *)
Fixpoint dict_get {V} (d : pydict V) (k : string) : result V :=
  match d with
  | [] => Raise KeyError
  | (k', v) :: d' => if String.eqb k' k then Ok v else dict_get d' k
  end.

(** [d[k] = v]: an existing key keeps its place *)
Fixpoint dict_set {V} (d : pydict V) (k : string) (v : V) : pydict V :=
  match d with
  | [] => [(k, v)]
  | (k', v') :: d' => if String.eqb k' k then (k', v) :: d' else (k', v') :: dict_set d' k v
  end.

(** [for x in xs: state = body x state], with exceptions *)
Fixpoint for_fold {A S} (xs : list A) (s : S) (body : A -> S -> result S) : result S :=
  match xs with
  | [] => Ok s
  | x :: xs' => bind_result (body x s) (fun s' => for_fold xs' s' body)
  end.

(** A pandas [DataFrame] with rows of type [R]: the rows in order, each with
    its index label. [None] stands for [pd.DataFrame()], which has no
    columns at all. *)
Definition frame (R : Type) : Type := list (Z * R).

(** the [RangeIndex] 0, 1, 2, ... that [read_csv] and [ignore_index] give *)
Definition range_index {R} (rows : list R) : frame R :=
  combine (map Z.of_nat (seq 0 (List.length rows))) rows.

Definition rows_of {R} (f : frame R) : list R := map snd f.
Definition index_of {R} (f : frame R) : list Z := map fst f.

(** [df.append(part)] *)
Definition append {R} (df : option (frame R)) (part : frame R) : option (frame R) :=
  match df with
  | None => Some part
  | Some f => Some (f ++ part)%list
  end.

(** [df.append(part, ignore_index=True)] *)
Definition append_ignore_index {R} (df : option (frame R)) (part : frame R) : option (frame R) :=
  match df with
  | None => Some (range_index (rows_of part))
  | Some f => Some (range_index (rows_of f ++ rows_of part)%list)
  end.

Fixpoint insert_by {R} (key : R -> Z) (x : Z * R) (l : frame R) : frame R :=
  match l with
  | [] => [x]
  | y :: l' => if key (snd x) <=? key (snd y) then x :: l else y :: insert_by key x l'
  end.

(** [df.sort_values(by=column)] on an integer column. Rows keep their labels.
    pandas does not specify the order of rows with equal keys; here they
    keep their relative order. A frame without columns has no such column. *)
Definition sort_values {R} (df : option (frame R)) (key : R -> Z) : result (frame R) :=
  match df with
  | None => Raise KeyError
  | Some f => Ok (fold_right (insert_by key) [] f)
  end.

(** [int64] arithmetic wraps around *)
Definition wrap64 (z : Z) : Z := (z + 2 ^ 63) mod 2 ^ 64 - 2 ^ 63.

(** the ['sum'] and ['mean'] aggregations *)
Definition Qsum (xs : list Q) : Q := fold_left Qplus xs (0 # 1)%Q.

Definition Qmean (xs : list Q) : Q :=
  (Qsum xs / inject_Z (Z.of_nat (List.length xs)))%Q.

(** ** Rows *)

(** a row of a kline file, with the two columns the assembler adds *)
Record kline := mkkline {
  k_open_time : Z;
  k_open : Q;
  k_high : Q;
  k_low : Q;
  k_close : Q;
  k_volume : Q;
  k_close_time : Z;
  k_quote_asset_volume : Q;
  k_number_of_trades : Z;
  k_taker_buy_asset_volume : Q;
  k_taker_buy_quote_asset_volume : Q;
  k_ignore : Q;
  k_symbol : string;
  k_interval : option string
}.

(** a row of a trade file *)
Record trade := mktrade {
  t_tradeID : Z;
  t_price : Q;
  t_qty : Q;
  t_quoteQty : Q;
  t_time : Z;
  t_isBuyerMaker : bool;
  t_isBestMatch : bool
}.

(** a row of collated trade data *)
Record bucket := mkbucket {
  b_time : Z;
  b_price : Q;
  b_qty : Q;
  b_quoteQty : Q;
  b_symbol : string
}.

(** What [pd.read_csv(path, compression='zip', ...)] finds on disk: the rows
    of the archive at [path], or nothing. The [symbol] and [interval] fields
    of the stored kline rows are overwritten by the assembler. *)
Record disk := mkdisk {
  kline_files : string -> option (list kline);
  trade_files : string -> option (list trade)
}.

(* ===================================================================== *)
(** * src/historical_data.py                                              *)
(* ===================================================================== *)

Definition read_csv_trades (dk : disk) (filename : string) (nrows : option Z)
    : result (frame trade) :=
  match trade_files dk filename with
  | None => Raise FileNotFoundError
  | Some rows =>
      match nrows with
      | None => Ok (range_index rows)
      | Some n => if n <? 0 then Raise ValueError else Ok (range_index (take (Z.to_nat n) rows))
      end
  end.

Definition read_csv_klines (dk : disk) (filepath : string) : result (frame kline) :=
  match kline_files dk filepath with
  | None => Raise FileNotFoundError
  | Some rows => Ok (range_index rows)
  end.

(** [df["time"].floordiv(10000) * 10000] on one value of the [int64] column *)
Definition floor_time (t : Z) : Z := wrap64 (wrap64 (t / 10000) * 10000).

Definition set_time (r : trade) (t : Z) : trade :=
  mktrade (t_tradeID r) (t_price r) (t_qty r) (t_quoteQty r) t (t_isBuyerMaker r) (t_isBestMatch r).

Fixpoint insert_key (k : Z) (ks : list Z) : list Z :=
  match ks with
  | [] => [k]
  | k' :: ks' =>
      if k <? k' then k :: ks
      else if k =? k' then ks
      else k' :: insert_key k ks'
  end.

(** the group keys of [groupby]: the distinct values, ascending *)
Definition group_keys (ts : list Z) : list Z := fold_right insert_key [] ts.

(** [df.groupby("time", as_index=False).agg({'price': 'mean', 'qty': 'sum',
    'quoteQty': 'sum'})], followed by [df["symbol"] = symbol] *)
Definition groupby_time_agg (symbol : string) (rows : list trade) : list bucket :=
  map (fun k =>
         let group := List.filter (fun r => t_time r =? k) rows in
         mkbucket k (Qmean (map t_price group)) (Qsum (map t_qty group))
                  (Qsum (map t_quoteQty group)) symbol)
      (group_keys (map t_time rows)).

Definition trade_data_collation (dk : disk) (filename symbol : string)
    (limit_rows : bool) (nrows : Z) : result (frame bucket) :=
  bind_result
    (if limit_rows then read_csv_trades dk filename (Some nrows)
     else read_csv_trades dk filename None)
    (fun df =>
       (* Floors time to 10 seconds and then converts back to milliseconds *)
       let df := map (fun r => set_time r (floor_time (t_time r))) (rows_of df) in
       (* Grouping data and suming and averaging necessary columns *)
       Ok (range_index (groupby_time_agg symbol df))).

Definition file_format (a b c d e f : string) : string :=
  a +:+ "/test_data/binance/data/spot/daily/" +:+ b +:+ "/" +:+ c +:+ "/"
    +:+ d +:+ "-" +:+ e +:+ "-" +:+ f +:+ ".zip".

(** the local variables of [downloaded_filepaths] that outlive an iteration:
    [filepath] is [None] until it is assigned for the first time *)
Record locals := mklocals {
  filepath : option string;
  filepaths : pydict (string * option string)
}.

(** the body of the loop [for symbol in symbol_data_required.keys()] *)
Definition symbol_step (cwd : string) (type_ : string) (date_range : list date)
    (symbol_data_required : pydict (list string)) (symbol : string) (st : locals)
    : result locals :=
  bind_result (dict_get symbol_data_required symbol) (fun intervals =>
  if (0 <? Z.of_nat (List.length intervals)) then
    for_fold intervals st (fun interval st =>
      for_fold date_range st (fun date st =>
        let date_format := strftime date in
        bind_result
          (if String.eqb type_ "klines" then
             Ok (file_format cwd type_ (symbol +:+ "/" +:+ interval) symbol interval date_format)
           else if String.eqb type_ "trades" then
             Ok (file_format cwd type_ symbol symbol type_ date_format)
           else Raise ValueError)
          (fun filepath =>
             Ok (mklocals (Some filepath)
                   (dict_set (filepaths st) filepath (symbol, Some interval))))))
  else
    for_fold date_range st (fun date st =>
      let date_format := strftime date in
      let filepath' :=
        if String.eqb type_ "trades"
        then Some (file_format cwd type_ symbol symbol type_ date_format)
        else filepath st in
      match filepath' with
      | None => Raise UnboundLocalError
      | Some p => Ok (mklocals (Some p) (dict_set (filepaths st) p (symbol, None)))
      end)).

Definition downloaded_filepaths (cwd : string) (type_ start_date end_date : string)
    (symbol_data_required : pydict (list string))
    : result (pydict (string * option string)) :=
  (* Getting list of relevant dates *)
  bind_result (strptime start_date) (fun start_date =>
  bind_result (strptime end_date) (fun end_date =>
  bind_result (date_range start_date end_date) (fun date_range =>
  (* Iterating over required files and adding to dictionary *)
  bind_result
    (for_fold (dict_keys symbol_data_required) (mklocals None [])
       (symbol_step cwd type_ date_range symbol_data_required))
    (fun st => Ok (filepaths st))))).

Definition set_symbol_interval (symbol : string) (interval : option string) (r : kline) : kline :=
  mkkline (k_open_time r) (k_open r) (k_high r) (k_low r) (k_close r) (k_volume r)
          (k_close_time r) (k_quote_asset_volume r) (k_number_of_trades r)
          (k_taker_buy_asset_volume r) (k_taker_buy_quote_asset_volume r) (k_ignore r)
          symbol interval.

Definition get_binance_kline_data (cwd : string) (dk : disk) (start_date end_date : string)
    (symbol_data_required : pydict (list string)) : result (frame kline) :=
  (* Iterating over downloaded files *)
  bind_result (downloaded_filepaths cwd "klines" start_date end_date symbol_data_required)
    (fun filepaths =>
  bind_result
    (for_fold (dict_keys filepaths) None (fun filepath kline_data =>
       bind_result (read_csv_klines dk filepath) (fun part_df =>
       bind_result (dict_get filepaths filepath) (fun v =>
       let part_df := map (fun lr => (fst lr, set_symbol_interval (fst v) (snd v) (snd lr))) part_df in
       Ok (append kline_data part_df)))))
    (fun kline_data => sort_values kline_data k_close_time)).

Definition get_binance_trade_data (cwd : string) (dk : disk) (start_date end_date : string)
    (symbols : list string) : result (frame bucket) :=
  (* Changing symbols list to dictionary *)
  let symbols_dict := fold_left (fun d symbol => dict_set d symbol []) symbols [] in
  (* Get filepaths dictionary *)
  bind_result (downloaded_filepaths cwd "trades" start_date end_date symbols_dict)
    (fun filepaths =>
  bind_result
    (for_fold (dict_keys filepaths) None (fun filepath trade_data =>
       bind_result (dict_get filepaths filepath) (fun v =>
       bind_result (trade_data_collation dk filepath (fst v) false 50000) (fun part_data =>
       Ok (append_ignore_index trade_data part_data)))))
    (fun trade_data => sort_values trade_data b_time)).

(* ===================================================================== *)
(** * src/coint.py and the packaged copy in researchtools/__init__.py     *)
(* ===================================================================== *)

(** a pandas [Series] of floats: index labels and values, row by row *)
Record series := mkseries {
  s_index : list Z;
  s_values : list Q
}.

(** the [coint] frame: its index, the ['time'] column once it is set, and the
    float columns by name *)
Record cframe := mkcframe {
  c_index : list Z;
  c_time : option (list Z);
  c_cols : pydict (list Q)
}.

(** the fields of statsmodels' [JohansenTestResult] that the accessor reads *)
Record JohansenTestResult := mkjohansen {
  lr1 : list Q;
  lr2 : list Q;
  cvt : list (list Q);
  cvm : list (list Q);
  evec : list (list Q)
}.

Record CointResult := mkCointResult {
  test_result : JohansenTestResult;
  symbols : list string;
  interval : string;
  start_date : string;
  end_date : string
}.

(** a [go.Scatter] trace appended to a figure at a subplot row *)
Record trace := mktrace {
  tr_name : string;
  tr_x : list Z;
  tr_y : list Q;
  tr_row : Z
}.

(** [a[i]] on a numpy array or list: negative indexes count from the end *)
Definition np_get {A} (a : list A) (i : Z) : result A :=
  let n := Z.of_nat (List.length a) in
  let j := if i <? 0 then i + n else i in
  if (0 <=? j) && (j <? n) then
    match nth_error a (Z.to_nat j) with
    | Some x => Ok x
    | None => Raise IndexError
    end
  else Raise IndexError.

(** [data['close']] and [data['close time']] *)
Definition close_series (data : frame kline) : series :=
  mkseries (index_of data) (map k_close (rows_of data)).

(** [s * c] for a float [c] *)
Definition series_scale (s : series) (c : Q) : series :=
  mkseries (s_index s) (map (fun x => (x * c)%Q) (s_values s)).

Definition index_eqb (a b : list Z) : bool := bool_decide (a = b).

(** pandas aligns two series on their labels before it adds them, and a
    series on the frame's index before it stores it. When the indexes are
    equal this is the identity and the operation is row by row, which is what
    is written out below; what pandas does when they differ is left open, as
    the two functions of an [alignment]. *)
Record alignment := mkalignment {
  align_add : series -> series -> series;
  setitem_unaligned : cframe -> string -> series -> result cframe
}.

(** [a + b] *)
Definition series_add (pd : alignment) (a b : series) : series :=
  if index_eqb (s_index a) (s_index b)
  then mkseries (s_index a) (zip_with Qplus (s_values a) (s_values b))
  else align_add pd a b.

(** [coint[name] = s] *)
Definition setitem (pd : alignment) (coint : cframe) (name : string) (s : series)
    : result cframe :=
  match c_time coint, c_cols coint with
  | None, [] =>
      (* no column yet: the frame takes the index of the series *)
      Ok (mkcframe (s_index s) None (dict_set [] name (s_values s)))
  | _, _ =>
      if index_eqb (s_index s) (c_index coint)
      then Ok (mkcframe (c_index coint) (c_time coint) (dict_set (c_cols coint) name (s_values s)))
      else setitem_unaligned pd coint name s
  end.

(** [coint['time'] = data['close time']], only ever run on the frame without
    columns *)
Definition setitem_time (coint : cframe) (data : frame kline) : cframe :=
  mkcframe (index_of data) (Some (map k_close_time (rows_of data))) (c_cols coint).

(** [coint[name]] *)
Definition getitem (coint : cframe) (name : string) : result series :=
  bind_result (dict_get (c_cols coint) name) (fun vs => Ok (mkseries (c_index coint) vs)).

Definition getitem_time (coint : cframe) : result (list Z) :=
  match c_time coint with
  | Some ts => Ok ts
  | None => Raise KeyError
  end.

(** [name in coint.columns] *)
Definition has_column (coint : cframe) (name : string) : bool :=
  existsb (String.eqb name) (dict_keys (c_cols coint)).

Definition price_ (i : nat) : string := "price_" +:+ pretty i.

Definition range (n : nat) : list nat := seq 0 n.

(** what the methods run in: the working directory, the disk, and pandas *)
Record context := mkcontext {
  ctx_cwd : string;
  ctx_disk : disk;
  ctx_pd : alignment
}.

Definition kline_data_of (cx : context) (self : CointResult) (symbol : string)
    : result (frame kline) :=
  get_binance_kline_data (ctx_cwd cx) (ctx_disk cx) (start_date self) (end_date self)
    [(symbol, [interval self])].

(** [self.test_result.evec[i][count]] *)
Definition evec_at (self : CointResult) (i count : Z) : result Q :=
  bind_result (np_get (evec (test_result self)) i) (fun row => np_get row count).

(** the body of the loop of the branch [if not include_all_evecs]; the state
    is the frame [coint] and the counter [count] *)
Definition coint_one_step (cx : context) (self : CointResult) (evec : Z)
    (symbol : string) (st : cframe * Z) : result (cframe * Z) :=
  let '(coint, count) := st in
  (* Get kline data *)
  bind_result (kline_data_of cx self symbol) (fun data =>
  if negb (has_column coint "price") then
    (* Initialize coint *)
    let coint := setitem_time coint data in
    bind_result (evec_at self evec count) (fun c =>
    bind_result (setitem (ctx_pd cx) coint "price" (series_scale (close_series data) c))
      (fun coint => Ok (coint, count + 1)))
  else
    (* Add price to coint and increment counter *)
    bind_result (getitem coint "price") (fun price =>
    bind_result (evec_at self evec count) (fun c =>
    bind_result (setitem (ctx_pd cx) coint "price"
                   (series_add (ctx_pd cx) price (series_scale (close_series data) c)))
      (fun coint => Ok (coint, count + 1))))).

Definition calc_coint_one (cx : context) (self : CointResult) (evec : Z)
    : result (cframe * Z) :=
  for_fold (symbols self) (mkcframe [] None [], 0) (coint_one_step cx self evec).

(** [for i in range(len(self.symbols)): coint['price_i'] = column i] *)
Definition set_price_columns (cx : context) (self : CointResult) (coint : cframe)
    (column : cframe -> nat -> result series) : result cframe :=
  for_fold (range (List.length (symbols self))) coint (fun i coint =>
    bind_result (column coint i) (fun s => setitem (ctx_pd cx) coint (price_ i) s)).

(** the first pass of the branch [else]: the frame has no ['price_0'] yet *)
Definition init_all (cx : context) (self : CointResult) (coint : cframe)
    (data : frame kline) (count : Z) : result cframe :=
  let coint := setitem_time coint data in
  set_price_columns cx self coint (fun _ i =>
    bind_result (evec_at self (Z.of_nat i) count) (fun c =>
    Ok (series_scale (close_series data) c))).

(** the traces of the cointegrating series *)
Definition coint_traces (self : CointResult) (include_all_evecs : bool) (coint : cframe)
    : result (list trace) :=
  if negb include_all_evecs then
    bind_result (getitem_time coint) (fun x =>
    bind_result (getitem coint "price") (fun y =>
    Ok [mktrace "Cointegrating" x (s_values y) 1]))
  else
    for_fold (range (List.length (symbols self))) [] (fun i fig =>
      bind_result (getitem_time coint) (fun x =>
      bind_result (getitem coint (price_ i)) (fun y =>
      Ok (fig ++ [mktrace ("Cointegrating (" +:+ pretty i +:+ ")") x (s_values y)
                          (Z.of_nat i + 1)])%list))).

(** the traces of the underlying series, from subplot row [count] on *)
Definition underlying_traces (cx : context) (self : CointResult) (fig : list trace)
    (count : Z) : result (list trace) :=
  bind_result
    (for_fold (symbols self) (fig, count) (fun symbol st =>
       let '(fig, count) := st in
       bind_result (kline_data_of cx self symbol) (fun data =>
       Ok ((fig ++ [mktrace symbol (map k_close_time (rows_of data))
                            (map k_close (rows_of data)) count])%list, count + 1))))
    (fun st => Ok (fst st)).

(** what both copies of [get_coint_plot] do once [coint] is computed: the
    traces of the figure, in the order they are appended *)
Definition plot_coint (cx : context) (self : CointResult)
    (include_all_evecs include_underlying : bool) (coint : cframe) : result (list trace) :=
  bind_result (coint_traces self include_all_evecs coint) (fun fig =>
  (* If only the cointegrating asset should be plotted *)
  if negb include_underlying then Ok fig
  else
    let count := if negb include_all_evecs then 2
                 else Z.of_nat (List.length (symbols self)) + 1 in
    underlying_traces cx self fig count).

(** ** src/coint.py *)

(** the body of the loop of the branch [else] (lines 103 to 120) *)
Definition coint_all_step (cx : context) (self : CointResult) (symbol : string)
    (st : cframe * Z) : result (cframe * Z) :=
  let '(coint, count) := st in
  (* Get kline data *)
  bind_result (kline_data_of cx self symbol) (fun data =>
  if negb (has_column coint "price_0") then
    (* Initialize coint *)
    bind_result (init_all cx self coint data count) (fun coint => Ok (coint, count + 1))
  else
    (* Add price to coint and increment counter *)
    bind_result
      (set_price_columns cx self coint (fun _ i =>
         bind_result (evec_at self (Z.of_nat i) count) (fun c =>
         Ok (series_scale (close_series data) c))))
      (fun coint => Ok (coint, count + 1))).

Definition calc_coint_all (cx : context) (self : CointResult) : result (cframe * Z) :=
  for_fold (symbols self) (mkcframe [] None [], 0) (coint_all_step cx self).

Definition calc_coint (cx : context) (self : CointResult) (include_all_evecs : bool)
    (evec : Z) : result cframe :=
  bind_result
    (if negb include_all_evecs then calc_coint_one cx self evec else calc_coint_all cx self)
    (fun st => Ok (fst st)).

Definition get_coint_plot (cx : context) (self : CointResult)
    (include_all_evecs include_underlying : bool) (evec : Z) : result (list trace) :=
  bind_result (calc_coint cx self include_all_evecs evec)
    (plot_coint cx self include_all_evecs include_underlying).

(** ** researchtools/__init__.py, the packaged copy of the same method *)

(** the body of the loop of the branch [else] (lines 792 to 809) *)
Definition packaged_coint_all_step (cx : context) (self : CointResult) (symbol : string)
    (st : cframe * Z) : result (cframe * Z) :=
  let '(coint, count) := st in
  (* Get kline data *)
  bind_result (kline_data_of cx self symbol) (fun data =>
  if negb (has_column coint "price_0") then
    (* Initialize coint *)
    bind_result (init_all cx self coint data count) (fun coint => Ok (coint, count + 1))
  else
    (* Add price to coint and increment counter *)
    bind_result
      (set_price_columns cx self coint (fun coint i =>
         bind_result (getitem coint (price_ i)) (fun price_i =>
         bind_result (evec_at self (Z.of_nat i) count) (fun c =>
         Ok (series_add (ctx_pd cx) price_i (series_scale (close_series data) c))))))
      (fun coint => Ok (coint, count + 1))).

Definition packaged_calc_coint_all (cx : context) (self : CointResult)
    : result (cframe * Z) :=
  for_fold (symbols self) (mkcframe [] None [], 0) (packaged_coint_all_step cx self).

Definition packaged_calc_coint (cx : context) (self : CointResult)
    (include_all_evecs : bool) (evec : Z) : result cframe :=
  bind_result
    (if negb include_all_evecs then calc_coint_one cx self evec
     else packaged_calc_coint_all cx self)
    (fun st => Ok (fst st)).

Definition packaged_get_coint_plot (cx : context) (self : CointResult)
    (include_all_evecs include_underlying : bool) (evec : Z) : result (list trace) :=
  bind_result (packaged_calc_coint cx self include_all_evecs evec)
    (plot_coint cx self include_all_evecs include_underlying).

(* ===================================================================== *)
(** * Vocabulary of the specification                                     *)
(* ===================================================================== *)

Open Scope list_scope.

(** the segments of the exchange's directory convention *)
Definition convention_segments (trading_type market_data_type time_period symbol : string)
    (interval : option string) : list string :=
  (if String.eqb trading_type "spot" then ["data"; "spot"]
   else ["data"; "futures"; trading_type])
    ++ [time_period; market_data_type; upper symbol]
    ++ match interval with Some i => [i] | None => [] end.

(** [start_date] and [end_date] as [download_daily_klines] reads them: the
    defaults when the argument is missing or empty *)
Definition effective_start (start_date : option string) : result date :=
  if negb (truthy_opt start_date) then Ok START_DATE
  else convert_to_date_object (default "" start_date).

Definition effective_end (e : env) (end_date : option string) : result date :=
  if negb (truthy_opt end_date) then Ok (today e)
  else convert_to_date_object (default "" end_date).

(** a date of the request that lies between the two bounds *)
Definition in_date_range (start_ end_ : date) (d : string) : bool :=
  match convert_to_date_object d with
  | Ok current_date => date_le start_ current_date && date_le current_date end_
  | Raise _ => false
  end.

(** the archive of a triple, as the pair of arguments of [download_file] *)
Definition kline_zip (trading_type symbol interval date : string) : string * string :=
  (get_path trading_type "klines" "daily" symbol (Some interval),
   upper symbol +:+ "-" +:+ interval +:+ "-" +:+ date +:+ ".zip").

Definition kline_checksum (trading_type symbol interval date : string) : string * string :=
  (get_path trading_type "klines" "daily" symbol (Some interval),
   upper symbol +:+ "-" +:+ interval +:+ "-" +:+ date +:+ ".zip.CHECKSUM").

(** the downloads of a request: one archive for each triple of the product
    of symbols, intervals and dates in range, each followed by its checksum
    file when [checksum] is 1 *)
Definition daily_kline_downloads (trading_type : string) (symbols intervals dates : list string)
    (start_ end_ : date) (checksum : Z) : list (string * string) :=
  flat_map (fun symbol =>
    flat_map (fun interval =>
      flat_map (fun date =>
        kline_zip trading_type symbol interval date
          :: (if checksum =? 1 then [kline_checksum trading_type symbol interval date] else []))
        (List.filter (in_date_range start_ end_) dates))
      intervals)
    symbols.

Definition is_daily (interval : string) : bool :=
  bool_decide (interval ∈ DAILY_INTERVALS).

(** ** Reasoning about runs *)

(** a run that returns normally has appended [l] to the trace of calls *)
Definition logs (m : M unit) (l : list (string * string)) : Prop :=
  forall w, fst (m w) = Ok tt -> calls (snd (m w)) = calls w ++ l.

(** from a world in [P], the run returns normally and ends in [P] *)
Definition succeeds (P : world -> Prop) (m : M unit) : Prop :=
  forall w, P w -> fst (m w) = Ok tt /\ P (snd (m w)).

(** a predicate on worlds that does not look at what was printed *)
Definition ignores_stdout (P : world -> Prop) : Prop :=
  forall w text,
    P w -> P (mkworld (files w) (dirs w) (requests w) (calls w) (stdout w ++ [text])).

(** ** Sample values *)

(** an archive that holds one three-byte file and answers 404 otherwise *)
Definition sample_env : env :=
  mkenv None "/opt/researchtools" "/home/user" (mkdate 2021 12 15)
    (fun url =>
       if String.eqb url ("https://data.binance.vision/data/spot/daily/klines/BTCUSDT/1m/"
                            +:+ "BTCUSDT-1m-2021-11-01.zip")
       then Resp (Some "3") [Byte.x50; Byte.x4b; Byte.x03] false
       else RespHTTPError).

(** an archive that answers 404 to everything *)
Definition offline_env : env :=
  mkenv None "/opt/researchtools" "/home/user" (mkdate 2021 12 15) (fun _ => RespHTTPError).

Definition fresh_world : world := mkworld ∅ ∅ [] [] [].

(** a world in which the archive of 2021-11-01 is already on disk *)
Definition stocked_world : world :=
  mkworld {[ "/data/binance/data/spot/daily/klines/BTCUSDT/1m/BTCUSDT-1m-2021-11-01.zip"
               := [Byte.x50; Byte.x4b] ]}
          {[ "/data/binance/data/spot/daily/klines/BTCUSDT/1m" ]} [] [] [].

(** C3 as the specification words it: every triple of the product of the
    requested symbols, intervals and dates in range is downloaded *)
Definition downloads_every_requested_triple : Prop :=
  forall e trading_type symbols num_symbols intervals dates sd ed folder checksum w start_ end_,
    effective_start sd = Ok start_ ->
    effective_end e ed = Ok end_ ->
    fst (download_daily_klines e trading_type symbols num_symbols intervals dates
           sd ed folder checksum w) = Ok tt ->
    forall symbol interval date,
      In symbol symbols -> In interval intervals -> In date dates ->
      in_date_range start_ end_ date = true ->
      In (kline_zip trading_type symbol interval date)
         (calls (snd (download_daily_klines e trading_type symbols num_symbols intervals dates
                        sd ed folder checksum w))).

(** C10 as the specification words it: over a date range that is not empty,
    a call in which some symbol maps to an empty interval list, for a type
    other than ['trades'], does not raise [ValueError] *)
Definition empty_interval_list_never_raises_ValueError : Prop :=
  forall cwd type_ start_date end_date start_ end_ dates symbol_data_required symbol,
    strptime start_date = Ok start_ ->
    strptime end_date = Ok end_ ->
    date_range start_ end_ = Ok dates ->
    dates <> [] ->
    type_ <> "trades" ->
    dict_get symbol_data_required symbol = Ok [] ->
    downloaded_filepaths cwd type_ start_date end_date symbol_data_required
    <> Raise ValueError.

(** a trade time in milliseconds, floored to the ten-second grid *)
Definition floor10s (t : Z) : Z := 10000 * (t / 10000).

(** the trades of a file that fall into the ten seconds that start at [t0] *)
Definition trades_in_bucket (trades : list trade) (t0 : Z) : list trade :=
  List.filter (fun r => floor10s (t_time r) =? t0) trades.

(** a time held in an [int64] whose floor is an [int64] too; every time in
    milliseconds since the epoch is one *)
Definition int64_time (t : Z) : Prop := - 2 ^ 63 + 10000 <= t < 2 ^ 63.

(** the closing prices of a kline table, row by row *)
Definition closes (data : frame kline) : list Q := map k_close (rows_of data).

(** the spread at row [t]: the sum, over the symbols, of the closing price
    of the symbol at that row times the component of the eigenvector at the
    position of the symbol *)
Definition spread_at (datas : list (frame kline)) (cs : list Q) (t : nat) : Q :=
  fold_right (fun dc acc => (nth t (closes (fst dc)) 0 * snd dc + acc)%Q) 0%Q
    (combine datas cs).

(** the column ['price'] after further symbols are added to it *)
Definition accumulate (vals : list Q) (datas : list (frame kline)) (cs : list Q) : list Q :=
  fold_left (fun acc dc => zip_with Qplus acc (map (fun x => (x * snd dc)%Q) (closes (fst dc))))
    (combine datas cs) vals.

(** a disk with one day of one-minute klines of two symbols, the rows of
    each file stored latest first, and one day of trades of one symbol *)
Definition sample_kline (close_time : Z) (close : Q) : kline :=
  mkkline (close_time - 59999) close close close close 1 close_time close 1 1 close 0 "" None.

Definition sample_disk : disk :=
  mkdisk
    (fun p =>
       if String.eqb p "/home/user/test_data/binance/data/spot/daily/klines/AAA/1m/AAA-1m-2021-11-01.zip"
       then Some [sample_kline 1635724919999 (2 # 1); sample_kline 1635724859999 (1 # 1)]
       else if String.eqb p "/home/user/test_data/binance/data/spot/daily/klines/BBB/1m/BBB-1m-2021-11-01.zip"
       then Some [sample_kline 1635724919999 (20 # 1); sample_kline 1635724859999 (10 # 1)]
       else None)
    (fun p =>
       if String.eqb p "/home/user/test_data/binance/data/spot/daily/trades/AAA/AAA-trades-2021-11-01.zip"
       then Some [mktrade 1 (1 # 1) (2 # 1) (2 # 1) 1635724810001 true true;
                  mktrade 2 (3 # 1) (2 # 1) (6 # 1) 1635724819999 false true;
                  mktrade 3 (5 # 1) (1 # 1) (5 # 1) 1635724800005 true true]
       else None).

(** an alignment that is never consulted when the indexes are equal *)
Definition sample_alignment : alignment :=
  mkalignment (fun a _ => a) (fun _ _ _ => Raise ValueError).

Definition sample_context : context := mkcontext "/home/user" sample_disk sample_alignment.

(** a result for two symbols whose eigenvector matrix holds ones only *)
Definition sample_result : CointResult :=
  mkCointResult (mkjohansen [] [] [] [] [[1 # 1; 1 # 1]; [1 # 1; 1 # 1]])
    ["AAA"; "BBB"] "1m" "2021-11-01" "2021-11-01".

(** Eigenvector number [k] of a test result. statsmodels returns the
    eigenvectors of the test as the columns of [evec], in the order of
    their eigenvalues, as [numpy.linalg.eig] returns them: eigenvector [k]
    is [evec[:, k]]. *)
Definition eigenvector (r : JohansenTestResult) (k : nat) : list Q :=
  map (fun row => nth k row 0%Q) (evec r).

(** row [k] of the matrix [evec], which is what [evec[k]] reads *)
Definition evec_row (r : JohansenTestResult) (k : nat) : list Q := nth k (evec r) [].

(** a result for two symbols whose eigenvector matrix is not symmetric *)
Definition skew_result : CointResult :=
  mkCointResult (mkjohansen [] [] [] [] [[1 # 1; 2 # 1]; [3 # 1; 4 # 1]])
    ["AAA"; "BBB"] "1m" "2021-11-01" "2021-11-01".

(** the kline tables of the two symbols of the sample disk, as
    [get_binance_kline_data] returns them *)
Definition sample_tables : list (frame kline) :=
  [[(1, set_symbol_interval "AAA" (Some "1m") (sample_kline 1635724859999 (1 # 1)));
    (0, set_symbol_interval "AAA" (Some "1m") (sample_kline 1635724919999 (2 # 1)))];
   [(1, set_symbol_interval "BBB" (Some "1m") (sample_kline 1635724859999 (10 # 1)));
    (0, set_symbol_interval "BBB" (Some "1m") (sample_kline 1635724919999 (20 # 1)))]].

(** the term of one symbol in a spread column: its closing prices times a
    component of an eigenvector *)
Definition term (data : frame kline) (c : Q) : list Q :=
  map (fun x => (x * c)%Q) (closes data).

(** the columns ['price_0'], ..., ['price_(n-1)'] with the values [v 0],
    ..., [v (n-1)] *)
Definition price_columns (n : nat) (v : nat -> list Q) : pydict (list Q) :=
  map (fun i => (price_ i, v i)) (seq 0 n).

(** a column after the passes for further symbols, the symbol at position
    [j] having the component [c j]; [F] tells what a pass does with the
    column and the term of its symbol *)
Definition fold_terms (F : list Q -> list Q -> list Q) (v : list Q)
    (datas : list (frame kline)) (c : nat -> Q) (k : nat) : list Q :=
  fold_left (fun acc dj => F acc (term (fst dj) (c (snd dj))))
    (combine datas (seq k (List.length datas))) v.

(** the components of one row of the eigenvector matrix, by position *)
Definition components (n : nat) (c : nat -> Q) : list Q := map c (seq 0 n).

(** the traces of the columns ['price_i'] in a figure *)
Definition price_traces (n : nat) (times : list Z) (v : nat -> list Q) : list trace :=
  map (fun i => mktrace ("Cointegrating (" +:+ pretty i +:+ ")") times (v i) (Z.of_nat i + 1))
      (seq 0 n).


(* ===================================================================== *)
(** * researchtools/__init__.py: the other download loops                 *)
(* ===================================================================== *)

(** ['{:02d}'.format(month)]: two digits for 0 .. 9, the plain number
    otherwise (a sign counts for the width) *)
Definition format_02d (n : Z) : string :=
  if (0 <=? n) && (n <? 10) then "0" +:+ pretty n else pretty n.

Definition download_monthly_klines (e : env) (trading_type : string) (symbols : list string)
    (num_symbols : Z) (intervals : list string) (years : list string) (months : list Z)
    (start_date end_date : option string) (folder : option string) (checksum : Z) : M unit :=
  let date_range :=
    if truthy_opt start_date && truthy_opt end_date
    then Some (default "" start_date +:+ " " +:+ default "" end_date) else None in
  start_date ← lift (if negb (truthy_opt start_date) then Ok START_DATE
                      else convert_to_date_object (default "" start_date));
  end_date ← lift (if negb (truthy_opt end_date) then Ok (today e)
                    else convert_to_date_object (default "" end_date));
  print ("Found " +:+ pretty num_symbols +:+ " symbols") ;;
  for_each_counting symbols 0 (fun symbol current =>
    print ("[" +:+ pretty (current + 1) +:+ "/" +:+ pretty num_symbols
             +:+ "] - start download monthly " +:+ symbol +:+ " klines ") ;;
    for_each intervals (fun interval =>
      for_each years (fun year =>
        for_each months (fun month =>
          current_date ← lift (convert_to_date_object (year +:+ "-" +:+ pretty month +:+ "-01"));
          if date_le start_date current_date && date_le current_date end_date then
            let path := get_path trading_type "klines" "monthly" symbol (Some interval) in
            let file_name := upper symbol +:+ "-" +:+ interval +:+ "-" +:+ year +:+ "-"
                               +:+ format_02d month +:+ ".zip" in
            download_file e path file_name date_range folder ;;
            if checksum =? 1 then
              let checksum_path :=
                get_path trading_type "klines" "monthly" symbol (Some interval) in
              let checksum_file_name :=
                upper symbol +:+ "-" +:+ interval +:+ "-" +:+ year +:+ "-"
                  +:+ format_02d month +:+ ".zip.CHECKSUM" in
              download_file e checksum_path checksum_file_name date_range folder
            else mret tt
          else mret tt)))).

Definition download_monthly_trades (e : env) (trading_type : string) (symbols : list string)
    (num_symbols : Z) (years : list string) (months : list Z)
    (start_date end_date : option string) (folder : option string) (checksum : Z) : M unit :=
  let date_range :=
    if truthy_opt start_date && truthy_opt end_date
    then Some (default "" start_date +:+ " " +:+ default "" end_date) else None in
  start_date ← lift (if negb (truthy_opt start_date) then Ok START_DATE
                      else convert_to_date_object (default "" start_date));
  end_date ← lift (if negb (truthy_opt end_date) then Ok (today e)
                    else convert_to_date_object (default "" end_date));
  print ("Found " +:+ pretty num_symbols +:+ " symbols") ;;
  for_each_counting symbols 0 (fun symbol current =>
    print ("[" +:+ pretty (current + 1) +:+ "/" +:+ pretty num_symbols
             +:+ "] - start download monthly " +:+ symbol +:+ " trades ") ;;
    for_each years (fun year =>
      for_each months (fun month =>
        current_date ← lift (convert_to_date_object (year +:+ "-" +:+ pretty month +:+ "-01"));
        if date_le start_date current_date && date_le current_date end_date then
          let path := get_path trading_type "trades" "monthly" symbol None in
          let file_name := upper symbol +:+ "-trades-" +:+ year +:+ "-"
                             +:+ format_02d month +:+ ".zip" in
          download_file e path file_name date_range folder ;;
          if checksum =? 1 then
            let checksum_path := get_path trading_type "trades" "monthly" symbol None in
            let checksum_file_name :=
              upper symbol +:+ "-trades-" +:+ year +:+ "-"
                +:+ format_02d month +:+ ".zip.CHECKSUM" in
            download_file e checksum_path checksum_file_name date_range folder
          else mret tt
        else mret tt))).

(** the loop of [download_daily_trades] never adds to [current] *)
Definition download_daily_trades (e : env) (trading_type : string) (symbols : list string)
    (num_symbols : Z) (dates : list string) (start_date end_date : option string)
    (folder : option string) (checksum : Z) : M unit :=
  let date_range :=
    if truthy_opt start_date && truthy_opt end_date
    then Some (default "" start_date +:+ " " +:+ default "" end_date) else None in
  start_date ← lift (if negb (truthy_opt start_date) then Ok START_DATE
                      else convert_to_date_object (default "" start_date));
  end_date ← lift (if negb (truthy_opt end_date) then Ok (today e)
                    else convert_to_date_object (default "" end_date));
  print ("Found " +:+ pretty num_symbols +:+ " symbols") ;;
  for_each symbols (fun symbol =>
    let current := 0 in
    print ("[" +:+ pretty (current + 1) +:+ "/" +:+ pretty num_symbols
             +:+ "] - start download daily " +:+ symbol +:+ " trades ") ;;
    for_each dates (fun date =>
      current_date ← lift (convert_to_date_object date);
      if date_le start_date current_date && date_le current_date end_date then
        let path := get_path trading_type "trades" "daily" symbol None in
        let file_name := upper symbol +:+ "-trades-" +:+ date +:+ ".zip" in
        download_file e path file_name date_range folder ;;
        if checksum =? 1 then
          let checksum_path := get_path trading_type "trades" "daily" symbol None in
          let checksum_file_name := upper symbol +:+ "-trades-" +:+ date +:+ ".zip.CHECKSUM" in
          download_file e checksum_path checksum_file_name date_range folder
        else mret tt
      else mret tt)).

Definition download_monthly_aggTrades (e : env) (trading_type : string) (symbols : list string)
    (num_symbols : Z) (years : list string) (months : list Z)
    (start_date end_date : option string) (folder : option string) (checksum : Z) : M unit :=
  let date_range :=
    if truthy_opt start_date && truthy_opt end_date
    then Some (default "" start_date +:+ " " +:+ default "" end_date) else None in
  start_date ← lift (if negb (truthy_opt start_date) then Ok START_DATE
                      else convert_to_date_object (default "" start_date));
  end_date ← lift (if negb (truthy_opt end_date) then Ok (today e)
                    else convert_to_date_object (default "" end_date));
  print ("Found " +:+ pretty num_symbols +:+ " symbols") ;;
  for_each_counting symbols 0 (fun symbol current =>
    print ("[" +:+ pretty (current + 1) +:+ "/" +:+ pretty num_symbols
             +:+ "] - start download monthly " +:+ symbol +:+ " aggTrades ") ;;
    for_each years (fun year =>
      for_each months (fun month =>
        current_date ← lift (convert_to_date_object (year +:+ "-" +:+ pretty month +:+ "-01"));
        if date_le start_date current_date && date_le current_date end_date then
          let path := get_path trading_type "aggTrades" "monthly" symbol None in
          let file_name := upper symbol +:+ "-aggTrades-" +:+ year +:+ "-"
                             +:+ format_02d month +:+ ".zip" in
          download_file e path file_name date_range folder ;;
          if checksum =? 1 then
            let checksum_path := get_path trading_type "aggTrades" "monthly" symbol None in
            let checksum_file_name :=
              upper symbol +:+ "-aggTrades-" +:+ year +:+ "-"
                +:+ format_02d month +:+ ".zip.CHECKSUM" in
            download_file e checksum_path checksum_file_name date_range folder
          else mret tt
        else mret tt))).

Definition download_daily_aggTrades (e : env) (trading_type : string) (symbols : list string)
    (num_symbols : Z) (dates : list string) (start_date end_date : option string)
    (folder : option string) (checksum : Z) : M unit :=
  let date_range :=
    if truthy_opt start_date && truthy_opt end_date
    then Some (default "" start_date +:+ " " +:+ default "" end_date) else None in
  start_date ← lift (if negb (truthy_opt start_date) then Ok START_DATE
                      else convert_to_date_object (default "" start_date));
  end_date ← lift (if negb (truthy_opt end_date) then Ok (today e)
                    else convert_to_date_object (default "" end_date));
  print ("Found " +:+ pretty num_symbols +:+ " symbols") ;;
  for_each_counting symbols 0 (fun symbol current =>
    print ("[" +:+ pretty (current + 1) +:+ "/" +:+ pretty num_symbols
             +:+ "] - start download daily " +:+ symbol +:+ " aggTrades ") ;;
    for_each dates (fun date =>
      current_date ← lift (convert_to_date_object date);
      if date_le start_date current_date && date_le current_date end_date then
        let path := get_path trading_type "aggTrades" "daily" symbol None in
        let file_name := upper symbol +:+ "-aggTrades-" +:+ date +:+ ".zip" in
        download_file e path file_name date_range folder ;;
        if checksum =? 1 then
          let checksum_path := get_path trading_type "aggTrades" "daily" symbol None in
          let checksum_file_name := upper symbol +:+ "-aggTrades-" +:+ date +:+ ".zip.CHECKSUM" in
          download_file e checksum_path checksum_file_name date_range folder
        else mret tt
      else mret tt)).

(** ** Vocabulary for the download loops *)

(** a file and, when [checksum] is 1, its checksum file after it *)
Definition with_checksum (checksum : Z) (path file_name : string) : list (string * string) :=
  (path, file_name) :: (if checksum =? 1 then [(path, file_name +:+ ".CHECKSUM")] else []).

(** the first day of a month of the request lies between the two bounds *)
Definition in_month_range (start_ end_ : date) (year : string) (month : Z) : bool :=
  match convert_to_date_object (year +:+ "-" +:+ pretty month +:+ "-01") with
  | Ok current_date => date_le start_ current_date && date_le current_date end_
  | Raise _ => false
  end.

(** the months of the request in range, year by year *)
Definition months_in_range (start_ end_ : date) (years : list string) (months : list Z)
    : list (string * Z) :=
  flat_map (fun year =>
    map (fun month => (year, month)) (List.filter (in_month_range start_ end_ year) months))
    years.

Definition monthly_kline_downloads (trading_type : string) (symbols intervals : list string)
    (years : list string) (months : list Z) (start_ end_ : date) (checksum : Z)
    : list (string * string) :=
  flat_map (fun symbol =>
    flat_map (fun interval =>
      flat_map (fun ym =>
        with_checksum checksum
          (get_path trading_type "klines" "monthly" symbol (Some interval))
          (upper symbol +:+ "-" +:+ interval +:+ "-" +:+ fst ym +:+ "-"
             +:+ format_02d (snd ym) +:+ ".zip"))
        (months_in_range start_ end_ years months))
      intervals)
    symbols.

Definition monthly_downloads (kind trading_type : string) (symbols : list string)
    (years : list string) (months : list Z) (start_ end_ : date) (checksum : Z)
    : list (string * string) :=
  flat_map (fun symbol =>
    flat_map (fun ym =>
      with_checksum checksum
        (get_path trading_type kind "monthly" symbol None)
        (upper symbol +:+ "-" +:+ kind +:+ "-" +:+ fst ym +:+ "-"
           +:+ format_02d (snd ym) +:+ ".zip"))
      (months_in_range start_ end_ years months))
    symbols.

Definition daily_downloads (kind trading_type : string) (symbols dates : list string)
    (start_ end_ : date) (checksum : Z) : list (string * string) :=
  flat_map (fun symbol =>
    flat_map (fun date =>
      with_checksum checksum
        (get_path trading_type kind "daily" symbol None)
        (upper symbol +:+ "-" +:+ kind +:+ "-" +:+ date +:+ ".zip"))
      (List.filter (in_date_range start_ end_) dates))
    symbols.

(** a run that does not end in the exception [ex] *)
Definition never_raises (ex : exn) (m : M unit) : Prop :=
  forall w, fst (m w) <> Raise ex.

(** an absolute path *)
Definition absolute (p : string) : Prop := starts_with_slash p = true.

(** a name without a slash: one component of a path *)
Definition no_slash (s : string) : Prop := ~ In "/"%char (chars s).

(** a folder name with the slash [os.path.join] puts after it: none after
    the empty name and none after a slash *)
Definition as_directory (folder : string) : string :=
  if negb (truthy folder) || ends_with_slash folder then folder else folder +:+ "/".

(** where [get_destination_dir] stores files when no folder is given: the
    environment variable, or else the directory of the module *)
Definition store_directory (e : env) : string :=
  if truthy_opt (STORE_DIRECTORY e) then default "" (STORE_DIRECTORY e) else module_dir e.

(** [base_path] once [download_file] has joined the folder to it *)
Definition joined_base (base_path : string) (folder : option string) : string :=
  if truthy_opt folder then os_path_join (default "" folder) base_path else base_path.

(** the directory [download_file] makes when [base_path] does not exist:
    [get_destination_dir(base_path)], called without the folder *)
Definition made_directory (e : env) (base_path : string) (folder : option string) : string :=
  get_destination_dir e
    (if truthy_opt folder then os_path_join (default "" folder) base_path else base_path)
    None.

(** an archive that serves a three-byte file with its length, the same
    file without a length under another name, and 404 otherwise *)
Definition serving_env : env :=
  mkenv None "/opt/researchtools" "/home/user" (mkdate 2021 12 15)
    (fun url =>
       if String.eqb url "https://data.binance.vision/data/spot/daily/trades/BTCUSDT/BTCUSDT-trades-2021-11-01.zip"
       then Resp (Some "3") [Byte.x50; Byte.x4b; Byte.x03] false
       else if String.eqb url "https://data.binance.vision/data/spot/daily/trades/BTCUSDT/BTCUSDT-trades-2021-11-02.zip"
       then Resp None [Byte.x50; Byte.x4b; Byte.x03] false
       else RespHTTPError).

(** [[int(x) for x in parts]], the comprehension of [convert_to_date_object] *)
Fixpoint ints_of (parts : list string) : result (list Z) :=
  match parts with
  | [] => Ok []
  | p :: ps =>
      bind_result (int p) (fun n => bind_result (ints_of ps) (fun ns => Ok (n :: ns)))
  end.

(** ** Vocabulary for dates *)

(** the numbers a text is read as, when it is three numbers between dashes *)
Definition date_fields (d : string) : option (Z * Z * Z) :=
  match ints_of (split "-" d) with
  | Ok [y; m; dd] => Some (y, m, dd)
  | _ => None
  end.

(** a day of the calendar: what [date(y, m, d)] accepts *)
Definition valid_date (d : date) : Prop := mk_date (year d) (month d) (day d) = Ok d.

(** the days from [start_] to [end_], both included *)
Definition days_between (start_ end_ : date) : list date :=
  days_from start_ (Z.to_nat (toordinal end_ - toordinal start_ + 1)).

(* ===================================================================== *)
(** * src/historical_data.py: downloading                                 *)
(* ===================================================================== *)

(** [pd.date_range(start=start_date, end=end_date, freq='D')] on two
    strings. How pandas reads a string as a timestamp is left open:
    [to_datetime] gives the day it reads. Strings that carry a time of day
    or a time zone are outside the model. *)
Definition date_range_of_strings (to_datetime : string -> result date)
    (start_date end_date : string) : result (list date) :=
  bind_result (to_datetime start_date) (fun start_ =>
  bind_result (to_datetime end_date) (fun end_ =>
  date_range start_ end_)).

Definition downloading_banner : string :=
  nl +:+ "----------------------------------- Downloading Historical Data -----------------------------------".

Definition finished_banner : string :=
  nl +:+ "----------------------------------- Finished Downloading Historical Data ---------"
     +:+ "--------------------------" +:+ nl.

Definition download_binance_trade_data (to_datetime : string -> result date) (e : env)
    (symbols : list string) (start_date end_date : string) : M unit :=
  print downloading_banner ;;
  let trades_base_path := cwd e +:+ "/test_data/binance" in
  (* Get all dates between two dates *)
  dates ← lift (date_range_of_strings to_datetime start_date end_date);
  let dates := map strftime dates in
  (* Download daily data *)
  download_daily_trades e "spot" symbols (Z.of_nat (List.length symbols)) dates
    (Some start_date) (Some end_date) (Some trades_base_path) 0 ;;
  print finished_banner.

Definition download_binance_kline_data (to_datetime : string -> result date) (e : env)
    (symbol_data_required : pydict (list string)) (start_date end_date : string) : M unit :=
  print downloading_banner ;;
  let kline_base_path := cwd e +:+ "/test_data/binance/" in
  (* Get all dates between two dates *)
  dates ← lift (date_range_of_strings to_datetime start_date end_date);
  let dates := map strftime dates in
  (* Iterate through intervals *)
  for_each symbol_data_required (fun item =>
    let '(symbol, intervals) := item in
    (* Download interval data *)
    download_daily_klines e "spot" [symbol] 1 intervals dates
      (Some start_date) (Some end_date) (Some kline_base_path) 0) ;;
  print finished_banner.

(** ** Vocabulary for the pipeline *)

(** the daily trade archive of a symbol and a day *)
Definition trades_zip (symbol : string) (d : date) : string * string :=
  (get_path "spot" "trades" "daily" symbol None,
   upper symbol +:+ "-trades-" +:+ strftime d +:+ ".zip").

(** one trade archive for each symbol and each day of the range *)
Definition trade_archives (symbols : list string) (start_ end_ : date)
    : list (string * string) :=
  flat_map (fun symbol => map (trades_zip symbol) (days_between start_ end_)) symbols.

(** one kline archive for each symbol, each of its daily intervals and each
    day of the range *)
Definition kline_archives (symbol_data_required : pydict (list string)) (start_ end_ : date)
    : list (string * string) :=
  flat_map (fun item : string * list string =>
    flat_map (fun interval =>
      map (fun d => kline_zip "spot" (fst item) interval (strftime d))
          (days_between start_ end_))
      (valid_daily_intervals (snd item)))
    symbol_data_required.

(** a reading of date strings: the one of [strptime] *)
Definition sample_to_datetime : string -> result date := strptime.

(** ** Vocabulary for the assembled tables *)

(** the rows a kline file gives to the table: its rows, with the symbol
    and the interval of its entry in the dictionary of paths *)
Definition kline_part (dk : disk) (filepaths : pydict (string * option string))
    (p : string) : list kline :=
  match kline_files dk p, dict_get filepaths p with
  | Some rows, Ok v => map (set_symbol_interval (fst v) (snd v)) rows
  | _, _ => []
  end.

(** the rows a trade file gives to the table: its ten-second buckets *)
Definition trade_part (dk : disk) (filepaths : pydict (string * option string))
    (p : string) : list bucket :=
  match trade_files dk p, dict_get filepaths p with
  | Some rows, Ok v =>
      groupby_time_agg (fst v) (map (fun r => set_time r (floor_time (t_time r))) rows)
  | _, _ => []
  end.

(** the rows of the table built so far; none before the first file *)
Definition rows_so_far {R} (df : option (frame R)) : list R :=
  match df with
  | Some f => rows_of f
  | None => []
  end.

(** ** Reasoning about what a run leaves on disk *)

(** from a world in [Pre], the run returns normally and ends in [Post] *)
Definition hoare (Pre : world -> Prop) (m : M unit) (Post : world -> Prop) : Prop :=
  forall w, Pre w -> fst (m w) = Ok tt /\ Post (snd (m w)).

(** an archive is named by the two arguments of [download_file]: its URL
    and the path at which it is saved *)
Definition archive_url (a : string * string) : string :=
  get_download_url (fst a +:+ snd a).

Definition archive_path (e : env) (folder : option string) (a : string * string) : string :=
  save_path_of e (fst a) (snd a) folder.

(** the archive answers the request for [a] with the bytes [body], on a
    connection that does not break and with a [content-length] header that
    [int] reads and that announces no fewer bytes than arrive *)
Definition served (e : env) (a : string * string) (body : list Byte.byte) : Prop :=
  exists header length_,
    remote e (archive_url a) = Resp (Some header) body false
    /\ truthy header = true
    /\ int header = Ok length_
    /\ Z.of_nat (List.length body) <= length_.

(** the file of [a] holds what the archive serves for it *)
Definition saved (e : env) (folder : option string) (a : string * string) (w : world) : Prop :=
  forall body, served e a body -> files w !! archive_path e folder a = Some body.

(** a plan of downloads that can be carried out: the save paths name
    files, each lies in the directory that is made for it, the base path
    names that directory, no save path is a directory made for a file of
    the plan or a directory above one, a save path belongs to one URL, and
    the archive serves every file *)
Record sound_plan (e : env) (folder : option string) (plan : list (string * string))
    : Prop := mksound_plan {
  plan_files : forall a, In a plan -> ends_with_slash (archive_path e folder a) = false;
  plan_parents : forall a, In a plan ->
                   norm_path (dirname (archive_path e folder a))
                   = norm_path (made_directory e (fst a) folder);
  plan_bases : forall a, In a plan ->
                 ends_with_slash (joined_base (fst a) folder) = true
                 /\ made_directory e (fst a) folder = joined_base (fst a) folder;
  plan_dirs : forall a b, In a plan -> In b plan ->
                norm_path (archive_path e folder b)
                ∉ made_dirs (made_directory e (fst a) folder);
  plan_urls : forall a b, In a plan -> In b plan ->
                archive_path e folder a = archive_path e folder b ->
                archive_url a = archive_url b;
  plan_served : forall a, In a plan -> exists body, served e a body
}.

(** the disk while a plan is carried out: no save path is a directory, a
    save path that exists holds what the archive serves for it, and the
    files of the downloads done so far are saved *)
Definition disk_inv (e : env) (folder : option string) (plan done : list (string * string))
    (w : world) : Prop :=
  (forall a, In a plan -> is_dir w (archive_path e folder a) = false)
  /\ (forall a c body, In a plan -> files w !! archive_path e folder a = Some c ->
                       served e a body -> c = body)
  /\ (forall a, In a done -> saved e folder a w).

(** a run that carries out the downloads [l] of the plan *)
Definition runs (e : env) (folder : option string) (plan : list (string * string))
    (m : M unit) (l : list (string * string)) : Prop :=
  incl l plan ->
  forall done, hoare (disk_inv e folder plan done) m (disk_inv e folder plan (done ++ l)).

(** an archive that serves the trades of BTCUSDT for two days *)
Definition trades_env : env :=
  mkenv None "/opt/researchtools" "/home/user" (mkdate 2021 12 15)
    (fun url =>
       if String.eqb url "https://data.binance.vision/data/spot/daily/trades/BTCUSDT/BTCUSDT-trades-2021-11-01.zip"
       then Resp (Some "3") [Byte.x50; Byte.x4b; Byte.x03] false
       else if String.eqb url "https://data.binance.vision/data/spot/daily/trades/BTCUSDT/BTCUSDT-trades-2021-11-02.zip"
       then Resp (Some "2") [Byte.x50; Byte.x4b] false
       else RespHTTPError).

(** an archive that serves the 15-minute klines of ADAUSDT for two days *)
Definition klines_env : env :=
  mkenv None "/opt/researchtools" "/home/user" (mkdate 2021 12 15)
    (fun url =>
       if String.eqb url "https://data.binance.vision/data/spot/daily/klines/ADAUSDT/15m/ADAUSDT-15m-2021-11-01.zip"
       then Resp (Some "3") [Byte.x50; Byte.x4b; Byte.x03] false
       else if String.eqb url "https://data.binance.vision/data/spot/daily/klines/ADAUSDT/15m/ADAUSDT-15m-2021-11-02.zip"
       then Resp (Some "2") [Byte.x50; Byte.x4b] false
       else RespHTTPError).

(** the bytes of a stream that arrive in whole blocks of [blocksize] *)
Definition full_blocks (blocksize : Z) (body : list Byte.byte) : list Byte.byte :=
  take (Z.to_nat (blocksize * (Z.of_nat (List.length body) / blocksize))) body.

(** an archive whose stream breaks after two bytes of a file of three *)
Definition breaking_env : env :=
  mkenv None "/opt/researchtools" "/home/user" (mkdate 2021 12 15)
    (fun url =>
       if String.eqb url "https://data.binance.vision/data/spot/daily/trades/BTCUSDT/BTCUSDT-trades-2021-11-01.zip"
       then Resp (Some "3") [Byte.x50; Byte.x4b] true
       else RespURLError).

(* ===================================================================== *)
(** * researchtools/__init__.py: the other date utilities                 *)
(* ===================================================================== *)

(** whitespace as [str.split] sees it, restricted to ASCII: the characters
    of C's [isspace] and the four separators before the space *)
Definition is_whitespace (c : ascii) : bool :=
  let n := Z.of_nat (nat_of_ascii c) in
  ((9 <=? n) && (n <=? 13)) || ((28 <=? n) && (n <=? 32)).

(** [s.split()]: the words of [s] between runs of whitespace *)
Fixpoint split_whitespace_chars (cur : list ascii) (cs : list ascii) : list string :=
  match cs with
  | [] => match cur with [] => [] | _ => [str (rev cur)] end
  | c :: cs' =>
      if is_whitespace c then
        match cur with
        | [] => split_whitespace_chars [] cs'
        | _ => str (rev cur) :: split_whitespace_chars [] cs'
        end
      else split_whitespace_chars (c :: cur) cs'
  end.

Definition split_whitespace (s : string) : list string :=
  split_whitespace_chars [] (chars s).

(** unpacking into two names raises [ValueError] unless there are two words *)
Definition get_start_end_date_objects (date_range : string) : result (date * date) :=
  match split_whitespace date_range with
  | [start_; end_] =>
      bind_result (convert_to_date_object start_) (fun start_date =>
      bind_result (convert_to_date_object end_) (fun end_date =>
      Ok (start_date, end_date)))
  | _ => Raise ValueError
  end.

(** [pat.match(arg_value)] for the pattern [\d{4}-\d{2}-\d{2}]: a match at
    the start of the text, whatever follows. [None] stands for the
    [ArgumentTypeError] that is raised when there is no match. *)
Definition match_date_regex (arg_value : string) : option string :=
  match chars arg_value with
  | y1 :: y2 :: y3 :: y4 :: "-"%char :: m1 :: m2 :: "-"%char :: d1 :: d2 :: _ =>
      if is_digit y1 && is_digit y2 && is_digit y3 && is_digit y4
         && is_digit m1 && is_digit m2 && is_digit d1 && is_digit d2
      then Some arg_value else None
  | _ => None
  end.

(** the symbols of a list, each at its first place *)
Definition first_occurrences (symbols : list string) : list string :=
  fold_left (fun acc symbol => if bool_decide (symbol ∈ acc) then acc else acc ++ [symbol])
    symbols [].
(* ===================================================================== *)
(** * Properties                                                          *)
(* ===================================================================== *)

(** ** Strings *)

Lemma append_String (x : ascii) (a b : string) : String x a +:+ b = String x (a +:+ b).
Proof. reflexivity. Qed.

Lemma append_nil_l (a : string) : "" +:+ a = a.
Proof. reflexivity. Qed.

Lemma append_assoc (a b c : string) : (a +:+ b) +:+ c = a +:+ (b +:+ c).
Proof.
  induction a as [|x a IH]; [reflexivity|].
  rewrite !append_String. now rewrite IH.
Qed.

Lemma append_nil_r (a : string) : a +:+ "" = a.
Proof.
  induction a as [|x a IH]; [reflexivity|].
  rewrite append_String. now rewrite IH.
Qed.

Lemma ends_with_slash_app (a : string) : ends_with_slash (a +:+ "/") = true.
Proof.
  induction a as [|x a IH]; [reflexivity|].
  rewrite append_String. simpl.
  destruct (a +:+ "/") eqn:E; [destruct a; discriminate | exact IH].
Qed.

(** normalise appends to the right and compute them on literals *)
Ltac string_norm :=
  repeat first [rewrite append_assoc | rewrite append_String | rewrite append_nil_l].

(** ** The path resolver *)

Lemma upper_char_not_lower (c : ascii) : is_lower (upper_char c) = false.
Proof. destruct c as [[] [] [] [] [] [] [] []]; reflexivity. Qed.

Lemma upper_no_lower (s : string) : forallb (fun c => negb (is_lower c)) (chars (upper s)) = true.
Proof.
  induction s as [|c s IH]; [reflexivity|].
  simpl. now rewrite upper_char_not_lower, IH.
Qed.

(** C6. [get_path] is a function of its five arguments (equal arguments give
    the same path), and the path it returns is the exchange's convention:
    the segments [data/spot] (or [data/futures/<type>] for a trading type
    other than spot), the period, the kind of market data, the symbol in
    upper case (no lower-case letter is left in it) and, when an interval
    is given, the interval, joined by slashes and followed by a slash. *)
Theorem get_path_convention :
  forall trading_type market_data_type time_period symbol interval,
    (forall trading_type' market_data_type' time_period' symbol' interval',
        trading_type' = trading_type -> market_data_type' = market_data_type ->
        time_period' = time_period -> symbol' = symbol -> interval' = interval ->
        get_path trading_type' market_data_type' time_period' symbol' interval'
        = get_path trading_type market_data_type time_period symbol interval)
    /\ get_path trading_type market_data_type time_period symbol interval
       = String.concat "/"
           (convention_segments trading_type market_data_type time_period symbol interval)
         +:+ "/"
    /\ ends_with_slash (get_path trading_type market_data_type time_period symbol interval)
       = true
    /\ forallb (fun c => negb (is_lower c)) (chars (upper symbol)) = true.
Proof.
  intros tt kind period sym interval.
  assert (Heq : get_path tt kind period sym interval
                = String.concat "/" (convention_segments tt kind period sym interval) +:+ "/").
  { unfold get_path, convention_segments.
    destruct (String.eqb tt "spot"), interval as [i|]; simpl;
      string_norm; reflexivity. }
  split; [intros; subst; reflexivity|].
  split; [exact Heq|].
  split; [|apply upper_no_lower].
  rewrite Heq. apply ends_with_slash_app.
Qed.

(** ** The downloader: one file *)

Ltac unfold_M :=
  unfold mbind, M_bind, bind, mret, M_ret, ret, lift, gets, print, stdout_write,
    log_call, mkdir, open_wb, write, urlopen, try_except in *.

Lemma read_loop_fs sp sized broken body p w :
  dirs (snd (read_loop sp sized broken body p w)) = dirs w
  /\ (is_Some (files w !! sp) -> is_Some (files (snd (read_loop sp sized broken body p w)) !! sp)).
Proof.
  funelim (read_loop sp sized broken body p w).
  - simpl. auto.
  - destruct (read_breaks blocksize body broken); simpl; auto.
  - clear Heqcall. destruct (read_breaks blocksize body broken); [simpl; auto|].
    unfold_M. simpl.
    destruct (len =? 0); simpl.
    + split; [reflexivity|]. intros _. rewrite lookup_insert_eq. eauto.
    + match goal with
      | |- context [read_loop ?a ?b ?c ?d ?e ?f] =>
          specialize (H (Ok tt) w tt (Ok tt) f tt); destruct H as [Hd Hf]
      end.
      simpl in Hd, Hf. split; [exact Hd|].
      intros _. apply Hf. rewrite lookup_insert_eq. eauto.
Qed.

Lemma open_error_congr (w w2 : world) (p : string) :
  dirs w2 = dirs w -> open_error w2 p = open_error w p.
Proof. intros Hd. unfold open_error, dir_exists, is_dir. now rewrite Hd. Qed.

Lemma open_error_not_http w p : open_error w p <> Some HTTPError.
Proof.
  unfold open_error.
  repeat (match goal with |- context [if ?c then _ else _] => destruct c end); discriminate.
Qed.

Lemma attempt_spec e url sp w :
  dirs (snd (attempt e url sp w)) = dirs w
  /\ ((files (snd (attempt e url sp w)) = files w
       /\ forall w2, files w2 = files w -> dirs w2 = dirs w ->
            files (snd (attempt e url sp w2)) = files w2
            /\ dirs (snd (attempt e url sp w2)) = dirs w2)
      \/ is_file (snd (attempt e url sp w)) sp = true).
Proof.
  unfold attempt, fetch. unfold_M.
  destruct (remote e url) as [| |len body broken] eqn:Hr; simpl.
  - split; [reflexivity|]. left. split; [reflexivity|]. intros w2 _ _. simpl. auto.
  - split; [reflexivity|]. left. split; [reflexivity|]. intros w2 _ _. simpl. auto.
  - assert (Hloop : forall sized w0,
              dirs (snd (read_loop sp sized broken body 0 w0)) = dirs w0
              /\ (is_Some (files w0 !! sp) ->
                  is_Some (files (snd (read_loop sp sized broken body 0 w0)) !! sp)))
      by (intros; apply read_loop_fs).
    destruct (if truthy_opt len then _ else _) as [sized|ex]; simpl.
    + match goal with
      | |- context [open_error ?x sp] =>
          rewrite (open_error_congr w x sp eq_refl);
          assert (Hcongr : forall w2 y, dirs w2 = dirs w -> dirs y = dirs w2 ->
                             open_error y sp = open_error w sp)
            by (intros w2 y H2 Hy; apply open_error_congr; congruence)
      end.
      destruct (open_error w sp) as [ex|] eqn:Hopen; simpl.
      { assert (Hex : ex <> HTTPError)
          by (intros ->; exact (open_error_not_http _ _ Hopen)).
        destruct (decide (ex = HTTPError)); [contradiction|]. simpl.
        split; [reflexivity|]. left. split; [reflexivity|].
        intros w2 _ Hd2.
        match goal with
        | |- context [open_error ?y sp] => rewrite (Hcongr w2 y Hd2 eq_refl)
        end.
        simpl. destruct (decide (ex = HTTPError)); [contradiction|]. simpl. auto. }
      assert (Hsl : ends_with_slash sp = false).
      { unfold open_error in Hopen.
        repeat (match type of Hopen with
                | context [if ?c then _ else _] => destruct c; try discriminate
                end). reflexivity. }
      unfold is_file.
      match goal with
      | |- context [read_loop ?a ?b ?c ?d ?e ?f] =>
          destruct (Hloop b f) as [H1 H2]; destruct (read_loop a b c d e f) as [r w'] eqn:E
      end.
      simpl in H1, H2.
      assert (Hsome : is_Some (files w' !! sp)) by (apply H2; rewrite lookup_insert_eq; eauto).
      destruct r as [[]|ex]; simpl.
      * split; [exact H1|]. right. rewrite Hsl. now apply bool_decide_eq_true_2.
      * destruct (decide (ex = HTTPError)); simpl;
          (split; [exact H1|]; right; rewrite Hsl; now apply bool_decide_eq_true_2).
    + destruct (decide (ex = HTTPError)); simpl;
        (split; [reflexivity|]; left; split; [reflexivity|]; intros w2 _ _; simpl; auto).
Qed.

Lemma os_path_exists_congr (w w2 : world) (p : string) :
  files w2 = files w -> dirs w2 = dirs w -> os_path_exists w2 p = os_path_exists w p.
Proof. intros Hf Hd. unfold os_path_exists, is_file, is_dir. now rewrite Hf, Hd. Qed.

(** [download_file], step by step *)
Lemma download_file_unfold e bp fn dr folder w :
  let w0 := mkworld (files w) (dirs w) (requests w) (calls w ++ [(bp, fn)]) (stdout w) in
  let base := if truthy_opt folder then os_path_join (default "" folder) bp else bp in
  let sp := save_path_of e bp fn folder in
  download_file e bp fn dr folder w =
    if os_path_exists w sp then
      (Ok tt, mkworld (files w) (dirs w) (requests w) (calls w ++ [(bp, fn)])
                (stdout w ++ [(nl +:+ "file already exists! " +:+ sp) +:+ nl]))
    else
      attempt e (get_download_url (bp +:+ fn)) sp
        (if os_path_exists w base then w0
         else mkworld (files w) (made_dirs (get_destination_dir e base None) ∪ dirs w)
                (requests w) (calls w ++ [(bp, fn)]) (stdout w)).
Proof.
  intros w0 base sp. subst w0 base sp.
  unfold download_file, save_path_of. unfold_M.
  unfold os_path_exists, is_file, is_dir. simpl.
  destruct (truthy_opt folder);
    repeat (match goal with
            | |- context [if ?c then _ else _] => destruct c
            end; simpl); reflexivity.
Qed.

(** C1. When the local save path of a file already exists, [download_file]
    returns at once: it opens no connection and leaves files and
    directories as they are. As a consequence the download is idempotent:
    against the same archive, running it a second time leaves the file
    system as the first run left it. *)
Theorem download_file_idempotent :
  forall e base_path file_name date_range folder w,
    let run := download_file e base_path file_name date_range folder in
    (os_path_exists w (save_path_of e base_path file_name folder) = true ->
       fst (run w) = Ok tt
       /\ files (snd (run w)) = files w
       /\ dirs (snd (run w)) = dirs w
       /\ requests (snd (run w)) = requests w)
    /\ files (snd (run (snd (run w)))) = files (snd (run w))
    /\ dirs (snd (run (snd (run w)))) = dirs (snd (run w)).
Proof.
  intros e bp fn dr folder w run. unfold run.
  assert (Hskip : forall w1, os_path_exists w1 (save_path_of e bp fn folder) = true ->
            fst (download_file e bp fn dr folder w1) = Ok tt
            /\ files (snd (download_file e bp fn dr folder w1)) = files w1
            /\ dirs (snd (download_file e bp fn dr folder w1)) = dirs w1
            /\ requests (snd (download_file e bp fn dr folder w1)) = requests w1).
  { intros w1 H. rewrite download_file_unfold. simpl. rewrite H. simpl. auto. }
  split; [apply Hskip|].
  set (sp := save_path_of e bp fn folder) in *.
  set (base := if truthy_opt folder then os_path_join (default "" folder) bp else bp).
  set (url := get_download_url (bp +:+ fn)).
  set (d := made_dirs (get_destination_dir e base None)).
  destruct (os_path_exists w sp) eqn:Hex.
  { destruct (Hskip w Hex) as (_ & Hf & Hd & _).
    destruct (Hskip (snd (download_file e bp fn dr folder w))) as (_ & Hf2 & Hd2 & _).
    - rewrite (os_path_exists_congr w _ sp Hf Hd). exact Hex.
    - auto. }
  (* the first run goes to the archive *)
  pose proof (download_file_unfold e bp fn dr folder w) as H1. simpl in H1.
  fold sp base url d in H1. rewrite Hex in H1.
  set (wm := if os_path_exists w base
             then mkworld (files w) (dirs w) (requests w) (calls w ++ [(bp, fn)]) (stdout w)
             else mkworld (files w) (d ∪ dirs w) (requests w)
                    (calls w ++ [(bp, fn)]) (stdout w)) in *.
  set (w1 := snd (download_file e bp fn dr folder w)).
  assert (Hw1 : w1 = snd (attempt e url sp wm)) by (unfold w1; now rewrite H1).
  destruct (attempt_spec e url sp wm) as [Hd1 [[Hf1 Hstable] | Hfile]].
  2: { (* the file is there after the first run *)
    destruct (Hskip w1) as (_ & Hf2 & Hd2 & _); [|auto].
    unfold os_path_exists. rewrite Hw1, Hfile. reflexivity. }
  (* nothing was stored: the second run repeats the first *)
  rewrite <- Hw1 in Hd1, Hf1.
  destruct (os_path_exists w1 sp) eqn:Hex1.
  { destruct (Hskip w1 Hex1) as (_ & Hf2 & Hd2 & _). auto. }
  pose proof (download_file_unfold e bp fn dr folder w1) as H2. simpl in H2.
  fold sp base url d in H2. rewrite Hex1 in H2.
  rewrite H2.
  match goal with
  | |- context [attempt e url sp ?x] => set (wm2 := x)
  end.
  assert (Hfx : files wm2 = files wm).
  { unfold wm2. destruct (os_path_exists w1 base); exact Hf1. }
  assert (Hdx : dirs wm2 = dirs wm).
  { unfold wm2, wm in *. destruct (os_path_exists w base) eqn:Hb; simpl in *.
    - rewrite (os_path_exists_congr w w1 base Hf1 Hd1), Hb. exact Hd1.
    - destruct (os_path_exists w1 base); simpl; rewrite Hd1; [reflexivity|].
      now rewrite (assoc_L (∪)), (idemp_L (∪)). }
  destruct (Hstable wm2 Hfx Hdx) as [Hf2 Hd2].
  rewrite Hf2, Hd2, Hfx, Hdx, Hf1, Hd1. auto.
Qed.

(** ** Runs: traces and invariants *)

Lemma logs_ret : logs (mret tt) [].
Proof. intros w _. simpl. now rewrite app_nil_r. Qed.

Lemma logs_print s : logs (print s) [].
Proof. intros w _. simpl. now rewrite app_nil_r. Qed.

Lemma logs_bind (m : M unit) (k : unit -> M unit) l1 l2 :
  logs m l1 -> (forall u, logs (k u) l2) -> logs (m ≫= k) (l1 ++ l2).
Proof.
  intros Hm Hk w. unfold mbind, M_bind, bind.
  specialize (Hm w). destruct (m w) as [[[]|ex] w'] eqn:E; simpl in *.
  - intros H. rewrite (Hk tt w' H), Hm by reflexivity. now rewrite app_assoc.
  - discriminate.
Qed.

Lemma logs_lift_bind {A} (r : result A) (k : A -> M unit) l :
  (forall a, r = Ok a -> logs (k a) l) -> logs (lift r ≫= k) l.
Proof.
  intros Hk w. unfold mbind, M_bind, bind, lift.
  destruct r as [a|ex]; simpl; [apply Hk; reflexivity | discriminate].
Qed.

Lemma logs_for_each {A} (body : A -> M unit) (plan : A -> list (string * string)) xs :
  (forall x, logs (body x) (plan x)) -> logs (for_each xs body) (flat_map plan xs).
Proof.
  intros Hb. induction xs as [|x xs IH]; simpl.
  - apply logs_ret.
  - apply logs_bind; [apply Hb | intros _; exact IH].
Qed.

Lemma logs_for_each_counting {A} (body : A -> Z -> M unit)
    (plan : A -> list (string * string)) xs :
  (forall x c, logs (body x c) (plan x)) ->
  forall c, logs (for_each_counting xs c body) (flat_map plan xs).
Proof.
  intros Hb. induction xs as [|x xs IH]; intros c; simpl.
  - apply logs_ret.
  - apply logs_bind; [apply Hb | intros _; apply IH].
Qed.

Lemma succeeds_ret P : succeeds P (mret tt).
Proof. intros w H. simpl. auto. Qed.

Lemma succeeds_bind P (m : M unit) (k : unit -> M unit) :
  succeeds P m -> (forall u, succeeds P (k u)) -> succeeds P (m ≫= k).
Proof.
  intros Hm Hk w HP. unfold mbind, M_bind, bind.
  destruct (Hm w HP) as [H1 H2]. destruct (m w) as [[[]|ex] w'] eqn:E; simpl in *.
  - apply Hk, H2.
  - discriminate.
Qed.

Lemma succeeds_lift_bind {A} P (r : result A) (k : A -> M unit) a :
  r = Ok a -> succeeds P (k a) -> succeeds P (lift r ≫= k).
Proof. intros -> Hk w HP. unfold mbind, M_bind, bind, lift. simpl. now apply Hk. Qed.

Lemma succeeds_for_each {A} P (body : A -> M unit) xs :
  (forall x, In x xs -> succeeds P (body x)) -> succeeds P (for_each xs body).
Proof.
  induction xs as [|x xs IH]; intros Hb; simpl.
  - apply succeeds_ret.
  - apply succeeds_bind; [apply Hb; now left | intros _; apply IH].
    intros y Hy. apply Hb. now right.
Qed.

Lemma succeeds_for_each_counting {A} P (body : A -> Z -> M unit) xs :
  (forall x c, succeeds P (body x c)) -> forall c, succeeds P (for_each_counting xs c body).
Proof.
  intros Hb. induction xs as [|x xs IH]; intros c; simpl.
  - apply succeeds_ret.
  - apply succeeds_bind; [apply Hb | intros _; apply IH].
Qed.

Lemma flat_map_filter {A B} (P : A -> bool) (f : A -> list B) (l : list A) :
  flat_map f (List.filter P l) = flat_map (fun x => if P x then f x else []) l.
Proof.
  induction l as [|x l IH]; [reflexivity|].
  cbn [List.filter flat_map]. destruct (P x); cbn [flat_map]; now rewrite IH.
Qed.

(** ** The downloader: traces of one file *)

Lemma read_loop_calls sp sized broken body p w :
  calls (snd (read_loop sp sized broken body p w)) = calls w.
Proof.
  funelim (read_loop sp sized broken body p w).
  - reflexivity.
  - destruct (read_breaks blocksize body broken); reflexivity.
  - clear Heqcall. destruct (read_breaks blocksize body broken); [reflexivity|].
    unfold_M. simpl.
    destruct (len =? 0); simpl; [reflexivity|].
    match goal with
    | |- context [read_loop ?a ?b ?c ?d ?e ?f] =>
        specialize (H (Ok tt) w tt (Ok tt) f tt)
    end.
    exact H.
Qed.

Lemma attempt_calls e url sp w : calls (snd (attempt e url sp w)) = calls w.
Proof.
  unfold attempt, fetch. unfold_M.
  destruct (remote e url) as [| |len body broken]; simpl; try reflexivity.
  destruct (if truthy_opt len then _ else _) as [sized|ex]; simpl.
  - destruct (open_error _ sp) as [oex|]; simpl;
      [destruct (decide (oex = HTTPError)); reflexivity|].
    match goal with
    | |- context [read_loop ?a ?b ?c ?d ?e ?f] =>
        pose proof (read_loop_calls a b c d e f) as H;
        destruct (read_loop a b c d e f) as [r w']
    end.
    simpl in H. destruct r as [[]|ex]; simpl; [exact H|].
    destruct (decide (ex = HTTPError)); simpl; exact H.
  - destruct (decide (ex = HTTPError)); reflexivity.
Qed.

Lemma download_file_logs e bp fn dr folder :
  logs (download_file e bp fn dr folder) [(bp, fn)].
Proof.
  intros w _. rewrite download_file_unfold. simpl.
  destruct (os_path_exists w _); [reflexivity|].
  rewrite attempt_calls. destruct (os_path_exists w _); reflexivity.
Qed.

(** an HTTP error is caught *)
Lemma attempt_http_error e url sp w :
  remote e url = RespHTTPError ->
  attempt e url sp w =
    (Ok tt, mkworld (files w) (dirs w) (requests w ++ [url]) (calls w)
              (stdout w ++ [(nl +:+ "File not found: " +:+ url) +:+ nl])).
Proof. intros Hr. unfold attempt, fetch. unfold_M. rewrite Hr. reflexivity. Qed.

Lemma download_file_http_error e bp fn dr folder w :
  remote e (get_download_url (bp +:+ fn)) = RespHTTPError ->
  fst (download_file e bp fn dr folder w) = Ok tt
  /\ files (snd (download_file e bp fn dr folder w)) = files w
  /\ (os_path_exists w (save_path_of e bp fn folder) = false ->
      requests (snd (download_file e bp fn dr folder w))
      = requests w ++ [get_download_url (bp +:+ fn)]).
Proof.
  intros Hr. rewrite download_file_unfold. simpl.
  destruct (os_path_exists w (save_path_of e bp fn folder)); simpl.
  - repeat split. discriminate.
  - rewrite (attempt_http_error _ _ _ _ Hr). simpl.
    destruct (os_path_exists w _); simpl; auto.
Qed.

(** ** The downloader: daily klines *)

Lemma valid_daily_intervals_spec intervals i :
  In i (valid_daily_intervals intervals) <-> In i intervals /\ In i DAILY_INTERVALS.
Proof.
  unfold valid_daily_intervals.
  rewrite <- list_elem_of_In, elem_of_elements, elem_of_intersection,
    !elem_of_list_to_set, !list_elem_of_In.
  reflexivity.
Qed.

Lemma valid_daily_intervals_NoDup intervals : List.NoDup (valid_daily_intervals intervals).
Proof. unfold valid_daily_intervals. apply NoDup_ListNoDup. apply NoDup_elements. Qed.

(** the loop over the dates of one symbol and one interval *)
Lemma daily_klines_logs e trading_type symbols num_symbols intervals dates
    sd ed folder checksum start_ end_ :
  effective_start sd = Ok start_ ->
  effective_end e ed = Ok end_ ->
  logs (download_daily_klines e trading_type symbols num_symbols intervals dates
          sd ed folder checksum)
       (daily_kline_downloads trading_type symbols (valid_daily_intervals intervals) dates
          start_ end_ checksum).
Proof.
  intros Hs He. unfold download_daily_klines, effective_start, effective_end in *.
  apply logs_lift_bind. intros a Ha. rewrite Hs in Ha. injection Ha as <-.
  apply logs_lift_bind. intros a Ha. rewrite He in Ha. injection Ha as <-.
  change (daily_kline_downloads trading_type symbols (valid_daily_intervals intervals) dates
            start_ end_ checksum)
    with ([] ++ daily_kline_downloads trading_type symbols (valid_daily_intervals intervals)
                  dates start_ end_ checksum).
  apply logs_bind; [apply logs_print|]. intros _.
  unfold daily_kline_downloads.
  apply logs_for_each_counting. intros symbol current.
  match goal with |- logs _ ?l => change l with ([] ++ l) end.
  apply logs_bind; [apply logs_print|]. intros _.
  apply logs_for_each. intros interval.
  rewrite flat_map_filter.
  apply logs_for_each. intros date.
  apply logs_lift_bind. intros current_date Hd.
  unfold in_date_range. rewrite Hd.
  destruct (date_le start_ current_date && date_le current_date end_).
  - change (kline_zip trading_type symbol interval date
              :: (if checksum =? 1 then [kline_checksum trading_type symbol interval date] else []))
      with ([kline_zip trading_type symbol interval date]
              ++ (if checksum =? 1 then [kline_checksum trading_type symbol interval date] else [])).
    apply logs_bind; [apply download_file_logs|]. intros _.
    destruct (checksum =? 1); [apply download_file_logs | apply logs_ret].
  - apply logs_ret.
Qed.

Lemma succeeds_print P s : ignores_stdout P -> succeeds P (print s).
Proof. intros HP w H. split; [reflexivity|]. apply HP, H. Qed.

Lemma valid_daily_intervals_none intervals :
  Forall (fun i => ~ In i DAILY_INTERVALS) intervals -> valid_daily_intervals intervals = [].
Proof.
  intros H. destruct (valid_daily_intervals intervals) as [|i l] eqn:E; [reflexivity|].
  assert (Hi : In i (valid_daily_intervals intervals)) by (rewrite E; now left).
  apply valid_daily_intervals_spec in Hi as [Hi Hd].
  rewrite Forall_forall in H. destruct (H i); [|exact Hd].
  now apply list_elem_of_In.
Qed.

Lemma valid_daily_intervals_filter intervals :
  valid_daily_intervals (List.filter is_daily intervals) = valid_daily_intervals intervals.
Proof.
  unfold valid_daily_intervals. f_equal. apply leibniz_equiv. intros i.
  rewrite !elem_of_intersection, !elem_of_list_to_set, !list_elem_of_In, filter_In.
  unfold is_daily. rewrite bool_decide_eq_true, list_elem_of_In. tauto.
Qed.

(** C2. An HTTP error of the archive (a file that is not there) is caught:
    [download_file] returns normally and stores nothing, after it has asked
    for the file when the file was not on disk. The loops around it go on:
    against an archive that answers every request with an HTTP error,
    [download_daily_klines] still returns normally and has called
    [download_file] for every file of the request. *)
Theorem http_error_is_not_fatal :
  (forall e base_path file_name date_range folder w,
      remote e (get_download_url (base_path +:+ file_name)) = RespHTTPError ->
      fst (download_file e base_path file_name date_range folder w) = Ok tt
      /\ files (snd (download_file e base_path file_name date_range folder w)) = files w
      /\ (os_path_exists w (save_path_of e base_path file_name folder) = false ->
          requests (snd (download_file e base_path file_name date_range folder w))
          = requests w ++ [get_download_url (base_path +:+ file_name)]))
  /\ (forall e trading_type symbols num_symbols intervals dates sd ed folder checksum w
        start_ end_,
      (forall url, remote e url = RespHTTPError) ->
      effective_start sd = Ok start_ ->
      effective_end e ed = Ok end_ ->
      Forall (fun d => exists current_date, convert_to_date_object d = Ok current_date) dates ->
      fst (download_daily_klines e trading_type symbols num_symbols intervals dates
             sd ed folder checksum w) = Ok tt
      /\ files (snd (download_daily_klines e trading_type symbols num_symbols intervals dates
                       sd ed folder checksum w)) = files w
      /\ calls (snd (download_daily_klines e trading_type symbols num_symbols intervals dates
                       sd ed folder checksum w))
         = calls w ++ daily_kline_downloads trading_type symbols
                        (valid_daily_intervals intervals) dates start_ end_ checksum).
Proof.
  split; [intros; now apply download_file_http_error|].
  intros e trading_type symbols num_symbols intervals dates sd ed folder checksum w
    start_ end_ Hr Hs He Hdates.
  set (P := fun w' : world => files w' = files w).
  assert (HP : ignores_stdout P) by (intros w' t H; exact H).
  assert (Hdl : forall bp fn dr, succeeds P (download_file e bp fn dr folder)).
  { intros bp fn dr w' Hw'.
    destruct (download_file_http_error e bp fn dr folder w' (Hr _)) as (H1 & H2 & _).
    split; [exact H1|]. unfold P in *. congruence. }
  assert (Hrun : succeeds P (download_daily_klines e trading_type symbols num_symbols
                               intervals dates sd ed folder checksum)).
  { unfold download_daily_klines, effective_start, effective_end in *.
    eapply succeeds_lift_bind; [exact Hs|].
    eapply succeeds_lift_bind; [exact He|].
    apply succeeds_bind; [now apply succeeds_print|]. intros _.
    apply succeeds_for_each_counting. intros symbol current.
    apply succeeds_bind; [now apply succeeds_print|]. intros _.
    apply succeeds_for_each. intros interval _.
    apply succeeds_for_each. intros date Hin.
    rewrite List.Forall_forall in Hdates. destruct (Hdates date Hin) as [cd Hcd].
    eapply succeeds_lift_bind; [exact Hcd|].
    destruct (date_le start_ cd && date_le cd end_); [|apply succeeds_ret].
    apply succeeds_bind; [apply Hdl|]. intros _.
    destruct (checksum =? 1); [apply Hdl | apply succeeds_ret]. }
  destruct (Hrun w eq_refl) as [Hok Hfiles].
  split; [exact Hok|]. split; [exact Hfiles|].
  now apply (daily_klines_logs e trading_type symbols num_symbols intervals dates
               sd ed folder checksum start_ end_ Hs He w).
Qed.

(** C3, amended. A run of [download_daily_klines] that returns normally has
    called [download_file] exactly for the files of the request, in the
    order of the loops: for each symbol, each interval that is both
    requested and a daily interval (taken once, however often it was
    requested) and each requested date between the start and the end date,
    the archive SYMBOL-interval-date.zip under the resolver's path, followed
    by its checksum file when [checksum] is 1; nothing for other intervals
    and nothing for dates out of range. *)
Theorem daily_klines_downloads :
  forall e trading_type symbols num_symbols intervals dates sd ed folder checksum w
    start_ end_,
    effective_start sd = Ok start_ ->
    effective_end e ed = Ok end_ ->
    fst (download_daily_klines e trading_type symbols num_symbols intervals dates
           sd ed folder checksum w) = Ok tt ->
    calls (snd (download_daily_klines e trading_type symbols num_symbols intervals dates
                  sd ed folder checksum w))
    = calls w ++ daily_kline_downloads trading_type symbols
                   (valid_daily_intervals intervals) dates start_ end_ checksum
    /\ List.NoDup (valid_daily_intervals intervals)
    /\ (forall i, In i (valid_daily_intervals intervals)
                  <-> In i intervals /\ In i DAILY_INTERVALS).
Proof.
  intros e trading_type symbols num_symbols intervals dates sd ed folder checksum w
    start_ end_ Hs He Hok.
  split; [now apply (daily_klines_logs e trading_type symbols num_symbols intervals dates
                       sd ed folder checksum start_ end_ Hs He w)|].
  split; [apply valid_daily_intervals_NoDup | apply valid_daily_intervals_spec].
Qed.

(** C3 as worded fails: a weekly interval is requested for a date in range
    and nothing is downloaded for it. *)
Lemma weekly_interval_is_not_downloaded : ~ downloads_every_requested_triple.
Proof.
  intros H.
  specialize (H offline_env "spot" ["BTCUSDT"] 1 ["1w"] ["2021-11-01"]
                (Some "2021-11-01") (Some "2021-11-02") None 0 fresh_world
                (mkdate 2021 11 1) (mkdate 2021 11 2) eq_refl eq_refl eq_refl
                "BTCUSDT" "1w" "2021-11-01").
  vm_compute in H. apply H; auto.
Qed.

(** C9. [download_daily_klines] drops the requested intervals that are not
    daily intervals without a word: the run is the run of the request
    without them, and a request of such intervals alone returns normally
    and has called [download_file] for no symbol and no date; it has opened
    no connection and stored nothing. *)
Theorem daily_klines_ignores_other_intervals :
  forall e trading_type symbols num_symbols intervals dates sd ed folder checksum,
    (forall w,
        download_daily_klines e trading_type symbols num_symbols intervals dates
          sd ed folder checksum w
        = download_daily_klines e trading_type symbols num_symbols
            (List.filter is_daily intervals) dates sd ed folder checksum w)
    /\ (forall w start_ end_,
        effective_start sd = Ok start_ ->
        effective_end e ed = Ok end_ ->
        Forall (fun i => ~ In i DAILY_INTERVALS) intervals ->
        let w' := snd (download_daily_klines e trading_type symbols num_symbols intervals
                         dates sd ed folder checksum w) in
        fst (download_daily_klines e trading_type symbols num_symbols intervals dates
               sd ed folder checksum w) = Ok tt
        /\ calls w' = calls w /\ requests w' = requests w
        /\ files w' = files w /\ dirs w' = dirs w).
Proof.
  intros e trading_type symbols num_symbols intervals dates sd ed folder checksum.
  split.
  - intros w. unfold download_daily_klines.
    now rewrite valid_daily_intervals_filter.
  - intros w start_ end_ Hs He Hnone w'. subst w'.
    set (P := fun w' : world =>
                calls w' = calls w /\ requests w' = requests w
                /\ files w' = files w /\ dirs w' = dirs w).
    assert (HP : ignores_stdout P) by (intros w' t H; exact H).
    assert (Hrun : succeeds P (download_daily_klines e trading_type symbols num_symbols
                                 intervals dates sd ed folder checksum)).
    { unfold download_daily_klines, effective_start, effective_end in *.
      eapply succeeds_lift_bind; [exact Hs|].
      eapply succeeds_lift_bind; [exact He|].
      rewrite (valid_daily_intervals_none intervals Hnone).
      apply succeeds_bind; [now apply succeeds_print|]. intros _.
      apply succeeds_for_each_counting. intros symbol current.
      apply succeeds_bind; [now apply succeeds_print|]. intros _.
      apply succeeds_ret. }
    apply Hrun. unfold P. auto.
Qed.

(** ** Collation of trades *)

Lemma wrap64_small z : - 2 ^ 63 <= z < 2 ^ 63 -> wrap64 z = z.
Proof. intros H. unfold wrap64. rewrite Z.mod_small; lia. Qed.

Lemma floor_time_int64 t : int64_time t -> floor_time t = floor10s t.
Proof.
  unfold int64_time, floor_time, floor10s. intros H.
  assert (H1 : - 2 ^ 63 <= t / 10000 < 2 ^ 63).
  { split; [apply Z.div_le_lower_bound; lia | apply Z.div_lt_upper_bound; lia]. }
  pose proof (Z.mul_div_le t 10000 ltac:(lia)) as H2.
  pose proof (Z.mul_succ_div_gt t 10000 ltac:(lia)) as H3.
  rewrite (wrap64_small (t / 10000)) by exact H1.
  rewrite wrap64_small; lia.
Qed.

Lemma insert_key_In k x ks : In k (insert_key x ks) <-> k = x \/ In k ks.
Proof.
  induction ks as [|k' ks IH]; simpl; [intuition congruence|].
  destruct (x <? k') eqn:E1; simpl; [intuition congruence|].
  destruct (x =? k') eqn:E2; simpl.
  - apply Z.eqb_eq in E2. subst. intuition congruence.
  - rewrite IH. intuition congruence.
Qed.

Lemma insert_key_sorted x ks :
  StronglySorted Z.lt ks -> StronglySorted Z.lt (insert_key x ks).
Proof.
  induction ks as [|k' ks IH]; intros Hs; simpl.
  - constructor; constructor.
  - inversion Hs as [|? ? Hs' Hall]; subst.
    destruct (x <? k') eqn:E1.
    + apply Z.ltb_lt in E1. constructor; [exact Hs|].
      constructor; [exact E1|].
      eapply List.Forall_impl; [|exact Hall]. simpl. intros; lia.
    + destruct (x =? k') eqn:E2; [exact Hs|].
      apply Z.ltb_ge in E1. apply Z.eqb_neq in E2.
      constructor; [apply IH, Hs'|].
      apply List.Forall_forall. intros k Hk. apply insert_key_In in Hk as [->|Hk]; [lia|].
      rewrite List.Forall_forall in Hall. now apply Hall.
Qed.

Lemma group_keys_In ts k : In k (group_keys ts) <-> In k ts.
Proof.
  induction ts as [|t ts IH]; simpl; [tauto|].
  rewrite insert_key_In, IH. intuition congruence.
Qed.

Lemma group_keys_sorted ts : StronglySorted Z.lt (group_keys ts).
Proof.
  induction ts as [|t ts IH]; simpl; [constructor | now apply insert_key_sorted].
Qed.

Lemma filter_map_comm {A B} (P : B -> bool) (f : A -> B) (l : list A) :
  List.filter P (map f l) = map f (List.filter (fun x => P (f x)) l).
Proof.
  induction l as [|x l IH]; [reflexivity|].
  simpl. destruct (P (f x)); simpl; now rewrite IH.
Qed.

Lemma filter_ext_In {A} (P Q : A -> bool) (l : list A) :
  (forall x, In x l -> P x = Q x) -> List.filter P l = List.filter Q l.
Proof.
  induction l as [|x l IH]; intros H; [reflexivity|].
  simpl. rewrite (H x) by now left. rewrite IH; [reflexivity|].
  intros y Hy. apply H. now right.
Qed.

Lemma rows_of_range_index {R} (rows : list R) : rows_of (range_index rows) = rows.
Proof.
  unfold rows_of, range_index.
  assert (H : forall (l : list Z), List.length l = List.length rows ->
                map snd (combine l rows) = rows).
  { induction rows as [|r rows IH]; intros [|z l] Hl; try discriminate; [reflexivity|].
    simpl. f_equal. apply IH. simpl in Hl. lia. }
  apply H. now rewrite length_map, length_seq.
Qed.

(** the rows [groupby] aggregates, for the floored rows of a file *)
Lemma groupby_floored symbol trades :
  Forall (fun r => int64_time (t_time r)) trades ->
  groupby_time_agg symbol (map (fun r => set_time r (floor_time (t_time r))) trades)
  = map (fun k =>
           let group := trades_in_bucket trades k in
           mkbucket k (Qmean (map t_price group)) (Qsum (map t_qty group))
                    (Qsum (map t_quoteQty group)) symbol)
        (group_keys (map (fun r => floor10s (t_time r)) trades)).
Proof.
  intros Hep. unfold groupby_time_agg. rewrite map_map. simpl.
  rewrite List.Forall_forall in Hep.
  assert (Hk : map (fun r => floor_time (t_time r)) trades
               = map (fun r => floor10s (t_time r)) trades).
  { apply map_ext_in. intros r Hr. apply floor_time_int64, Hep, Hr. }
  rewrite Hk. apply map_ext. intros k.
  rewrite filter_map_comm. simpl.
  assert (Hf : List.filter (fun r => floor_time (t_time r) =? k) trades
               = trades_in_bucket trades k).
  { apply filter_ext_In. intros r Hr. now rewrite floor_time_int64 by apply Hep, Hr. }
  rewrite Hf, !map_map. reflexivity.
Qed.

(** C4. For the trades read from a file, whose times are milliseconds held
    in an [int64], [trade_data_collation] returns one row for each ten-second
    bucket that holds a trade: the time of the row is the time of these
    trades floored to a multiple of 10000, its price is the arithmetic mean
    of their prices, its [qty] and [quoteQty] are the sums of theirs; and
    every trade of the file falls in exactly one row, the rows being in
    ascending order of their distinct times. *)
Theorem trade_data_collation_buckets :
  forall dk filename symbol (limit_rows : bool) nrows df,
    read_csv_trades dk filename (if limit_rows then Some nrows else None) = Ok df ->
    Forall (fun r => int64_time (t_time r)) (rows_of df) ->
    exists out,
      trade_data_collation dk filename symbol limit_rows nrows = Ok out
      /\ (forall o, In o (rows_of out) ->
            let group := trades_in_bucket (rows_of df) (b_time o) in
            group <> []
            /\ b_time o mod 10000 = 0
            /\ (forall r, In r group -> b_time o = floor10s (t_time r)
                                        /\ b_time o <= t_time r < b_time o + 10000)
            /\ b_price o = (Qsum (map t_price group)
                            / inject_Z (Z.of_nat (List.length group)))%Q
            /\ b_qty o = Qsum (map t_qty group)
            /\ b_quoteQty o = Qsum (map t_quoteQty group)
            /\ b_symbol o = symbol)
      /\ (forall r, In r (rows_of df) ->
            exists o, In o (rows_of out)
                      /\ In r (trades_in_bucket (rows_of df) (b_time o))
                      /\ forall o', In o' (rows_of out) ->
                                    In r (trades_in_bucket (rows_of df) (b_time o')) ->
                                    o' = o)
      /\ StronglySorted Z.lt (map b_time (rows_of out)).
Proof.
  intros dk filename symbol limit_rows nrows df Hread Hep.
  unfold trade_data_collation.
  assert (Hread' : (if limit_rows then read_csv_trades dk filename (Some nrows)
                    else read_csv_trades dk filename None) = Ok df)
    by (destruct limit_rows; exact Hread).
  rewrite Hread'. simpl. eexists. split; [reflexivity|].
  rewrite rows_of_range_index, (groupby_floored symbol (rows_of df) Hep).
  set (trades := rows_of df) in *.
  set (keys := group_keys (map (fun r => floor10s (t_time r)) trades)).
  assert (Hmem : forall r k, In r (trades_in_bucket trades k)
                             <-> In r trades /\ floor10s (t_time r) = k).
  { intros r k. unfold trades_in_bucket. rewrite filter_In, Z.eqb_eq. tauto. }
  split; [|split].
  - intros o Ho. apply in_map_iff in Ho as [k [<- Hk]]. simpl.
    apply group_keys_In, in_map_iff in Hk as [r0 [Hr0 Hin0]].
    split; [|split; [|split]].
    + intros Hnil. assert (Hin : In r0 (trades_in_bucket trades k)) by (apply Hmem; auto).
      rewrite Hnil in Hin. destruct Hin.
    + subst k. unfold floor10s. rewrite Z.mul_comm. apply Z.mod_mul. lia.
    + intros r Hr. apply Hmem in Hr as [_ <-]. split; [reflexivity|].
      unfold floor10s. pose proof (Z.mul_div_le (t_time r) 10000).
      pose proof (Z.mul_succ_div_gt (t_time r) 10000). lia.
    + unfold Qmean. rewrite length_map. auto.
  - intros r Hr.
    exists (let group := trades_in_bucket trades (floor10s (t_time r)) in
            mkbucket (floor10s (t_time r)) (Qmean (map t_price group)) (Qsum (map t_qty group))
                     (Qsum (map t_quoteQty group)) symbol).
    split; [|split].
    + apply in_map_iff. exists (floor10s (t_time r)). split; [reflexivity|].
      apply group_keys_In, in_map_iff. eauto.
    + simpl. apply Hmem. auto.
    + intros o' Ho' Hr'. apply in_map_iff in Ho' as [k [<- Hk]]. simpl in Hr'.
      apply Hmem in Hr' as [_ <-]. reflexivity.
  - rewrite map_map. simpl. rewrite map_id. apply group_keys_sorted.
Qed.

(** ** Assembled tables *)

Lemma bind_result_Ok {A B} (r : result A) (k : A -> result B) b :
  bind_result r k = Ok b -> exists a, r = Ok a /\ k a = Ok b.
Proof. destruct r as [a|ex]; simpl; [eauto | discriminate]. Qed.

Lemma insert_by_keys {R} (key : R -> Z) x (l : frame R) :
  forall k, In k (map key (rows_of (insert_by key x l)))
            <-> k = key (snd x) \/ In k (map key (rows_of l)).
Proof.
  unfold rows_of. induction l as [|y l IH]; intros k; simpl; [intuition congruence|].
  destruct (key (snd x) <=? key (snd y)); simpl; [intuition congruence|].
  rewrite IH. intuition congruence.
Qed.

Lemma insert_by_sorted {R} (key : R -> Z) x (l : frame R) :
  StronglySorted Z.le (map key (rows_of l)) ->
  StronglySorted Z.le (map key (rows_of (insert_by key x l))).
Proof.
  induction l as [|y l IH]; intros Hs; simpl.
  - constructor; constructor.
  - change (map key (rows_of (y :: l))) with (key (snd y) :: map key (rows_of l)) in Hs.
    inversion Hs as [|? ? Hs' Hall]; subst.
    destruct (key (snd x) <=? key (snd y)) eqn:E.
    + apply Z.leb_le in E.
      change (StronglySorted Z.le (key (snd x) :: key (snd y) :: map key (rows_of l))).
      constructor; [exact Hs|]. constructor; [exact E|].
      eapply List.Forall_impl; [|exact Hall]. simpl. intros; lia.
    + apply Z.leb_gt in E.
      change (StronglySorted Z.le (key (snd y) :: map key (rows_of (insert_by key x l)))).
      constructor; [apply IH, Hs'|].
      apply List.Forall_forall. intros k Hk. apply insert_by_keys in Hk as [->|Hk]; [lia|].
      rewrite List.Forall_forall in Hall. now apply Hall.
Qed.

Lemma sort_values_sorted {R} (df : option (frame R)) (key : R -> Z) f :
  sort_values df key = Ok f -> StronglySorted Z.le (map key (rows_of f)).
Proof.
  destruct df as [g|]; simpl; [|discriminate]. intros [= <-].
  induction g as [|x g IH]; simpl; [constructor | now apply insert_by_sorted].
Qed.

Lemma dict_get_keys {V} (d : pydict V) k :
  In k (dict_keys d) -> exists v, dict_get d k = Ok v.
Proof.
  induction d as [|[k' v'] d IH]; simpl; [tauto|].
  intros [->|H].
  - rewrite String.eqb_refl. eauto.
  - destruct (String.eqb k' k); eauto.
Qed.

(** a loop whose steps all succeed and leave a frame with columns *)
Lemma for_fold_frames {A R} (body : A -> option (frame R) -> result (option (frame R))) xs :
  (forall x st, In x xs -> exists f, body x st = Ok (Some f)) ->
  forall st, (xs <> [] \/ st <> None) ->
  exists f, for_fold xs st body = Ok (Some f).
Proof.
  induction xs as [|x xs IH]; intros Hb st Hne; simpl.
  - destruct Hne as [H|H]; [congruence|]. destruct st; [eauto | congruence].
  - destruct (Hb x st (or_introl eq_refl)) as [f Hf]. rewrite Hf. simpl.
    apply IH; [|right; discriminate].
    intros y st' Hy. apply Hb. now right.
Qed.

(** C5. The table a request returns is ordered in time: the rows of
    [get_binance_kline_data] are in non-decreasing order of ['close time'],
    those of [get_binance_trade_data] in non-decreasing order of ['time'],
    whatever the files on disk hold and in whatever order they were read.
    A table is returned whenever the request names at least one file and
    every file it names can be read. *)
Theorem assembled_tables_are_time_ordered :
  forall cwd dk start_date end_date,
    (forall symbol_data_required f,
        get_binance_kline_data cwd dk start_date end_date symbol_data_required = Ok f ->
        StronglySorted Z.le (map k_close_time (rows_of f)))
    /\ (forall symbols f,
        get_binance_trade_data cwd dk start_date end_date symbols = Ok f ->
        StronglySorted Z.le (map b_time (rows_of f)))
    /\ (forall symbol_data_required filepaths,
        downloaded_filepaths cwd "klines" start_date end_date symbol_data_required
          = Ok filepaths ->
        filepaths <> [] ->
        (forall p, In p (dict_keys filepaths) -> kline_files dk p <> None) ->
        exists f,
          get_binance_kline_data cwd dk start_date end_date symbol_data_required = Ok f)
    /\ (forall symbols filepaths,
        downloaded_filepaths cwd "trades" start_date end_date
          (fold_left (fun d symbol => dict_set d symbol []) symbols []) = Ok filepaths ->
        filepaths <> [] ->
        (forall p, In p (dict_keys filepaths) -> trade_files dk p <> None) ->
        exists f, get_binance_trade_data cwd dk start_date end_date symbols = Ok f).
Proof.
  intros cwd dk sd ed. repeat split.
  - intros req f H. unfold get_binance_kline_data in H.
    apply bind_result_Ok in H as (fps & _ & H).
    apply bind_result_Ok in H as (kd & _ & H).
    now apply sort_values_sorted in H.
  - intros symbols f H. unfold get_binance_trade_data in H.
    apply bind_result_Ok in H as (fps & _ & H).
    apply bind_result_Ok in H as (kd & _ & H).
    now apply sort_values_sorted in H.
  - intros req fps Hfps Hne Hread. unfold get_binance_kline_data. rewrite Hfps. simpl.
    match goal with
    | |- context [for_fold ?xs ?st0 ?body] =>
        assert (Hg : exists g, for_fold xs st0 body = Ok (Some g));
          [apply for_fold_frames | destruct Hg as [g Hg]]
    end.
    + intros p st Hp. unfold read_csv_klines.
      destruct (kline_files dk p) as [rows|] eqn:E; [|now destruct (Hread p Hp)].
      destruct (dict_get_keys fps p Hp) as [v Hv]. simpl. rewrite Hv. simpl.
      destruct st; simpl; eauto.
    + left. destruct fps; [congruence | discriminate].
    + rewrite Hg. simpl. eauto.
  - intros symbols fps Hfps Hne Hread. unfold get_binance_trade_data. rewrite Hfps. simpl.
    match goal with
    | |- context [for_fold ?xs ?st0 ?body] =>
        assert (Hg : exists g, for_fold xs st0 body = Ok (Some g));
          [apply for_fold_frames | destruct Hg as [g Hg]]
    end.
    + intros p st Hp.
      destruct (dict_get_keys fps p Hp) as [v Hv]. rewrite Hv. simpl.
      unfold trade_data_collation, read_csv_trades.
      destruct (trade_files dk p) as [rows|] eqn:E; [|now destruct (Hread p Hp)].
      simpl. destruct st; simpl; eauto.
    + left. destruct fps; [congruence | discriminate].
    + rewrite Hg. simpl. eauto.
Qed.

(** ** The paths of the downloaded files *)

Lemma dict_set_idem {V} (d : pydict V) k v : dict_set (dict_set d k v) k v = dict_set d k v.
Proof.
  induction d as [|[k' v'] d IH]; simpl.
  - now rewrite String.eqb_refl.
  - destruct (String.eqb k' k) eqn:E; simpl; rewrite E; [reflexivity | now rewrite IH].
Qed.

(** the loop over the dates in the branch of the empty interval list, for a
    type other than ["trades"] *)
Lemma stale_dates_loop cwd type_ symbol (dates : list date) p fps :
  String.eqb type_ "trades" = false ->
  for_fold dates (mklocals (Some p) (dict_set fps p (symbol, None)))
    (fun date st =>
       let date_format := strftime date in
       let filepath' :=
         if String.eqb type_ "trades"
         then Some (file_format cwd type_ symbol symbol type_ date_format)
         else filepath st in
       match filepath' with
       | None => Raise UnboundLocalError
       | Some p => Ok (mklocals (Some p) (dict_set (filepaths st) p (symbol, None)))
       end)
  = Ok (mklocals (Some p) (dict_set fps p (symbol, None))).
Proof.
  intros Ht. rewrite Ht. induction dates as [|d dates IH]; simpl; [reflexivity|].
  rewrite dict_set_idem. exact IH.
Qed.

(** C10, amended. In [downloaded_filepaths], over a date range that is not
    empty, the pass of the loop for a symbol with an empty interval list and
    a type other than ['trades'] never raises the [ValueError] of the other
    branch: its first date reads [filepath]. When the variable was never
    assigned the call fails with [UnboundLocalError], which is what happens
    whenever the symbol is the first of the request; otherwise the path left
    by an earlier symbol is used again and is entered for this symbol. The
    [ValueError] is still raised when the type is neither ['klines'] nor
    ['trades'] and the first symbol has an interval. *)
Theorem empty_interval_list_reads_filepath :
  forall cwd type_ (dates : list date) symbol_data_required symbol,
    type_ <> "trades" ->
    dates <> [] ->
    dict_get symbol_data_required symbol = Ok [] ->
    (forall st,
        symbol_step cwd type_ dates symbol_data_required symbol st
        = match filepath st with
          | None => Raise UnboundLocalError
          | Some stale =>
              Ok (mklocals (Some stale) (dict_set (filepaths st) stale (symbol, None)))
          end)
    /\ (forall start_date end_date start_ end_,
          strptime start_date = Ok start_ ->
          strptime end_date = Ok end_ ->
          date_range start_ end_ = Ok dates ->
          (exists rest, dict_keys symbol_data_required = symbol :: rest) ->
          downloaded_filepaths cwd type_ start_date end_date symbol_data_required
          = Raise UnboundLocalError)
    /\ (forall start_date end_date start_ end_ first interval intervals rest,
          strptime start_date = Ok start_ ->
          strptime end_date = Ok end_ ->
          date_range start_ end_ = Ok dates ->
          type_ <> "klines" ->
          dict_keys symbol_data_required = first :: rest ->
          dict_get symbol_data_required first = Ok (interval :: intervals) ->
          downloaded_filepaths cwd type_ start_date end_date symbol_data_required
          = Raise ValueError).
Proof.
  intros cwd type_ dates req symbol Ht Hd Hget.
  apply String.eqb_neq in Ht.
  assert (Hstep : forall st,
            symbol_step cwd type_ dates req symbol st
            = match filepath st with
              | None => Raise UnboundLocalError
              | Some stale =>
                  Ok (mklocals (Some stale) (dict_set (filepaths st) stale (symbol, None)))
              end).
  { intros st. unfold symbol_step. rewrite Hget. simpl.
    destruct dates as [|d dates]; [congruence|]. simpl. rewrite Ht.
    destruct (filepath st) as [p|]; simpl; [|reflexivity].
    pose proof (stale_dates_loop cwd type_ symbol dates p (filepaths st) Ht) as H.
    rewrite Ht in H. exact H. }
  split; [exact Hstep|]. split.
  - intros sd ed start_ end_ Hs He Hr [rest Hkeys].
    unfold downloaded_filepaths. rewrite Hs, He. simpl. rewrite Hr. simpl.
    rewrite Hkeys. simpl. rewrite Hstep. reflexivity.
  - intros sd ed start_ end_ first i intervals rest Hs He Hr Hk Hkeys Hfirst.
    apply String.eqb_neq in Hk.
    unfold downloaded_filepaths. rewrite Hs, He. simpl. rewrite Hr. simpl.
    rewrite Hkeys. simpl. unfold symbol_step at 1. rewrite Hfirst. simpl.
    destruct dates as [|d dates]; [congruence|]. simpl. rewrite Hk, Ht. reflexivity.
Qed.

(** C10 as worded fails: with an unrecognised type, a symbol with an interval
    ahead of the symbol with the empty list raises the [ValueError]. *)
Lemma value_error_ahead_of_empty_interval_list :
  ~ empty_interval_list_never_raises_ValueError.
Proof.
  intros H.
  apply (H "/home/user" "aggTrades" "2021-11-01" "2021-11-02"
           (mkdate 2021 11 1) (mkdate 2021 11 2) [mkdate 2021 11 1; mkdate 2021 11 2]
           [("AAA", ["1m"]); ("BBB", [])] "BBB");
    try reflexivity; discriminate.
Qed.

(** ** The spread of a cointegration result *)

Lemma index_eqb_refl idx : index_eqb idx idx = true.
Proof. unfold index_eqb. now apply bool_decide_eq_true_2. Qed.

Lemma closes_length (data : frame kline) : List.length (closes data) = List.length (index_of data).
Proof. unfold closes, rows_of, index_of. now rewrite !length_map. Qed.

Lemma nth_zip_with_Qplus (a b : list Q) t :
  (t < List.length a)%nat -> (t < List.length b)%nat ->
  nth t (zip_with Qplus a b) 0%Q = (nth t a 0 + nth t b 0)%Q.
Proof.
  revert b t. induction a as [|x a IH]; intros [|y b] t Ha Hb; simpl in *; try lia.
  destruct t as [|t]; [reflexivity|]. apply IH; lia.
Qed.

Lemma nth_map_scale (l : list Q) c t :
  (t < List.length l)%nat -> nth t (map (fun x => (x * c)%Q) l) 0%Q = (nth t l 0 * c)%Q.
Proof.
  revert t. induction l as [|x l IH]; intros t Ht; simpl in *; [lia|].
  destruct t as [|t]; [reflexivity|]. apply IH. lia.
Qed.

Lemma accumulate_length vals datas cs n :
  List.length vals = n ->
  Forall (fun data => List.length (closes data) = n) datas ->
  List.length (accumulate vals datas cs) = n.
Proof.
  unfold accumulate. revert vals cs.
  induction datas as [|d datas IH]; intros vals cs Hv Hd; [exact Hv|].
  destruct cs as [|c cs]; [exact Hv|]. simpl.
  inversion Hd as [|? ? Hd1 Hd2]; subst.
  apply IH; [|exact Hd2].
  rewrite length_zip_with, length_map. lia.
Qed.

Lemma accumulate_nth vals datas cs n t :
  List.length vals = n ->
  Forall (fun data => List.length (closes data) = n) datas ->
  (t < n)%nat ->
  (nth t (accumulate vals datas cs) 0 == nth t vals 0 + spread_at datas cs t)%Q.
Proof.
  unfold accumulate, spread_at. revert vals cs.
  induction datas as [|d datas IH]; intros vals cs Hv Hd Ht; simpl.
  - ring.
  - destruct cs as [|c cs]; simpl; [ring|].
    inversion Hd as [|? ? Hd1 Hd2]; subst.
    rewrite IH; [| |exact Hd2|exact Ht].
    + rewrite nth_zip_with_Qplus, nth_map_scale by (rewrite ?length_map; lia). ring.
    + rewrite length_zip_with, length_map. lia.
Qed.

(** the loop of [calc_coint_one] once the column ['price'] exists *)
Lemma coint_one_steps cx self evec idx times :
  forall syms datas cs vals count,
    Forall2 (fun symbol data => kline_data_of cx self symbol = Ok data) syms datas ->
    Forall (fun data => index_of data = idx) datas ->
    Forall2 (fun j c => evec_at self evec (Z.of_nat j) = Ok c)
            (seq count (List.length syms)) cs ->
    for_fold syms (mkcframe idx (Some times) [("price", vals)], Z.of_nat count)
      (coint_one_step cx self evec)
    = Ok (mkcframe idx (Some times) [("price", accumulate vals datas cs)],
          Z.of_nat (count + List.length syms)).
Proof.
  induction syms as [|symbol syms IH]; intros datas cs vals count Hd Hi Hc.
  - inversion Hd; subst. simpl. now rewrite Nat.add_0_r.
  - inversion Hd as [|? data ? datas' Hd1 Hd2]; subst.
    simpl in Hc. inversion Hc as [|? c ? cs' Hc1 Hc2]; subst.
    inversion Hi as [|? ? Hi1 Hi2]; subst.
    cbn [for_fold]. unfold coint_one_step at 1.
    rewrite Hd1. cbn [bind_result]. unfold has_column. cbn.
    unfold getitem. cbn. rewrite Hc1. cbn [bind_result].
    unfold series_add, series_scale, close_series. cbn.
    rewrite index_eqb_refl. unfold setitem. cbn. rewrite index_eqb_refl. cbn.
    replace (Z.of_nat count + 1) with (Z.of_nat (S count)) by lia.
    rewrite (IH datas' cs' _ (S count) Hd2 Hi2 Hc2).
    do 3 f_equal. lia.
Qed.

Lemma underlying_traces_ok cx self fig count datas :
  Forall2 (fun symbol data => kline_data_of cx self symbol = Ok data) (symbols self) datas ->
  exists more, underlying_traces cx self fig count = Ok (fig ++ more).
Proof.
  unfold underlying_traces. generalize (symbols self). intros syms. revert fig count datas.
  induction syms as [|symbol syms IH]; intros fig count datas Hd.
  - exists []. simpl. now rewrite app_nil_r.
  - inversion Hd as [|? data ? datas' Hd1 Hd2]; subst.
    cbn [for_fold]. rewrite Hd1. cbn [bind_result].
    destruct (IH (fig ++ [mktrace symbol (map k_close_time (rows_of data))
                            (map k_close (rows_of data)) count]) (count + 1) datas' Hd2)
      as [more Hmore].
    eexists. rewrite <- app_assoc in Hmore. exact Hmore.
Qed.

(** with [include_all_evecs=False] the first trace of the figure is the
    sum, over the symbols, of the closing prices of the symbol times the
    number that [evec[evec][count]] gives for it *)
Lemma coint_plot_spread :
  forall cx self evec include_underlying datas cs idx,
    symbols self <> [] ->
    Forall2 (fun symbol data => kline_data_of cx self symbol = Ok data) (symbols self) datas ->
    Forall (fun data => index_of data = idx) datas ->
    Forall2 (fun count c => evec_at self evec (Z.of_nat count) = Ok c)
            (seq 0 (List.length (symbols self))) cs ->
    exists price rest,
      get_coint_plot cx self false include_underlying evec = Ok (price :: rest)
      /\ tr_name price = "Cointegrating"
      /\ List.length (tr_y price) = List.length idx
      /\ forall t, (t < List.length idx)%nat ->
                   (nth t (tr_y price) 0 == spread_at datas cs t)%Q.
Proof.
  intros cx self evec include_underlying datas cs idx Hne Hd Hi Hc.
  unfold get_coint_plot, calc_coint, calc_coint_one. cbn [negb].
  destruct (symbols self) as [|symbol syms] eqn:Hsyms; [congruence|].
  inversion Hd as [|? data ? datas' Hd1 Hd2]; subst.
  simpl in Hc. inversion Hc as [|? c ? cs' Hc1 Hc2]; subst.
  inversion Hi as [|? ? Hi1 Hi2]; subst.
  cbn [for_fold]. unfold coint_one_step at 1.
  rewrite Hd1. cbn [bind_result]. unfold has_column. cbn.
  change (Z.of_nat 0) with 0 in Hc1. rewrite Hc1. cbn [bind_result].
  unfold setitem, setitem_time, series_scale, close_series. cbn.
  rewrite index_eqb_refl. cbn.
  change (0 + 1) with (Z.of_nat 1).
  rewrite (coint_one_steps cx self evec (index_of data) _ syms datas' cs' _ 1%nat Hd2 Hi2 Hc2).
  cbn [bind_result fst].
  set (vals := accumulate _ datas' cs').
  assert (Hlen : Forall (fun d => List.length (closes d) = List.length (index_of data)) datas').
  { eapply List.Forall_impl; [|exact Hi2]. intros d Hdi. simpl in Hdi.
    now rewrite closes_length, Hdi. }
  assert (Hv0 : List.length (map (fun x => (x * c)%Q) (map k_close (rows_of data)))
                = List.length (index_of data)).
  { rewrite length_map. apply closes_length. }
  unfold plot_coint, coint_traces. cbn.
  assert (Hres :
            tr_name (mktrace "Cointegrating" (map k_close_time (rows_of data)) vals 1)
            = "Cointegrating"
            /\ List.length vals = List.length (index_of data)
            /\ forall t, (t < List.length (index_of data))%nat ->
                 (nth t vals 0 == spread_at (data :: datas') (c :: cs') t)%Q).
  { split; [reflexivity|]. split.
    - unfold vals. now apply accumulate_length.
    - intros t Ht. unfold vals.
      rewrite (accumulate_nth _ datas' cs' _ t Hv0 Hlen Ht).
      unfold spread_at at 2. cbn [combine fold_right fst snd].
      fold (spread_at datas' cs' t).
      rewrite nth_map_scale by (rewrite <- closes_length in Ht; exact Ht).
      reflexivity. }
  destruct include_underlying; cbn [negb].
  - destruct (underlying_traces_ok cx self
                [mktrace "Cointegrating" (map k_close_time (rows_of data)) vals 1] 2
                (data :: datas')) as [more Hmore].
    { rewrite Hsyms. now constructor. }
    rewrite Hmore. simpl. eexists _, more. split; [reflexivity|]. apply Hres.
  - eexists _, []. split; [reflexivity|]. apply Hres.
Qed.

Lemma np_get_nth {A} (a : list A) (j : nat) (dflt : A) :
  (j < List.length a)%nat -> np_get a (Z.of_nat j) = Ok (nth j a dflt).
Proof.
  intros Hj. unfold np_get.
  assert (H1 : (Z.of_nat j <? 0) = false) by (apply Z.ltb_ge; lia).
  rewrite H1.
  assert (H2 : (0 <=? Z.of_nat j) && (Z.of_nat j <? Z.of_nat (List.length a)) = true)
    by (apply andb_true_iff; split; [apply Z.leb_le | apply Z.ltb_lt]; lia).
  rewrite H2, Nat2Z.id.
  destruct (nth_error a j) as [x|] eqn:E.
  - now rewrite (nth_error_nth _ _ _ E).
  - apply nth_error_None in E. lia.
Qed.

(** [evec[k][j]] is the entry of row [k] in column [j] *)
Lemma evec_at_row self (k j : nat) :
  (k < List.length (evec (test_result self)))%nat ->
  (j < List.length (evec_row (test_result self) k))%nat ->
  evec_at self (Z.of_nat k) (Z.of_nat j) = Ok (nth j (evec_row (test_result self) k) 0%Q).
Proof.
  intros Hk Hj. unfold evec_at.
  rewrite (np_get_nth _ k [] Hk). cbn [bind_result].
  apply np_get_nth. exact Hj.
Qed.

Lemma evec_at_rows self (k : nat) row : forall n m,
  (k < List.length (evec (test_result self)))%nat ->
  (m + n <= List.length (evec_row (test_result self) k))%nat ->
  row = evec_row (test_result self) k ->
  Forall2 (fun count c => evec_at self (Z.of_nat k) (Z.of_nat count) = Ok c)
          (seq m n) (firstn n (skipn m row)).
Proof.
  induction n as [|n IH]; intros m Hk Hlen ->; [constructor|].
  cbn [seq].
  assert (Hm : (m < List.length (evec_row (test_result self) k))%nat) by lia.
  destruct (skipn m (evec_row (test_result self) k)) as [|c rest] eqn:E.
  { apply (f_equal (@List.length Q)) in E. rewrite length_skipn in E. simpl in E. lia. }
  cbn [firstn]. constructor.
  - rewrite (evec_at_row self k m Hk Hm). f_equal.
    rewrite <- (firstn_skipn m (evec_row (test_result self) k)) at 1.
    rewrite app_nth2 by (rewrite length_firstn; lia).
    rewrite length_firstn, E.
    replace (m - Nat.min m (List.length (evec_row (test_result self) k)))%nat with 0%nat by lia.
    reflexivity.
  - assert (Hrest : rest = skipn (S m) (evec_row (test_result self) k)).
    { change (S m) with (1 + m)%nat. rewrite <- skipn_skipn, E. reflexivity. }
    rewrite Hrest. apply IH; [exact Hk | lia | reflexivity].
Qed.

Lemma combine_firstn {A B} (l : list A) : forall (l' : list B),
  combine l (firstn (List.length l) l') = combine l l'.
Proof.
  induction l as [|x l IH]; intros l'; [reflexivity|].
  destruct l' as [|y l']; [reflexivity|]. cbn. now rewrite IH.
Qed.

(** C7. The spread that [get_coint_plot] plots with
    [include_all_evecs=False] is weighted by a row of the matrix [evec] of
    the stored test result, not by one of its eigenvectors. When the kline
    tables of the symbols carry the same index, the value of the first
    trace at every row is the sum, over the symbols, of the closing price
    of the symbol at that row times the entry of row [evec] of the matrix
    in the column of the symbol's position, which is component [evec] of
    the eigenvector at the symbol's position. For two symbols with closing
    prices 1, 2 and 10, 20 and the matrix with the rows (1, 2) and (3, 4),
    whose eigenvector 0 is the column (1, 3), the method plots 21, 42
    where the sum weighted by eigenvector 0 is 31, 62. *)
Theorem coint_plot_weights_are_a_row_of_evec :
  (forall cx self (k : nat) include_underlying datas idx,
      symbols self <> [] ->
      Forall2 (fun symbol data => kline_data_of cx self symbol = Ok data) (symbols self) datas ->
      Forall (fun data => index_of data = idx) datas ->
      (k < List.length (evec (test_result self)))%nat ->
      (List.length (symbols self) <= List.length (evec_row (test_result self) k))%nat ->
      exists price rest,
        get_coint_plot cx self false include_underlying (Z.of_nat k) = Ok (price :: rest)
        /\ tr_name price = "Cointegrating"
        /\ List.length (tr_y price) = List.length idx
        /\ forall t, (t < List.length idx)%nat ->
                     (nth t (tr_y price) 0
                      == spread_at datas (evec_row (test_result self) k) t)%Q)
  /\ get_coint_plot sample_context skew_result false false 0
     = Ok [mktrace "Cointegrating" [1635724859999; 1635724919999] [21 # 1; 42 # 1]%Q 1]
  /\ evec_row (test_result skew_result) 0 = [1 # 1; 2 # 1]%Q
  /\ eigenvector (test_result skew_result) 0 = [1 # 1; 3 # 1]%Q
  /\ (spread_at sample_tables (eigenvector (test_result skew_result) 0) 0 == 31 # 1)%Q
  /\ (spread_at sample_tables (eigenvector (test_result skew_result) 0) 1 == 62 # 1)%Q.
Proof.
  split; [|repeat split; vm_compute; reflexivity].
  intros cx self k include_underlying datas idx Hne Hd Hi Hk Hlen.
  assert (Hn : List.length (symbols self) = List.length datas)
    by (eapply Forall2_length; exact Hd).
  destruct (coint_plot_spread cx self (Z.of_nat k) include_underlying datas
              (firstn (List.length (symbols self)) (evec_row (test_result self) k)) idx
              Hne Hd Hi) as (price & rest & Hfig & Hname & Hl & Hsum).
  { apply (evec_at_rows self k (evec_row (test_result self) k) _ 0%nat Hk);
      [exact Hlen | reflexivity]. }
  exists price, rest. split; [exact Hfig|]. split; [exact Hname|]. split; [exact Hl|].
  intros t Ht. rewrite (Hsum t Ht). unfold spread_at.
  rewrite Hn, combine_firstn. reflexivity.
Qed.

(** ** The columns of all the eigenvectors *)

Lemma price_inj i j : price_ i = price_ j -> i = j.
Proof.
  unfold price_. intros H.
  apply (inj (String.append "price_")) in H. now apply (inj pretty) in H.
Qed.

Lemma price_eqb i j : String.eqb (price_ j) (price_ i) = Nat.eqb j i.
Proof.
  destruct (Nat.eqb j i) eqn:E.
  - apply Nat.eqb_eq in E. subst. apply String.eqb_refl.
  - apply Nat.eqb_neq in E. apply String.eqb_neq. intros H. now apply price_inj in H.
Qed.

Lemma dict_set_seq (v : nat -> list Q) i x : forall m a,
  (a <= i < a + m)%nat ->
  dict_set (map (fun j => (price_ j, v j)) (seq a m)) (price_ i) x
  = map (fun j => (price_ j, if Nat.eqb j i then x else v j)) (seq a m).
Proof.
  induction m as [|m IH]; intros a Hi; [lia|].
  cbn [seq map dict_set]. rewrite price_eqb.
  destruct (Nat.eqb a i) eqn:E.
  - apply Nat.eqb_eq in E. subst a. f_equal.
    apply map_ext_in. intros j Hj. apply in_seq in Hj.
    destruct (Nat.eqb j i) eqn:E2; [apply Nat.eqb_eq in E2; lia | reflexivity].
  - apply Nat.eqb_neq in E. f_equal. apply IH. lia.
Qed.

Lemma dict_set_fresh (v : nat -> list Q) x : forall m a,
  dict_set (map (fun j => (price_ j, v j)) (seq a m)) (price_ (a + m)) x
  = map (fun j => (price_ j, if Nat.eqb j (a + m) then x else v j)) (seq a (S m)).
Proof.
  induction m as [|m IH]; intros a.
  - cbn. rewrite Nat.add_0_r, Nat.eqb_refl. reflexivity.
  - cbn [seq map dict_set]. rewrite price_eqb.
    destruct (Nat.eqb a (a + S m)) eqn:E; [apply Nat.eqb_eq in E; lia|].
    f_equal. replace (a + S m)%nat with (S a + m)%nat by lia. apply IH.
Qed.

Lemma dict_get_seq (v : nat -> list Q) i : forall m a,
  (a <= i < a + m)%nat ->
  dict_get (map (fun j => (price_ j, v j)) (seq a m)) (price_ i) = Ok (v i).
Proof.
  induction m as [|m IH]; intros a Hi; [lia|].
  cbn [seq map dict_get]. rewrite price_eqb.
  destruct (Nat.eqb a i) eqn:E.
  - apply Nat.eqb_eq in E. now subst.
  - apply Nat.eqb_neq in E. apply IH. lia.
Qed.

Lemma price_columns_ext n (v v' : nat -> list Q) :
  (forall i, (i < n)%nat -> v i = v' i) -> price_columns n v = price_columns n v'.
Proof.
  intros H. unfold price_columns. apply map_ext_in. intros i Hi.
  apply in_seq in Hi. f_equal. apply H. lia.
Qed.

(** one pass of [for i in range(len(self.symbols))] over columns that exist *)
Lemma set_price_columns_update cx self idx times (v v' : nat -> list Q) column :
  (forall i vc, (i < List.length (symbols self))%nat -> vc i = v i ->
      column (mkcframe idx (Some times) (price_columns (List.length (symbols self)) vc)) i
      = Ok (mkseries idx (v' i))) ->
  set_price_columns cx self
    (mkcframe idx (Some times) (price_columns (List.length (symbols self)) v)) column
  = Ok (mkcframe idx (Some times) (price_columns (List.length (symbols self)) v')).
Proof.
  intros Hcol. unfold set_price_columns, range.
  set (n := List.length (symbols self)) in *.
  assert (Hgen : forall m i, (i + m = n)%nat ->
            for_fold (seq i m)
              (mkcframe idx (Some times)
                 (price_columns n (fun j => if Nat.ltb j i then v' j else v j)))
              (fun i coint =>
                 bind_result (column coint i)
                   (fun s => setitem (ctx_pd cx) coint (price_ i) s))
            = Ok (mkcframe idx (Some times) (price_columns n v'))).
  { induction m as [|m IH]; intros i Hi.
    - simpl. do 2 f_equal. apply price_columns_ext. intros j Hj.
      destruct (Nat.ltb j i) eqn:E; [reflexivity | apply Nat.ltb_ge in E; lia].
    - cbn [seq for_fold].
      rewrite (Hcol i) by (try lia; now rewrite Nat.ltb_irrefl).
      cbn [bind_result]. unfold setitem.
      cbn [c_time c_cols c_index s_index s_values]. rewrite index_eqb_refl.
      unfold price_columns at 1. rewrite dict_set_seq by lia.
      cbn [bind_result].
      rewrite <- (IH (S i)) by lia. do 3 f_equal.
      apply price_columns_ext. intros j Hj.
      destruct (Nat.eqb j i) eqn:E1.
      + apply Nat.eqb_eq in E1. subst j.
        assert (E2 : Nat.ltb i (S i) = true) by (apply Nat.ltb_lt; lia). now rewrite E2.
      + apply Nat.eqb_neq in E1.
        destruct (Nat.ltb j i) eqn:E2.
        * apply Nat.ltb_lt in E2.
          assert (E3 : Nat.ltb j (S i) = true) by (apply Nat.ltb_lt; lia). now rewrite E3.
        * apply Nat.ltb_ge in E2.
          assert (E3 : Nat.ltb j (S i) = false) by (apply Nat.ltb_ge; lia). now rewrite E3. }
  rewrite <- (Hgen n 0%nat) by lia. f_equal.
Qed.

(** the first pass: the columns are created *)
Lemma init_all_columns cx self data count (c : nat -> Q) :
  (forall i, (i < List.length (symbols self))%nat ->
      evec_at self (Z.of_nat i) count = Ok (c i)) ->
  init_all cx self (mkcframe [] None []) data count
  = Ok (mkcframe (index_of data) (Some (map k_close_time (rows_of data)))
          (price_columns (List.length (symbols self)) (fun i => term data (c i)))).
Proof.
  intros Hc. unfold init_all, set_price_columns, setitem_time, range. cbn [c_cols].
  set (n := List.length (symbols self)) in *.
  set (idx := index_of data). set (times := map k_close_time (rows_of data)).
  assert (Hgen : forall m i, (i + m = n)%nat ->
            for_fold (seq i m)
              (mkcframe idx (Some times) (price_columns i (fun i => term data (c i))))
              (fun i coint =>
                 bind_result
                   (bind_result (evec_at self (Z.of_nat i) count)
                      (fun c => Ok (series_scale (close_series data) c)))
                   (fun s => setitem (ctx_pd cx) coint (price_ i) s))
            = Ok (mkcframe idx (Some times) (price_columns n (fun i => term data (c i))))).
  { induction m as [|m IH]; intros i Hi.
    - simpl. now replace i with n by lia.
    - cbn [seq for_fold]. rewrite (Hc i) by lia. cbn [bind_result].
      unfold setitem, series_scale, close_series. cbn.
      fold idx. rewrite index_eqb_refl.
      unfold price_columns at 1.
      pose proof (dict_set_fresh (fun i => term data (c i))
                    (map (fun x => (x * c i)%Q) (map k_close (rows_of data))) i 0) as Hf.
      cbn [Nat.add] in Hf. rewrite Hf. cbn [bind_result].
      rewrite <- (IH (S i)) by lia. do 3 f_equal.
      apply map_ext_in. intros j Hj.
      destruct (Nat.eqb j i) eqn:E; [|reflexivity].
      apply Nat.eqb_eq in E. now subst. }
  exact (Hgen n 0%nat eq_refl).
Qed.

Lemma price_0 : price_ 0 = "price_0".
Proof. reflexivity. Qed.

Lemma has_price_0 idx times n v :
  (0 < n)%nat -> has_column (mkcframe idx times (price_columns n v)) "price_0" = true.
Proof.
  intros Hn. destruct n as [|n]; [lia|].
  unfold has_column, price_columns. cbn [c_cols seq map dict_keys fst existsb].
  rewrite price_0, String.eqb_refl. reflexivity.
Qed.

(** a pass of the loop of src/coint.py once the columns exist: each column
    is replaced by the term of the symbol *)
Lemma coint_all_step_later cx self idx times v symbol data k (c : nat -> Q) :
  (0 < List.length (symbols self))%nat ->
  kline_data_of cx self symbol = Ok data ->
  index_of data = idx ->
  (forall i, (i < List.length (symbols self))%nat ->
      evec_at self (Z.of_nat i) (Z.of_nat k) = Ok (c i)) ->
  coint_all_step cx self symbol
    (mkcframe idx (Some times) (price_columns (List.length (symbols self)) v), Z.of_nat k)
  = Ok (mkcframe idx (Some times)
          (price_columns (List.length (symbols self)) (fun i => term data (c i))),
        Z.of_nat (S k)).
Proof.
  intros Hn Hdata Hidx Hc. unfold coint_all_step. rewrite Hdata. cbn [bind_result].
  rewrite has_price_0 by exact Hn. cbn [negb].
  rewrite (set_price_columns_update cx self idx times v (fun i => term data (c i))).
  - cbn [bind_result]. do 2 f_equal. lia.
  - intros i vc Hi _. rewrite (Hc i Hi). cbn [bind_result].
    unfold series_scale, close_series, term, closes. cbn. now rewrite Hidx.
Qed.

(** a pass of the loop of the packaged copy: the term of the symbol is added
    to each column *)
Lemma packaged_coint_all_step_later cx self idx times v symbol data k (c : nat -> Q) :
  (0 < List.length (symbols self))%nat ->
  kline_data_of cx self symbol = Ok data ->
  index_of data = idx ->
  (forall i, (i < List.length (symbols self))%nat ->
      evec_at self (Z.of_nat i) (Z.of_nat k) = Ok (c i)) ->
  packaged_coint_all_step cx self symbol
    (mkcframe idx (Some times) (price_columns (List.length (symbols self)) v), Z.of_nat k)
  = Ok (mkcframe idx (Some times)
          (price_columns (List.length (symbols self))
             (fun i => zip_with Qplus (v i) (term data (c i)))),
        Z.of_nat (S k)).
Proof.
  intros Hn Hdata Hidx Hc. unfold packaged_coint_all_step. rewrite Hdata. cbn [bind_result].
  rewrite has_price_0 by exact Hn. cbn [negb].
  rewrite (set_price_columns_update cx self idx times v
             (fun i => zip_with Qplus (v i) (term data (c i)))).
  - cbn [bind_result]. do 2 f_equal. lia.
  - intros i vc Hi Hvc. unfold getitem. cbn [c_cols c_index].
    unfold price_columns. rewrite dict_get_seq by lia. cbn [bind_result].
    rewrite (Hc i Hi). cbn [bind_result].
    unfold series_add, series_scale, close_series, term, closes. cbn.
    rewrite Hidx, index_eqb_refl, Hvc. reflexivity.
Qed.

(** the passes for the symbols after the first, for either copy *)
Lemma all_steps_later cx self idx times step F (c : nat -> nat -> Q) :
  (forall symbol data v k,
      kline_data_of cx self symbol = Ok data ->
      index_of data = idx ->
      (forall i, (i < List.length (symbols self))%nat ->
          evec_at self (Z.of_nat i) (Z.of_nat k) = Ok (c i k)) ->
      step symbol
        (mkcframe idx (Some times) (price_columns (List.length (symbols self)) v), Z.of_nat k)
      = Ok (mkcframe idx (Some times)
              (price_columns (List.length (symbols self))
                 (fun i => F (v i) (term data (c i k)))),
            Z.of_nat (S k))) ->
  forall syms datas v k,
    Forall2 (fun symbol data => kline_data_of cx self symbol = Ok data) syms datas ->
    Forall (fun data => index_of data = idx) datas ->
    (forall i j, (i < List.length (symbols self))%nat -> (k <= j < k + List.length syms)%nat ->
        evec_at self (Z.of_nat i) (Z.of_nat j) = Ok (c i j)) ->
    for_fold syms
      (mkcframe idx (Some times) (price_columns (List.length (symbols self)) v), Z.of_nat k)
      step
    = Ok (mkcframe idx (Some times)
            (price_columns (List.length (symbols self))
               (fun i => fold_terms F (v i) datas (c i) k)),
          Z.of_nat (k + List.length syms)).
Proof.
  intros Hstep. induction syms as [|symbol syms IH]; intros datas v k Hd Hi Hc.
  - inversion Hd; subst. cbn. now rewrite Nat.add_0_r.
  - inversion Hd as [|? data ? datas' Hd1 Hd2]; subst.
    inversion Hi as [|? ? Hi1 Hi2]; subst.
    cbn [for_fold]. rewrite (Hstep symbol data v k Hd1 eq_refl).
    + cbn [bind_result]. rewrite (IH datas' _ (S k) Hd2 Hi2).
      * do 3 f_equal. cbn [List.length]. lia.
      * intros i j Hi' Hj. apply Hc; [exact Hi' | cbn [List.length]; lia].
    + intros i Hi'. apply Hc; [exact Hi' | cbn [List.length]; lia].
Qed.

Lemma fold_terms_accumulate v datas (c : nat -> Q) k :
  fold_terms (zip_with Qplus) v datas c k
  = accumulate v datas (map c (seq k (List.length datas))).
Proof.
  unfold fold_terms, accumulate. revert v k.
  induction datas as [|d datas IH]; intros v k; [reflexivity|].
  cbn [List.length seq map combine fold_left fst snd]. apply IH.
Qed.

Lemma fold_terms_last datas (c : nat -> Q) : forall d k,
  fold_terms (fun _ y => y) (term d (c k)) datas c (S k)
  = term (List.last (d :: datas) []) (c (k + List.length datas)%nat).
Proof.
  unfold fold_terms. induction datas as [|d1 datas IH]; intros d k.
  - cbn. now rewrite Nat.add_0_r.
  - cbn [List.length seq combine fold_left fst snd].
    rewrite (IH d1 (S k)). cbn [List.last].
    replace (S k + List.length datas)%nat with (k + S (List.length datas))%nat by lia.
    reflexivity.
Qed.

(** the traces of the columns ['price_i'] *)
Lemma coint_traces_all self idx times v :
  coint_traces self true
    (mkcframe idx (Some times) (price_columns (List.length (symbols self)) v))
  = Ok (price_traces (List.length (symbols self)) times v).
Proof.
  unfold coint_traces, price_traces, range. cbn [negb].
  set (n := List.length (symbols self)).
  assert (Hgen : forall m i fig, (i + m <= n)%nat ->
            for_fold (seq i m) fig
              (fun i fig =>
                 bind_result (getitem_time (mkcframe idx (Some times) (price_columns n v)))
                   (fun x =>
                      bind_result (getitem (mkcframe idx (Some times) (price_columns n v))
                                     (price_ i))
                        (fun y =>
                           Ok (fig ++ [mktrace ("Cointegrating (" +:+ pretty i +:+ ")") x
                                         (s_values y) (Z.of_nat i + 1)]))))
            = Ok (fig ++ map (fun i => mktrace ("Cointegrating (" +:+ pretty i +:+ ")") times
                                         (v i) (Z.of_nat i + 1)) (seq i m))).
  { induction m as [|m IH]; intros i fig Hi.
    - cbn. now rewrite app_nil_r.
    - cbn [seq for_fold map]. unfold getitem_time, getitem. cbn [c_time c_cols c_index].
      unfold price_columns at 1. rewrite dict_get_seq by lia. cbn [bind_result s_values].
      rewrite (IH (S i)) by lia. now rewrite <- app_assoc. }
  exact (Hgen n 0%nat [] (Nat.le_refl _)).
Qed.

(** the first pass of either copy *)
Lemma coint_all_step_first cx self symbol data (c : nat -> Q) :
  kline_data_of cx self symbol = Ok data ->
  (forall i, (i < List.length (symbols self))%nat -> evec_at self (Z.of_nat i) 0 = Ok (c i)) ->
  coint_all_step cx self symbol (mkcframe [] None [], 0)
  = Ok (mkcframe (index_of data) (Some (map k_close_time (rows_of data)))
          (price_columns (List.length (symbols self)) (fun i => term data (c i))),
        Z.of_nat 1)
  /\ packaged_coint_all_step cx self symbol (mkcframe [] None [], 0)
     = Ok (mkcframe (index_of data) (Some (map k_close_time (rows_of data)))
             (price_columns (List.length (symbols self)) (fun i => term data (c i))),
           Z.of_nat 1).
Proof.
  intros Hdata Hc. unfold coint_all_step, packaged_coint_all_step.
  rewrite Hdata. cbn [bind_result]. unfold has_column. cbn [c_cols dict_keys map existsb negb].
  rewrite (init_all_columns cx self data 0 c Hc). cbn [bind_result]. split; reflexivity.
Qed.

(** all the passes of a loop whose first pass creates the columns and whose
    later passes combine each column with the term of the symbol by [F] *)
Lemma calc_all_columns cx self step F idx (c : nat -> nat -> Q) symbol syms data datas' :
  symbols self = symbol :: syms ->
  Forall2 (fun symbol data => kline_data_of cx self symbol = Ok data)
          (symbols self) (data :: datas') ->
  Forall (fun data => index_of data = idx) (data :: datas') ->
  (forall i j, (i < List.length (symbols self))%nat -> (j < List.length (symbols self))%nat ->
      evec_at self (Z.of_nat i) (Z.of_nat j) = Ok (c i j)) ->
  step symbol (mkcframe [] None [], 0)
  = Ok (mkcframe (index_of data) (Some (map k_close_time (rows_of data)))
          (price_columns (List.length (symbols self)) (fun i => term data (c i 0%nat))),
        Z.of_nat 1) ->
  (forall symbol' data' v k,
      kline_data_of cx self symbol' = Ok data' ->
      index_of data' = idx ->
      (forall i, (i < List.length (symbols self))%nat ->
          evec_at self (Z.of_nat i) (Z.of_nat k) = Ok (c i k)) ->
      step symbol'
        (mkcframe idx (Some (map k_close_time (rows_of data)))
           (price_columns (List.length (symbols self)) v), Z.of_nat k)
      = Ok (mkcframe idx (Some (map k_close_time (rows_of data)))
              (price_columns (List.length (symbols self))
                 (fun i => F (v i) (term data' (c i k)))),
            Z.of_nat (S k))) ->
  for_fold (symbols self) (mkcframe [] None [], 0) step
  = Ok (mkcframe idx (Some (map k_close_time (rows_of data)))
          (price_columns (List.length (symbols self))
             (fun i => fold_terms F (term data (c i 0%nat)) datas' (c i) 1)),
        Z.of_nat (List.length (symbols self))).
Proof.
  intros Hsyms Hd Hi Hc Hfirst Hlater.
  rewrite Hsyms in Hd. inversion Hd as [|? ? ? ? Hd1 Hd2]; subst.
  inversion Hi as [|? ? Hi1 Hi2]; subst.
  rewrite Hsyms at 1. cbn [for_fold]. rewrite Hfirst. cbn [bind_result].
  rewrite (all_steps_later cx self (index_of data) (map k_close_time (rows_of data))
             step F c Hlater syms datas' _ 1%nat Hd2 Hi2).
  - do 3 f_equal. rewrite Hsyms. cbn [List.length]. lia.
  - intros i j Hi' Hj. apply Hc; [exact Hi'|]. rewrite Hsyms. cbn [List.length]. lia.
Qed.

(** C8. The two copies of [get_coint_plot] compute the same figure with
    [include_all_evecs=False]. With [include_all_evecs=True], for symbols
    whose kline tables carry the same index, the copy in
    researchtools/__init__.py plots, for each eigenvector [i], the column
    ['price_i'] that accumulates, over the symbols, the closing prices of
    the symbol times the component of row [i] at the position of the
    symbol; src/coint.py plots the term of the last symbol alone, because
    each pass of its loop overwrites the column instead of adding to it.
    For two symbols with closing prices 1, 2 and 10, 20 and an eigenvector
    matrix of ones the packaged copy plots 11, 22 and src/coint.py 10, 20. *)
Theorem all_evecs_columns_are_overwritten :
  (forall cx self include_underlying evec,
      get_coint_plot cx self false include_underlying evec
      = packaged_get_coint_plot cx self false include_underlying evec)
  /\ (forall cx self evec datas idx (c : nat -> nat -> Q),
        let n := List.length (symbols self) in
        symbols self <> [] ->
        Forall2 (fun symbol data => kline_data_of cx self symbol = Ok data)
                (symbols self) datas ->
        Forall (fun data => index_of data = idx) datas ->
        (forall i j, (i < n)%nat -> (j < n)%nat ->
            evec_at self (Z.of_nat i) (Z.of_nat j) = Ok (c i j)) ->
        exists times accumulated,
          packaged_get_coint_plot cx self true false evec
          = Ok (price_traces n times accumulated)
          /\ (forall i t, (i < n)%nat -> (t < List.length idx)%nat ->
                (nth t (accumulated i) 0 == spread_at datas (components n (c i)) t)%Q)
          /\ get_coint_plot cx self true false evec
             = Ok (price_traces n times
                     (fun i => term (List.last datas []) (c i (n - 1)%nat))))
  /\ packaged_get_coint_plot sample_context sample_result true false 0
     = Ok [mktrace "Cointegrating (0)" [1635724859999; 1635724919999] [11 # 1; 22 # 1]%Q 1;
           mktrace "Cointegrating (1)" [1635724859999; 1635724919999] [11 # 1; 22 # 1]%Q 2]
  /\ get_coint_plot sample_context sample_result true false 0
     = Ok [mktrace "Cointegrating (0)" [1635724859999; 1635724919999] [10 # 1; 20 # 1]%Q 1;
           mktrace "Cointegrating (1)" [1635724859999; 1635724919999] [10 # 1; 20 # 1]%Q 2].
Proof.
  split; [reflexivity|]. split; [|split; vm_compute; reflexivity].
  intros cx self evec datas idx c n Hne Hd Hi Hc.
  destruct (symbols self) as [|symbol syms] eqn:Hsyms; [congruence|].
  inversion Hd as [|? data ? datas' Hd1 Hd2]; subst datas.
  rewrite <- Hsyms in Hd.
  assert (Hn : (0 < List.length (symbols self))%nat) by (rewrite Hsyms; cbn; lia).
  assert (Hn' : n = List.length (symbols self)) by (unfold n; now rewrite Hsyms).
  rewrite Hn' in *. clear Hn'.
  assert (Hidx : index_of data = idx) by (inversion Hi; assumption).
  destruct (coint_all_step_first cx self symbol data (fun i => c i 0%nat) Hd1)
    as [Hfirst Hfirst'].
  { intros i Hi'. apply (Hc i 0%nat Hi' Hn). }
  rewrite Hidx in Hfirst, Hfirst'.
  set (times := map k_close_time (rows_of data)) in *.
  exists times, (fun i => fold_terms (zip_with Qplus) (term data (c i 0%nat)) datas' (c i) 1).
  split; [|split].
  - unfold packaged_get_coint_plot, packaged_calc_coint, packaged_calc_coint_all.
    cbn [negb].
    rewrite (calc_all_columns cx self (packaged_coint_all_step cx self) (zip_with Qplus)
               idx c symbol syms data datas' Hsyms Hd Hi Hc).
    + cbn [bind_result fst]. unfold plot_coint. rewrite coint_traces_all. reflexivity.
    + rewrite Hidx. exact Hfirst'.
    + intros symbol' data' v k Hdata' Hidx' Hck.
      now apply packaged_coint_all_step_later.
  - intros i t Hi' Ht. rewrite fold_terms_accumulate.
    assert (Hlen : Forall (fun d => List.length (closes d) = List.length idx) datas').
    { inversion Hi as [|? ? Hi1 Hi2]; subst.
      eapply List.Forall_impl; [|exact Hi2]. intros d Hdi. simpl in Hdi.
      now rewrite closes_length, Hdi. }
    assert (Hv0 : List.length (term data (c i 0%nat)) = List.length idx).
    { unfold term. now rewrite length_map, closes_length, Hidx. }
    rewrite (accumulate_nth _ datas' _ _ t Hv0 Hlen Ht).
    assert (Hlen' : List.length (symbols self) = S (List.length datas')).
    { rewrite Hsyms in Hd. apply Forall2_length in Hd. rewrite Hsyms. exact Hd. }
    rewrite Hlen'. unfold components. cbn [seq map].
    unfold spread_at at 2. cbn [combine fold_right fst snd].
    fold (spread_at datas' (map (c i) (seq 1 (List.length datas'))) t).
    unfold term. rewrite nth_map_scale by (rewrite closes_length, Hidx; exact Ht).
    reflexivity.
  - unfold get_coint_plot, calc_coint, calc_coint_all. cbn [negb].
    rewrite (calc_all_columns cx self (coint_all_step cx self) (fun _ y => y)
               idx c symbol syms data datas' Hsyms Hd Hi Hc).
    + cbn [bind_result fst]. unfold plot_coint. rewrite coint_traces_all.
      cbn [bind_result negb]. f_equal.
      unfold price_traces. apply map_ext. intros i. f_equal.
      rewrite fold_terms_last.
      assert (Hlen' : List.length (symbols self) = S (List.length datas')).
      { rewrite Hsyms in Hd. apply Forall2_length in Hd. rewrite Hsyms. exact Hd. }
      rewrite Hlen'. do 2 f_equal. lia.
    + rewrite Hidx. exact Hfirst.
    + intros symbol' data' v k Hdata' Hidx' Hck.
      now apply coint_all_step_later.
Qed.

(** ** The theorems at the sample values *)

Lemma get_path_convention_witness :
  get_path "spot" "klines" "daily" "btcusdt" (Some "1m")
  = get_path "spot" "klines" "daily" "btcusdt" (Some "1m")
  /\ get_path "spot" "klines" "daily" "btcusdt" (Some "1m")
     = "data/spot/daily/klines/BTCUSDT/1m/".
Proof.
  destruct (get_path_convention "spot" "klines" "daily" "btcusdt" (Some "1m"))
    as (Hdet & Hconv & _ & _).
  split.
  - apply Hdet; reflexivity.
  - rewrite Hconv. reflexivity.
Defined.

Lemma download_file_idempotent_witness :
  os_path_exists stocked_world
    (save_path_of sample_env "data/spot/daily/klines/BTCUSDT/1m/" "BTCUSDT-1m-2021-11-01.zip"
       (Some "/data/binance/")) = true
  /\ requests (snd (download_file sample_env "data/spot/daily/klines/BTCUSDT/1m/"
                      "BTCUSDT-1m-2021-11-01.zip" None (Some "/data/binance/") stocked_world))
     = requests stocked_world.
Proof.
  split; [vm_compute; reflexivity|].
  apply (download_file_idempotent sample_env "data/spot/daily/klines/BTCUSDT/1m/"
           "BTCUSDT-1m-2021-11-01.zip" None (Some "/data/binance/") stocked_world).
  vm_compute; reflexivity.
Defined.

Lemma http_error_is_not_fatal_witness :
  remote offline_env (get_download_url ("data/spot/daily/klines/BTCUSDT/1m/"
                                          +:+ "BTCUSDT-1m-2021-11-02.zip")) = RespHTTPError
  /\ fst (download_file offline_env "data/spot/daily/klines/BTCUSDT/1m/"
            "BTCUSDT-1m-2021-11-02.zip" None None fresh_world) = Ok tt
  /\ fst (download_daily_klines offline_env "spot" ["BTCUSDT"; "ETHUSDT"] 2 ["1m"]
            ["2021-11-01"; "2021-11-02"] (Some "2021-11-01") (Some "2021-11-02")
            None 0 fresh_world) = Ok tt.
Proof.
  destruct http_error_is_not_fatal as [Hfile Hloops].
  split; [reflexivity|]. split.
  - apply (Hfile offline_env "data/spot/daily/klines/BTCUSDT/1m/"
             "BTCUSDT-1m-2021-11-02.zip" None None fresh_world).
    reflexivity.
  - apply (Hloops offline_env "spot" ["BTCUSDT"; "ETHUSDT"] 2 ["1m"]
             ["2021-11-01"; "2021-11-02"] (Some "2021-11-01") (Some "2021-11-02")
             None 0 fresh_world (mkdate 2021 11 1) (mkdate 2021 11 2)).
    + intros url. reflexivity.
    + reflexivity.
    + reflexivity.
    + repeat constructor; eexists; reflexivity.
Defined.

Lemma daily_klines_downloads_witness :
  fst (download_daily_klines sample_env "spot" ["btcusdt"] 1 ["1m"; "1w"; "1m"]
         ["2021-11-01"; "2021-11-02"; "2016-01-01"] (Some "2021-11-01") (Some "2021-11-02")
         (Some "/data/binance/") 0 fresh_world) = Ok tt
  /\ calls (snd (download_daily_klines sample_env "spot" ["btcusdt"] 1 ["1m"; "1w"; "1m"]
                   ["2021-11-01"; "2021-11-02"; "2016-01-01"] (Some "2021-11-01")
                   (Some "2021-11-02") (Some "/data/binance/") 0 fresh_world))
     = [("data/spot/daily/klines/BTCUSDT/1m/", "BTCUSDT-1m-2021-11-01.zip");
        ("data/spot/daily/klines/BTCUSDT/1m/", "BTCUSDT-1m-2021-11-02.zip")].
Proof.
  split; [vm_compute; reflexivity|].
  destruct (daily_klines_downloads sample_env "spot" ["btcusdt"] 1 ["1m"; "1w"; "1m"]
              ["2021-11-01"; "2021-11-02"; "2016-01-01"] (Some "2021-11-01")
              (Some "2021-11-02") (Some "/data/binance/") 0 fresh_world
              (mkdate 2021 11 1) (mkdate 2021 11 2)) as [Hcalls _].
  - reflexivity.
  - reflexivity.
  - vm_compute; reflexivity.
  - rewrite Hcalls. vm_compute. reflexivity.
Defined.

Lemma daily_klines_ignores_other_intervals_witness :
  Forall (fun i => ~ In i DAILY_INTERVALS) ["3d"; "1w"; "1mo"]
  /\ fst (download_daily_klines sample_env "spot" ["BTCUSDT"] 1 ["3d"; "1w"; "1mo"]
            ["2021-11-01"] (Some "2021-11-01") (Some "2021-11-02") None 0 fresh_world)
     = Ok tt
  /\ calls (snd (download_daily_klines sample_env "spot" ["BTCUSDT"] 1 ["3d"; "1w"; "1mo"]
                   ["2021-11-01"] (Some "2021-11-01") (Some "2021-11-02") None 0 fresh_world))
     = [].
Proof.
  assert (H : Forall (fun i => ~ In i DAILY_INTERVALS) ["3d"; "1w"; "1mo"]).
  { repeat constructor; intros Hin; simpl in Hin;
      repeat (destruct Hin as [Hin|Hin]; [discriminate Hin|]); exact Hin. }
  split; [exact H|].
  destruct (daily_klines_ignores_other_intervals sample_env "spot" ["BTCUSDT"] 1
              ["3d"; "1w"; "1mo"] ["2021-11-01"] (Some "2021-11-01") (Some "2021-11-02")
              None 0) as [_ Hnone].
  destruct (Hnone fresh_world (mkdate 2021 11 1) (mkdate 2021 11 2) eq_refl eq_refl H)
    as (Hok & Hcalls & _).
  split; [exact Hok | exact Hcalls].
Defined.

Lemma trade_data_collation_buckets_witness :
  exists out,
    trade_data_collation sample_disk
      "/home/user/test_data/binance/data/spot/daily/trades/AAA/AAA-trades-2021-11-01.zip"
      "AAA" false 50000 = Ok out
    /\ map b_time (rows_of out) = [1635724800000; 1635724810000].
Proof.
  destruct (trade_data_collation_buckets sample_disk
              "/home/user/test_data/binance/data/spot/daily/trades/AAA/AAA-trades-2021-11-01.zip"
              "AAA" false 50000
              (range_index [mktrade 1 (1 # 1) (2 # 1) (2 # 1) 1635724810001 true true;
                            mktrade 2 (3 # 1) (2 # 1) (6 # 1) 1635724819999 false true;
                            mktrade 3 (5 # 1) (1 # 1) (5 # 1) 1635724800005 true true]))
    as (out & Hout & _).
  - reflexivity.
  - repeat constructor; unfold int64_time; simpl; lia.
  - exists out. split; [exact Hout|].
    vm_compute in Hout. injection Hout as <-. reflexivity.
Defined.

Lemma assembled_tables_are_time_ordered_witness :
  (exists f,
      get_binance_kline_data "/home/user" sample_disk "2021-11-01" "2021-11-01"
        [("AAA", ["1m"])] = Ok f
      /\ StronglySorted Z.le (map k_close_time (rows_of f)))
  /\ (exists f,
      get_binance_trade_data "/home/user" sample_disk "2021-11-01" "2021-11-01" ["AAA"] = Ok f
      /\ StronglySorted Z.le (map b_time (rows_of f))).
Proof.
  destruct (assembled_tables_are_time_ordered "/home/user" sample_disk
              "2021-11-01" "2021-11-01") as (Hk & Ht & Hkr & Htr).
  split.
  - destruct (Hkr [("AAA", ["1m"])]
                [("/home/user/test_data/binance/data/spot/daily/klines/AAA/1m/AAA-1m-2021-11-01.zip",
                  ("AAA", Some "1m"))]) as [f Hf].
    + reflexivity.
    + discriminate.
    + intros p [<-|[]]. discriminate.
    + exists f. split; [exact Hf | exact (Hk _ _ Hf)].
  - destruct (Htr ["AAA"]
                [("/home/user/test_data/binance/data/spot/daily/trades/AAA/AAA-trades-2021-11-01.zip",
                  ("AAA", None))]) as [f Hf].
    + reflexivity.
    + discriminate.
    + intros p [<-|[]]. discriminate.
    + exists f. split; [exact Hf | exact (Ht _ _ Hf)].
Defined.

Lemma empty_interval_list_reads_filepath_witness :
  downloaded_filepaths "/home/user" "klines" "2021-11-01" "2021-11-02"
    [("BBB", []); ("AAA", ["1m"])] = Raise UnboundLocalError
  /\ symbol_step "/home/user" "klines" [mkdate 2021 11 1; mkdate 2021 11 2]
       [("AAA", ["1m"]); ("BBB", [])] "BBB"
       (mklocals (Some "stale.zip") [("stale.zip", ("AAA", Some "1m"))])
     = Ok (mklocals (Some "stale.zip") [("stale.zip", ("BBB", None))])
  /\ downloaded_filepaths "/home/user" "aggTrades" "2021-11-01" "2021-11-02"
       [("AAA", ["1m"]); ("BBB", [])] = Raise ValueError.
Proof.
  split; [|split].
  - destruct (empty_interval_list_reads_filepath "/home/user" "klines"
                [mkdate 2021 11 1; mkdate 2021 11 2] [("BBB", []); ("AAA", ["1m"])] "BBB")
      as (_ & Hfirst & _); [discriminate | discriminate | reflexivity |].
    apply (Hfirst "2021-11-01" "2021-11-02" (mkdate 2021 11 1) (mkdate 2021 11 2));
      [reflexivity | reflexivity | reflexivity | eexists; reflexivity].
  - destruct (empty_interval_list_reads_filepath "/home/user" "klines"
                [mkdate 2021 11 1; mkdate 2021 11 2] [("AAA", ["1m"]); ("BBB", [])] "BBB")
      as (Hstep & _); [discriminate | discriminate | reflexivity |].
    rewrite Hstep. reflexivity.
  - destruct (empty_interval_list_reads_filepath "/home/user" "aggTrades"
                [mkdate 2021 11 1; mkdate 2021 11 2] [("AAA", ["1m"]); ("BBB", [])] "BBB")
      as (_ & _ & Hvalue); [discriminate | discriminate | reflexivity |].
    apply (Hvalue "2021-11-01" "2021-11-02" (mkdate 2021 11 1) (mkdate 2021 11 2)
             "AAA" "1m" [] ["BBB"]);
      [reflexivity | reflexivity | reflexivity | discriminate | reflexivity | reflexivity].
Defined.

Lemma coint_plot_weights_are_a_row_of_evec_witness :
  exists price rest,
    get_coint_plot sample_context skew_result false false 0 = Ok (price :: rest)
    /\ (nth 0 (tr_y price) 0 == 21 # 1)%Q
    /\ (nth 1 (tr_y price) 0 == 42 # 1)%Q.
Proof.
  destruct coint_plot_weights_are_a_row_of_evec as (Hrow & _).
  destruct (Hrow sample_context skew_result 0%nat false sample_tables [1; 0])
    as (price & rest & Hfig & _ & _ & Hsum).
  - discriminate.
  - repeat constructor.
  - repeat constructor.
  - simpl. lia.
  - simpl. lia.
  - exists price, rest. split; [exact Hfig|]. split.
    + rewrite (Hsum 0%nat) by (simpl; lia). reflexivity.
    + rewrite (Hsum 1%nat) by (simpl; lia). reflexivity.
Defined.

Lemma all_evecs_columns_are_overwritten_witness :
  exists times accumulated,
    packaged_get_coint_plot sample_context sample_result true false 0
    = Ok (price_traces 2 times accumulated)
    /\ (nth 0 (accumulated 0%nat) 0 == 11 # 1)%Q
    /\ get_coint_plot sample_context sample_result true false 0
       = Ok (price_traces 2 times
               (fun _ => term [(1, set_symbol_interval "BBB" (Some "1m")
                                     (sample_kline 1635724859999 (10 # 1)));
                               (0, set_symbol_interval "BBB" (Some "1m")
                                     (sample_kline 1635724919999 (20 # 1)))] (1 # 1))).
Proof.
  destruct all_evecs_columns_are_overwritten as (_ & Hgeneral & _).
  destruct (Hgeneral sample_context sample_result 0
              [[(1, set_symbol_interval "AAA" (Some "1m") (sample_kline 1635724859999 (1 # 1)));
                (0, set_symbol_interval "AAA" (Some "1m") (sample_kline 1635724919999 (2 # 1)))];
               [(1, set_symbol_interval "BBB" (Some "1m") (sample_kline 1635724859999 (10 # 1)));
                (0, set_symbol_interval "BBB" (Some "1m") (sample_kline 1635724919999 (20 # 1)))]]
              [1; 0] (fun _ _ => (1 # 1)%Q))
    as (times & accumulated & Hpackaged & Hsum & Hlast).
  - discriminate.
  - repeat constructor.
  - repeat constructor.
  - intros i j Hi Hj. simpl in Hi, Hj.
    destruct i as [|[|i]], j as [|[|j]]; try lia; reflexivity.
  - exists times, accumulated. split; [exact Hpackaged|]. split; [|exact Hlast].
    rewrite (Hsum 0%nat 0%nat) by (simpl; lia). reflexivity.
Defined.

(* ===================================================================== *)
(** * Further properties                                                 *)
(* ===================================================================== *)

(** ** Paths *)

Lemma chars_app a b : chars (a +:+ b) = (chars a ++ chars b)%list.
Proof.
  induction a as [|x a IH]; [now rewrite append_nil_l|].
  rewrite append_String. simpl. now rewrite IH.
Qed.

Lemma str_chars s : str (chars s) = s.
Proof. apply string_of_list_ascii_of_string. Qed.

Lemma chars_str cs : chars (str cs) = cs.
Proof. apply list_ascii_of_string_of_list_ascii. Qed.

Lemma rstrip_slashes_spec l :
  exists k, l = (repeat "/"%char k ++ rstrip_slashes_rev l)%list.
Proof.
  induction l as [|c l [k IH]]; [exists 0%nat; reflexivity|].
  destruct (Ascii.eqb_spec c "/") as [-> | Hne].
  - exists (S k). simpl. now rewrite <- IH.
  - exists 0%nat.
    assert (H : rstrip_slashes_rev (c :: l) = c :: l)
      by (destruct c as [[] [] [] [] [] [] [] []]; try reflexivity; congruence).
    now rewrite H.
Qed.

Lemma rev_repeat {A} (x : A) k : rev (repeat x k) = repeat x k.
Proof.
  induction k as [|k IH]; [reflexivity|].
  simpl. rewrite IH. symmetry. apply repeat_cons.
Qed.

(** a path is its normal form followed by slashes, unless it is made of
    slashes only *)
Lemma norm_path_chars p :
  (exists k, chars p = (chars (norm_path p) ++ repeat "/"%char k)%list)
  \/ norm_path p = "/" \/ norm_path p = "".
Proof.
  unfold norm_path. destruct (rstrip_slashes_spec (rev (chars p))) as [k Hk].
  destruct (rstrip_slashes_rev (rev (chars p))) as [|c cs] eqn:E.
  - right. destruct (truthy p); auto.
  - left. exists k. rewrite chars_str.
    rewrite <- (rev_involutive (chars p)), Hk, rev_app_distr, rev_repeat. reflexivity.
Qed.

Lemma ends_with_slash_last p :
  ends_with_slash p
  = match rev (chars p) with c :: _ => Ascii.eqb c "/" | [] => false end.
Proof.
  induction p as [|c p IH]; [reflexivity|].
  destruct p as [|c' p'].
  - reflexivity.
  - change (ends_with_slash (String c (String c' p'))) with (ends_with_slash (String c' p')).
    rewrite IH. change (chars (String c (String c' p'))) with (c :: chars (String c' p')).
    cbn [rev]. destruct (rev (chars (String c' p'))) as [|x l] eqn:E; [|reflexivity].
    apply (f_equal (@List.length ascii)) in E. rewrite length_rev in E. discriminate E.
Qed.

(** a path that does not end in a slash is in normal form *)
Lemma norm_path_file p : truthy p = true -> ends_with_slash p = false -> norm_path p = p.
Proof.
  intros Ht Hs. unfold norm_path. rewrite ends_with_slash_last in Hs.
  destruct (rev (chars p)) as [|c l] eqn:E.
  - destruct p; [discriminate|].
    apply (f_equal (@List.length ascii)) in E. rewrite length_rev in E. discriminate E.
  - assert (H : rstrip_slashes_rev (c :: l) = c :: l).
    { destruct (Ascii.eqb_spec c "/") as [-> | Hne]; [discriminate|].
      destruct c as [[] [] [] [] [] [] [] []]; try reflexivity; congruence. }
    rewrite H, <- E, rev_involutive. apply str_chars.
Qed.

Lemma norm_path_no_slash p : ends_with_slash p = false -> norm_path p = p.
Proof.
  destruct p as [|c p]; [reflexivity|]. now apply norm_path_file.
Qed.

Lemma length_str cs : String.length (str cs) = List.length cs.
Proof. induction cs as [|c cs IH]; [reflexivity|]. simpl. now rewrite IH. Qed.

Lemma length_chars s : List.length (chars s) = String.length s.
Proof. induction s as [|c s IH]; [reflexivity|]. simpl. now rewrite IH. Qed.

Lemma length_append a b : String.length (a +:+ b) = (String.length a + String.length b)%nat.
Proof. now rewrite <- !length_chars, chars_app, length_app. Qed.

Lemma length_rstrip_slashes l : (List.length (rstrip_slashes_rev l) <= List.length l)%nat.
Proof.
  destruct (rstrip_slashes_spec l) as [k Hk]. rewrite Hk at 2. rewrite length_app. lia.
Qed.

Lemma length_norm_path p : (String.length (norm_path p) <= String.length p)%nat.
Proof.
  unfold norm_path. pose proof (length_rstrip_slashes (rev (chars p))) as H.
  rewrite length_rev, length_chars in H.
  destruct (rstrip_slashes_rev (rev (chars p))) as [|c cs].
  - destruct p; simpl; lia.
  - rewrite length_str, length_rev. exact H.
Qed.

Lemma length_drop_component l : (List.length (drop_component_rev l) <= List.length l)%nat.
Proof.
  induction l as [|c l IH]; [reflexivity|].
  destruct (Ascii.eqb_spec c "/") as [-> | Hne]; [reflexivity|].
  assert (H : drop_component_rev (c :: l) = drop_component_rev l)
    by (destruct c as [[] [] [] [] [] [] [] []]; try reflexivity; congruence).
  rewrite H. simpl. lia.
Qed.

Lemma length_dirname p : (String.length (dirname p) <= String.length p)%nat.
Proof.
  unfold dirname. pose proof (length_drop_component (rev (chars p))) as H.
  pose proof (length_rstrip_slashes (drop_component_rev (rev (chars p)))) as H'.
  rewrite length_rev, length_chars in H.
  destruct (rstrip_slashes_rev (drop_component_rev (rev (chars p)))) as [|c cs];
    rewrite length_str, length_rev; [exact H | lia].
Qed.

Lemma rstrip_slashes_idem l : rstrip_slashes_rev (rstrip_slashes_rev l) = rstrip_slashes_rev l.
Proof.
  induction l as [|c l IH]; [reflexivity|].
  destruct (Ascii.eqb_spec c "/") as [-> | Hne]; [exact IH|].
  assert (H : rstrip_slashes_rev (c :: l) = c :: l)
    by (destruct c as [[] [] [] [] [] [] [] []]; try reflexivity; congruence).
  now rewrite !H.
Qed.

Lemma norm_path_idem p : norm_path (norm_path p) = norm_path p.
Proof.
  assert (H : norm_path p = match rstrip_slashes_rev (rev (chars p)) with
                            | [] => if truthy p then "/" else ""
                            | cs => str (rev cs)
                            end) by reflexivity.
  destruct (rstrip_slashes_rev (rev (chars p))) as [|c cs] eqn:E; rewrite H.
  - destruct (truthy p); reflexivity.
  - unfold norm_path. rewrite chars_str, rev_involutive.
    rewrite <- E, rstrip_slashes_idem, E. reflexivity.
Qed.

Lemma drop_component_no_slash fn l :
  ~ In "/"%char fn -> drop_component_rev (rev fn ++ l) = drop_component_rev l.
Proof.
  induction fn as [|c fn IH] using rev_ind; intros Hn; [reflexivity|].
  rewrite rev_app_distr. cbn [rev app].
  assert (Hc : c <> "/"%char) by (intros ->; apply Hn, in_or_app; right; now left).
  assert (H : forall t, drop_component_rev (c :: t) = drop_component_rev t)
    by (intros t; destruct c as [[] [] [] [] [] [] [] []]; try reflexivity; congruence).
  rewrite H. apply IH. intros Hin. apply Hn, in_or_app. now left.
Qed.

(** the directory of a file that is written after a directory *)
Lemma dirname_child d fn :
  ends_with_slash d = true -> ~ In "/"%char (chars fn) ->
  norm_path (dirname (d +:+ fn)) = norm_path d.
Proof.
  intros Hd Hfn. unfold dirname.
  rewrite chars_app, rev_app_distr, (drop_component_no_slash _ _ Hfn).
  rewrite ends_with_slash_last in Hd.
  destruct (rev (chars d)) as [|c l] eqn:E; [discriminate|].
  apply Ascii.eqb_eq in Hd. subst c. cbn [drop_component_rev].
  destruct (rstrip_slashes_rev ("/"%char :: l)) as [|c cs] eqn:Er.
  - rewrite <- E, rev_involutive, str_chars. reflexivity.
  - assert (Hn : norm_path d = str (rev (c :: cs))) by (unfold norm_path; now rewrite E, Er).
    rewrite <- Hn. apply norm_path_idem.
Qed.

Lemma parents_from_prefix cs : forall pre d,
  In d (parents_from pre cs) ->
  exists a b, cs = (a ++ "/"%char :: b)%list /\ d = norm_path (str (rev pre ++ a))
              /\ truthy d = true /\ d <> "/".
Proof.
  induction cs as [|c cs IH]; intros pre d Hin; [destruct Hin|].
  cbn [parents_from] in Hin. apply in_app_or in Hin as [Hin | Hin].
  - destruct (Ascii.eqb_spec c "/") as [-> | Hne]; [|destruct Hin].
    destruct (truthy (norm_path (str (rev pre)))) eqn:Ht; [|destruct Hin].
    destruct (String.eqb_spec (norm_path (str (rev pre))) "/") as [Heq | Hneq]; [destruct Hin|].
    destruct Hin as [<- | []]. exists [], cs. rewrite app_nil_r. auto.
  - destruct (IH _ _ Hin) as (a & b & -> & -> & Ht & Hne).
    exists (c :: a), b. cbn [rev] in *. rewrite <- app_assoc in *. auto.
Qed.

Lemma repeat_middle {A} (x : A) k b :
  (repeat x k ++ x :: b = x :: repeat x k ++ b)%list.
Proof. induction k as [|k IH]; [reflexivity|]. simpl. now rewrite IH. Qed.

(** a directory above a path is a part of it that ends before a slash *)
Lemma parents_prefix p d :
  In d (parents p) -> exists rest, norm_path p = d +:+ "/" +:+ rest.
Proof.
  intros Hin. apply parents_from_prefix in Hin as (a & b & Hcs & -> & Ht & Hne).
  cbn [rev app] in *.
  destruct (norm_path_chars (str a)) as [[k Hk] | [H | H]].
  - rewrite chars_str in Hk. exists (str (repeat "/"%char k ++ b)).
    set (rhs := norm_path (str a) +:+ "/" +:+ str (repeat "/"%char k ++ b)).
    rewrite <- (str_chars (norm_path p)), <- (str_chars rhs). f_equal. subst rhs.
    rewrite !chars_app, chars_str, Hcs. rewrite Hk at 1.
    rewrite <- !app_assoc. f_equal. change (chars "/") with ["/"%char].
    cbn [app]. apply repeat_middle.
  - contradiction.
  - rewrite H in Ht. discriminate.
Qed.

Lemma made_dirs_spec p d : d ∈ made_dirs p <-> d = norm_path p \/ In d (parents p).
Proof.
  unfold made_dirs. rewrite elem_of_list_to_set, elem_of_cons, list_elem_of_In. tauto.
Qed.

(** the file of a directory is neither that directory nor one above it *)
Lemma child_not_made sp made :
  ends_with_slash sp = false ->
  norm_path (dirname sp) = norm_path made ->
  norm_path sp <> norm_path made ->
  norm_path sp ∉ made_dirs made.
Proof.
  intros Hsl Hdir Hne Hin. apply made_dirs_spec in Hin as [Heq | Hin]; [contradiction|].
  apply parents_prefix in Hin as [rest Hrest].
  pose proof (length_norm_path (dirname sp)) as H1.
  pose proof (length_dirname sp) as H2.
  rewrite Hdir, Hrest, !length_append in H1. rewrite (norm_path_no_slash _ Hsl) in H1.
  simpl in H1. lia.
Qed.

(** ** The downloader: what a download stores *)

Lemma stream_read_split bs (body buf rest : list Byte.byte) :
  stream_read bs body = (buf, rest) -> body = buf ++ rest.
Proof.
  unfold stream_read. destruct (bs <? 0); intros [= <- <-].
  - now rewrite app_nil_r.
  - now rewrite take_drop.
Qed.

(** the loop copies the stream to the end of the file *)
Lemma read_loop_copies sp len bs body p w content :
  0 < bs ->
  len <> 0 \/ body = [] ->
  files w !! sp = Some content ->
  fst (read_loop sp (Some (len, bs)) false body p w) = Ok tt
  /\ files (snd (read_loop sp (Some (len, bs)) false body p w))
     = <[sp := content ++ body]> (files w).
Proof.
  intros Hbs. revert content.
  funelim (read_loop sp (Some (len, bs)) false body p w); intros content Hlen Hsp.
  - clear Heqcall. cbn [read_breaks andb fst snd].
    assert (Hbody : body = []).
    { clear -e Hbs. unfold stream_read in e. destruct (blocksize <? 0) eqn:Hneg.
      - apply Z.ltb_lt in Hneg. lia.
      - injection e as He _. destruct body as [|b0 body]; [reflexivity|].
        destruct (Z.to_nat blocksize) eqn:Hn; [lia | discriminate]. }
    subst body. split; [reflexivity|]. rewrite app_nil_r. symmetry. now apply insert_id.
  - clear Heqcall. cbn [read_breaks andb].
    pose proof (stream_read_split _ _ _ _ Hbuf) as Hsplit.
    unfold_M. simpl.
    destruct Hlen as [Hlen|Hnil]; [|subst body; discriminate].
    destruct (len =? 0) eqn:E; [apply Z.eqb_eq in E; contradiction|].
    match goal with
    | |- context [read_loop _ _ _ _ _ ?f] =>
        specialize (H (Ok tt) w tt (Ok tt) f tt Hbs (content ++ (b :: buf'))%list)
    end.
    destruct H as [H1 H2]; [now left | |].
    + simpl. rewrite Hsp. simpl. now rewrite lookup_insert_eq.
    + simpl in H1, H2. split; [exact H1|].
      rewrite H2. simpl. rewrite Hsp. simpl.
      rewrite insert_insert_eq, Hsplit, <- app_assoc. reflexivity.
Qed.

(** the loop leaves every other file alone *)
Lemma read_loop_frame sp sized broken body p w q :
  q <> sp ->
  files (snd (read_loop sp sized broken body p w)) !! q = files w !! q.
Proof.
  intros Hq. funelim (read_loop sp sized broken body p w).
  - reflexivity.
  - destruct (read_breaks blocksize body broken); reflexivity.
  - clear Heqcall. destruct (read_breaks blocksize body broken); [reflexivity|].
    unfold_M. simpl.
    destruct (len =? 0); simpl; [now rewrite lookup_insert_ne by congruence|].
    match goal with
    | |- context [read_loop _ _ _ _ _ ?f] =>
        specialize (H (Ok tt) w tt (Ok tt) f tt q Hq)
    end.
    etrans; [exact H|]. simpl. now rewrite lookup_insert_ne by congruence.
Qed.

Lemma read_loop_requests sp sized broken body p w :
  requests (snd (read_loop sp sized broken body p w)) = requests w.
Proof.
  funelim (read_loop sp sized broken body p w).
  - reflexivity.
  - destruct (read_breaks blocksize body broken); reflexivity.
  - clear Heqcall. destruct (read_breaks blocksize body broken); [reflexivity|].
    unfold_M. simpl.
    destruct (len =? 0); simpl; [reflexivity|].
    match goal with
    | |- context [read_loop _ _ _ _ _ ?f] => specialize (H (Ok tt) w tt (Ok tt) f tt)
    end.
    exact H.
Qed.

(** the world in which [download_file] starts its [try] block: the
    directory is made when [base_path] does not exist *)
Lemma download_file_started e bp fn dr folder w :
  os_path_exists w (save_path_of e bp fn folder) = false ->
  exists w0,
    download_file e bp fn dr folder w
      = attempt e (get_download_url (bp +:+ fn)) (save_path_of e bp fn folder) w0
    /\ files w0 = files w /\ requests w0 = requests w
    /\ ((os_path_exists w (joined_base bp folder) = true /\ dirs w0 = dirs w)
        \/ (os_path_exists w (joined_base bp folder) = false
            /\ dirs w0 = made_dirs (made_directory e bp folder) ∪ dirs w)).
Proof.
  intros Hex. pose proof (download_file_unfold e bp fn dr folder w) as H. simpl in H.
  rewrite Hex in H. rewrite H. unfold joined_base.
  destruct (os_path_exists w (if truthy_opt folder then _ else bp)) eqn:Hb;
    eexists; (split; [reflexivity|]); simpl.
  - auto.
  - split; [reflexivity|]. split; [reflexivity|]. right. split; reflexivity.
Qed.

(** the save path can be opened: it names no directory, and its directory
    is there once [download_file] has made its directory *)
Lemma save_path_opens e bp fn folder w w0 :
  let sp := save_path_of e bp fn folder in
  os_path_exists w sp = false ->
  ends_with_slash sp = false ->
  norm_path sp <> norm_path (made_directory e bp folder) ->
  norm_path (dirname sp) = norm_path (made_directory e bp folder) ->
  (os_path_exists w (joined_base bp folder) = true -> dir_exists w (dirname sp) = true) ->
  (os_path_exists w (joined_base bp folder) = true /\ dirs w0 = dirs w)
  \/ (os_path_exists w (joined_base bp folder) = false
      /\ dirs w0 = made_dirs (made_directory e bp folder) ∪ dirs w) ->
  open_error w0 sp = None.
Proof.
  intros sp Hex Hsl Hne Hdir Hbase Hd. unfold os_path_exists in Hex.
  apply orb_false_iff in Hex as [_ Hnd]. unfold is_dir in Hnd.
  apply bool_decide_eq_false in Hnd.
  unfold open_error, dir_exists, is_dir.
  rewrite (norm_path_no_slash sp Hsl) in *. rewrite Hsl.
  destruct Hd as [[Hb ->] | [Hb ->]].
  - rewrite bool_decide_eq_false_2 by exact Hnd.
    specialize (Hbase Hb). unfold dir_exists, is_dir in Hbase. rewrite Hbase. reflexivity.
  - rewrite bool_decide_eq_false_2.
    + assert (Hin : bool_decide (norm_path (dirname sp)
                                   ∈ made_dirs (made_directory e bp folder) ∪ dirs w) = true).
      { apply bool_decide_eq_true_2, elem_of_union. left.
        apply made_dirs_spec. now left. }
      rewrite Hin, !orb_true_r. reflexivity.
    + rewrite elem_of_union. intros [Hin | Hin]; [|contradiction].
      revert Hin. rewrite <- (norm_path_no_slash sp Hsl) at 1.
      apply child_not_made; [exact Hsl | exact Hdir |].
      now rewrite (norm_path_no_slash sp Hsl).
Qed.

(** a download that runs to its end *)
Lemma download_file_complete :
  forall e base_path file_name date_range folder w header length_ body,
    let sp := save_path_of e base_path file_name folder in
    let run := download_file e base_path file_name date_range folder in
    os_path_exists w sp = false ->
    ends_with_slash sp = false ->
    norm_path sp <> norm_path (made_directory e base_path folder) ->
    norm_path (dirname sp) = norm_path (made_directory e base_path folder) ->
    (os_path_exists w (joined_base base_path folder) = true ->
     dir_exists w (dirname sp) = true) ->
    remote e (get_download_url (base_path +:+ file_name)) = Resp (Some header) body false ->
    truthy header = true ->
    int header = Ok length_ ->
    Z.of_nat (List.length body) <= length_ ->
    fst (run w) = Ok tt
    /\ files (snd (run w)) = <[sp := body]> (files w)
    /\ requests (snd (run w)) = requests w ++ [get_download_url (base_path +:+ file_name)]
    /\ os_path_exists (snd (run w)) sp = true.
Proof.
  intros e bp fn dr folder w h n body sp run Hex Hsl Hne Hin Hbase Hr Hh Hn Hle. unfold run.
  assert (Hlen : n <> 0 \/ body = [])
    by (destruct body; [now right | left; simpl in Hle; lia]).
  destruct (download_file_started e bp fn dr folder w Hex) as (w0 & -> & Hf & Hq & Hd).
  pose proof (save_path_opens e bp fn folder w w0 Hex Hsl Hne Hin Hbase Hd) as Hopen.
  fold sp in Hopen |- *.
  unfold attempt, fetch. unfold_M. rewrite Hr. simpl. rewrite Hh, Hn. simpl.
  match goal with
  | |- context [open_error ?x sp] => rewrite (open_error_congr w0 x sp eq_refl), Hopen
  end.
  simpl.
  match goal with
  | |- context [read_loop sp (Some (n, ?bs)) false body 0 ?w1] =>
      destruct (read_loop_copies sp n bs body 0 w1 []) as [H1 H2];
        [lia | exact Hlen | simpl; now rewrite lookup_insert_eq |];
      pose proof (read_loop_requests sp (Some (n, bs)) false body 0 w1) as H3;
      destruct (read_loop sp (Some (n, bs)) false body 0 w1) as [r w2]
  end.
  simpl in H1, H2, H3. subst r. simpl.
  assert (Hfiles : files w2 = <[sp := body]> (files w)).
  { rewrite H2. simpl. now rewrite insert_insert_eq, Hf. }
  split; [reflexivity|]. split; [exact Hfiles|]. split; [now rewrite H3, Hq|].
  unfold os_path_exists, is_file. rewrite Hsl, Hfiles, lookup_insert_eq. reflexivity.
Qed.

(** X1. A complete download. When the save path is not on disk, lies in
    the directory that [download_file] makes (which is made when
    [base_path] does not exist, and has to be there when it does), and the
    archive answers with a [content-length] header that [int] reads and
    with a stream that does not break and delivers no more bytes than the
    header announces, [download_file] returns normally, has opened exactly
    the URL of the file, and the file at the save path holds the bytes of
    the stream, all of them and in order; from then on the save path
    exists. *)
Theorem download_file_stores_the_stream :
  forall e base_path file_name date_range folder w header length_ body,
    let sp := save_path_of e base_path file_name folder in
    let run := download_file e base_path file_name date_range folder in
    os_path_exists w sp = false ->
    ends_with_slash sp = false ->
    norm_path sp <> norm_path (made_directory e base_path folder) ->
    norm_path (dirname sp) = norm_path (made_directory e base_path folder) ->
    (os_path_exists w (joined_base base_path folder) = true ->
     dir_exists w (dirname sp) = true) ->
    remote e (get_download_url (base_path +:+ file_name)) = Resp (Some header) body false ->
    truthy header = true ->
    int header = Ok length_ ->
    Z.of_nat (List.length body) <= length_ ->
    fst (run w) = Ok tt
    /\ files (snd (run w)) = <[sp := body]> (files w)
    /\ requests (snd (run w)) = requests w ++ [get_download_url (base_path +:+ file_name)]
    /\ os_path_exists (snd (run w)) sp = true.
Proof. exact download_file_complete. Qed.

Lemma download_file_stores_the_stream_witness :
  os_path_exists fresh_world
    (save_path_of serving_env "data/spot/daily/trades/BTCUSDT/" "BTCUSDT-trades-2021-11-01.zip"
       (Some "/home/user/test_data/binance")) = false
  /\ dirname (save_path_of serving_env "data/spot/daily/trades/BTCUSDT/"
                "BTCUSDT-trades-2021-11-01.zip" (Some "/home/user/test_data/binance"))
     = "/home/user/test_data/binance/data/spot/daily/trades/BTCUSDT"
  /\ files (snd (download_file serving_env "data/spot/daily/trades/BTCUSDT/"
                   "BTCUSDT-trades-2021-11-01.zip" None (Some "/home/user/test_data/binance")
                   fresh_world))
       !! "/home/user/test_data/binance/data/spot/daily/trades/BTCUSDT/BTCUSDT-trades-2021-11-01.zip"
     = Some [Byte.x50; Byte.x4b; Byte.x03].
Proof.
  split; [vm_compute; reflexivity|]. split; [vm_compute; reflexivity|].
  destruct (download_file_stores_the_stream serving_env "data/spot/daily/trades/BTCUSDT/"
              "BTCUSDT-trades-2021-11-01.zip" None (Some "/home/user/test_data/binance")
              fresh_world "3" 3 [Byte.x50; Byte.x4b; Byte.x03]) as (_ & Hfiles & _).
  - vm_compute; reflexivity.
  - vm_compute; reflexivity.
  - vm_compute. discriminate.
  - vm_compute; reflexivity.
  - vm_compute. discriminate.
  - vm_compute; reflexivity.
  - reflexivity.
  - vm_compute; reflexivity.
  - simpl. lia.
  - rewrite Hfiles. vm_compute. reflexivity.
Defined.

(** X2. A response without a [content-length] header (or with an empty
    one) never assigns [blocksize]: the file is opened (the save path is
    not on disk and lies in the directory that [download_file] makes), so
    an empty file is left at the save path, and the first read raises
    [UnboundLocalError]. Because the save path now exists, the next call
    for the same file skips it without opening a connection: the empty
    file is never replaced. *)
Theorem missing_length_leaves_an_empty_file :
  forall e base_path file_name date_range folder w header body broken,
    let sp := save_path_of e base_path file_name folder in
    let run := download_file e base_path file_name date_range folder in
    os_path_exists w sp = false ->
    ends_with_slash sp = false ->
    norm_path sp <> norm_path (made_directory e base_path folder) ->
    norm_path (dirname sp) = norm_path (made_directory e base_path folder) ->
    (os_path_exists w (joined_base base_path folder) = true ->
     dir_exists w (dirname sp) = true) ->
    remote e (get_download_url (base_path +:+ file_name)) = Resp header body broken ->
    truthy_opt header = false ->
    fst (run w) = Raise UnboundLocalError
    /\ files (snd (run w)) = <[sp := []]> (files w)
    /\ fst (run (snd (run w))) = Ok tt
    /\ files (snd (run (snd (run w)))) = files (snd (run w))
    /\ requests (snd (run (snd (run w)))) = requests (snd (run w)).
Proof.
  intros e bp fn dr folder w h body broken sp run Hex Hsl Hne Hin Hbase Hr Hh. unfold run.
  destruct (download_file_started e bp fn dr folder w Hex) as (w0 & Hrun & Hf & Hq & Hd).
  pose proof (save_path_opens e bp fn folder w w0 Hex Hsl Hne Hin Hbase Hd) as Hopen.
  fold sp in Hopen, Hrun.
  assert (H1 : attempt e (get_download_url (bp +:+ fn)) sp w0
               = (Raise UnboundLocalError,
                  mkworld (<[sp := []]> (files w0)) (dirs w0)
                    (requests w0 ++ [get_download_url (bp +:+ fn)]) (calls w0)
                    (stdout w0 ++ [(nl +:+ "File Download: " +:+ sp) +:+ nl]))).
  { unfold attempt, fetch. unfold_M. rewrite Hr. simpl. rewrite Hh. simpl.
    match goal with
    | |- context [open_error ?x sp] => rewrite (open_error_congr w0 x sp eq_refl), Hopen
    end.
    reflexivity. }
  rewrite Hrun, H1. simpl. rewrite Hf.
  split; [reflexivity|]. split; [reflexivity|].
  rewrite download_file_unfold. simpl. fold sp.
  assert (Hnow : os_path_exists
                   (mkworld (<[sp := []]> (files w)) (dirs w0)
                      (requests w0 ++ [get_download_url (bp +:+ fn)]) (calls w0)
                      (stdout w0 ++ [(nl +:+ "File Download: " +:+ sp) +:+ nl])) sp = true).
  { unfold os_path_exists, is_file. simpl. rewrite Hsl, lookup_insert_eq. reflexivity. }
  rewrite Hnow. simpl. auto.
Qed.

Lemma missing_length_leaves_an_empty_file_witness :
  os_path_exists fresh_world
    (save_path_of serving_env "data/spot/daily/trades/BTCUSDT/" "BTCUSDT-trades-2021-11-02.zip"
       (Some "/home/user/test_data/binance")) = false
  /\ fst (download_file serving_env "data/spot/daily/trades/BTCUSDT/"
            "BTCUSDT-trades-2021-11-02.zip" None (Some "/home/user/test_data/binance")
            fresh_world) = Raise UnboundLocalError.
Proof.
  split; [vm_compute; reflexivity|].
  destruct (missing_length_leaves_an_empty_file serving_env "data/spot/daily/trades/BTCUSDT/"
              "BTCUSDT-trades-2021-11-02.zip" None (Some "/home/user/test_data/binance")
              fresh_world None [Byte.x50; Byte.x4b; Byte.x03] false) as (Hraise & _).
  - vm_compute; reflexivity.
  - vm_compute; reflexivity.
  - vm_compute. discriminate.
  - vm_compute; reflexivity.
  - vm_compute. discriminate.
  - vm_compute; reflexivity.
  - reflexivity.
  - exact Hraise.
Defined.

(** ** The downloader: what a download leaves alone *)

Lemma attempt_frame e url sp w q :
  q <> sp -> files (snd (attempt e url sp w)) !! q = files w !! q.
Proof.
  intros Hq. unfold attempt, fetch. unfold_M.
  destruct (remote e url) as [| |len body broken]; simpl; try reflexivity.
  destruct (if truthy_opt len then _ else _) as [sized|ex]; simpl.
  - destruct (open_error _ sp) as [oex|]; simpl;
      [destruct (decide (oex = HTTPError)); reflexivity|].
    match goal with
    | |- context [read_loop ?a1 ?a2 ?a3 ?a4 ?a5 ?a6] =>
        pose proof (read_loop_frame a1 a2 a3 a4 a5 a6 q Hq) as H;
        destruct (read_loop a1 a2 a3 a4 a5 a6) as [r w']
    end.
    simpl in H. rewrite lookup_insert_ne in H by congruence.
    destruct r as [[]|ex]; simpl; [exact H|].
    destruct (decide (ex = HTTPError)); simpl; exact H.
  - destruct (decide (ex = HTTPError)); reflexivity.
Qed.

Lemma attempt_dirs e url sp w : dirs (snd (attempt e url sp w)) = dirs w.
Proof. apply attempt_spec. Qed.

(** the directories after a download *)
Lemma download_file_dirs e bp fn dr folder w d :
  d ∈ dirs (snd (download_file e bp fn dr folder w)) ->
  d ∈ dirs w \/ d ∈ made_dirs (made_directory e bp folder).
Proof.
  rewrite download_file_unfold. simpl.
  destruct (os_path_exists w (save_path_of e bp fn folder)); simpl; [now left|].
  rewrite attempt_dirs.
  destruct (os_path_exists w _); simpl; [now left|].
  rewrite elem_of_union. fold (made_directory e bp folder). tauto.
Qed.

(** what a download leaves alone *)
Lemma download_file_frame :
  forall e base_path file_name date_range folder w,
    let after := snd (download_file e base_path file_name date_range folder w) in
    (forall q, q <> save_path_of e base_path file_name folder ->
               files after !! q = files w !! q)
    /\ (forall d, d ∈ dirs w -> d ∈ dirs after)
    /\ (forall d, d ∈ dirs after ->
                  d ∈ dirs w
                  \/ d = norm_path (made_directory e base_path folder)
                  \/ exists rest,
                       norm_path (made_directory e base_path folder) = d +:+ "/" +:+ rest).
Proof.
  intros e bp fn dr folder w after. subst after.
  rewrite download_file_unfold. simpl.
  destruct (os_path_exists w (save_path_of e bp fn folder)); simpl.
  { repeat split; auto. }
  split; [|split].
  - intros q Hq. rewrite attempt_frame by exact Hq.
    destruct (os_path_exists w _); reflexivity.
  - intros d Hd. rewrite attempt_dirs.
    destruct (os_path_exists w _); simpl; [exact Hd|].
    apply elem_of_union. now right.
  - intros d. rewrite attempt_dirs.
    destruct (os_path_exists w _); simpl; [now left|].
    rewrite elem_of_union, made_dirs_spec. fold (made_directory e bp folder).
    intros [[Hd | Hd] | Hd]; [now right; left | | now left].
    right. right. now apply parents_prefix.
Qed.

(** X3. [download_file] writes to its save path and nowhere else: every
    other file is as it was, whatever the archive answers and whether or
    not the call raises. No directory is removed, and the only directories
    that can be new are the one made for the file and the directories
    above it, each a part of its path that ends before a slash. *)
Theorem download_file_touches_only_its_save_path :
  forall e base_path file_name date_range folder w,
    let after := snd (download_file e base_path file_name date_range folder w) in
    (forall q, q <> save_path_of e base_path file_name folder ->
               files after !! q = files w !! q)
    /\ (forall d, d ∈ dirs w -> d ∈ dirs after)
    /\ (forall d, d ∈ dirs after ->
                  d ∈ dirs w
                  \/ d = norm_path (made_directory e base_path folder)
                  \/ exists rest,
                       norm_path (made_directory e base_path folder) = d +:+ "/" +:+ rest).
Proof. exact download_file_frame. Qed.

Lemma download_file_touches_only_its_save_path_witness :
  "/data/binance/data/spot/daily/klines/BTCUSDT/1m/BTCUSDT-1m-2021-11-01.zip"
    <> save_path_of serving_env "data/spot/daily/trades/BTCUSDT/"
         "BTCUSDT-trades-2021-11-01.zip" (Some "/home/user/test_data/binance")
  /\ files (snd (download_file serving_env "data/spot/daily/trades/BTCUSDT/"
                   "BTCUSDT-trades-2021-11-01.zip" None (Some "/home/user/test_data/binance")
                   stocked_world))
       !! "/data/binance/data/spot/daily/klines/BTCUSDT/1m/BTCUSDT-1m-2021-11-01.zip"
     = Some [Byte.x50; Byte.x4b].
Proof.
  assert (Hne : "/data/binance/data/spot/daily/klines/BTCUSDT/1m/BTCUSDT-1m-2021-11-01.zip"
                <> save_path_of serving_env "data/spot/daily/trades/BTCUSDT/"
                     "BTCUSDT-trades-2021-11-01.zip" (Some "/home/user/test_data/binance"))
    by (vm_compute; discriminate).
  split; [exact Hne|].
  destruct (download_file_touches_only_its_save_path serving_env
              "data/spot/daily/trades/BTCUSDT/" "BTCUSDT-trades-2021-11-01.zip" None
              (Some "/home/user/test_data/binance") stocked_world) as (Hfiles & _).
  rewrite (Hfiles _ Hne). vm_compute. reflexivity.
Defined.

(** ** The downloader: the exception that is caught *)

Lemma attempt_never_http e url sp w : fst (attempt e url sp w) <> Raise HTTPError.
Proof.
  unfold attempt, try_except.
  destruct (fetch e url sp w) as [[[]|ex] w']; simpl; [discriminate|].
  destruct (decide (ex = HTTPError)); simpl; [discriminate | congruence].
Qed.

Lemma download_file_never_http e bp fn dr folder :
  never_raises HTTPError (download_file e bp fn dr folder).
Proof.
  intros w. rewrite download_file_unfold. simpl.
  destruct (os_path_exists w (save_path_of e bp fn folder)); simpl; [discriminate|].
  apply attempt_never_http.
Qed.

Lemma never_raises_ret ex : never_raises ex (mret tt).
Proof. intros w. discriminate. Qed.

Lemma never_raises_print ex s : never_raises ex (print s).
Proof. intros w. discriminate. Qed.

Lemma never_raises_bind ex (m : M unit) (k : unit -> M unit) :
  never_raises ex m -> (forall u, never_raises ex (k u)) -> never_raises ex (m ≫= k).
Proof.
  intros Hm Hk w. unfold mbind, M_bind, bind.
  specialize (Hm w). destruct (m w) as [[[]|ex'] w']; simpl in *; [apply Hk | exact Hm].
Qed.

Lemma never_raises_lift_bind {A} ex (r : result A) (k : A -> M unit) :
  r <> Raise ex -> (forall a, never_raises ex (k a)) -> never_raises ex (lift r ≫= k).
Proof.
  intros Hr Hk w. unfold mbind, M_bind, bind, lift.
  destruct r as [a|ex']; simpl; [apply Hk | congruence].
Qed.

Lemma never_raises_for_each {A} ex (body : A -> M unit) xs :
  (forall x, never_raises ex (body x)) -> never_raises ex (for_each xs body).
Proof.
  intros Hb. induction xs as [|x xs IH]; simpl.
  - apply never_raises_ret.
  - apply never_raises_bind; [apply Hb | intros _; exact IH].
Qed.

Lemma never_raises_for_each_counting {A} ex (body : A -> Z -> M unit) xs :
  (forall x c, never_raises ex (body x c)) ->
  forall c, never_raises ex (for_each_counting xs c body).
Proof.
  intros Hb. induction xs as [|x xs IH]; intros c; simpl.
  - apply never_raises_ret.
  - apply never_raises_bind; [apply Hb | intros _; apply IH].
Qed.

(** ** Date strings *)

Lemma convert_to_date_object_eq d :
  convert_to_date_object d
  = bind_result (ints_of (split "-" d)) (fun ns =>
      match ns with
      | [year; month; day] => mk_date year month day
      | _ => Raise ValueError
      end).
Proof. reflexivity. Qed.

Lemma int_raises s ex : int s = Raise ex -> ex = ValueError.
Proof.
  unfold int. destruct (match strip (chars s) with [] => _ | _ => _ end);
    [discriminate | congruence].
Qed.

Lemma ints_of_raises parts ex : ints_of parts = Raise ex -> ex = ValueError.
Proof.
  induction parts as [|p ps IH]; simpl; [discriminate|].
  destruct (int p) as [n|ex'] eqn:E; simpl.
  - destruct (ints_of ps) as [ns|ex'']; simpl; [discriminate|].
    intros [= <-]. now apply IH.
  - intros [= <-]. now apply int_raises in E.
Qed.

(** [date] refuses with [OverflowError] exactly when an argument is no C
    [int], and with [ValueError] otherwise *)
Lemma mk_date_raises y m d ex :
  mk_date y m d = Raise ex ->
  (ex = OverflowError /\ fits_c_int y && fits_c_int m && fits_c_int d = false)
  \/ (ex = ValueError /\ fits_c_int y && fits_c_int m && fits_c_int d = true).
Proof.
  unfold mk_date. destruct (fits_c_int y && fits_c_int m && fits_c_int d); cbn [negb].
  - destruct (_ && _); [discriminate|]. intros [= <-]. now right.
  - intros [= <-]. now left.
Qed.

(** a string that is not a date is a [ValueError], or an [OverflowError]
    when one of its three numbers is no C [int] *)
Lemma convert_to_date_object_raises d ex :
  convert_to_date_object d = Raise ex ->
  ex = ValueError
  \/ (ex = OverflowError
      /\ exists y m dd, date_fields d = Some (y, m, dd)
                        /\ fits_c_int y && fits_c_int m && fits_c_int dd = false).
Proof.
  rewrite convert_to_date_object_eq. unfold date_fields.
  destruct (ints_of (split "-" d)) as [ns|ex'] eqn:E; simpl.
  - destruct ns as [|y [|m [|d' [|x ns]]]]; try (intros [= <-]; now left).
    intros H. apply mk_date_raises in H as [[-> H] | [-> _]]; [right | now left].
    split; [reflexivity|]. now exists y, m, d'.
  - intros [= <-]. left. now apply ints_of_raises in E.
Qed.

Lemma convert_never_http d : convert_to_date_object d <> Raise HTTPError.
Proof.
  intros H. apply convert_to_date_object_raises in H as [H | [H _]]; discriminate.
Qed.

Lemma bound_never_http (o : option string) (dflt : date) :
  (if negb (truthy_opt o) then Ok dflt else convert_to_date_object (default "" o))
  <> Raise HTTPError.
Proof. destruct (negb (truthy_opt o)); [discriminate | apply convert_never_http]. Qed.

Ltac never_http :=
  repeat first
    [ apply never_raises_ret
    | apply never_raises_print
    | apply download_file_never_http
    | apply bound_never_http
    | apply convert_never_http
    | apply never_raises_lift_bind; [|intro]
    | apply never_raises_bind; [|intro]
    | apply never_raises_for_each_counting; intros ? ?
    | apply never_raises_for_each; intro
    | match goal with |- never_raises _ (if ?c then _ else _) => destruct c end ].

(** X4. The [HTTPError] of a missing file is caught where it arises: no
    answer of the archive and no state of the disk makes [download_file],
    or any of the six download loops, end in [HTTPError]. *)
Theorem http_error_never_escapes :
  forall e trading_type symbols num_symbols intervals years months dates
    start_date end_date folder checksum,
    (forall base_path file_name date_range,
        never_raises HTTPError (download_file e base_path file_name date_range folder))
    /\ never_raises HTTPError
         (download_monthly_klines e trading_type symbols num_symbols intervals years months
            start_date end_date folder checksum)
    /\ never_raises HTTPError
         (download_daily_klines e trading_type symbols num_symbols intervals dates
            start_date end_date folder checksum)
    /\ never_raises HTTPError
         (download_monthly_trades e trading_type symbols num_symbols years months
            start_date end_date folder checksum)
    /\ never_raises HTTPError
         (download_daily_trades e trading_type symbols num_symbols dates
            start_date end_date folder checksum)
    /\ never_raises HTTPError
         (download_monthly_aggTrades e trading_type symbols num_symbols years months
            start_date end_date folder checksum)
    /\ never_raises HTTPError
         (download_daily_aggTrades e trading_type symbols num_symbols dates
            start_date end_date folder checksum).
Proof.
  intros. split; [intros; apply download_file_never_http|].
  unfold download_monthly_klines, download_daily_klines, download_monthly_trades,
    download_daily_trades, download_monthly_aggTrades, download_daily_aggTrades.
  repeat split; never_http.
Qed.

(** ** The downloader: the other loops *)

Lemma flat_map_flat_map {A B C} (f : B -> list C) (g : A -> list B) (l : list A) :
  flat_map f (flat_map g l) = flat_map (fun x => flat_map f (g x)) l.
Proof.
  induction l as [|x l IH]; [reflexivity|].
  cbn [flat_map]. now rewrite flat_map_app, IH.
Qed.

Lemma flat_map_map {A B C} (f : B -> list C) (g : A -> B) (l : list A) :
  flat_map f (map g l) = flat_map (fun x => f (g x)) l.
Proof. induction l as [|x l IH]; [reflexivity|]. cbn [map flat_map]. now rewrite IH. Qed.

(** a file and then, when asked for, its checksum file *)
Lemma logs_with_checksum e path file_name dr folder checksum :
  logs (download_file e path file_name dr folder ;;
        if checksum =? 1
        then download_file e path (file_name +:+ ".CHECKSUM") dr folder
        else mret tt)
       (with_checksum checksum path file_name).
Proof.
  unfold with_checksum.
  change ((path, file_name)
            :: (if checksum =? 1 then [(path, file_name +:+ ".CHECKSUM")] else []))
    with ([(path, file_name)]
            ++ (if checksum =? 1 then [(path, file_name +:+ ".CHECKSUM")] else [])).
  apply logs_bind; [apply download_file_logs|]. intros _.
  destruct (checksum =? 1); [apply download_file_logs | apply logs_ret].
Qed.

Lemma zip_checksum (a : string) : (a +:+ ".zip") +:+ ".CHECKSUM" = a +:+ ".zip.CHECKSUM".
Proof. now rewrite append_assoc. Qed.

(** the loops over the years and the months of one symbol *)
Lemma logs_months (start_ end_ : date) years months (body : string -> Z -> M unit)
    (plan : string * Z -> list (string * string)) :
  (forall year month, logs (body year month) (plan (year, month))) ->
  logs (for_each years (fun year =>
          for_each months (fun month =>
            current_date ← lift (convert_to_date_object
                                   (year +:+ "-" +:+ pretty month +:+ "-01"));
            if date_le start_ current_date && date_le current_date end_
            then body year month else mret tt)))
       (flat_map plan (months_in_range start_ end_ years months)).
Proof.
  intros Hb. unfold months_in_range. rewrite flat_map_flat_map.
  apply logs_for_each. intros year.
  rewrite flat_map_map, flat_map_filter.
  apply logs_for_each. intros month.
  apply logs_lift_bind. intros current_date Hd.
  unfold in_month_range. rewrite Hd.
  destruct (date_le start_ current_date && date_le current_date end_);
    [apply Hb | apply logs_ret].
Qed.

(** the loop over the dates of one symbol *)
Lemma logs_dates (start_ end_ : date) dates (body : string -> M unit)
    (plan : string -> list (string * string)) :
  (forall date, logs (body date) (plan date)) ->
  logs (for_each dates (fun date =>
          current_date ← lift (convert_to_date_object date);
          if date_le start_ current_date && date_le current_date end_
          then body date else mret tt))
       (flat_map plan (List.filter (in_date_range start_ end_) dates)).
Proof.
  intros Hb. rewrite flat_map_filter.
  apply logs_for_each. intros date.
  apply logs_lift_bind. intros current_date Hd.
  unfold in_date_range. rewrite Hd.
  destruct (date_le start_ current_date && date_le current_date end_);
    [apply Hb | apply logs_ret].
Qed.

Ltac string_norm_in H :=
  repeat first [rewrite append_assoc in H | rewrite append_String in H
               | rewrite append_nil_l in H].

Ltac logs_head Hs He :=
  apply logs_lift_bind; intros ? Ha; rewrite Hs in Ha; injection Ha as <-;
  apply logs_lift_bind; intros ? Ha; rewrite He in Ha; injection Ha as <-;
  match goal with |- logs _ ?l => change l with ([] ++ l) end;
  apply logs_bind; [apply logs_print|]; intros _.

Ltac logs_symbol :=
  match goal with |- logs _ ?l => change l with ([] ++ l) end;
  apply logs_bind; [apply logs_print|]; intros _.

Lemma monthly_klines_logs e trading_type symbols num_symbols intervals years months
    sd ed folder checksum start_ end_ :
  effective_start sd = Ok start_ ->
  effective_end e ed = Ok end_ ->
  logs (download_monthly_klines e trading_type symbols num_symbols intervals years months
          sd ed folder checksum)
       (monthly_kline_downloads trading_type symbols intervals years months
          start_ end_ checksum).
Proof.
  intros Hs He. unfold download_monthly_klines, effective_start, effective_end in *.
  logs_head Hs He.
  unfold monthly_kline_downloads.
  apply logs_for_each_counting. intros symbol current. logs_symbol.
  apply logs_for_each. intros interval.
  apply (logs_months start_ end_ years months
           (fun year month => _)
           (fun ym => with_checksum checksum _
                        (upper symbol +:+ "-" +:+ interval +:+ "-" +:+ fst ym +:+ "-"
                           +:+ format_02d (snd ym) +:+ ".zip"))).
  intros year month. simpl.
  pose proof (logs_with_checksum e
                (get_path trading_type "klines" "monthly" symbol (Some interval))
                (upper symbol +:+ "-" +:+ interval +:+ "-" +:+ year +:+ "-"
                   +:+ format_02d month +:+ ".zip") 
                (if truthy_opt sd && truthy_opt ed
                 then Some (default "" sd +:+ " " +:+ default "" ed) else None)
                folder checksum) as H.
  string_norm_in H. string_norm. exact H.
Qed.

Lemma monthly_trades_logs e trading_type symbols num_symbols years months
    sd ed folder checksum start_ end_ :
  effective_start sd = Ok start_ ->
  effective_end e ed = Ok end_ ->
  logs (download_monthly_trades e trading_type symbols num_symbols years months
          sd ed folder checksum)
       (monthly_downloads "trades" trading_type symbols years months start_ end_ checksum).
Proof.
  intros Hs He. unfold download_monthly_trades, effective_start, effective_end in *.
  logs_head Hs He.
  unfold monthly_downloads.
  apply logs_for_each_counting. intros symbol current. logs_symbol.
  apply (logs_months start_ end_ years months
           (fun year month => _)
           (fun ym => with_checksum checksum _
                        (upper symbol +:+ "-" +:+ "trades" +:+ "-" +:+ fst ym +:+ "-"
                           +:+ format_02d (snd ym) +:+ ".zip"))).
  intros year month. simpl.
  pose proof (logs_with_checksum e
                (get_path trading_type "trades" "monthly" symbol None)
                (upper symbol +:+ "-trades-" +:+ year +:+ "-"
                   +:+ format_02d month +:+ ".zip")
                (if truthy_opt sd && truthy_opt ed
                 then Some (default "" sd +:+ " " +:+ default "" ed) else None)
                folder checksum) as H.
  string_norm_in H. string_norm. exact H.
Qed.

Lemma monthly_aggTrades_logs e trading_type symbols num_symbols years months
    sd ed folder checksum start_ end_ :
  effective_start sd = Ok start_ ->
  effective_end e ed = Ok end_ ->
  logs (download_monthly_aggTrades e trading_type symbols num_symbols years months
          sd ed folder checksum)
       (monthly_downloads "aggTrades" trading_type symbols years months start_ end_ checksum).
Proof.
  intros Hs He. unfold download_monthly_aggTrades, effective_start, effective_end in *.
  logs_head Hs He.
  unfold monthly_downloads.
  apply logs_for_each_counting. intros symbol current. logs_symbol.
  apply (logs_months start_ end_ years months
           (fun year month => _)
           (fun ym => with_checksum checksum _
                        (upper symbol +:+ "-" +:+ "aggTrades" +:+ "-" +:+ fst ym +:+ "-"
                           +:+ format_02d (snd ym) +:+ ".zip"))).
  intros year month. simpl.
  pose proof (logs_with_checksum e
                (get_path trading_type "aggTrades" "monthly" symbol None)
                (upper symbol +:+ "-aggTrades-" +:+ year +:+ "-"
                   +:+ format_02d month +:+ ".zip")
                (if truthy_opt sd && truthy_opt ed
                 then Some (default "" sd +:+ " " +:+ default "" ed) else None)
                folder checksum) as H.
  string_norm_in H. string_norm. exact H.
Qed.

Lemma daily_trades_logs e trading_type symbols num_symbols dates
    sd ed folder checksum start_ end_ :
  effective_start sd = Ok start_ ->
  effective_end e ed = Ok end_ ->
  logs (download_daily_trades e trading_type symbols num_symbols dates
          sd ed folder checksum)
       (daily_downloads "trades" trading_type symbols dates start_ end_ checksum).
Proof.
  intros Hs He. unfold download_daily_trades, effective_start, effective_end in *.
  logs_head Hs He.
  unfold daily_downloads.
  apply logs_for_each. intros symbol. logs_symbol.
  apply (logs_dates start_ end_ dates
           (fun date => _)
           (fun date => with_checksum checksum _
                          (upper symbol +:+ "-" +:+ "trades" +:+ "-" +:+ date +:+ ".zip"))).
  intros date. simpl.
  pose proof (logs_with_checksum e
                (get_path trading_type "trades" "daily" symbol None)
                (upper symbol +:+ "-trades-" +:+ date +:+ ".zip")
                (if truthy_opt sd && truthy_opt ed
                 then Some (default "" sd +:+ " " +:+ default "" ed) else None)
                folder checksum) as H.
  string_norm_in H. string_norm. exact H.
Qed.

Lemma daily_aggTrades_logs e trading_type symbols num_symbols dates
    sd ed folder checksum start_ end_ :
  effective_start sd = Ok start_ ->
  effective_end e ed = Ok end_ ->
  logs (download_daily_aggTrades e trading_type symbols num_symbols dates
          sd ed folder checksum)
       (daily_downloads "aggTrades" trading_type symbols dates start_ end_ checksum).
Proof.
  intros Hs He. unfold download_daily_aggTrades, effective_start, effective_end in *.
  logs_head Hs He.
  unfold daily_downloads.
  apply logs_for_each_counting. intros symbol current. logs_symbol.
  apply (logs_dates start_ end_ dates
           (fun date => _)
           (fun date => with_checksum checksum _
                          (upper symbol +:+ "-" +:+ "aggTrades" +:+ "-" +:+ date +:+ ".zip"))).
  intros date. simpl.
  pose proof (logs_with_checksum e
                (get_path trading_type "aggTrades" "daily" symbol None)
                (upper symbol +:+ "-aggTrades-" +:+ date +:+ ".zip")
                (if truthy_opt sd && truthy_opt ed
                 then Some (default "" sd +:+ " " +:+ default "" ed) else None)
                folder checksum) as H.
  string_norm_in H. string_norm. exact H.
Qed.

(** X5. A run of [download_monthly_klines] that returns normally has
    called [download_file] exactly for the files of the request, in the
    order of the loops: for each symbol, each requested interval, each
    requested year and each requested month whose first day lies between
    the start and the end date, the archive SYMBOL-interval-year-MM.zip
    under the resolver's monthly path, followed by its checksum file when
    [checksum] is 1. Unlike the daily loop this one does not filter the
    intervals: every requested interval is downloaded, as often as it
    was requested. *)
Theorem monthly_klines_downloads :
  forall e trading_type symbols num_symbols intervals years months sd ed folder checksum w
    start_ end_,
    let run := download_monthly_klines e trading_type symbols num_symbols intervals
                 years months sd ed folder checksum in
    effective_start sd = Ok start_ ->
    effective_end e ed = Ok end_ ->
    fst (run w) = Ok tt ->
    calls (snd (run w))
    = calls w ++ monthly_kline_downloads trading_type symbols intervals years months
                   start_ end_ checksum
    /\ (forall symbol interval year month,
          In symbol symbols -> In interval intervals -> In year years -> In month months ->
          in_month_range start_ end_ year month = true ->
          In (get_path trading_type "klines" "monthly" symbol (Some interval),
              upper symbol +:+ "-" +:+ interval +:+ "-" +:+ year +:+ "-"
                +:+ format_02d month +:+ ".zip")
             (calls (snd (run w)))).
Proof.
  intros e trading_type symbols num_symbols intervals years months sd ed folder checksum w
    start_ end_ run Hs He Hok.
  assert (Hcalls : calls (snd (run w))
                   = calls w ++ monthly_kline_downloads trading_type symbols intervals
                                  years months start_ end_ checksum)
    by now apply (monthly_klines_logs e trading_type symbols num_symbols intervals years
                    months sd ed folder checksum start_ end_ Hs He w).
  split; [exact Hcalls|].
  intros symbol interval year month Hsym Hint Hy Hm Hin.
  rewrite Hcalls. apply in_or_app. right.
  unfold monthly_kline_downloads.
  apply in_flat_map. exists symbol. split; [exact Hsym|].
  apply in_flat_map. exists interval. split; [exact Hint|].
  apply in_flat_map. exists (year, month). split.
  - unfold months_in_range. apply in_flat_map. exists year. split; [exact Hy|].
    apply in_map. apply filter_In. auto.
  - left. reflexivity.
Qed.

Lemma monthly_klines_downloads_witness :
  fst (download_monthly_klines offline_env "spot" ["btcusdt"] 1 ["1w"; "1w"] ["2021"]
         [10; 11] (Some "2021-11-01") (Some "2021-12-31") None 0 fresh_world) = Ok tt
  /\ calls (snd (download_monthly_klines offline_env "spot" ["btcusdt"] 1 ["1w"; "1w"]
                   ["2021"] [10; 11] (Some "2021-11-01") (Some "2021-12-31") None 0
                   fresh_world))
     = [("data/spot/monthly/klines/BTCUSDT/1w/", "BTCUSDT-1w-2021-11.zip");
        ("data/spot/monthly/klines/BTCUSDT/1w/", "BTCUSDT-1w-2021-11.zip")].
Proof.
  split; [vm_compute; reflexivity|].
  destruct (monthly_klines_downloads offline_env "spot" ["btcusdt"] 1 ["1w"; "1w"] ["2021"]
              [10; 11] (Some "2021-11-01") (Some "2021-12-31") None 0 fresh_world
              (mkdate 2021 11 1) (mkdate 2021 12 31)) as [Hcalls _].
  - reflexivity.
  - reflexivity.
  - vm_compute; reflexivity.
  - rewrite Hcalls. vm_compute. reflexivity.
Defined.

(** X6. A run of [download_monthly_trades] or [download_monthly_aggTrades]
    that returns normally has called [download_file] exactly for the
    files of the request: for each symbol, each requested year and each
    requested month whose first day lies between the start and the end
    date, the archive SYMBOL-trades-year-MM.zip (SYMBOL-aggTrades-year-MM.zip)
    under the resolver's monthly path, followed by its checksum file when
    [checksum] is 1. *)
Theorem monthly_trades_downloads :
  forall e trading_type symbols num_symbols years months sd ed folder checksum w
    start_ end_,
    effective_start sd = Ok start_ ->
    effective_end e ed = Ok end_ ->
    (fst (download_monthly_trades e trading_type symbols num_symbols years months
            sd ed folder checksum w) = Ok tt ->
     calls (snd (download_monthly_trades e trading_type symbols num_symbols years months
                   sd ed folder checksum w))
     = calls w ++ monthly_downloads "trades" trading_type symbols years months
                    start_ end_ checksum)
    /\ (fst (download_monthly_aggTrades e trading_type symbols num_symbols years months
               sd ed folder checksum w) = Ok tt ->
        calls (snd (download_monthly_aggTrades e trading_type symbols num_symbols years
                      months sd ed folder checksum w))
        = calls w ++ monthly_downloads "aggTrades" trading_type symbols years months
                       start_ end_ checksum).
Proof.
  intros e trading_type symbols num_symbols years months sd ed folder checksum w
    start_ end_ Hs He.
  split.
  - apply (monthly_trades_logs e trading_type symbols num_symbols years months
             sd ed folder checksum start_ end_ Hs He w).
  - apply (monthly_aggTrades_logs e trading_type symbols num_symbols years months
             sd ed folder checksum start_ end_ Hs He w).
Qed.

Lemma monthly_trades_downloads_witness :
  fst (download_monthly_trades offline_env "um" ["btcusdt"; "ETHUSDT"] 2 ["2020"; "2021"]
         [1; 12] (Some "2020-12-01") None None 1 fresh_world) = Ok tt
  /\ calls (snd (download_monthly_trades offline_env "um" ["btcusdt"; "ETHUSDT"] 2
                   ["2020"; "2021"] [1; 12] (Some "2020-12-01") None None 1 fresh_world))
     = [("data/futures/um/monthly/trades/BTCUSDT/", "BTCUSDT-trades-2020-12.zip");
        ("data/futures/um/monthly/trades/BTCUSDT/", "BTCUSDT-trades-2020-12.zip.CHECKSUM");
        ("data/futures/um/monthly/trades/BTCUSDT/", "BTCUSDT-trades-2021-01.zip");
        ("data/futures/um/monthly/trades/BTCUSDT/", "BTCUSDT-trades-2021-01.zip.CHECKSUM");
        ("data/futures/um/monthly/trades/BTCUSDT/", "BTCUSDT-trades-2021-12.zip");
        ("data/futures/um/monthly/trades/BTCUSDT/", "BTCUSDT-trades-2021-12.zip.CHECKSUM");
        ("data/futures/um/monthly/trades/ETHUSDT/", "ETHUSDT-trades-2020-12.zip");
        ("data/futures/um/monthly/trades/ETHUSDT/", "ETHUSDT-trades-2020-12.zip.CHECKSUM");
        ("data/futures/um/monthly/trades/ETHUSDT/", "ETHUSDT-trades-2021-01.zip");
        ("data/futures/um/monthly/trades/ETHUSDT/", "ETHUSDT-trades-2021-01.zip.CHECKSUM");
        ("data/futures/um/monthly/trades/ETHUSDT/", "ETHUSDT-trades-2021-12.zip");
        ("data/futures/um/monthly/trades/ETHUSDT/", "ETHUSDT-trades-2021-12.zip.CHECKSUM")].
Proof.
  split; [vm_compute; reflexivity|].
  destruct (monthly_trades_downloads offline_env "um" ["btcusdt"; "ETHUSDT"] 2
              ["2020"; "2021"] [1; 12] (Some "2020-12-01") None None 1 fresh_world
              (mkdate 2020 12 1) (mkdate 2021 12 15)) as [Hcalls _].
  - reflexivity.
  - reflexivity.
  - rewrite Hcalls; vm_compute; reflexivity.
Defined.

(** X7. A run of [download_daily_trades] or [download_daily_aggTrades]
    that returns normally has called [download_file] exactly for the
    files of the request: for each symbol and each requested date between
    the start and the end date, the archive SYMBOL-trades-date.zip
    (SYMBOL-aggTrades-date.zip) under the resolver's daily path, followed
    by its checksum file when [checksum] is 1; nothing for dates out of
    range. *)
Theorem daily_trades_downloads :
  forall e trading_type symbols num_symbols dates sd ed folder checksum w start_ end_,
    effective_start sd = Ok start_ ->
    effective_end e ed = Ok end_ ->
    (fst (download_daily_trades e trading_type symbols num_symbols dates
            sd ed folder checksum w) = Ok tt ->
     calls (snd (download_daily_trades e trading_type symbols num_symbols dates
                   sd ed folder checksum w))
     = calls w ++ daily_downloads "trades" trading_type symbols dates start_ end_ checksum)
    /\ (fst (download_daily_aggTrades e trading_type symbols num_symbols dates
               sd ed folder checksum w) = Ok tt ->
        calls (snd (download_daily_aggTrades e trading_type symbols num_symbols dates
                      sd ed folder checksum w))
        = calls w ++ daily_downloads "aggTrades" trading_type symbols dates
                       start_ end_ checksum).
Proof.
  intros e trading_type symbols num_symbols dates sd ed folder checksum w start_ end_ Hs He.
  split.
  - apply (daily_trades_logs e trading_type symbols num_symbols dates
             sd ed folder checksum start_ end_ Hs He w).
  - apply (daily_aggTrades_logs e trading_type symbols num_symbols dates
             sd ed folder checksum start_ end_ Hs He w).
Qed.

Lemma daily_trades_downloads_witness :
  fst (download_daily_aggTrades offline_env "spot" ["btcusdt"] 1
         ["2021-10-31"; "2021-11-01"; "2021-11-02"] (Some "2021-11-01") (Some "2021-11-02")
         None 0 fresh_world) = Ok tt
  /\ calls (snd (download_daily_aggTrades offline_env "spot" ["btcusdt"] 1
                   ["2021-10-31"; "2021-11-01"; "2021-11-02"] (Some "2021-11-01")
                   (Some "2021-11-02") None 0 fresh_world))
     = [("data/spot/daily/aggTrades/BTCUSDT/", "BTCUSDT-aggTrades-2021-11-01.zip");
        ("data/spot/daily/aggTrades/BTCUSDT/", "BTCUSDT-aggTrades-2021-11-02.zip")].
Proof.
  split; [vm_compute; reflexivity|].
  destruct (daily_trades_downloads offline_env "spot" ["btcusdt"] 1
              ["2021-10-31"; "2021-11-01"; "2021-11-02"] (Some "2021-11-01")
              (Some "2021-11-02") None 0 fresh_world
              (mkdate 2021 11 1) (mkdate 2021 11 2)) as [_ Hcalls].
  - reflexivity.
  - reflexivity.
  - rewrite Hcalls; vm_compute; reflexivity.
Defined.

(** ** The downloader: where a file is saved *)

Lemma os_path_join_rel a b :
  starts_with_slash b = false -> os_path_join a b = as_directory a +:+ b.
Proof.
  intros Hb. unfold os_path_join, as_directory. rewrite Hb.
  destruct (negb (truthy a) || ends_with_slash a); [reflexivity|].
  now rewrite append_assoc.
Qed.

Lemma os_path_join_abs a b : starts_with_slash b = true -> os_path_join a b = b.
Proof. intros Hb. unfold os_path_join. now rewrite Hb. Qed.

Lemma starts_with_slash_app a b :
  truthy a = true -> starts_with_slash (a +:+ b) = starts_with_slash a.
Proof. destruct a as [|c a]; [discriminate|]. intros _. now rewrite append_String. Qed.

Lemma truthy_as_directory a : truthy a = true -> truthy (as_directory a) = true.
Proof.
  unfold as_directory. intros H. destruct (negb (truthy a) || ends_with_slash a); [exact H|].
  destruct a; [discriminate | reflexivity].
Qed.

Lemma starts_with_slash_as_directory a :
  truthy a = true -> starts_with_slash (as_directory a) = starts_with_slash a.
Proof.
  unfold as_directory. intros H. destruct (negb (truthy a) || ends_with_slash a); [reflexivity|].
  now apply starts_with_slash_app.
Qed.

Lemma ends_with_slash_append a b :
  ends_with_slash b = true -> ends_with_slash (a +:+ b) = true.
Proof.
  intros Hb. induction a as [|x a IH]; [now rewrite append_nil_l|].
  rewrite append_String. simpl.
  destruct (a +:+ b) eqn:E; [|exact IH].
  destruct a; [rewrite append_nil_l in E; subst b|]; discriminate.
Qed.

Lemma get_path_relative trading_type market_data_type time_period symbol interval :
  starts_with_slash (get_path trading_type market_data_type time_period symbol interval)
  = false.
Proof.
  unfold get_path.
  destruct interval; destruct (String.eqb trading_type "spot"); reflexivity.
Qed.

Lemma get_path_truthy trading_type market_data_type time_period symbol interval :
  truthy (get_path trading_type market_data_type time_period symbol interval) = true.
Proof.
  unfold get_path.
  destruct interval; destruct (String.eqb trading_type "spot"); reflexivity.
Qed.

Lemma get_path_directory trading_type market_data_type time_period symbol interval :
  ends_with_slash (get_path trading_type market_data_type time_period symbol interval)
  = true.
Proof.
  unfold get_path.
  destruct interval; repeat (apply ends_with_slash_append); reflexivity.
Qed.

Lemma get_destination_dir_eq e u folder :
  get_destination_dir e u folder
  = os_path_join (if truthy_opt folder then default "" folder else store_directory e) u.
Proof.
  unfold get_destination_dir, store_directory, truthy_opt.
  destruct folder as [f|]; destruct (STORE_DIRECTORY e) as [s|]; simpl;
    repeat match goal with
           | |- context [truthy ?x] => destruct (truthy x) eqn:?; simpl
           end;
    congruence.
Qed.

(** the paths of [download_file] for a base path that is relative and ends
    in a slash, as the resolver's paths are *)
Lemma save_path_of_eq e bp fn folder :
  starts_with_slash bp = false -> ends_with_slash bp = true ->
  starts_with_slash fn = false ->
  let store := if truthy_opt folder then default "" folder else store_directory e in
  let base := if truthy_opt folder
              then as_directory (default "" folder) +:+ bp else bp in
  save_path_of e bp fn folder = os_path_join store (base +:+ fn)
  /\ made_directory e bp folder = os_path_join (store_directory e) base.
Proof.
  intros Hrel Hdir Hfn store base. subst store base.
  unfold save_path_of, made_directory. rewrite !get_destination_dir_eq. simpl.
  destruct (truthy_opt folder).
  - rewrite (os_path_join_rel _ bp Hrel), (os_path_join_rel _ fn Hfn).
    unfold as_directory at 1.
    rewrite (ends_with_slash_append _ bp Hdir), orb_true_r. auto.
  - rewrite (os_path_join_rel bp fn Hfn). unfold as_directory at 1.
    rewrite Hdir, orb_true_r. auto.
Qed.

(** the layout of the save path under an absolute folder or under the store *)
Lemma save_path_layout :
  forall e trading_type market_data_type time_period symbol interval file_name folder,
    let base_path := get_path trading_type market_data_type time_period symbol interval in
    let root := if truthy_opt folder then default "" folder else store_directory e in
    starts_with_slash file_name = false ->
    truthy_opt folder = false \/ absolute (default "" folder) ->
    save_path_of e base_path file_name folder
    = as_directory root +:+ base_path +:+ file_name
    /\ made_directory e base_path folder = as_directory root +:+ base_path
    /\ save_path_of e base_path file_name folder
       = made_directory e base_path folder +:+ file_name.
Proof.
  intros e trading_type market_data_type time_period symbol interval fn folder bp root
    Hfn Hfolder.
  destruct (save_path_of_eq e bp fn folder) as [Hsp Hmade];
    [apply get_path_relative | apply get_path_directory | exact Hfn |].
  assert (Hbp : starts_with_slash (bp +:+ fn) = false).
  { rewrite starts_with_slash_app by apply get_path_truthy. apply get_path_relative. }
  assert (H : save_path_of e bp fn folder = as_directory root +:+ bp +:+ fn
              /\ made_directory e bp folder = as_directory root +:+ bp).
  { rewrite Hsp, Hmade. subst root. destruct (truthy_opt folder) eqn:Ht.
    - destruct Hfolder as [Hno | Habs]; [discriminate|].
      destruct folder as [f|]; [|discriminate]. simpl in *. unfold absolute in Habs.
      assert (Hd : starts_with_slash (as_directory f +:+ bp) = true).
      { rewrite starts_with_slash_app by now apply truthy_as_directory.
        now rewrite starts_with_slash_as_directory. }
      rewrite (os_path_join_abs (store_directory e) _ Hd).
      rewrite os_path_join_abs; [now rewrite append_assoc|].
      rewrite append_assoc.
      rewrite starts_with_slash_app by now apply truthy_as_directory.
      now rewrite starts_with_slash_as_directory.
    - rewrite (os_path_join_rel _ _ Hbp).
      rewrite (os_path_join_rel _ bp) by apply get_path_relative. auto. }
  destruct H as [H1 H2]. split; [exact H1|]. split; [exact H2|].
  rewrite H1, H2. now rewrite append_assoc.
Qed.

(** X8. Where a file of the resolver's paths is saved. With an absolute
    folder, or with no folder at all, [download_file] saves the file
    under the root (the folder, or else [STORE_DIRECTORY], or else the
    directory of the module) at root/path/file_name, and the directory it
    makes is the directory of that file. With an absolute folder neither
    path depends on [STORE_DIRECTORY] or on the directory of the module. *)
Theorem save_path_is_in_the_made_directory :
  forall e trading_type market_data_type time_period symbol interval file_name folder,
    let base_path := get_path trading_type market_data_type time_period symbol interval in
    let root := if truthy_opt folder then default "" folder else store_directory e in
    starts_with_slash file_name = false ->
    truthy_opt folder = false \/ absolute (default "" folder) ->
    save_path_of e base_path file_name folder
    = as_directory root +:+ base_path +:+ file_name
    /\ made_directory e base_path folder = as_directory root +:+ base_path
    /\ save_path_of e base_path file_name folder
       = made_directory e base_path folder +:+ file_name.
Proof. exact save_path_layout. Qed.

Lemma save_path_is_in_the_made_directory_witness :
  starts_with_slash "BTCUSDT-1m-2021-11-01.zip" = false
  /\ absolute "/home/user/test_data/binance"
  /\ save_path_of sample_env (get_path "spot" "klines" "daily" "btcusdt" (Some "1m"))
       "BTCUSDT-1m-2021-11-01.zip" (Some "/home/user/test_data/binance")
     = "/home/user/test_data/binance/data/spot/daily/klines/BTCUSDT/1m/BTCUSDT-1m-2021-11-01.zip".
Proof.
  split; [reflexivity|]. split; [reflexivity|].
  destruct (save_path_is_in_the_made_directory sample_env "spot" "klines" "daily" "btcusdt"
              (Some "1m") "BTCUSDT-1m-2021-11-01.zip" (Some "/home/user/test_data/binance"))
    as (Hsp & _).
  - reflexivity.
  - right. reflexivity.
  - rewrite Hsp. vm_compute. reflexivity.
Defined.

(** X9. A relative folder is joined in twice. [download_file] joins the
    folder to the base path and [get_destination_dir] joins it again, so
    the file is saved at folder/folder/path/file_name, while the directory
    that is made is store/folder/path, under [STORE_DIRECTORY] or the
    directory of the module: when that store is absolute, the directory
    made is not the directory of the save path. *)
Theorem relative_folder_is_joined_twice :
  forall e trading_type market_data_type time_period symbol interval file_name folder,
    let base_path := get_path trading_type market_data_type time_period symbol interval in
    starts_with_slash file_name = false ->
    truthy folder = true ->
    starts_with_slash folder = false ->
    save_path_of e base_path file_name (Some folder)
    = as_directory folder +:+ as_directory folder +:+ base_path +:+ file_name
    /\ made_directory e base_path (Some folder)
       = as_directory (store_directory e) +:+ as_directory folder +:+ base_path
    /\ (absolute (store_directory e) ->
        save_path_of e base_path file_name (Some folder)
        <> made_directory e base_path (Some folder) +:+ file_name).
Proof.
  intros e trading_type market_data_type time_period symbol interval fn f bp Hfn Hf Hrel.
  destruct (save_path_of_eq e bp fn (Some f)) as [Hsp Hmade];
    [apply get_path_relative | apply get_path_directory | exact Hfn |].
  simpl in Hsp, Hmade. rewrite Hf in Hsp, Hmade. simpl in Hsp, Hmade.
  assert (Hd : starts_with_slash (as_directory f +:+ bp) = false).
  { rewrite starts_with_slash_app by now apply truthy_as_directory.
    now rewrite starts_with_slash_as_directory. }
  assert (Hd' : starts_with_slash ((as_directory f +:+ bp) +:+ fn) = false).
  { rewrite append_assoc. rewrite starts_with_slash_app by now apply truthy_as_directory.
    now rewrite starts_with_slash_as_directory. }
  rewrite (os_path_join_rel _ _ Hd') in Hsp. rewrite (os_path_join_rel _ _ Hd) in Hmade.
  rewrite append_assoc in Hsp.
  split; [exact Hsp|]. split; [exact Hmade|].
  intros Habs Heq. rewrite Hsp, Hmade in Heq.
  apply (f_equal starts_with_slash) in Heq.
  assert (Hs : truthy (store_directory e) = true)
    by (unfold absolute in Habs; destruct (store_directory e); [discriminate | reflexivity]).
  rewrite starts_with_slash_app in Heq by now apply truthy_as_directory.
  rewrite starts_with_slash_as_directory in Heq by exact Hf.
  rewrite !append_assoc in Heq.
  rewrite starts_with_slash_app in Heq by now apply truthy_as_directory.
  rewrite starts_with_slash_as_directory in Heq by exact Hs.
  unfold absolute in Habs. congruence.
Qed.

Lemma relative_folder_is_joined_twice_witness :
  starts_with_slash "BTCUSDT-1m-2021-11-01.zip" = false
  /\ truthy "test_data" = true
  /\ starts_with_slash "test_data" = false
  /\ save_path_of sample_env (get_path "spot" "klines" "daily" "btcusdt" (Some "1m"))
       "BTCUSDT-1m-2021-11-01.zip" (Some "test_data")
     = "test_data/test_data/data/spot/daily/klines/BTCUSDT/1m/BTCUSDT-1m-2021-11-01.zip"
  /\ made_directory sample_env (get_path "spot" "klines" "daily" "btcusdt" (Some "1m"))
       (Some "test_data")
     = "/opt/researchtools/test_data/data/spot/daily/klines/BTCUSDT/1m/".
Proof.
  split; [reflexivity|]. split; [reflexivity|]. split; [reflexivity|].
  destruct (relative_folder_is_joined_twice sample_env "spot" "klines" "daily" "btcusdt"
              (Some "1m") "BTCUSDT-1m-2021-11-01.zip" "test_data") as (Hsp & Hmade & _).
  - reflexivity.
  - reflexivity.
  - reflexivity.
  - rewrite Hsp, Hmade. split; vm_compute; reflexivity.
Defined.

(** ** The calendar *)

Lemma days_in_month_bounds y m : 28 <= days_in_month y m <= 31.
Proof.
  unfold days_in_month.
  destruct (m =? 2); [destruct (is_leap y); lia|].
  destruct (_ || _); lia.
Qed.

Lemma valid_date_bounds d :
  valid_date d <->
  1 <= year d <= 9999 /\ 1 <= month d <= 12 /\ 1 <= day d <= days_in_month (year d) (month d).
Proof.
  unfold valid_date, mk_date. destruct d as [y m dd]; simpl.
  pose proof (days_in_month_bounds y m) as Hdim.
  destruct (fits_c_int y && fits_c_int m && fits_c_int dd) eqn:F; cbn [negb].
  - clear F.
    match goal with
    | |- context [if ?c then Ok _ else Raise ValueError] => destruct c eqn:E
    end.
    + split; [intros _|reflexivity].
      repeat (apply andb_true_iff in E as [E ?]). lia.
    + split; [discriminate|]. intros H.
      assert ((1 <=? y) && (y <=? 9999) && (1 <=? m) && (m <=? 12) && (1 <=? dd)
              && (dd <=? days_in_month y m) = true); [|congruence].
      repeat (apply andb_true_iff; split); lia.
  - split; [discriminate|]. intros H.
    assert (fits_c_int y && fits_c_int m && fits_c_int dd = true); [|congruence].
    unfold fits_c_int. repeat (apply andb_true_iff; split); lia.
Qed.


Lemma days_of_months_S y n :
  days_of_months y (S n) = days_of_months y n + days_in_month y (Z.of_nat (S n)).
Proof. reflexivity. Qed.

Lemma days_of_months_mono y n n' : (n <= n')%nat -> days_of_months y n <= days_of_months y n'.
Proof.
  induction 1 as [|k Hk IH]; [lia|].
  rewrite days_of_months_S. pose proof (days_in_month_bounds y (Z.of_nat (S k))). lia.
Qed.

Lemma days_of_months_nonneg y n : 0 <= days_of_months y n.
Proof. apply (days_of_months_mono y 0 n). lia. Qed.

Lemma days_of_months_year y :
  days_of_months y 12 = if is_leap y then 366 else 365.
Proof.
  cbn [days_of_months]. unfold days_in_month. simpl. destruct (is_leap y); reflexivity.
Qed.

Lemma div_succ_4 y : y / 4 = (y - 1) / 4 + (if y mod 4 =? 0 then 1 else 0).
Proof.
  destruct (y mod 4 =? 0) eqn:E; [apply Z.eqb_eq in E | apply Z.eqb_neq in E];
    Z.div_mod_to_equations; lia.
Qed.

Lemma div_succ_100 y : y / 100 = (y - 1) / 100 + (if y mod 100 =? 0 then 1 else 0).
Proof.
  destruct (y mod 100 =? 0) eqn:E; [apply Z.eqb_eq in E | apply Z.eqb_neq in E];
    Z.div_mod_to_equations; lia.
Qed.

Lemma div_succ_400 y : y / 400 = (y - 1) / 400 + (if y mod 400 =? 0 then 1 else 0).
Proof.
  destruct (y mod 400 =? 0) eqn:E; [apply Z.eqb_eq in E | apply Z.eqb_neq in E];
    Z.div_mod_to_equations; lia.
Qed.

Lemma days_before_year_S y :
  days_before_year (y + 1) = days_before_year y + (if is_leap y then 366 else 365).
Proof.
  unfold days_before_year, is_leap.
  replace (y + 1 - 1) with y by lia.
  rewrite (div_succ_4 y), (div_succ_100 y), (div_succ_400 y).
  assert (H100 : y mod 4 = (y mod 100) mod 4)
    by (Z.div_mod_to_equations; lia).
  assert (H400 : y mod 100 = (y mod 400) mod 100)
    by (Z.div_mod_to_equations; lia).
  destruct (y mod 400 =? 0) eqn:E400.
  - apply Z.eqb_eq in E400. rewrite E400 in H400. simpl in H400.
    rewrite H400 in H100. simpl in H100. rewrite H100, H400. simpl. lia.
  - destruct (y mod 100 =? 0) eqn:E100.
    + apply Z.eqb_eq in E100. rewrite E100 in H100. simpl in H100. rewrite H100. simpl. lia.
    + destruct (y mod 4 =? 0); simpl; lia.
Qed.

Lemma days_before_year_mono y y' : y <= y' -> days_before_year y <= days_before_year y'.
Proof.
  intros H. unfold days_before_year. Z.div_mod_to_equations. lia.
Qed.

Lemma date_le_spec a b :
  date_le a b = true <->
  year a < year b
  \/ (year a = year b /\ (month a < month b \/ (month a = month b /\ day a <= day b))).
Proof.
  unfold date_le.
  rewrite orb_true_iff, andb_true_iff, orb_true_iff, andb_true_iff,
    !Z.ltb_lt, !Z.eqb_eq, Z.leb_le.
  reflexivity.
Qed.

Lemma date_le_refl a : date_le a a = true.
Proof. apply date_le_spec. lia. Qed.

Lemma date_le_trans a b c : date_le a b = true -> date_le b c = true -> date_le a c = true.
Proof. rewrite !date_le_spec. lia. Qed.

Lemma next_day_valid d : valid_date d -> year d < 9999 -> valid_date (next_day d).
Proof.
  rewrite !valid_date_bounds. intros (Hy & Hm & Hd) Hlt. unfold next_day.
  destruct (day d <? days_in_month (year d) (month d)) eqn:E1; simpl.
  - apply Z.ltb_lt in E1. lia.
  - destruct (month d <? 12) eqn:E2; simpl.
    + apply Z.ltb_lt in E2. pose proof (days_in_month_bounds (year d) (month d + 1)). lia.
    + pose proof (days_in_month_bounds (year d + 1) 1). lia.
Qed.

Lemma date_le_next_day d : date_le d (next_day d) = true.
Proof.
  apply date_le_spec. unfold next_day.
  destruct (day d <? days_in_month (year d) (month d)); simpl; [lia|].
  destruct (month d <? 12) eqn:E2; simpl; [apply Z.ltb_lt in E2|]; lia.
Qed.

Lemma to_nat_pred m : 1 <= m -> Z.to_nat m = S (Z.to_nat (m - 1)).
Proof. lia. Qed.

Lemma toordinal_next_day d : valid_date d -> toordinal (next_day d) = toordinal d + 1.
Proof.
  rewrite valid_date_bounds. intros (Hy & Hm & Hd). unfold next_day, toordinal.
  destruct (day d <? days_in_month (year d) (month d)) eqn:E1; simpl; [lia|].
  apply Z.ltb_ge in E1.
  destruct (month d <? 12) eqn:E2; simpl.
  - replace (month d + 1 - 1) with (month d) by lia.
    rewrite (to_nat_pred (month d)) by lia. rewrite days_of_months_S.
    rewrite <- to_nat_pred by lia. rewrite Z2Nat.id by lia. lia.
  - apply Z.ltb_ge in E2. assert (Hm12 : month d = 12) by lia.
    rewrite days_before_year_S. rewrite Hm12 in *.
    change (Z.to_nat (12 - 1)) with 11%nat.
    pose proof (days_of_months_year (year d)) as H12.
    rewrite days_of_months_S in H12. change (Z.of_nat 12) with 12 in H12.
    simpl (days_of_months _ 0). lia.
Qed.

(** the ordinal of a day grows with the calendar *)
Lemma toordinal_lt a b :
  valid_date a -> valid_date b -> date_le a b = false -> toordinal b < toordinal a.
Proof.
  rewrite !valid_date_bounds. intros (Hya & Hma & Hda) (Hyb & Hmb & Hdb) Hle.
  assert (Hlt : year b < year a
                \/ (year b = year a
                    /\ (month b < month a \/ (month b = month a /\ day b < day a)))).
  { destruct (date_le a b) eqn:E; [discriminate|].
    assert (H : ~ (year a < year b
                   \/ (year a = year b
                       /\ (month a < month b \/ (month a = month b /\ day a <= day b)))))
      by (rewrite <- date_le_spec; congruence).
    lia. }
  unfold toordinal.
  assert (Hin : forall d, 1 <= month d <= 12 ->
                  1 <= day d <= days_in_month (year d) (month d) ->
                  days_of_months (year d) (Z.to_nat (month d - 1)) + day d
                  <= days_of_months (year d) (Z.to_nat (month d))).
  { intros d Hm Hd. rewrite (to_nat_pred (month d)) by lia. rewrite days_of_months_S.
    rewrite <- to_nat_pred by lia. rewrite Z2Nat.id by lia. lia. }
  pose proof (Hin b Hmb Hdb) as Hb.
  pose proof (days_of_months_nonneg (year a) (Z.to_nat (month a - 1))) as Ha0.
  destruct Hlt as [Hy | [Hy [Hm | [Hm Hd]]]].
  - pose proof (days_of_months_mono (year b) (Z.to_nat (month b)) 12 ltac:(lia)) as H12.
    pose proof (days_before_year_S (year b)) as HS.
    rewrite days_of_months_year in H12.
    pose proof (days_before_year_mono (year b + 1) (year a) ltac:(lia)). lia.
  - rewrite Hy in *.
    pose proof (days_of_months_mono (year a) (Z.to_nat (month b)) (Z.to_nat (month a - 1))
                  ltac:(lia)). lia.
  - rewrite Hy, Hm in *. lia.
Qed.

Lemma toordinal_le_date_le a b :
  valid_date a -> valid_date b -> toordinal a <= toordinal b -> date_le a b = true.
Proof.
  intros Ha Hb Hle. destruct (date_le a b) eqn:E; [reflexivity|].
  pose proof (toordinal_lt a b Ha Hb E). lia.
Qed.

Lemma in_timestamp_bounds_year d :
  in_timestamp_bounds d = true -> 1677 <= year d <= 2262.
Proof.
  unfold in_timestamp_bounds. rewrite andb_true_iff, !date_le_spec. simpl. lia.
Qed.

(** the days of a range are days of the calendar, none before the start
    and none after the end *)
Lemma days_from_spec n : forall start_ end_ d,
  valid_date start_ -> valid_date end_ -> year end_ < 9999 ->
  toordinal start_ + Z.of_nat n <= toordinal end_ + 1 ->
  In d (days_from start_ n) ->
  valid_date d /\ date_le start_ d = true /\ date_le d end_ = true.
Proof.
  induction n as [|n IH]; intros start_ end_ d Hv Hve Hye Hbound Hin; [destruct Hin|].
  assert (Hse : date_le start_ end_ = true) by (apply toordinal_le_date_le; [auto..|lia]).
  destruct Hin as [<- | Hin].
  - split; [exact Hv|]. split; [apply date_le_refl | exact Hse].
  - assert (Hy : year start_ < 9999) by (apply date_le_spec in Hse; lia).
    pose proof (toordinal_next_day start_ Hv) as Hnext.
    destruct (IH (next_day start_) end_ d) as (Hvd & Hle & Hde);
      [now apply next_day_valid | exact Hve | exact Hye | lia | exact Hin |].
    split; [exact Hvd|]. split; [|exact Hde].
    eapply date_le_trans; [apply date_le_next_day | exact Hle].
Qed.

Lemma days_between_spec start_ end_ d :
  valid_date start_ -> valid_date end_ -> year end_ < 9999 ->
  In d (days_between start_ end_) ->
  valid_date d /\ date_le start_ d = true /\ date_le d end_ = true.
Proof.
  intros Hv Hve Hye. unfold days_between.
  destruct (Z.to_nat (toordinal end_ - toordinal start_ + 1)) as [|n] eqn:E;
    [intros []|].
  rewrite <- E. apply days_from_spec; [auto..|]. lia.
Qed.

(** ** Date strings: what [strftime] writes, [convert_to_date_object] reads *)

Lemma split_chars_last sep xs : forall cur,
  ~ In sep xs -> split_chars sep cur xs = [str (rev cur ++ xs)].
Proof.
  induction xs as [|x xs IH]; intros cur Hn; simpl.
  - now rewrite app_nil_r.
  - destruct (Ascii.eqb x sep) eqn:E.
    + apply Ascii.eqb_eq in E. subst. exfalso. apply Hn. now left.
    + rewrite IH by (intros H; apply Hn; now right).
      simpl. now rewrite <- app_assoc.
Qed.

Lemma split_chars_next sep xs rest : forall cur,
  ~ In sep xs ->
  split_chars sep cur (xs ++ sep :: rest) = str (rev cur ++ xs) :: split_chars sep [] rest.
Proof.
  induction xs as [|x xs IH]; intros cur Hn; simpl.
  - rewrite Ascii.eqb_refl. now rewrite app_nil_r.
  - destruct (Ascii.eqb x sep) eqn:E.
    + apply Ascii.eqb_eq in E. subst. exfalso. apply Hn. now left.
    + rewrite IH by (intros H; apply Hn; now right).
      simpl. now rewrite <- app_assoc.
Qed.

Lemma digit_not_space c : is_digit c = true -> is_space c = false.
Proof.
  unfold is_digit, is_space. cbv zeta.
  rewrite andb_true_iff, !Z.leb_le. intros [H1 H2].
  apply orb_false_iff. split.
  - apply andb_false_iff. right. apply Z.leb_gt. lia.
  - apply Z.eqb_neq. lia.
Qed.

Lemma digit_not_sign c : is_digit c = true -> c <> "+"%char /\ c <> "-"%char.
Proof. intros H. split; intros ->; discriminate H. Qed.

Lemma lstrip_digits c cs : is_digit c = true -> lstrip (c :: cs) = c :: cs.
Proof. intros H. simpl. now rewrite (digit_not_space c H). Qed.

Lemma strip_digits cs : Forall (fun c => is_digit c = true) cs -> strip cs = cs.
Proof.
  intros H. unfold strip.
  assert (Hl : forall l, Forall (fun c => is_digit c = true) l -> lstrip l = l).
  { intros [|c l] Hf; [reflexivity|]. apply lstrip_digits. now inversion Hf. }
  rewrite (Hl cs H). rewrite Hl by now apply Forall_rev. apply rev_involutive.
Qed.

(** the value of a row of digits *)
Lemma parse_digits_digits cs : forall acc after_digit,
  Forall (fun c => is_digit c = true) cs ->
  parse_digits acc after_digit cs
  = match cs with
    | [] => if after_digit then Some acc else None
    | _ => Some (fold_left (fun a c => 10 * a + digit_val c) cs acc)
    end.
Proof.
  induction cs as [|c cs IH]; intros acc af Hf; [reflexivity|].
  inversion Hf as [|? ? Hc Hcs]; subst. cbn [parse_digits]. rewrite Hc.
  rewrite (IH _ true Hcs). destruct cs; reflexivity.
Qed.

Lemma int_unsigned c cs :
  is_digit c = true -> strip (c :: cs) = c :: cs ->
  int (str (c :: cs))
  = match parse_digits 0 false (c :: cs) with
    | Some n => Ok n
    | None => Raise ValueError
    end.
Proof.
  intros Hc Hs. unfold int. rewrite chars_str, Hs.
  destruct c as [[] [] [] [] [] [] [] []]; try reflexivity; discriminate Hc.
Qed.

Lemma int_digits c cs :
  Forall (fun c => is_digit c = true) (c :: cs) ->
  int (str (c :: cs)) = Ok (fold_left (fun a c => 10 * a + digit_val c) (c :: cs) 0).
Proof.
  intros Hf. assert (Hc : is_digit c = true) by now inversion Hf.
  rewrite (int_unsigned c cs Hc (strip_digits _ Hf)).
  now rewrite (parse_digits_digits _ _ _ Hf).
Qed.

Lemma digit_char_digit n :
  is_digit (digit_char n) = true /\ digit_val (digit_char n) = n mod 10.
Proof.
  unfold digit_char. pose proof (Z.mod_pos_bound n 10 ltac:(lia)) as Hr.
  set (r := n mod 10) in *.
  assert (Hin : In r [0; 1; 2; 3; 4; 5; 6; 7; 8; 9]) by (simpl; lia).
  clearbody r. simpl in Hin.
  repeat (destruct Hin as [<- | Hin]; [split; reflexivity|]). destruct Hin.
Qed.

Lemma digits_no_dash cs : Forall (fun c => is_digit c = true) cs -> ~ In "-"%char cs.
Proof.
  intros Hf Hin. rewrite List.Forall_forall in Hf. specialize (Hf _ Hin). discriminate Hf.
Qed.

(** a number written with two or four digits reads back as itself *)
Lemma pad2_reads n :
  0 <= n <= 99 -> int (pad2 n) = Ok n /\ ~ In "-"%char (chars (pad2 n)).
Proof.
  intros Hn. unfold pad2.
  destruct (digit_char_digit (n / 10)) as [H1 V1], (digit_char_digit n) as [H0 V0].
  assert (Hf : Forall (fun c => is_digit c = true) [digit_char (n / 10); digit_char n])
    by (repeat constructor; assumption).
  split; [|rewrite chars_str; now apply digits_no_dash].
  rewrite (int_digits _ _ Hf). cbn [fold_left]. rewrite V1, V0. f_equal.
  Z.div_mod_to_equations. lia.
Qed.

Lemma pad4_reads n :
  0 <= n <= 9999 -> int (pad4 n) = Ok n /\ ~ In "-"%char (chars (pad4 n)).
Proof.
  intros Hn. unfold pad4.
  destruct (digit_char_digit (n / 1000)) as [H3 V3], (digit_char_digit (n / 100)) as [H2 V2],
    (digit_char_digit (n / 10)) as [H1 V1], (digit_char_digit n) as [H0 V0].
  assert (Hf : Forall (fun c => is_digit c = true)
                 [digit_char (n / 1000); digit_char (n / 100); digit_char (n / 10);
                  digit_char n])
    by (repeat constructor; assumption).
  split; [|rewrite chars_str; now apply digits_no_dash].
  rewrite (int_digits _ _ Hf). cbn [fold_left]. rewrite V3, V2, V1, V0. f_equal.
  Z.div_mod_to_equations. lia.
Qed.

Lemma split_strftime d :
  valid_date d -> split "-" (strftime d) = [pad4 (year d); pad2 (month d); pad2 (day d)].
Proof.
  intros Hv. apply valid_date_bounds in Hv as (Hy & Hm & Hd).
  pose proof (days_in_month_bounds (year d) (month d)).
  destruct (pad4_reads (year d)) as [_ H4]; [lia|].
  destruct (pad2_reads (month d)) as [_ Hm2]; [lia|].
  destruct (pad2_reads (day d)) as [_ Hd2]; [lia|].
  unfold split, strftime. rewrite !chars_app.
  change (chars "-") with ["-"%char]. cbn [app].
  rewrite split_chars_next by exact H4.
  rewrite split_chars_next by exact Hm2.
  rewrite split_chars_last by exact Hd2.
  cbn [rev app]. rewrite !str_chars. reflexivity.
Qed.

Lemma convert_strftime d : valid_date d -> convert_to_date_object (strftime d) = Ok d.
Proof.
  intros Hv. rewrite convert_to_date_object_eq, split_strftime by exact Hv.
  pose proof Hv as Hb. apply valid_date_bounds in Hb as (Hy & Hm & Hd).
  pose proof (days_in_month_bounds (year d) (month d)).
  destruct (pad4_reads (year d)) as [H4 _]; [lia|].
  destruct (pad2_reads (month d)) as [Hm2 _]; [lia|].
  destruct (pad2_reads (day d)) as [Hd2 _]; [lia|].
  cbn [ints_of]. rewrite H4, Hm2, Hd2. simpl. exact Hv.
Qed.

Lemma mk_date_Ok y m dd d : mk_date y m dd = Ok d -> d = mkdate y m dd.
Proof.
  unfold mk_date. destruct (negb _); [discriminate|].
  destruct (_ && _); [congruence | discriminate].
Qed.

(** a text that is read names a day of the calendar *)
Lemma convert_valid s d : convert_to_date_object s = Ok d -> valid_date d.
Proof.
  rewrite convert_to_date_object_eq.
  destruct (ints_of (split "-" s)) as [ns|ex]; simpl; [|discriminate].
  destruct ns as [|y [|m [|dd [|x ns]]]]; try discriminate.
  intros H. pose proof (mk_date_Ok _ _ _ _ H) as ->. exact H.
Qed.

Lemma convert_truthy s d : convert_to_date_object s = Ok d -> truthy s = true.
Proof. destruct s; [discriminate | reflexivity]. Qed.

(** X10. The dates that [strftime] writes are dates that
    [convert_to_date_object] reads, with the same day: for every day of
    the calendar from the year 1000 on, converting the text YYYY-MM-DD of
    the day gives the day back. A text that [convert_to_date_object]
    accepts names a day of the calendar. A refusal is a [ValueError], or
    an [OverflowError]; the latter only for a text of three numbers one of
    which is no C [int]. *)
Theorem convert_to_date_object_reads_strftime :
  forall d,
    (valid_date d -> 1000 <= year d -> convert_to_date_object (strftime d) = Ok d)
    /\ (forall s, convert_to_date_object s = Ok d -> valid_date d)
    /\ (forall s ex, convert_to_date_object s = Raise ex ->
          ex = ValueError
          \/ (ex = OverflowError
              /\ exists y m dd, date_fields s = Some (y, m, dd)
                                /\ fits_c_int y && fits_c_int m && fits_c_int dd = false)).
Proof.
  intros d. split; [intros Hv _; now apply convert_strftime|].
  split; [intros s; apply convert_valid | intros s ex; apply convert_to_date_object_raises].
Qed.

Lemma convert_to_date_object_reads_strftime_witness :
  valid_date (mkdate 2021 11 1)
  /\ convert_to_date_object (strftime (mkdate 2021 11 1)) = Ok (mkdate 2021 11 1)
  /\ strftime (mkdate 2021 11 1) = "2021-11-01"
  /\ convert_to_date_object "99999999999-01-01" = Raise OverflowError
  /\ (OverflowError = ValueError
      \/ (OverflowError = OverflowError
          /\ exists y m dd, date_fields "99999999999-01-01" = Some (y, m, dd)
                            /\ fits_c_int y && fits_c_int m && fits_c_int dd = false)).
Proof.
  destruct (convert_to_date_object_reads_strftime (mkdate 2021 11 1))
    as (Hread & _ & Hraise).
  split; [reflexivity|]. split; [|split; [reflexivity|]].
  - apply Hread; [reflexivity | simpl; lia].
  - split; [reflexivity|]. apply (Hraise "99999999999-01-01"). reflexivity.
Defined.

(** ** Date strings: the two readers *)

Lemma in_range_digit lo hi c : 48 <= lo -> hi <= 57 -> in_range lo hi c = true -> is_digit c = true.
Proof.
  unfold in_range, is_digit. cbv zeta. rewrite !andb_true_iff, !Z.leb_le. lia.
Qed.

Lemma parse_month_eq c0 c1 rest :
  parse_month (c0 :: c1 :: rest)
  = if Ascii.eqb c0 "1" then
      (if in_range 48 50 c1 then Some (10 + digit_val c1, rest) else Some (1, c1 :: rest))
    else if Ascii.eqb c0 "0" then
      (if in_range 49 57 c1 then Some (digit_val c1, rest) else None)
    else if in_range 49 57 c0 then Some (digit_val c0, c1 :: rest) else None.
Proof. destruct c0 as [[] [] [] [] [] [] [] []]; reflexivity. Qed.

Lemma parse_day_eq c0 c1 rest :
  parse_day (c0 :: c1 :: rest)
  = if Ascii.eqb c0 "3" then
      (if in_range 48 49 c1 then Some (30 + digit_val c1, rest) else Some (3, c1 :: rest))
    else if Ascii.eqb c0 "0" then
      (if in_range 49 57 c1 then Some (digit_val c1, rest) else None)
    else if Ascii.eqb c0 " " then
      (if in_range 49 57 c1 then Some (digit_val c1, rest) else None)
    else if in_range 49 50 c0 && is_digit c1 then Some (10 * digit_val c0 + digit_val c1, rest)
    else if in_range 49 57 c0 then Some (digit_val c0, c1 :: rest) else None.
Proof. destruct c0 as [[] [] [] [] [] [] [] []]; reflexivity. Qed.

Lemma int_two c0 c1 :
  is_digit c0 = true -> is_digit c1 = true ->
  int (str [c0; c1]) = Ok (10 * digit_val c0 + digit_val c1).
Proof.
  intros H0 H1. rewrite int_digits by (repeat constructor; assumption).
  cbn [fold_left]. f_equal; lia.
Qed.

Lemma int_one c0 : is_digit c0 = true -> int (str [c0]) = Ok (digit_val c0).
Proof.
  intros H0. rewrite int_digits by (repeat constructor; assumption).
  cbn [fold_left]. f_equal; lia.
Qed.

Lemma not_dash c : is_digit c = true -> c <> "-"%char.
Proof. intros H ->. discriminate H. Qed.

(** the month field: what [strptime] takes is what [int] reads *)
Lemma parse_month_reads cs m rest :
  parse_month cs = Some (m, "-"%char :: rest) ->
  exists pre, cs = (pre ++ "-"%char :: rest)%list /\ ~ In "-"%char pre /\ int (str pre) = Ok m.
Proof.
  destruct cs as [|c0 [|c1 cs]].
  - discriminate.
  - simpl. destruct c0 as [[] [] [] [] [] [] [] []]; simpl; discriminate.
  - rewrite parse_month_eq.
    destruct (Ascii.eqb c0 "1") eqn:E1.
    { apply Ascii.eqb_eq in E1. subst c0.
      destruct (in_range 48 50 c1) eqn:R.
      - intros [= <- ->]. exists ["1"%char; c1].
        pose proof (in_range_digit 48 50 c1 ltac:(lia) ltac:(lia) R) as Hd.
        split; [reflexivity|]. split.
        + intros [H|[H|[]]]; [discriminate | now apply (not_dash c1 Hd)].
        + rewrite int_two by (reflexivity || exact Hd). reflexivity.
      - intros [= <- -> ->]. exists ["1"%char].
        split; [reflexivity|]. split; [intros [H|[]]; discriminate | reflexivity]. }
    destruct (Ascii.eqb c0 "0") eqn:E0.
    { apply Ascii.eqb_eq in E0. subst c0.
      destruct (in_range 49 57 c1) eqn:R; [|discriminate].
      intros [= <- ->]. exists ["0"%char; c1].
      pose proof (in_range_digit 49 57 c1 ltac:(lia) ltac:(lia) R) as Hd.
      split; [reflexivity|]. split.
      - intros [H|[H|[]]]; [discriminate | now apply (not_dash c1 Hd)].
      - rewrite int_two by (reflexivity || exact Hd). reflexivity. }
    destruct (in_range 49 57 c0) eqn:R; [|discriminate].
    intros [= <- -> ->]. exists [c0].
    pose proof (in_range_digit 49 57 c0 ltac:(lia) ltac:(lia) R) as Hd.
    split; [reflexivity|]. split.
    + intros [H|[]]. now apply (not_dash c0 Hd).
    + now apply int_one.
Qed.

Lemma int_space_digit c : is_digit c = true -> int (str [" "%char; c]) = Ok (digit_val c).
Proof.
  intros Hd. unfold int. rewrite chars_str.
  assert (Hs : strip [" "%char; c] = [c]).
  { pose proof (digit_not_space c Hd) as Hsp.
    unfold strip. simpl. rewrite Hsp. simpl. rewrite Hsp. reflexivity. }
  rewrite Hs.
  pose proof (int_unsigned c [] Hd) as H. unfold int in H. rewrite chars_str in H.
  rewrite (strip_digits [c]) in H by (repeat constructor; exact Hd).
  rewrite H by reflexivity.
  rewrite parse_digits_digits by (repeat constructor; exact Hd). reflexivity.
Qed.

(** the day field, at the end of the text *)
Lemma parse_day_reads cs dd :
  parse_day cs = Some (dd, []) -> ~ In "-"%char cs /\ int (str cs) = Ok dd.
Proof.
  destruct cs as [|c0 [|c1 cs]].
  - discriminate.
  - assert (H : parse_day [c0] = if in_range 49 57 c0 then Some (digit_val c0, []) else None)
      by (destruct c0 as [[] [] [] [] [] [] [] []]; reflexivity).
    rewrite H. destruct (in_range 49 57 c0) eqn:R; [|discriminate].
    intros [= <-].
    pose proof (in_range_digit 49 57 c0 ltac:(lia) ltac:(lia) R) as Hd.
    split; [intros [Hc|[]]; now apply (not_dash c0 Hd) | now apply int_one].
  - rewrite parse_day_eq.
    destruct (Ascii.eqb c0 "3") eqn:E3.
    { apply Ascii.eqb_eq in E3. subst c0.
      destruct (in_range 48 49 c1) eqn:R; [|discriminate].
      intros [= <- ->].
      pose proof (in_range_digit 48 49 c1 ltac:(lia) ltac:(lia) R) as Hd.
      split.
      - intros [H|[H|[]]]; [discriminate | now apply (not_dash c1 Hd)].
      - rewrite int_two by (reflexivity || exact Hd). reflexivity. }
    destruct (Ascii.eqb c0 "0") eqn:E0.
    { apply Ascii.eqb_eq in E0. subst c0.
      destruct (in_range 49 57 c1) eqn:R; [|discriminate].
      intros [= <- ->].
      pose proof (in_range_digit 49 57 c1 ltac:(lia) ltac:(lia) R) as Hd.
      split.
      - intros [H|[H|[]]]; [discriminate | now apply (not_dash c1 Hd)].
      - rewrite int_two by (reflexivity || exact Hd). reflexivity. }
    destruct (Ascii.eqb c0 " ") eqn:Es.
    { apply Ascii.eqb_eq in Es. subst c0.
      destruct (in_range 49 57 c1) eqn:R; [|discriminate].
      intros [= <- ->].
      pose proof (in_range_digit 49 57 c1 ltac:(lia) ltac:(lia) R) as Hd.
      split.
      - intros [H|[H|[]]]; [discriminate | now apply (not_dash c1 Hd)].
      - now apply int_space_digit. }
    destruct (in_range 49 50 c0 && is_digit c1) eqn:R2.
    { apply andb_true_iff in R2 as [R Hd1].
      intros [= <- ->].
      pose proof (in_range_digit 49 50 c0 ltac:(lia) ltac:(lia) R) as Hd0.
      split.
      - intros [H|[H|[]]]; [now apply (not_dash c0 Hd0) | now apply (not_dash c1 Hd1)].
      - now apply int_two. }
    destruct (in_range 49 57 c0); discriminate.
Qed.

(** the year field *)
Lemma parse_year_reads cs y rest :
  parse_year cs = Some (y, rest) ->
  exists pre, cs = (pre ++ rest)%list /\ ~ In "-"%char pre /\ int (str pre) = Ok y.
Proof.
  destruct cs as [|a [|b [|c [|d cs]]]]; try discriminate.
  unfold parse_year.
  destruct (is_digit a && is_digit b && is_digit c && is_digit d) eqn:E; [|discriminate].
  apply andb_true_iff in E as [E Hd]. apply andb_true_iff in E as [E Hc].
  apply andb_true_iff in E as [Ha Hb].
  intros [= <- <-]. exists [a; b; c; d].
  assert (Hf : Forall (fun c => is_digit c = true) [a; b; c; d])
    by (repeat constructor; assumption).
  split; [reflexivity|]. split; [now apply digits_no_dash|].
  rewrite (int_digits _ _ Hf). cbn [fold_left]. f_equal; lia.
Qed.

Lemma strptime_convert s d : strptime s = Ok d -> convert_to_date_object s = Ok d.
Proof.
  unfold strptime.
  destruct (parse_year (chars s)) as [[y r1]|] eqn:Hy; [|discriminate].
  destruct r1 as [|dash1 r2]; [discriminate|].
  destruct (expect_dash (dash1 :: r2)) as [r2'|] eqn:Hd1; [|discriminate].
  assert (dash1 = "-"%char /\ r2' = r2) as [-> ->].
  { unfold expect_dash in Hd1.
    destruct dash1 as [[] [] [] [] [] [] [] []]; try discriminate Hd1.
    now injection Hd1 as <-. }
  destruct (parse_month r2) as [[m r3]|] eqn:Hm; [|discriminate].
  destruct r3 as [|dash2 r4]; [discriminate|].
  destruct (expect_dash (dash2 :: r4)) as [r4'|] eqn:Hd2; [|discriminate].
  assert (dash2 = "-"%char /\ r4' = r4) as [-> ->].
  { unfold expect_dash in Hd2.
    destruct dash2 as [[] [] [] [] [] [] [] []]; try discriminate Hd2.
    now injection Hd2 as <-. }
  destruct (parse_day r4) as [[dd [|x r5]]|] eqn:Hday; try discriminate.
  intros Hmk.
  apply parse_year_reads in Hy as (py & Hcs & Hny & Hiy).
  apply parse_month_reads in Hm as (pm & Hr2 & Hnm & Him).
  apply parse_day_reads in Hday as (Hnd & Hid).
  rewrite convert_to_date_object_eq. unfold split. rewrite Hcs, Hr2.
  rewrite split_chars_next by exact Hny.
  rewrite split_chars_next by exact Hnm.
  rewrite split_chars_last by exact Hnd.
  cbn [rev app ints_of]. rewrite Hiy, Him, Hid. simpl. exact Hmk.
Qed.

(** X11. The two readers of dates agree where both read: a text that
    [datetime.strptime(s, "%Y-%m-%d")] accepts, as [downloaded_filepaths]
    reads its bounds, is accepted by [convert_to_date_object], as the
    download loops read theirs, and names the same day. The converse
    fails: [convert_to_date_object] also reads texts that [strptime]
    refuses, such as a year of two digits. *)
Theorem strptime_dates_are_convert_dates :
  (forall s d, strptime s = Ok d -> convert_to_date_object s = Ok d)
  /\ (exists s d, convert_to_date_object s = Ok d /\ strptime s = Raise ValueError).
Proof.
  split; [apply strptime_convert|].
  exists "21-11-01", (mkdate 21 11 1). split; reflexivity.
Qed.

Lemma strptime_dates_are_convert_dates_witness :
  strptime "2021-11-01" = Ok (mkdate 2021 11 1)
  /\ convert_to_date_object "2021-11-01" = Ok (mkdate 2021 11 1).
Proof.
  split; [reflexivity|].
  apply (proj1 strptime_dates_are_convert_dates). reflexivity.
Defined.

(** ** The calendar: the days of a range *)

Lemma date_le_antisym a b : date_le a b = true -> date_le b a = true -> a = b.
Proof.
  rewrite !date_le_spec. intros H1 H2. destruct a as [ya ma da], b as [yb mb db].
  simpl in *. f_equal; lia.
Qed.

Lemma date_le_toordinal a b :
  valid_date a -> valid_date b -> date_le a b = true -> toordinal a <= toordinal b.
Proof.
  intros Ha Hb Hle.
  destruct (Z.le_gt_cases (toordinal a) (toordinal b)) as [H|H]; [exact H|].
  assert (Hba : date_le b a = true) by (apply toordinal_le_date_le; [auto..|lia]).
  rewrite (date_le_antisym a b Hle Hba) in H. lia.
Qed.

Lemma toordinal_inj a b : valid_date a -> valid_date b -> toordinal a = toordinal b -> a = b.
Proof.
  intros Ha Hb H. apply date_le_antisym; apply toordinal_le_date_le; auto; lia.
Qed.

Lemma days_from_complete n : forall start_ d,
  valid_date start_ -> valid_date d -> year d < 9999 ->
  toordinal start_ <= toordinal d < toordinal start_ + Z.of_nat n ->
  In d (days_from start_ n).
Proof.
  induction n as [|n IH]; intros start_ d Hs Hd Hy Hord; [lia|].
  destruct (Z.eq_dec (toordinal start_) (toordinal d)) as [Heq|Hne].
  - left. now apply toordinal_inj.
  - right.
    assert (Hle : date_le start_ d = true) by (apply toordinal_le_date_le; [auto..|lia]).
    assert (Hys : year start_ < 9999) by (apply date_le_spec in Hle; lia).
    pose proof (toordinal_next_day start_ Hs).
    apply IH; [now apply next_day_valid | exact Hd | exact Hy | lia].
Qed.

(** the days of a range are exactly the days of the calendar from the
    start to the end *)
Lemma days_between_iff start_ end_ d :
  valid_date start_ -> valid_date end_ -> year end_ < 9999 ->
  In d (days_between start_ end_)
  <-> valid_date d /\ date_le start_ d = true /\ date_le d end_ = true.
Proof.
  intros Hs He Hy. split; [now apply days_between_spec|].
  intros (Hd & H1 & H2). unfold days_between.
  pose proof (date_le_toordinal start_ d Hs Hd H1).
  pose proof (date_le_toordinal d end_ Hd He H2).
  apply days_from_complete; [auto.. | |lia].
  apply date_le_spec in H2. lia.
Qed.

(** ** The pipeline: from two date strings to the downloads *)

Lemma in_timestamp_bounds_valid_year d :
  in_timestamp_bounds d = true -> year d < 9999.
Proof. intros H. apply in_timestamp_bounds_year in H. lia. Qed.

Lemma date_range_days start_ end_ :
  in_timestamp_bounds start_ = true -> in_timestamp_bounds end_ = true ->
  date_range start_ end_ = Ok (days_between start_ end_).
Proof. intros Hs He. unfold date_range. now rewrite Hs, He. Qed.

(** every day of the range passes the test of the download loops *)
Lemma filter_days start_ end_ :
  valid_date start_ -> valid_date end_ -> year end_ < 9999 ->
  List.filter (in_date_range start_ end_) (map strftime (days_between start_ end_))
  = map strftime (days_between start_ end_).
Proof.
  intros Hs He Hy. apply forallb_filter_id. apply forallb_forall.
  intros x Hx. apply in_map_iff in Hx as (d & <- & Hd).
  apply days_between_spec in Hd as (Hv & H1 & H2); [|auto..].
  unfold in_date_range. rewrite (convert_strftime d Hv). now rewrite H1, H2.
Qed.

Lemma effective_bound (dflt : date) s d :
  convert_to_date_object s = Ok d ->
  (if negb (truthy_opt (Some s)) then Ok dflt else convert_to_date_object (default "" (Some s)))
  = Ok d.
Proof. intros H. simpl. now rewrite (convert_truthy s d H). Qed.

Lemma trade_archives_eq symbols start_ end_ :
  valid_date start_ -> valid_date end_ -> year end_ < 9999 ->
  daily_downloads "trades" "spot" symbols (map strftime (days_between start_ end_))
    start_ end_ 0
  = trade_archives symbols start_ end_.
Proof.
  intros Hs He Hy. unfold daily_downloads, trade_archives.
  rewrite (filter_days start_ end_ Hs He Hy).
  apply flat_map_ext. intros symbol. rewrite flat_map_map.
  induction (days_between start_ end_) as [|d ds IH]; [reflexivity|].
  cbn [flat_map map]. rewrite IH. unfold with_checksum, trades_zip. simpl.
  string_norm. reflexivity.
Qed.

Lemma kline_archives_eq symbol intervals start_ end_ :
  valid_date start_ -> valid_date end_ -> year end_ < 9999 ->
  daily_kline_downloads "spot" [symbol] (valid_daily_intervals intervals)
    (map strftime (days_between start_ end_)) start_ end_ 0
  = flat_map (fun interval =>
      map (fun d => kline_zip "spot" symbol interval (strftime d))
          (days_between start_ end_))
      (valid_daily_intervals intervals).
Proof.
  intros Hs He Hy. unfold daily_kline_downloads.
  rewrite (filter_days start_ end_ Hs He Hy). cbn [flat_map]. rewrite app_nil_r.
  apply flat_map_ext. intros interval. rewrite flat_map_map.
  induction (days_between start_ end_) as [|d ds IH]; [reflexivity|].
  cbn [flat_map map]. rewrite IH. reflexivity.
Qed.

Lemma binance_trade_logs to_datetime e symbols start_date end_date start_ end_ :
  to_datetime start_date = Ok start_ ->
  to_datetime end_date = Ok end_ ->
  convert_to_date_object start_date = Ok start_ ->
  convert_to_date_object end_date = Ok end_ ->
  in_timestamp_bounds start_ = true ->
  in_timestamp_bounds end_ = true ->
  logs (download_binance_trade_data to_datetime e symbols start_date end_date)
       (trade_archives symbols start_ end_).
Proof.
  intros Hts Hte Hcs Hce Hbs Hbe. unfold download_binance_trade_data.
  match goal with |- logs _ ?l => change l with ([] ++ l) end.
  apply logs_bind; [apply logs_print|]. intros _.
  apply logs_lift_bind. intros dates Hdates.
  unfold date_range_of_strings in Hdates. rewrite Hts, Hte in Hdates. simpl in Hdates.
  rewrite (date_range_days _ _ Hbs Hbe) in Hdates. injection Hdates as <-.
  rewrite <- (app_nil_r (trade_archives symbols start_ end_)).
  apply logs_bind; [|intros _; apply logs_print].
  rewrite <- trade_archives_eq;
    [| now apply (convert_valid start_date) | now apply (convert_valid end_date)
     | now apply in_timestamp_bounds_valid_year].
  apply daily_trades_logs; unfold effective_start, effective_end; now apply effective_bound.
Qed.

Lemma binance_kline_logs to_datetime e symbol_data_required start_date end_date start_ end_ :
  to_datetime start_date = Ok start_ ->
  to_datetime end_date = Ok end_ ->
  convert_to_date_object start_date = Ok start_ ->
  convert_to_date_object end_date = Ok end_ ->
  in_timestamp_bounds start_ = true ->
  in_timestamp_bounds end_ = true ->
  logs (download_binance_kline_data to_datetime e symbol_data_required start_date end_date)
       (kline_archives symbol_data_required start_ end_).
Proof.
  intros Hts Hte Hcs Hce Hbs Hbe. unfold download_binance_kline_data.
  match goal with |- logs _ ?l => change l with ([] ++ l) end.
  apply logs_bind; [apply logs_print|]. intros _.
  apply logs_lift_bind. intros dates Hdates.
  unfold date_range_of_strings in Hdates. rewrite Hts, Hte in Hdates. simpl in Hdates.
  rewrite (date_range_days _ _ Hbs Hbe) in Hdates. injection Hdates as <-.
  rewrite <- (app_nil_r (kline_archives symbol_data_required start_ end_)).
  apply logs_bind; [|intros _; apply logs_print].
  unfold kline_archives. apply logs_for_each. intros [symbol intervals]. simpl.
  rewrite <- kline_archives_eq;
    [| now apply (convert_valid start_date) | now apply (convert_valid end_date)
     | now apply in_timestamp_bounds_valid_year].
  apply daily_klines_logs; unfold effective_start, effective_end; now apply effective_bound.
Qed.

(** X12. [download_binance_trade_data], end to end. When pandas and
    [convert_to_date_object] read the two bounds as the same days, inside
    the range of pandas timestamps, a run that returns normally has
    called [download_file] for exactly one archive SYMBOL-trades-date.zip
    per symbol and per day of the range, symbol by symbol and day by day,
    without checksum files; the days of the range are exactly the days of
    the calendar from the start to the end, both included, so no day of
    the request is left out by the test of the download loop. *)
Theorem download_binance_trade_data_downloads :
  forall to_datetime e symbols start_date end_date start_ end_ w,
    let run := download_binance_trade_data to_datetime e symbols start_date end_date in
    to_datetime start_date = Ok start_ ->
    to_datetime end_date = Ok end_ ->
    convert_to_date_object start_date = Ok start_ ->
    convert_to_date_object end_date = Ok end_ ->
    in_timestamp_bounds start_ = true ->
    in_timestamp_bounds end_ = true ->
    (fst (run w) = Ok tt ->
     calls (snd (run w)) = calls w ++ trade_archives symbols start_ end_)
    /\ (forall symbol d,
          In symbol symbols ->
          valid_date d -> date_le start_ d = true -> date_le d end_ = true ->
          In (trades_zip symbol d) (trade_archives symbols start_ end_))
    /\ (forall d, In d (days_between start_ end_) ->
                  valid_date d /\ date_le start_ d = true /\ date_le d end_ = true).
Proof.
  intros to_datetime e symbols start_date end_date start_ end_ w run
    Hts Hte Hcs Hce Hbs Hbe.
  pose proof (convert_valid _ _ Hcs) as Hvs. pose proof (convert_valid _ _ Hce) as Hve.
  pose proof (in_timestamp_bounds_valid_year _ Hbe) as Hy.
  split; [|split].
  - apply (binance_trade_logs to_datetime e symbols start_date end_date start_ end_
             Hts Hte Hcs Hce Hbs Hbe w).
  - intros symbol d Hsym Hd H1 H2. unfold trade_archives.
    apply in_flat_map. exists symbol. split; [exact Hsym|].
    apply in_map. apply days_between_iff; auto.
  - intros d. now apply days_between_spec.
Qed.

Lemma download_binance_trade_data_downloads_witness :
  fst (download_binance_trade_data sample_to_datetime offline_env ["BTCUSDT"; "adausdt"]
         "2021-11-01" "2021-11-02" fresh_world) = Ok tt
  /\ calls (snd (download_binance_trade_data sample_to_datetime offline_env
                   ["BTCUSDT"; "adausdt"] "2021-11-01" "2021-11-02" fresh_world))
     = [("data/spot/daily/trades/BTCUSDT/", "BTCUSDT-trades-2021-11-01.zip");
        ("data/spot/daily/trades/BTCUSDT/", "BTCUSDT-trades-2021-11-02.zip");
        ("data/spot/daily/trades/ADAUSDT/", "ADAUSDT-trades-2021-11-01.zip");
        ("data/spot/daily/trades/ADAUSDT/", "ADAUSDT-trades-2021-11-02.zip")].
Proof.
  assert (Hok : fst (download_binance_trade_data sample_to_datetime offline_env
                       ["BTCUSDT"; "adausdt"] "2021-11-01" "2021-11-02" fresh_world) = Ok tt)
    by (vm_compute; reflexivity).
  split; [exact Hok|].
  destruct (download_binance_trade_data_downloads sample_to_datetime offline_env
              ["BTCUSDT"; "adausdt"] "2021-11-01" "2021-11-02"
              (mkdate 2021 11 1) (mkdate 2021 11 2) fresh_world) as (Hcalls & _);
    [reflexivity | reflexivity | reflexivity | reflexivity | reflexivity | reflexivity |].
  rewrite (Hcalls Hok). vm_compute. reflexivity.
Defined.

(** X13. [download_binance_kline_data], end to end. Under the same
    reading of the two bounds, a run that returns normally has called
    [download_file] for exactly one archive SYMBOL-interval-date.zip per
    entry of the request, per interval of the entry that is a daily
    interval (each once) and per day of the range, in the order of the
    entries; an interval that is not a daily interval is passed over. *)
Theorem download_binance_kline_data_downloads :
  forall to_datetime e symbol_data_required start_date end_date start_ end_ w,
    let run := download_binance_kline_data to_datetime e symbol_data_required
                 start_date end_date in
    to_datetime start_date = Ok start_ ->
    to_datetime end_date = Ok end_ ->
    convert_to_date_object start_date = Ok start_ ->
    convert_to_date_object end_date = Ok end_ ->
    in_timestamp_bounds start_ = true ->
    in_timestamp_bounds end_ = true ->
    (fst (run w) = Ok tt ->
     calls (snd (run w)) = calls w ++ kline_archives symbol_data_required start_ end_)
    /\ (forall symbol intervals interval d,
          In (symbol, intervals) symbol_data_required ->
          In interval intervals -> In interval DAILY_INTERVALS ->
          valid_date d -> date_le start_ d = true -> date_le d end_ = true ->
          In (kline_zip "spot" symbol interval (strftime d))
             (kline_archives symbol_data_required start_ end_))
    /\ (forall bp fn,
          In (bp, fn) (kline_archives symbol_data_required start_ end_) ->
          exists symbol intervals interval d,
            In (symbol, intervals) symbol_data_required
            /\ In interval intervals /\ In interval DAILY_INTERVALS
            /\ In d (days_between start_ end_)
            /\ (bp, fn) = kline_zip "spot" symbol interval (strftime d)).
Proof.
  intros to_datetime e symbol_data_required start_date end_date start_ end_ w run
    Hts Hte Hcs Hce Hbs Hbe.
  pose proof (convert_valid _ _ Hcs) as Hvs. pose proof (convert_valid _ _ Hce) as Hve.
  pose proof (in_timestamp_bounds_valid_year _ Hbe) as Hy.
  split; [|split].
  - apply (binance_kline_logs to_datetime e symbol_data_required start_date end_date
             start_ end_ Hts Hte Hcs Hce Hbs Hbe w).
  - intros symbol intervals interval d Hitem Hint Hdaily Hd H1 H2. unfold kline_archives.
    apply in_flat_map. exists (symbol, intervals). split; [exact Hitem|].
    apply in_flat_map. exists interval. split.
    + apply valid_daily_intervals_spec. auto.
    + apply (in_map (fun d => kline_zip "spot" symbol interval (strftime d))).
      apply days_between_iff; auto.
  - intros bp fn Hin. unfold kline_archives in Hin.
    apply in_flat_map in Hin as ([symbol intervals] & Hitem & Hin).
    apply in_flat_map in Hin as (interval & Hint & Hin).
    apply in_map_iff in Hin as (d & Heq & Hd).
    apply valid_daily_intervals_spec in Hint as [Hint Hdaily].
    exists symbol, intervals, interval, d. simpl in Heq. auto.
Qed.

Lemma download_binance_kline_data_downloads_witness :
  fst (download_binance_kline_data sample_to_datetime offline_env
         [("ADAUSDT", ["15m"; "1w"])] "2021-11-01" "2021-11-02" fresh_world) = Ok tt
  /\ calls (snd (download_binance_kline_data sample_to_datetime offline_env
                   [("ADAUSDT", ["15m"; "1w"])] "2021-11-01" "2021-11-02" fresh_world))
     = [("data/spot/daily/klines/ADAUSDT/15m/", "ADAUSDT-15m-2021-11-01.zip");
        ("data/spot/daily/klines/ADAUSDT/15m/", "ADAUSDT-15m-2021-11-02.zip")].
Proof.
  assert (Hok : fst (download_binance_kline_data sample_to_datetime offline_env
                       [("ADAUSDT", ["15m"; "1w"])] "2021-11-01" "2021-11-02" fresh_world)
                = Ok tt)
    by (vm_compute; reflexivity).
  split; [exact Hok|].
  destruct (download_binance_kline_data_downloads sample_to_datetime offline_env
              [("ADAUSDT", ["15m"; "1w"])] "2021-11-01" "2021-11-02"
              (mkdate 2021 11 1) (mkdate 2021 11 2) fresh_world) as (Hcalls & _);
    [reflexivity | reflexivity | reflexivity | reflexivity | reflexivity | reflexivity |].
  rewrite (Hcalls Hok). vm_compute. reflexivity.
Defined.

(** ** Where the downloader saves and where the reader looks *)

Lemma length_upper s : String.length (upper s) = String.length s.
Proof. induction s as [|c s IH]; [reflexivity|]. simpl. now rewrite IH. Qed.

Lemma append_inj_l p x y : p +:+ x = p +:+ y -> x = y.
Proof.
  induction p as [|c p IH]; [now rewrite !append_nil_l|].
  rewrite !append_String. intros [= H]. now apply IH.
Qed.

Lemma append_inv_length a b x y :
  String.length a = String.length b -> a +:+ x = b +:+ y -> a = b.
Proof.
  revert b. induction a as [|c a IH]; intros [|c' b] Hlen; try discriminate.
  - reflexivity.
  - rewrite !append_String. intros [= -> H]. f_equal. apply (IH b); [|exact H].
    simpl in Hlen. congruence.
Qed.

Lemma upper_char_slash c : upper_char c = "/"%char -> c = "/"%char.
Proof. destruct c as [[] [] [] [] [] [] [] []]; try reflexivity; discriminate. Qed.

Lemma upper_relative s x :
  starts_with_slash s = false -> starts_with_slash (upper s +:+ "-" +:+ x) = false.
Proof.
  destruct s as [|c s]; [reflexivity|]. intros H.
  change (upper (String c s)) with (String (upper_char c) (upper s)).
  rewrite append_String.
  destruct (upper_char c) as [b0 b1 b2 b3 b4 b5 b6 b7] eqn:E.
  destruct b0, b1, b2, b3, b4, b5, b6, b7; try reflexivity.
  apply upper_char_slash in E. subst c. discriminate H.
Qed.

Lemma as_directory_ends a : ends_with_slash a = true -> as_directory a = a.
Proof. intros H. unfold as_directory. now rewrite H, orb_true_r. Qed.

Lemma as_directory_binance c :
  as_directory (c +:+ "/test_data/binance") = c +:+ "/test_data/binance/".
Proof.
  unfold as_directory.
  assert (Ht : truthy (c +:+ "/test_data/binance") = true)
    by (destruct c; reflexivity).
  assert (He : ends_with_slash (c +:+ "/test_data/binance") = false).
  { clear Ht. induction c as [|x c IH]; [reflexivity|].
    rewrite append_String. simpl.
    destruct (c +:+ "/test_data/binance") eqn:E; [destruct c; discriminate | exact IH]. }
  rewrite Ht, He. simpl. now rewrite append_assoc.
Qed.

(** the save path of the downloader and the path of the reader *)
Lemma reader_paths :
  forall e symbol interval d,
    absolute (cwd e) ->
    starts_with_slash symbol = false ->
    (save_path_of e (fst (kline_zip "spot" symbol interval (strftime d)))
       (snd (kline_zip "spot" symbol interval (strftime d)))
       (Some (cwd e +:+ "/test_data/binance/"))
     = file_format (cwd e) "klines" (symbol +:+ "/" +:+ interval) symbol interval (strftime d)
     <-> upper symbol = symbol)
    /\ (save_path_of e (fst (trades_zip symbol d)) (snd (trades_zip symbol d))
          (Some (cwd e +:+ "/test_data/binance"))
        = file_format (cwd e) "trades" symbol symbol "trades" (strftime d)
        <-> upper symbol = symbol).
Proof.
  intros e symbol interval d Habs Hrel.
  assert (Hc : truthy (cwd e) = true)
    by (unfold absolute in Habs; destruct (cwd e); [discriminate | reflexivity]).
  split.
  - unfold kline_zip. cbn [fst snd].
    destruct (save_path_layout e "spot" "klines" "daily" symbol
                (Some interval)
                (upper symbol +:+ "-" +:+ interval +:+ "-" +:+ strftime d +:+ ".zip")
                (Some (cwd e +:+ "/test_data/binance/"))) as [Hsp _].
    + now apply upper_relative.
    + right. simpl. unfold absolute. now rewrite starts_with_slash_app.
    + rewrite Hsp. cbn [truthy_opt default from_option id].
      assert (Ht : truthy (cwd e +:+ "/test_data/binance/") = true)
        by (destruct (cwd e); reflexivity).
      rewrite Ht. 
      rewrite as_directory_ends; [|apply ends_with_slash_append; reflexivity].
      unfold get_path, file_format. simpl String.eqb. cbv iota.
      string_norm. split.
      * intros H. apply append_inj_l in H.
        repeat match type of H with String _ _ = String _ _ => injection H as H end.
        eapply append_inv_length; [apply length_upper | exact H].
      * intros ->. reflexivity.
  - unfold trades_zip. cbn [fst snd].
    destruct (save_path_layout e "spot" "trades" "daily" symbol None
                (upper symbol +:+ "-trades-" +:+ strftime d +:+ ".zip")
                (Some (cwd e +:+ "/test_data/binance"))) as [Hsp _].
    + replace (upper symbol +:+ "-trades-" +:+ strftime d +:+ ".zip")
        with (upper symbol +:+ "-" +:+ ("trades-" +:+ strftime d +:+ ".zip"))
        by (string_norm; reflexivity).
      now apply upper_relative.
    + right. simpl. unfold absolute. now rewrite starts_with_slash_app.
    + rewrite Hsp. cbn [truthy_opt default from_option id].
      assert (Ht : truthy (cwd e +:+ "/test_data/binance") = true)
        by (destruct (cwd e); reflexivity).
      rewrite Ht, as_directory_binance.
      unfold get_path, file_format. simpl String.eqb. cbv iota.
      string_norm. split.
      * intros H. apply append_inj_l in H.
        repeat match type of H with String _ _ = String _ _ => injection H as H end.
        eapply append_inv_length; [apply length_upper | exact H].
      * intros ->. reflexivity.
Qed.

(** X14. The reader finds a downloaded file exactly when the symbol is
    written in upper case. With an absolute working directory, the path
    at which [download_binance_kline_data] ([download_binance_trade_data])
    saves the archive of a symbol, an interval and a day is the path that
    [downloaded_filepaths] gives the reader for them if, and only if, the
    symbol has no lower-case letter: the downloader puts the symbol in
    upper case, in the directory and in the file name, the reader takes
    it as it is written. *)
Theorem reader_finds_upper_case_symbols :
  forall e symbol interval d,
    absolute (cwd e) ->
    starts_with_slash symbol = false ->
    (save_path_of e (fst (kline_zip "spot" symbol interval (strftime d)))
       (snd (kline_zip "spot" symbol interval (strftime d)))
       (Some (cwd e +:+ "/test_data/binance/"))
     = file_format (cwd e) "klines" (symbol +:+ "/" +:+ interval) symbol interval (strftime d)
     <-> upper symbol = symbol)
    /\ (save_path_of e (fst (trades_zip symbol d)) (snd (trades_zip symbol d))
          (Some (cwd e +:+ "/test_data/binance"))
        = file_format (cwd e) "trades" symbol symbol "trades" (strftime d)
        <-> upper symbol = symbol).
Proof. exact reader_paths. Qed.

Lemma reader_finds_upper_case_symbols_witness :
  absolute (cwd sample_env)
  /\ starts_with_slash "ADAUSDT" = false
  /\ save_path_of sample_env (fst (kline_zip "spot" "ADAUSDT" "15m" (strftime (mkdate 2021 11 1))))
       (snd (kline_zip "spot" "ADAUSDT" "15m" (strftime (mkdate 2021 11 1))))
       (Some (cwd sample_env +:+ "/test_data/binance/"))
     = file_format (cwd sample_env) "klines" ("ADAUSDT" +:+ "/" +:+ "15m") "ADAUSDT" "15m"
         (strftime (mkdate 2021 11 1)).
Proof.
  split; [reflexivity|]. split; [reflexivity|].
  destruct (reader_finds_upper_case_symbols sample_env "ADAUSDT" "15m" (mkdate 2021 11 1))
    as [[_ Hk] _].
  - reflexivity.
  - reflexivity.
  - apply Hk. reflexivity.
Defined.

(** ** The reader: requests that cannot be served *)

Lemma for_fold_id {A S} (body : A -> S -> result S) xs :
  (forall x st, In x xs -> body x st = Ok st) ->
  forall st, for_fold xs st body = Ok st.
Proof.
  induction xs as [|x xs IH]; intros Hb st; [reflexivity|].
  simpl. rewrite (Hb x st) by now left. simpl. apply IH.
  intros y st' Hy. apply Hb. now right.
Qed.

Lemma for_fold_raises {A S} (body : A -> S -> result S) ex x xs :
  In x xs ->
  (forall st, body x st = Raise ex) ->
  (forall y st, In y xs -> body y st = Raise ex \/ exists st', body y st = Ok st') ->
  forall st, for_fold xs st body = Raise ex.
Proof.
  induction xs as [|y xs IH]; intros Hin Hx Hall st; [destruct Hin|].
  simpl. destruct (Hall y st (or_introl eq_refl)) as [Hy | [st' Hy]]; rewrite Hy; simpl.
  - reflexivity.
  - destruct Hin as [-> | Hin]; [rewrite Hx in Hy; discriminate|].
    apply IH; [exact Hin | exact Hx |]. intros z st0 Hz. apply Hall. now right.
Qed.

Lemma strptime_valid s d : strptime s = Ok d -> valid_date d.
Proof. intros H. apply (convert_valid s). now apply strptime_convert. Qed.

Lemma date_range_inverted start_ end_ :
  valid_date start_ -> valid_date end_ ->
  in_timestamp_bounds start_ = true -> in_timestamp_bounds end_ = true ->
  date_le start_ end_ = false ->
  date_range start_ end_ = Ok [].
Proof.
  intros Hs He Hbs Hbe Hle. rewrite (date_range_days _ _ Hbs Hbe). unfold days_between.
  pose proof (toordinal_lt start_ end_ Hs He Hle).
  replace (Z.to_nat (toordinal end_ - toordinal start_ + 1)) with 0%nat by lia.
  reflexivity.
Qed.

Lemma symbol_step_no_dates cwd type_ req symbol st :
  In symbol (dict_keys req) -> symbol_step cwd type_ [] req symbol st = Ok st.
Proof.
  intros Hin. unfold symbol_step.
  destruct (dict_get_keys req symbol Hin) as [intervals ->]. simpl.
  destruct (0 <? Z.of_nat (List.length intervals)); [|reflexivity].
  apply for_fold_id. reflexivity.
Qed.

Lemma downloaded_filepaths_no_dates cwd type_ start_date end_date start_ end_ req :
  strptime start_date = Ok start_ -> strptime end_date = Ok end_ ->
  date_range start_ end_ = Ok [] ->
  downloaded_filepaths cwd type_ start_date end_date req = Ok [].
Proof.
  intros Hs He Hr. unfold downloaded_filepaths. rewrite Hs, He. simpl. rewrite Hr. simpl.
  rewrite for_fold_id; [reflexivity|].
  intros symbol st Hin. now apply symbol_step_no_dates.
Qed.

Lemma downloaded_filepaths_no_symbols cwd type_ start_date end_date start_ end_ :
  strptime start_date = Ok start_ -> strptime end_date = Ok end_ ->
  in_timestamp_bounds start_ = true -> in_timestamp_bounds end_ = true ->
  downloaded_filepaths cwd type_ start_date end_date [] = Ok [].
Proof.
  intros Hs He Hbs Hbe. unfold downloaded_filepaths. rewrite Hs, He. simpl.
  rewrite (date_range_days _ _ Hbs Hbe). reflexivity.
Qed.

Lemma kline_data_no_files cwd dk start_date end_date req :
  downloaded_filepaths cwd "klines" start_date end_date req = Ok [] ->
  get_binance_kline_data cwd dk start_date end_date req = Raise KeyError.
Proof. intros H. unfold get_binance_kline_data. rewrite H. reflexivity. Qed.

Lemma trade_data_no_files cwd dk start_date end_date symbols :
  downloaded_filepaths cwd "trades" start_date end_date
    (fold_left (fun d symbol => dict_set d symbol []) symbols []) = Ok [] ->
  get_binance_trade_data cwd dk start_date end_date symbols = Raise KeyError.
Proof. intros H. unfold get_binance_trade_data. rewrite H. reflexivity. Qed.

(** X15. A request that names no file fails with [KeyError]: the empty
    table [pd.DataFrame()] has no column to sort by. This is what both
    readers do for an empty request, and for every request when the end
    date is before the start date, whatever is on disk. *)
Theorem request_without_files_raises_KeyError :
  forall cwd dk start_date end_date start_ end_,
    strptime start_date = Ok start_ ->
    strptime end_date = Ok end_ ->
    in_timestamp_bounds start_ = true ->
    in_timestamp_bounds end_ = true ->
    (get_binance_kline_data cwd dk start_date end_date [] = Raise KeyError
     /\ get_binance_trade_data cwd dk start_date end_date [] = Raise KeyError)
    /\ (date_le start_ end_ = false ->
        (forall symbol_data_required,
            get_binance_kline_data cwd dk start_date end_date symbol_data_required
            = Raise KeyError)
        /\ (forall symbols,
              get_binance_trade_data cwd dk start_date end_date symbols = Raise KeyError)).
Proof.
  intros cwd dk sd ed start_ end_ Hs He Hbs Hbe. split.
  - split.
    + apply kline_data_no_files. now apply (downloaded_filepaths_no_symbols _ _ _ _ start_ end_).
    + apply trade_data_no_files. now apply (downloaded_filepaths_no_symbols _ _ _ _ start_ end_).
  - intros Hle.
    assert (Hr : date_range start_ end_ = Ok [])
      by (apply date_range_inverted; eauto using strptime_valid).
    split; intros req.
    + apply kline_data_no_files. now apply (downloaded_filepaths_no_dates _ _ _ _ start_ end_).
    + apply trade_data_no_files. now apply (downloaded_filepaths_no_dates _ _ _ _ start_ end_).
Qed.

Lemma request_without_files_raises_KeyError_witness :
  date_le (mkdate 2021 11 2) (mkdate 2021 11 1) = false
  /\ get_binance_kline_data "/home/user" sample_disk "2021-11-02" "2021-11-01"
       [("AAA", ["1m"])] = Raise KeyError.
Proof.
  split; [reflexivity|].
  destruct (request_without_files_raises_KeyError "/home/user" sample_disk
              "2021-11-02" "2021-11-01" (mkdate 2021 11 2) (mkdate 2021 11 1))
    as (_ & Hinv); [reflexivity | reflexivity | reflexivity | reflexivity |].
  destruct (Hinv eq_refl) as [Hk _]. apply Hk.
Defined.

(** X16. A file that is missing fails the whole request. When one of the
    paths of the request is not on disk, [get_binance_kline_data] and
    [get_binance_trade_data] raise [FileNotFoundError]: no table is
    returned for the files that are there. *)
Theorem missing_file_fails_the_request :
  forall cwd dk start_date end_date,
    (forall symbol_data_required filepaths p,
        downloaded_filepaths cwd "klines" start_date end_date symbol_data_required
          = Ok filepaths ->
        In p (dict_keys filepaths) ->
        kline_files dk p = None ->
        get_binance_kline_data cwd dk start_date end_date symbol_data_required
        = Raise FileNotFoundError)
    /\ (forall symbols filepaths p,
          downloaded_filepaths cwd "trades" start_date end_date
            (fold_left (fun d symbol => dict_set d symbol []) symbols []) = Ok filepaths ->
          In p (dict_keys filepaths) ->
          trade_files dk p = None ->
          get_binance_trade_data cwd dk start_date end_date symbols
          = Raise FileNotFoundError).
Proof.
  intros cwd dk sd ed. split.
  - intros req fps p Hfps Hp Hmiss. unfold get_binance_kline_data. rewrite Hfps. simpl.
    rewrite (for_fold_raises _ FileNotFoundError p); [reflexivity | exact Hp | |].
    + intros st. unfold read_csv_klines. now rewrite Hmiss.
    + intros y st Hy. unfold read_csv_klines.
      destruct (kline_files dk y) as [rows|]; simpl; [|now left].
      destruct (dict_get_keys fps y Hy) as [v ->]. simpl. right. eauto.
  - intros symbols fps p Hfps Hp Hmiss. unfold get_binance_trade_data. rewrite Hfps. simpl.
    rewrite (for_fold_raises _ FileNotFoundError p); [reflexivity | exact Hp | |].
    + intros st. destruct (dict_get_keys fps p Hp) as [v ->]. simpl.
      unfold trade_data_collation, read_csv_trades. now rewrite Hmiss.
    + intros y st Hy. destruct (dict_get_keys fps y Hy) as [v ->]. simpl.
      unfold trade_data_collation, read_csv_trades.
      destruct (trade_files dk y) as [rows|]; simpl; [right; eauto | now left].
Qed.

Lemma missing_file_fails_the_request_witness :
  kline_files sample_disk
    "/home/user/test_data/binance/data/spot/daily/klines/AAA/1m/AAA-1m-2021-11-02.zip" = None
  /\ get_binance_kline_data "/home/user" sample_disk "2021-11-01" "2021-11-02"
       [("AAA", ["1m"])] = Raise FileNotFoundError.
Proof.
  split; [reflexivity|].
  destruct (missing_file_fails_the_request "/home/user" sample_disk "2021-11-01" "2021-11-02")
    as [Hk _].
  eapply (Hk [("AAA", ["1m"])] _
            "/home/user/test_data/binance/data/spot/daily/klines/AAA/1m/AAA-1m-2021-11-02.zip").
  - reflexivity.
  - vm_compute. right. left. reflexivity.
  - reflexivity.
Defined.

(** ** The reader: the rows of the assembled tables *)

Lemma insert_by_perm {R} (key : R -> Z) x (l : frame R) :
  rows_of (insert_by key x l) ≡ₚ snd x :: rows_of l.
Proof.
  unfold rows_of. induction l as [|y l IH]; simpl; [reflexivity|].
  destruct (key (snd x) <=? key (snd y)); simpl; [reflexivity|].
  rewrite IH. apply perm_swap.
Qed.

Lemma sort_values_perm {R} (df : option (frame R)) (key : R -> Z) f :
  sort_values df key = Ok f -> rows_of f ≡ₚ rows_so_far df.
Proof.
  destruct df as [g|]; simpl; [|discriminate]. intros [= <-].
  induction g as [|x g IH]; simpl; [reflexivity|].
  rewrite insert_by_perm. unfold rows_of at 2. simpl. now rewrite IH.
Qed.

(** a loop that appends the part of each item *)
Lemma for_fold_parts {A R} (body : A -> option (frame R) -> result (option (frame R)))
    (part : A -> list R) xs :
  (forall x st st', In x xs -> body x st = Ok st' ->
                    rows_so_far st' = (rows_so_far st ++ part x)%list) ->
  forall st st', for_fold xs st body = Ok st' ->
                 rows_so_far st' = (rows_so_far st ++ flat_map part xs)%list.
Proof.
  induction xs as [|x xs IH]; intros Hb st st' H; simpl in *.
  - injection H as <-. now rewrite app_nil_r.
  - apply bind_result_Ok in H as (st1 & H1 & H2).
    rewrite (IH (fun y s s' Hy => Hb y s s' (or_intror Hy)) st1 st' H2).
    rewrite (Hb x st st1 (or_introl eq_refl) H1). now rewrite app_assoc.
Qed.

Lemma rows_of_relabel {R} (f : R -> R) (g : frame R) :
  rows_of (map (fun lr => (fst lr, f (snd lr))) g) = map f (rows_of g).
Proof. unfold rows_of. rewrite !map_map. reflexivity. Qed.

Lemma rows_so_far_append {R} (df : option (frame R)) (part : frame R) :
  rows_so_far (append df part) = (rows_so_far df ++ rows_of part)%list.
Proof. destruct df; simpl; [apply map_app | reflexivity]. Qed.

Lemma rows_so_far_append_ignore_index {R} (df : option (frame R)) (part : frame R) :
  rows_so_far (append_ignore_index df part) = (rows_so_far df ++ rows_of part)%list.
Proof. destruct df; simpl; now rewrite rows_of_range_index. Qed.

(** X17. No row is lost and none is made up. The table that
    [get_binance_kline_data] returns holds exactly the rows of the files
    of the request, each with the symbol and the interval of its file,
    rearranged by the sort; the table that [get_binance_trade_data]
    returns holds exactly the ten-second buckets of the files of the
    request. *)
Theorem assembled_tables_hold_the_rows_of_the_files :
  forall cwd dk start_date end_date,
    (forall symbol_data_required f,
        get_binance_kline_data cwd dk start_date end_date symbol_data_required = Ok f ->
        exists filepaths,
          downloaded_filepaths cwd "klines" start_date end_date symbol_data_required
            = Ok filepaths
          /\ rows_of f ≡ₚ flat_map (kline_part dk filepaths) (dict_keys filepaths))
    /\ (forall symbols f,
          get_binance_trade_data cwd dk start_date end_date symbols = Ok f ->
          exists filepaths,
            downloaded_filepaths cwd "trades" start_date end_date
              (fold_left (fun d symbol => dict_set d symbol []) symbols []) = Ok filepaths
            /\ rows_of f ≡ₚ flat_map (trade_part dk filepaths) (dict_keys filepaths)).
Proof.
  intros cwd dk sd ed. split.
  - intros req f H. unfold get_binance_kline_data in H.
    apply bind_result_Ok in H as (fps & Hfps & H).
    apply bind_result_Ok in H as (kd & Hfold & Hsort).
    exists fps. split; [exact Hfps|].
    rewrite (sort_values_perm _ _ _ Hsort).
    apply (for_fold_parts _ (kline_part dk fps)) in Hfold; [now rewrite Hfold|].
    intros p st st' _ Hbody. unfold kline_part, read_csv_klines in *.
    destruct (kline_files dk p) as [rows|]; [|discriminate]. simpl in Hbody.
    destruct (dict_get fps p) as [v|]; [|discriminate]. simpl in Hbody.
    injection Hbody as <-.
    now rewrite rows_so_far_append, rows_of_relabel, rows_of_range_index.
  - intros symbols f H. unfold get_binance_trade_data in H.
    apply bind_result_Ok in H as (fps & Hfps & H).
    apply bind_result_Ok in H as (td & Hfold & Hsort).
    exists fps. split; [exact Hfps|].
    rewrite (sort_values_perm _ _ _ Hsort).
    apply (for_fold_parts _ (trade_part dk fps)) in Hfold; [now rewrite Hfold|].
    intros p st st' _ Hbody. unfold trade_part in *.
    destruct (dict_get fps p) as [v|]; [|discriminate]. simpl in Hbody.
    unfold trade_data_collation, read_csv_trades in Hbody.
    destruct (trade_files dk p) as [rows|]; [|discriminate]. simpl in Hbody.
    injection Hbody as <-.
    now rewrite rows_so_far_append_ignore_index, !rows_of_range_index.
Qed.

Lemma assembled_tables_hold_the_rows_of_the_files_witness :
  exists f,
    get_binance_kline_data "/home/user" sample_disk "2021-11-01" "2021-11-01"
      [("AAA", ["1m"]); ("BBB", ["1m"])] = Ok f
    /\ List.length (rows_of f) = 4%nat.
Proof.
  destruct (get_binance_kline_data "/home/user" sample_disk "2021-11-01" "2021-11-01"
              [("AAA", ["1m"]); ("BBB", ["1m"])]) as [f|ex] eqn:E; [|vm_compute in E; discriminate].
  exists f. split; [reflexivity|].
  destruct (assembled_tables_hold_the_rows_of_the_files "/home/user" sample_disk
              "2021-11-01" "2021-11-01") as [Hk _].
  destruct (Hk _ f E) as (fps & Hfps & Hperm).
  rewrite (Permutation_length Hperm).
  vm_compute in Hfps. injection Hfps as <-. reflexivity.
Defined.

(** ** The reader opens what the downloader saves *)

Lemma dict_keys_set {V} (d : pydict V) k v p :
  In p (dict_keys (dict_set d k v)) <-> p = k \/ In p (dict_keys d).
Proof.
  unfold dict_keys. induction d as [|[k' v'] d IH]; simpl; [intuition congruence|].
  destruct (String.eqb k' k) eqn:E; simpl.
  - apply String.eqb_eq in E. subst. intuition congruence.
  - rewrite IH. intuition congruence.
Qed.

Lemma dict_get_In {V} (d : pydict V) k v : dict_get d k = Ok v -> In (k, v) d.
Proof.
  induction d as [|[k' v'] d IH]; simpl; [discriminate|].
  destruct (String.eqb k' k) eqn:E.
  - apply String.eqb_eq in E. subst. intros [= ->]. now left.
  - intros H. right. now apply IH.
Qed.

Lemma dict_get_NoDup {V} (d : pydict V) k v :
  List.NoDup (dict_keys d) -> In (k, v) d -> dict_get d k = Ok v.
Proof.
  unfold dict_keys. induction d as [|[k' v'] d IH]; simpl; intros Hnd Hin; [destruct Hin|].
  inversion Hnd as [|? ? Hk Hnd']; subst.
  destruct Hin as [[= -> ->] | Hin]; [now rewrite String.eqb_refl|].
  destruct (String.eqb k' k) eqn:E; [|now apply IH].
  apply String.eqb_eq in E. subst. exfalso. apply Hk.
  apply in_map_iff. exists (k, v). auto.
Qed.

Lemma dict_set_values {V} (P : V -> Prop) (d : pydict V) k v :
  P v -> Forall (fun kv => P (snd kv)) d -> Forall (fun kv => P (snd kv)) (dict_set d k v).
Proof.
  intros Hv. induction 1 as [|[k' v'] d Hkv Hd IH]; simpl.
  - repeat constructor. exact Hv.
  - destruct (String.eqb k' k); constructor; auto.
Qed.

(** the dictionary that [get_binance_trade_data] makes of its symbols *)
Lemma symbols_dict_spec symbols :
  let d := fold_left (fun d symbol => dict_set d symbol []) symbols [] in
  (forall s, In s (dict_keys d) <-> In s symbols)
  /\ (forall s, In s (dict_keys d) -> dict_get d s = Ok ([] : list string)).
Proof.
  assert (H : forall (d0 : pydict (list string)),
            Forall (fun kv => snd kv = []) d0 ->
            let d := fold_left (fun d symbol => dict_set d symbol []) symbols d0 in
            (forall s, In s (dict_keys d) <-> In s (dict_keys d0) \/ In s symbols)
            /\ Forall (fun kv => snd kv = []) d).
  { induction symbols as [|x symbols IH]; intros d0 Hd0; simpl.
    - split; [intros s; tauto | exact Hd0].
    - destruct (IH (dict_set d0 x [])) as [Hk Hv];
        [now apply (dict_set_values (fun v => v = [])) |].
      split; [|exact Hv].
      intros s. rewrite Hk, dict_keys_set. intuition congruence. }
  destruct (H [] ltac:(constructor)) as [Hk Hv]. simpl. split.
  - intros s. rewrite Hk. simpl. tauto.
  - intros s Hs. destruct (dict_get_keys _ s Hs) as [v Hget]. rewrite Hget.
    apply dict_get_In in Hget. rewrite List.Forall_forall in Hv.
    specialize (Hv _ Hget). simpl in Hv. now subst.
Qed.

(** a loop whose passes add paths to the dictionary *)
Lemma for_fold_adds {A} (body : A -> locals -> result locals) (adds : A -> string -> Prop) xs :
  (forall x st, In x xs ->
     exists st', body x st = Ok st'
       /\ forall p, In p (dict_keys (filepaths st'))
                    <-> In p (dict_keys (filepaths st)) \/ adds x p) ->
  forall st,
  exists st', for_fold xs st body = Ok st'
    /\ forall p, In p (dict_keys (filepaths st'))
                 <-> In p (dict_keys (filepaths st)) \/ exists x, In x xs /\ adds x p.
Proof.
  induction xs as [|x xs IH]; intros Hb st; simpl.
  - exists st. split; [reflexivity|]. intros p. split; [auto|].
    intros [H|(x & [] & _)]. exact H.
  - destruct (Hb x st (or_introl eq_refl)) as (st1 & H1 & Hk1). rewrite H1. simpl.
    destruct (IH (fun y s Hy => Hb y s (or_intror Hy)) st1) as (st' & H' & Hk').
    exists st'. split; [exact H'|].
    intros p. rewrite Hk', Hk1. split.
    + intros [[H|H]|(y & Hy & H)]; eauto.
    + intros [H|(y & [<-|Hy] & H)]; eauto.
Qed.

Lemma trades_filepaths cwd start_date end_date start_ end_ symbols :
  strptime start_date = Ok start_ -> strptime end_date = Ok end_ ->
  in_timestamp_bounds start_ = true -> in_timestamp_bounds end_ = true ->
  exists fps,
    downloaded_filepaths cwd "trades" start_date end_date
      (fold_left (fun d symbol => dict_set d symbol []) symbols []) = Ok fps
    /\ forall p, In p (dict_keys fps)
                 <-> exists symbol d, In symbol symbols /\ In d (days_between start_ end_)
                       /\ p = file_format cwd "trades" symbol symbol "trades" (strftime d).
Proof.
  intros Hs He Hbs Hbe. unfold downloaded_filepaths. rewrite Hs, He. simpl.
  rewrite (date_range_days _ _ Hbs Hbe). simpl.
  destruct (symbols_dict_spec symbols) as [Hkeys Hvals].
  set (req := fold_left (fun d symbol => dict_set d symbol []) symbols []) in *.
  destruct (for_fold_adds (symbol_step cwd "trades" (days_between start_ end_) req)
              (fun symbol p => exists d, In d (days_between start_ end_)
                 /\ p = file_format cwd "trades" symbol symbol "trades" (strftime d))
              (dict_keys req)) with (st := mklocals None []) as (st' & Hrun & Hk).
  - intros symbol st Hin. unfold symbol_step. rewrite (Hvals symbol Hin). simpl.
    apply (for_fold_adds _ (fun d p =>
             p = file_format cwd "trades" symbol symbol "trades" (strftime d))).
    intros d st0 _. eexists. split; [reflexivity|].
    intros p. simpl. rewrite dict_keys_set. tauto.
  - rewrite Hrun. simpl. exists (filepaths st'). split; [reflexivity|].
    intros p. rewrite Hk. simpl. split.
    + intros [[]|(symbol & Hin & d & Hd & ->)]. exists symbol, d.
      split; [now apply Hkeys | auto].
    + intros (symbol & d & Hin & Hd & ->). right. exists symbol.
      split; [now apply Hkeys | eauto].
Qed.

Lemma klines_filepaths cwd start_date end_date start_ end_ (req : pydict (list string)) :
  strptime start_date = Ok start_ -> strptime end_date = Ok end_ ->
  in_timestamp_bounds start_ = true -> in_timestamp_bounds end_ = true ->
  List.NoDup (dict_keys req) ->
  Forall (fun item : string * list string => snd item <> []) req ->
  exists fps,
    downloaded_filepaths cwd "klines" start_date end_date req = Ok fps
    /\ forall p, In p (dict_keys fps)
                 <-> exists symbol intervals interval d,
                       In (symbol, intervals) req /\ In interval intervals
                       /\ In d (days_between start_ end_)
                       /\ p = file_format cwd "klines" (symbol +:+ "/" +:+ interval)
                                symbol interval (strftime d).
Proof.
  intros Hs He Hbs Hbe Hnd Hne. unfold downloaded_filepaths. rewrite Hs, He. simpl.
  rewrite (date_range_days _ _ Hbs Hbe). simpl.
  destruct (for_fold_adds (symbol_step cwd "klines" (days_between start_ end_) req)
              (fun symbol p => exists intervals interval d,
                 In (symbol, intervals) req /\ In interval intervals
                 /\ In d (days_between start_ end_)
                 /\ p = file_format cwd "klines" (symbol +:+ "/" +:+ interval)
                          symbol interval (strftime d))
              (dict_keys req)) with (st := mklocals None []) as (st' & Hrun & Hk).
  - intros symbol st Hin. unfold symbol_step.
    destruct (dict_get_keys req symbol Hin) as [intervals Hget]. rewrite Hget. simpl.
    pose proof (dict_get_In _ _ _ Hget) as Hitem.
    rewrite List.Forall_forall in Hne. pose proof (Hne _ Hitem) as Hn. simpl in Hn.
    assert (Hlen : (0 <? Z.of_nat (List.length intervals)) = true)
      by (apply Z.ltb_lt; destruct intervals; [congruence | simpl List.length; lia]).
    rewrite Hlen.
    destruct (for_fold_adds
                (fun interval st =>
                   for_fold (days_between start_ end_) st (fun date st =>
                     bind_result
                       (if String.eqb "klines" "klines" then
                          Ok (file_format cwd "klines" (symbol +:+ "/" +:+ interval) symbol
                                interval (strftime date))
                        else if String.eqb "klines" "trades" then
                          Ok (file_format cwd "klines" symbol symbol "klines" (strftime date))
                        else Raise ValueError)
                       (fun filepath =>
                          Ok (mklocals (Some filepath)
                                (dict_set (filepaths st) filepath (symbol, Some interval))))))
                (fun interval p => exists d, In d (days_between start_ end_)
                   /\ p = file_format cwd "klines" (symbol +:+ "/" +:+ interval)
                            symbol interval (strftime d))
                intervals) with (st := st) as (st1 & Hrun1 & Hk1).
    + intros interval st0 _.
      apply (for_fold_adds _ (fun d p =>
               p = file_format cwd "klines" (symbol +:+ "/" +:+ interval)
                     symbol interval (strftime d))).
      intros d st2 _. eexists. split; [reflexivity|].
      intros p. simpl. rewrite dict_keys_set. tauto.
    + exists st1. split; [exact Hrun1|].
      intros p. rewrite Hk1. split.
      * intros [H|(interval & Hi & d & Hd & ->)]; [now left|].
        right. exists intervals, interval, d. auto.
      * intros [H|(intervals' & interval & d & Hitem' & Hi & Hd & ->)]; [now left|].
        right. exists interval. split; [|eauto].
        pose proof (dict_get_NoDup _ _ _ Hnd Hitem') as Hget'. congruence.
  - rewrite Hrun. simpl. exists (filepaths st'). split; [reflexivity|].
    intros p. rewrite Hk. simpl. split.
    + intros [[]|(symbol & Hin & intervals & interval & d & H)]. eauto 10.
    + intros (symbol & intervals & interval & d & Hitem & H). right. exists symbol.
      split; [|eauto 10].
      apply in_map_iff. exists (symbol, intervals). auto.
Qed.

Lemma trade_archives_In symbols start_ end_ bp fn :
  In (bp, fn) (trade_archives symbols start_ end_)
  <-> exists symbol d, In symbol symbols /\ In d (days_between start_ end_)
        /\ (bp, fn) = trades_zip symbol d.
Proof.
  unfold trade_archives. rewrite in_flat_map. split.
  - intros (symbol & Hs & Hin). apply in_map_iff in Hin as (d & Heq & Hd). eauto.
  - intros (symbol & d & Hs & Hd & ->). exists symbol. split; [exact Hs|]. now apply in_map.
Qed.

Lemma kline_archives_In req start_ end_ bp fn :
  In (bp, fn) (kline_archives req start_ end_)
  <-> exists symbol intervals interval d,
        In (symbol, intervals) req /\ In interval intervals /\ In interval DAILY_INTERVALS
        /\ In d (days_between start_ end_)
        /\ (bp, fn) = kline_zip "spot" symbol interval (strftime d).
Proof.
  unfold kline_archives. rewrite in_flat_map. split.
  - intros ([symbol intervals] & Hitem & Hin).
    apply in_flat_map in Hin as (interval & Hint & Hin).
    apply in_map_iff in Hin as (d & Heq & Hd).
    apply valid_daily_intervals_spec in Hint as [Hint Hdaily].
    exists symbol, intervals, interval, d. simpl in Heq. auto.
  - intros (symbol & intervals & interval & d & Hitem & Hint & Hdaily & Hd & ->).
    exists (symbol, intervals). split; [exact Hitem|].
    apply in_flat_map. exists interval. split; [apply valid_daily_intervals_spec; auto|].
    simpl. apply (in_map (fun d => kline_zip "spot" symbol interval (strftime d))). exact Hd.
Qed.

(** X19. The reader opens what the downloader saves. For the same two
    date strings, read by [strptime], and an absolute working directory:
    the paths that [get_binance_trade_data] opens for a list of symbols
    written in upper case are exactly the save paths of the archives that
    [download_binance_trade_data] asks for; and the paths that
    [get_binance_kline_data] opens for a request whose symbols are in
    upper case and whose interval lists are not empty and hold daily
    intervals only are exactly the save paths of the archives that
    [download_binance_kline_data] asks for. *)
Theorem reader_opens_what_downloader_saves :
  forall e start_date end_date start_ end_,
    strptime start_date = Ok start_ ->
    strptime end_date = Ok end_ ->
    in_timestamp_bounds start_ = true ->
    in_timestamp_bounds end_ = true ->
    absolute (cwd e) ->
    (forall symbols,
        Forall (fun symbol => upper symbol = symbol /\ starts_with_slash symbol = false)
          symbols ->
        exists filepaths,
          downloaded_filepaths (cwd e) "trades" start_date end_date
            (fold_left (fun d symbol => dict_set d symbol []) symbols []) = Ok filepaths
          /\ forall p,
               In p (dict_keys filepaths)
               <-> exists bp fn,
                     In (bp, fn) (trade_archives symbols start_ end_)
                     /\ p = save_path_of e bp fn (Some (cwd e +:+ "/test_data/binance")))
    /\ (forall symbol_data_required : pydict (list string),
          List.NoDup (dict_keys symbol_data_required) ->
          Forall (fun item : string * list string =>
                    snd item <> []
                    /\ Forall (fun i => In i DAILY_INTERVALS) (snd item)
                    /\ upper (fst item) = fst item
                    /\ starts_with_slash (fst item) = false) symbol_data_required ->
          exists filepaths,
            downloaded_filepaths (cwd e) "klines" start_date end_date symbol_data_required
              = Ok filepaths
            /\ forall p,
                 In p (dict_keys filepaths)
                 <-> exists bp fn,
                       In (bp, fn) (kline_archives symbol_data_required start_ end_)
                       /\ p = save_path_of e bp fn (Some (cwd e +:+ "/test_data/binance/"))).
Proof.
  intros e sd ed start_ end_ Hs He Hbs Hbe Habs. split.
  - intros symbols Hup. rewrite List.Forall_forall in Hup.
    destruct (trades_filepaths (cwd e) sd ed start_ end_ symbols Hs He Hbs Hbe)
      as (fps & Hfps & Hk).
    exists fps. split; [exact Hfps|].
    intros p. rewrite Hk. split.
    + intros (symbol & d & Hin & Hd & ->).
      exists (fst (trades_zip symbol d)), (snd (trades_zip symbol d)). split.
      * apply trade_archives_In. exists symbol, d. auto.
      * destruct (Hup symbol Hin) as [Hu Hr].
        destruct (reader_paths e symbol "" d Habs Hr) as [_ [_ Ht]]. symmetry. now apply Ht.
    + intros (bp & fn & Hin & ->).
      apply trade_archives_In in Hin as (symbol & d & Hin & Hd & Heq).
      exists symbol, d. split; [exact Hin|]. split; [exact Hd|].
      destruct (Hup symbol Hin) as [Hu Hr].
      destruct (reader_paths e symbol "" d Habs Hr) as [_ [_ Ht]].
      rewrite <- (Ht Hu). now rewrite <- Heq.
  - intros req Hnd Hreq.
    assert (Hne : Forall (fun item : string * list string => snd item <> []) req)
      by (eapply List.Forall_impl; [|exact Hreq]; simpl; tauto).
    rewrite List.Forall_forall in Hreq.
    destruct (klines_filepaths (cwd e) sd ed start_ end_ req Hs He Hbs Hbe Hnd Hne)
      as (fps & Hfps & Hk).
    exists fps. split; [exact Hfps|].
    intros p. rewrite Hk. split.
    + intros (symbol & intervals & interval & d & Hitem & Hint & Hd & ->).
      destruct (Hreq _ Hitem) as (_ & Hdaily & Hu & Hr). cbn [fst snd] in Hdaily, Hu, Hr.
      rewrite List.Forall_forall in Hdaily.
      exists (fst (kline_zip "spot" symbol interval (strftime d))),
        (snd (kline_zip "spot" symbol interval (strftime d))). split.
      * apply kline_archives_In. exists symbol, intervals, interval, d.
        split; [exact Hitem|]. split; [exact Hint|]. split; [now apply Hdaily|].
        split; [exact Hd | reflexivity].
      * destruct (reader_paths e symbol interval d Habs Hr) as [[_ Hkl] _].
        symmetry. now apply Hkl.
    + intros (bp & fn & Hin & ->).
      apply kline_archives_In in Hin
        as (symbol & intervals & interval & d & Hitem & Hint & Hdaily & Hd & Heq).
      exists symbol, intervals, interval, d.
      split; [exact Hitem|]. split; [exact Hint|]. split; [exact Hd|].
      destruct (Hreq _ Hitem) as (_ & _ & Hu & Hr). cbn [fst snd] in Hu, Hr.
      destruct (reader_paths e symbol interval d Habs Hr) as [[_ Hkl] _].
      rewrite <- (Hkl Hu). now rewrite <- Heq.
Qed.

Lemma reader_opens_what_downloader_saves_witness :
  absolute (cwd sample_env)
  /\ exists filepaths,
       downloaded_filepaths (cwd sample_env) "trades" "2021-11-01" "2021-11-02"
         (fold_left (fun d symbol => dict_set d symbol []) ["BTCUSDT"] []) = Ok filepaths
       /\ In (save_path_of sample_env "data/spot/daily/trades/BTCUSDT/"
                "BTCUSDT-trades-2021-11-02.zip" (Some (cwd sample_env +:+ "/test_data/binance")))
             (dict_keys filepaths).
Proof.
  split; [reflexivity|].
  destruct (reader_opens_what_downloader_saves sample_env "2021-11-01" "2021-11-02"
              (mkdate 2021 11 1) (mkdate 2021 11 2)) as [Ht _];
    [reflexivity | reflexivity | reflexivity | reflexivity | reflexivity |].
  destruct (Ht ["BTCUSDT"]) as (fps & Hfps & Hk).
  - repeat constructor.
  - exists fps. split; [exact Hfps|].
    apply Hk. exists "data/spot/daily/trades/BTCUSDT/", "BTCUSDT-trades-2021-11-02.zip".
    split; [|reflexivity]. vm_compute. right. left. reflexivity.
Defined.

(** ** Carrying out a plan of downloads *)

Lemma hoare_conseq (Pre Pre' Post Post' : world -> Prop) m :
  (forall w, Pre' w -> Pre w) -> (forall w, Post w -> Post' w) ->
  hoare Pre m Post -> hoare Pre' m Post'.
Proof. intros H1 H2 H w Hw. destruct (H w (H1 w Hw)) as [Hok HP]. auto. Qed.

Lemma disk_inv_stdout e folder plan done w text :
  disk_inv e folder plan done w ->
  disk_inv e folder plan done
    (mkworld (files w) (dirs w) (requests w) (calls w) (stdout w ++ [text])).
Proof. intros H. exact H. Qed.

Lemma runs_ret e folder plan : runs e folder plan (mret tt) [].
Proof. intros _ done w Hw. simpl. rewrite app_nil_r. auto. Qed.

Lemma runs_print e folder plan s : runs e folder plan (print s) [].
Proof. intros _ done w Hw. simpl. rewrite app_nil_r. split; [reflexivity | exact Hw]. Qed.

Lemma runs_bind e folder plan (m : M unit) (k : unit -> M unit) l1 l2 :
  runs e folder plan m l1 -> (forall u, runs e folder plan (k u) l2) ->
  runs e folder plan (m ≫= k) (l1 ++ l2).
Proof.
  intros Hm Hk Hincl done w Hw. unfold mbind, M_bind, bind.
  assert (H1 : incl l1 plan) by (intros a Ha; apply Hincl, in_or_app; now left).
  assert (H2 : incl l2 plan) by (intros a Ha; apply Hincl, in_or_app; now right).
  destruct (Hm H1 done w Hw) as [Hok Hinv].
  destruct (m w) as [[[]|ex] w']; simpl in *; [|discriminate].
  rewrite app_assoc. apply (Hk tt H2 (done ++ l1) w' Hinv).
Qed.

Lemma runs_lift_bind {A} e folder plan (r : result A) (k : A -> M unit) a l :
  r = Ok a -> runs e folder plan (k a) l -> runs e folder plan (lift r ≫= k) l.
Proof. intros -> Hk Hincl done w Hw. unfold mbind, M_bind, bind, lift. now apply Hk. Qed.

Lemma runs_for_each {A} e folder plan (body : A -> M unit)
    (planf : A -> list (string * string)) xs :
  (forall x, In x xs -> runs e folder plan (body x) (planf x)) ->
  runs e folder plan (for_each xs body) (flat_map planf xs).
Proof.
  induction xs as [|x xs IH]; intros Hb; simpl.
  - apply runs_ret.
  - apply runs_bind; [apply Hb; now left|]. intros _. apply IH.
    intros y Hy. apply Hb. now right.
Qed.

Lemma runs_for_each_counting {A} e folder plan (body : A -> Z -> M unit)
    (planf : A -> list (string * string)) xs :
  (forall x c, In x xs -> runs e folder plan (body x c) (planf x)) ->
  forall c, runs e folder plan (for_each_counting xs c body) (flat_map planf xs).
Proof.
  induction xs as [|x xs IH]; intros Hb c; simpl.
  - apply runs_ret.
  - apply runs_bind; [apply Hb; now left|]. intros _. apply IH.
    intros y c' Hy. apply Hb. now right.
Qed.

Lemma served_same e a b body body' :
  archive_url a = archive_url b -> served e a body -> served e b body' -> body = body'.
Proof.
  intros Hu (h & n & Hr & _) (h' & n' & Hr' & _). rewrite Hu in Hr. congruence.
Qed.

Lemma not_exists_no_file w p :
  os_path_exists w p = false -> ends_with_slash p = false -> files w !! p = None.
Proof.
  unfold os_path_exists, is_file. intros H Hs. rewrite Hs in H. simpl in H.
  apply orb_false_iff in H as [H _]. apply bool_decide_eq_false in H.
  destruct (files w !! p); [exfalso; apply H; eauto | reflexivity].
Qed.

(** one download of the plan *)
Lemma runs_download_file e folder plan base_path file_name date_range :
  sound_plan e folder plan ->
  runs e folder plan (download_file e base_path file_name date_range folder)
       [(base_path, file_name)].
Proof.
  intros Hplan Hincl done w (I1 & I2 & I3).
  set (a := (base_path, file_name)) in *.
  assert (Ha : In a plan) by (apply Hincl; now left).
  set (sp := archive_path e folder a).
  pose proof (plan_files _ _ _ Hplan a Ha) as Hfile. fold sp in Hfile.
  destruct (os_path_exists w sp) eqn:Hex.
  - (* the file is there *)
    pose proof (download_file_unfold e base_path file_name date_range folder w) as Hrun.
    simpl in Hrun. change (save_path_of e base_path file_name folder) with sp in Hrun.
    rewrite Hex in Hrun. rewrite Hrun. simpl. split; [reflexivity|].
    split; [exact I1|]. split; [exact I2|].
    intros b Hb. apply in_app_or in Hb as [Hb | [<- | []]]; [now apply I3|].
    intros body Hserved. simpl.
    pose proof (I1 a Ha) as Hd. change (archive_path e folder a) with sp in Hd.
    unfold os_path_exists in Hex. rewrite Hd, orb_false_r in Hex.
    unfold is_file in Hex. apply andb_true_iff in Hex as [_ Hsome].
    apply bool_decide_eq_true in Hsome. destruct Hsome as [c Hc].
    fold sp. rewrite Hc. f_equal. eapply I2; eauto.
  - (* the file is downloaded *)
    destruct (plan_served _ _ _ Hplan a Ha) as (body0 & Hserved0).
    pose proof Hserved0 as (h & n & Hr & Hh & Hn & Hlen).
    pose proof (plan_parents _ _ _ Hplan a Ha) as Hparent.
    destruct (plan_bases _ _ _ Hplan a Ha) as [Hbase Hmade].
    destruct (download_file_complete e base_path file_name date_range folder w h n body0)
      as (Hok & Hfiles & _ & _); auto.
    { intros Heq. apply (plan_dirs _ _ _ Hplan a a Ha Ha).
      apply made_dirs_spec. left. exact Heq. }
    { intros Hb. unfold os_path_exists, is_file in Hb.
      change (fst a) with base_path in Hbase, Hmade, Hparent.
      rewrite Hbase in Hb. cbn [negb andb orb] in Hb.
      unfold dir_exists. 
      change (save_path_of e base_path file_name folder) with (archive_path e folder a).
      unfold is_dir in *. rewrite Hparent, Hmade, Hb, !orb_true_r. reflexivity. }
    pose proof (download_file_dirs e base_path file_name date_range folder w) as Hdirs.
    cbv zeta in Hok, Hfiles.
    change (save_path_of e base_path file_name folder) with sp in *.
    split; [exact Hok|].
    set (w' := snd (download_file e base_path file_name date_range folder w)) in *.
    pose proof (not_exists_no_file w sp Hex Hfile) as Hnone.
    split; [|split].
    + intros b Hb. unfold is_dir. apply bool_decide_eq_false. intros Hin.
      apply Hdirs in Hin as [Hin | Hin].
      * specialize (I1 b Hb). unfold is_dir in I1. apply bool_decide_eq_false in I1. auto.
      * exact (plan_dirs _ _ _ Hplan a b Ha Hb Hin).
    + intros b c body Hb Hc Hserved. rewrite Hfiles in Hc.
      destruct (decide (archive_path e folder b = sp)) as [Heq | Hne].
      * rewrite Heq, lookup_insert_eq in Hc. injection Hc as <-.
        apply (served_same e a b); [|assumption..].
        apply (plan_urls _ _ _ Hplan a b Ha Hb). now rewrite Heq.
      * rewrite lookup_insert_ne in Hc by congruence. eapply I2; eauto.
    + intros b Hb body Hserved. rewrite Hfiles.
      apply in_app_or in Hb as [Hb | [<- | []]].
      * destruct (decide (archive_path e folder b = sp)) as [Heq | Hne].
        -- specialize (I3 b Hb body Hserved). rewrite Heq in I3. congruence.
        -- rewrite lookup_insert_ne by congruence. now apply I3.
      * fold sp. rewrite lookup_insert_eq. f_equal.
        apply (served_same e a a); auto.
Qed.

Lemma runs_with_checksum e folder plan path file_name dr checksum :
  sound_plan e folder plan ->
  runs e folder plan
    (download_file e path file_name dr folder ;;
     if checksum =? 1
     then download_file e path (file_name +:+ ".CHECKSUM") dr folder
     else mret tt)
    (with_checksum checksum path file_name).
Proof.
  intros Hplan. unfold with_checksum.
  change ((path, file_name)
            :: (if checksum =? 1 then [(path, file_name +:+ ".CHECKSUM")] else []))
    with ([(path, file_name)]
            ++ (if checksum =? 1 then [(path, file_name +:+ ".CHECKSUM")] else [])).
  apply runs_bind; [now apply runs_download_file|]. intros _.
  destruct (checksum =? 1); [now apply runs_download_file | apply runs_ret].
Qed.

(** the loop over the dates of one symbol, when every date is read *)
Lemma runs_dates e folder plan (start_ end_ : date) dates (body : string -> M unit)
    (planf : string -> list (string * string)) :
  Forall (fun date => exists current_date, convert_to_date_object date = Ok current_date)
    dates ->
  (forall date, runs e folder plan (body date) (planf date)) ->
  runs e folder plan
    (for_each dates (fun date =>
       current_date ← lift (convert_to_date_object date);
       if date_le start_ current_date && date_le current_date end_
       then body date else mret tt))
    (flat_map planf (List.filter (in_date_range start_ end_) dates)).
Proof.
  intros Hdates Hb. rewrite flat_map_filter. rewrite List.Forall_forall in Hdates.
  apply runs_for_each. intros date Hin.
  destruct (Hdates date Hin) as [current_date Hd].
  eapply runs_lift_bind; [exact Hd|].
  unfold in_date_range. rewrite Hd.
  destruct (date_le start_ current_date && date_le current_date end_);
    [apply Hb | apply runs_ret].
Qed.

Ltac runs_head Hs He :=
  eapply runs_lift_bind; [exact Hs|];
  eapply runs_lift_bind; [exact He|];
  match goal with |- runs _ _ _ _ ?l => change l with ([] ++ l) end;
  apply runs_bind; [apply runs_print|]; intros _.

Ltac runs_symbol :=
  match goal with |- runs _ _ _ _ ?l => change l with ([] ++ l) end;
  apply runs_bind; [apply runs_print|]; intros _.

Lemma runs_daily_trades e folder plan trading_type symbols num_symbols dates
    sd ed checksum start_ end_ :
  sound_plan e folder plan ->
  effective_start sd = Ok start_ ->
  effective_end e ed = Ok end_ ->
  Forall (fun date => exists current_date, convert_to_date_object date = Ok current_date)
    dates ->
  runs e folder plan
    (download_daily_trades e trading_type symbols num_symbols dates sd ed folder checksum)
    (daily_downloads "trades" trading_type symbols dates start_ end_ checksum).
Proof.
  intros Hplan Hs He Hdates.
  unfold download_daily_trades, effective_start, effective_end in *.
  runs_head Hs He.
  unfold daily_downloads.
  apply runs_for_each. intros symbol _. runs_symbol.
  apply (runs_dates e folder plan start_ end_ dates
           (fun date => _)
           (fun date => with_checksum checksum _
                          (upper symbol +:+ "-" +:+ "trades" +:+ "-" +:+ date +:+ ".zip")));
    [exact Hdates|].
  intros date. simpl.
  pose proof (runs_with_checksum e folder plan
                (get_path trading_type "trades" "daily" symbol None)
                (upper symbol +:+ "-trades-" +:+ date +:+ ".zip")
                (if truthy_opt sd && truthy_opt ed
                 then Some (default "" sd +:+ " " +:+ default "" ed) else None)
                checksum Hplan) as H.
  string_norm_in H. string_norm. exact H.
Qed.

Lemma runs_daily_klines e folder plan trading_type symbols num_symbols intervals dates
    sd ed checksum start_ end_ :
  sound_plan e folder plan ->
  effective_start sd = Ok start_ ->
  effective_end e ed = Ok end_ ->
  Forall (fun date => exists current_date, convert_to_date_object date = Ok current_date)
    dates ->
  runs e folder plan
    (download_daily_klines e trading_type symbols num_symbols intervals dates
       sd ed folder checksum)
    (daily_kline_downloads trading_type symbols (valid_daily_intervals intervals) dates
       start_ end_ checksum).
Proof.
  intros Hplan Hs He Hdates.
  unfold download_daily_klines, effective_start, effective_end in *.
  runs_head Hs He.
  unfold daily_kline_downloads.
  apply runs_for_each_counting. intros symbol current _. runs_symbol.
  apply runs_for_each. intros interval _.
  apply (runs_dates e folder plan start_ end_ dates
           (fun date => _)
           (fun date =>
              kline_zip trading_type symbol interval date
                :: (if checksum =? 1
                    then [kline_checksum trading_type symbol interval date] else [])));
    [exact Hdates|].
  intros date.
  change (kline_zip trading_type symbol interval date
            :: (if checksum =? 1 then [kline_checksum trading_type symbol interval date] else []))
    with ([kline_zip trading_type symbol interval date]
            ++ (if checksum =? 1 then [kline_checksum trading_type symbol interval date] else [])).
  apply runs_bind; [now apply runs_download_file|]. intros _.
  destruct (checksum =? 1); [now apply runs_download_file | apply runs_ret].
Qed.

Lemma strftime_dates_read start_ end_ :
  valid_date start_ -> valid_date end_ -> year end_ < 9999 ->
  Forall (fun date => exists current_date, convert_to_date_object date = Ok current_date)
    (map strftime (days_between start_ end_)).
Proof.
  intros Hs He Hy. apply List.Forall_forall. intros x Hx.
  apply in_map_iff in Hx as (d & <- & Hd).
  apply days_between_spec in Hd as (Hv & _); [|auto..].
  exists d. now apply convert_strftime.
Qed.

Lemma runs_binance_trade_data to_datetime e plan symbols start_date end_date start_ end_ :
  sound_plan e (Some (cwd e +:+ "/test_data/binance")) plan ->
  to_datetime start_date = Ok start_ ->
  to_datetime end_date = Ok end_ ->
  convert_to_date_object start_date = Ok start_ ->
  convert_to_date_object end_date = Ok end_ ->
  in_timestamp_bounds start_ = true ->
  in_timestamp_bounds end_ = true ->
  runs e (Some (cwd e +:+ "/test_data/binance")) plan
    (download_binance_trade_data to_datetime e symbols start_date end_date)
    (trade_archives symbols start_ end_).
Proof.
  intros Hplan Hts Hte Hcs Hce Hbs Hbe. unfold download_binance_trade_data.
  pose proof (convert_valid _ _ Hcs) as Hvs. pose proof (convert_valid _ _ Hce) as Hve.
  pose proof (in_timestamp_bounds_valid_year _ Hbe) as Hy.
  match goal with |- runs _ _ _ _ ?l => change l with ([] ++ l) end.
  apply runs_bind; [apply runs_print|]. intros _.
  eapply runs_lift_bind.
  { unfold date_range_of_strings. rewrite Hts, Hte. simpl.
    apply (date_range_days _ _ Hbs Hbe). }
  rewrite <- (app_nil_r (trade_archives symbols start_ end_)).
  apply runs_bind; [|intros _; apply runs_print].
  rewrite <- trade_archives_eq by assumption.
  apply runs_daily_trades; [exact Hplan | | | now apply strftime_dates_read];
    unfold effective_start, effective_end; now apply effective_bound.
Qed.

Lemma runs_binance_kline_data to_datetime e plan req start_date end_date start_ end_ :
  sound_plan e (Some (cwd e +:+ "/test_data/binance/")) plan ->
  to_datetime start_date = Ok start_ ->
  to_datetime end_date = Ok end_ ->
  convert_to_date_object start_date = Ok start_ ->
  convert_to_date_object end_date = Ok end_ ->
  in_timestamp_bounds start_ = true ->
  in_timestamp_bounds end_ = true ->
  runs e (Some (cwd e +:+ "/test_data/binance/")) plan
    (download_binance_kline_data to_datetime e req start_date end_date)
    (kline_archives req start_ end_).
Proof.
  intros Hplan Hts Hte Hcs Hce Hbs Hbe. unfold download_binance_kline_data.
  pose proof (convert_valid _ _ Hcs) as Hvs. pose proof (convert_valid _ _ Hce) as Hve.
  pose proof (in_timestamp_bounds_valid_year _ Hbe) as Hy.
  match goal with |- runs _ _ _ _ ?l => change l with ([] ++ l) end.
  apply runs_bind; [apply runs_print|]. intros _.
  eapply runs_lift_bind.
  { unfold date_range_of_strings. rewrite Hts, Hte. simpl.
    apply (date_range_days _ _ Hbs Hbe). }
  rewrite <- (app_nil_r (kline_archives req start_ end_)).
  apply runs_bind; [|intros _; apply runs_print].
  unfold kline_archives. apply runs_for_each. intros [symbol intervals] _. simpl.
  rewrite <- kline_archives_eq by assumption.
  apply runs_daily_klines; [exact Hplan | | | now apply strftime_dates_read];
    unfold effective_start, effective_end; now apply effective_bound.
Qed.

(** ** Save paths and the directories made for them *)

Lemma ends_with_slash_zip a : ends_with_slash (a +:+ ".zip") = false.
Proof.
  rewrite ends_with_slash_last, chars_app, rev_app_distr. reflexivity.
Qed.

Lemma truthy_zip a : truthy (a +:+ ".zip") = true.
Proof. destruct a; reflexivity. Qed.

Lemma upper_no_z s : ~ In "z"%char (chars (upper s)).
Proof.
  intros Hin. pose proof (upper_no_lower s) as H. rewrite forallb_forall in H.
  specialize (H _ Hin). discriminate H.
Qed.

Lemma In_zip a : In "z"%char (chars (a +:+ ".zip")).
Proof. rewrite chars_app. apply in_or_app. right. simpl. auto. Qed.

(** a file [stem.zip] under a directory is not the directory [dir/], when
    no [z] is written in [dir] *)
Lemma zip_is_not_a_directory prefix dir stem :
  ~ In "z"%char (chars dir) ->
  norm_path (prefix +:+ stem +:+ ".zip") <> norm_path (prefix +:+ dir).
Proof.
  intros Hz Heq.
  assert (Hfile : norm_path (prefix +:+ stem +:+ ".zip") = prefix +:+ stem +:+ ".zip").
  { apply norm_path_file.
    - rewrite <- append_assoc. apply truthy_zip.
    - rewrite <- append_assoc. apply ends_with_slash_zip. }
  rewrite Hfile in Heq.
  destruct (norm_path_chars (prefix +:+ dir)) as [[k Hk] | [H | H]].
  - rewrite <- Heq in Hk. rewrite !chars_app in Hk. rewrite <- !app_assoc in Hk.
    apply app_inv_head in Hk.
    assert (Hin : In "z"%char (chars dir)).
    { rewrite Hk. apply in_or_app. right. apply in_or_app. left. simpl. auto. }
    contradiction.
  - rewrite H in Heq. apply (f_equal chars) in Heq. rewrite !chars_app in Heq.
    assert (Hin : In "z"%char (chars "/")).
    { rewrite <- Heq. apply in_or_app. right. apply in_or_app. right. simpl. auto. }
    simpl in Hin. destruct Hin as [Hin | []]. discriminate Hin.
  - rewrite H in Heq. apply (f_equal chars) in Heq. rewrite !chars_app in Heq.
    assert (Hin : In "z"%char (chars "")).
    { rewrite <- Heq. apply in_or_app. right. apply in_or_app. right. simpl. auto. }
    destruct Hin.
Qed.

(** the paths of an archive of the resolver under an absolute folder *)
Lemma archive_path_layout e trading_type market_data_type time_period symbol interval
    file_name folder :
  absolute folder -> starts_with_slash file_name = false ->
  archive_path e (Some folder)
    (get_path trading_type market_data_type time_period symbol interval, file_name)
  = as_directory folder
      +:+ get_path trading_type market_data_type time_period symbol interval +:+ file_name
  /\ made_directory e (get_path trading_type market_data_type time_period symbol interval)
       (Some folder)
     = as_directory folder
         +:+ get_path trading_type market_data_type time_period symbol interval.
Proof.
  intros Habs Hfn.
  assert (Ht : truthy folder = true)
    by (unfold absolute in Habs; destruct folder; [discriminate | reflexivity]).
  destruct (save_path_layout e trading_type market_data_type time_period symbol interval
              file_name (Some folder) Hfn) as (H1 & H2 & _).
  - right. exact Habs.
  - unfold archive_path. cbn [fst snd truthy_opt default from_option id] in *.
    rewrite Ht in H1, H2. auto.
Qed.

Lemma trades_file_relative symbol x :
  starts_with_slash symbol = false ->
  starts_with_slash (upper symbol +:+ "-trades-" +:+ x) = false.
Proof.
  intros H.
  replace (upper symbol +:+ "-trades-" +:+ x) with (upper symbol +:+ "-" +:+ ("trades-" +:+ x))
    by (string_norm; reflexivity).
  now apply upper_relative.
Qed.

Lemma absolute_binance c : absolute c -> absolute (c +:+ "/test_data/binance").
Proof.
  unfold absolute. intros H. rewrite starts_with_slash_app; [exact H|].
  destruct c; [discriminate | reflexivity].
Qed.

Lemma absolute_binance_slash c : absolute c -> absolute (c +:+ "/test_data/binance/").
Proof.
  unfold absolute. intros H. rewrite starts_with_slash_app; [exact H|].
  destruct c; [discriminate | reflexivity].
Qed.

(** the paths of a trade archive under the folder of the package *)
Lemma trades_zip_paths e symbol d :
  absolute (cwd e) -> starts_with_slash symbol = false ->
  archive_path e (Some (cwd e +:+ "/test_data/binance")) (trades_zip symbol d)
  = (cwd e +:+ "/test_data/binance/data/spot/daily/trades/")
      +:+ (upper symbol +:+ "/" +:+ upper symbol +:+ "-trades-" +:+ strftime d) +:+ ".zip"
  /\ made_directory e (fst (trades_zip symbol d)) (Some (cwd e +:+ "/test_data/binance"))
     = (cwd e +:+ "/test_data/binance/data/spot/daily/trades/") +:+ (upper symbol +:+ "/").
Proof.
  intros Habs Hrel. unfold trades_zip. cbn [fst snd].
  destruct (archive_path_layout e "spot" "trades" "daily" symbol None
              (upper symbol +:+ "-trades-" +:+ strftime d +:+ ".zip")
              (cwd e +:+ "/test_data/binance")) as [H1 H2].
  - now apply absolute_binance.
  - now apply trades_file_relative.
  - rewrite H1, H2, as_directory_binance. unfold get_path. simpl String.eqb. cbv iota.
    split; string_norm; reflexivity.
Qed.

Lemma kline_zip_paths e symbol interval d :
  absolute (cwd e) -> starts_with_slash symbol = false ->
  archive_path e (Some (cwd e +:+ "/test_data/binance/"))
    (kline_zip "spot" symbol interval (strftime d))
  = (cwd e +:+ "/test_data/binance/data/spot/daily/klines/")
      +:+ (upper symbol +:+ "/" +:+ interval +:+ "/" +:+ upper symbol +:+ "-" +:+ interval
             +:+ "-" +:+ strftime d) +:+ ".zip"
  /\ made_directory e (fst (kline_zip "spot" symbol interval (strftime d)))
       (Some (cwd e +:+ "/test_data/binance/"))
     = (cwd e +:+ "/test_data/binance/data/spot/daily/klines/")
         +:+ (upper symbol +:+ "/" +:+ interval +:+ "/").
Proof.
  intros Habs Hrel. unfold kline_zip. cbn [fst snd].
  destruct (archive_path_layout e "spot" "klines" "daily" symbol (Some interval)
              (upper symbol +:+ "-" +:+ interval +:+ "-" +:+ strftime d +:+ ".zip")
              (cwd e +:+ "/test_data/binance/")) as [H1 H2].
  - now apply absolute_binance_slash.
  - now apply upper_relative.
  - rewrite H1, H2.
    rewrite as_directory_ends by (apply ends_with_slash_append; reflexivity).
    unfold get_path. simpl String.eqb. cbv iota.
    split; string_norm; reflexivity.
Qed.

Lemma archive_url_of_path prefix a b :
  prefix +:+ (fst a +:+ snd a) = prefix +:+ (fst b +:+ snd b) -> archive_url a = archive_url b.
Proof. intros H. apply append_inj_l in H. unfold archive_url. now rewrite H. Qed.

(** a file [stem.zip] under a directory is neither the directory [dir/]
    nor a directory above it, when no [z] is written in [dir] *)
Lemma zip_not_made prefix dir stem :
  ~ In "z"%char (chars dir) ->
  norm_path (prefix +:+ stem +:+ ".zip") ∉ made_dirs (prefix +:+ dir).
Proof.
  intros Hz Hin. apply made_dirs_spec in Hin as [Heq | Hin].
  { exact (zip_is_not_a_directory prefix dir stem Hz Heq). }
  apply parents_prefix in Hin as [rest Hrest].
  assert (Hfile : norm_path (prefix +:+ stem +:+ ".zip") = prefix +:+ stem +:+ ".zip").
  { apply norm_path_file.
    - rewrite <- append_assoc. apply truthy_zip.
    - rewrite <- append_assoc. apply ends_with_slash_zip. }
  rewrite Hfile in Hrest.
  assert (Hin : forall l, chars l = chars ((prefix +:+ stem +:+ ".zip") +:+ "/" +:+ rest) ->
                          In "z"%char (chars l)).
  { intros l ->. rewrite !chars_app. apply in_or_app. left.
    apply in_or_app. right. apply in_or_app. right. simpl. auto. }
  destruct (norm_path_chars (prefix +:+ dir)) as [[k Hk] | [H | H]].
  - rewrite Hrest in Hk. rewrite !chars_app in Hk. rewrite <- !app_assoc in Hk.
    apply app_inv_head in Hk. apply Hz. rewrite Hk.
    apply in_or_app. right. apply in_or_app. left. simpl. auto.
  - specialize (Hin "/"). rewrite <- Hrest, H in Hin. specialize (Hin eq_refl).
    simpl in Hin. destruct Hin as [Hin | []]. discriminate Hin.
  - specialize (Hin ""). rewrite <- Hrest, H in Hin. specialize (Hin eq_refl).
    destruct Hin.
Qed.

Ltac no_slash_literal :=
  unfold no_slash; simpl;
  let H := fresh "H" in
  intros H; repeat (destruct H as [H | H]; [discriminate H|]); exact H.

Lemma no_slash_app a b : no_slash a -> no_slash b -> no_slash (a +:+ b).
Proof.
  unfold no_slash. rewrite chars_app. intros Ha Hb Hin.
  apply in_app_or in Hin as [Hin | Hin]; auto.
Qed.

Lemma no_slash_upper s : no_slash s -> no_slash (upper s).
Proof.
  unfold no_slash. induction s as [|c s IH]; [auto|].
  simpl. intros Hn [Hc | Hin].
  - apply upper_char_slash in Hc. auto.
  - apply IH; [|exact Hin]. intros H. apply Hn. now right.
Qed.

Lemma no_slash_relative s : no_slash s -> starts_with_slash s = false.
Proof.
  unfold no_slash. destruct s as [|c s]; [reflexivity|].
  intros Hn. destruct (Ascii.eqb_spec c "/") as [-> | Hne].
  - exfalso. apply Hn. now left.
  - simpl. destruct c as [[] [] [] [] [] [] [] []]; try reflexivity. congruence.
Qed.

Lemma digit_char_no_slash n : digit_char n <> "/"%char.
Proof.
  intros H. destruct (digit_char_digit n) as [Hd _]. rewrite H in Hd. discriminate Hd.
Qed.

Lemma no_slash_strftime d : no_slash (strftime d).
Proof.
  unfold no_slash, strftime, pad4, pad2. rewrite !chars_app, !chars_str. simpl.
  intros H.
  repeat (destruct H as [H | H];
          [first [now apply digit_char_no_slash in H | discriminate H]|]).
  exact H.
Qed.

Lemma daily_no_slash interval : In interval DAILY_INTERVALS -> no_slash interval.
Proof.
  intros Hin. simpl in Hin.
  repeat (destruct Hin as [<- | Hin];
          [unfold no_slash; simpl; intros H;
           repeat (destruct H as [H | H]; [discriminate H|]); exact H|]).
  destruct Hin.
Qed.

(** under an absolute folder, a file of the resolver whose name is one
    component lies in the directory that is made for it, and the base path
    names that directory *)
Lemma archive_in_made_directory e trading_type market_data_type time_period symbol interval
    file_name folder :
  absolute folder -> no_slash file_name ->
  let base_path := get_path trading_type market_data_type time_period symbol interval in
  norm_path (dirname (archive_path e (Some folder) (base_path, file_name)))
  = norm_path (made_directory e base_path (Some folder))
  /\ ends_with_slash (joined_base base_path (Some folder)) = true
  /\ made_directory e base_path (Some folder) = joined_base base_path (Some folder).
Proof.
  intros Habs Hfn bp.
  assert (Ht : truthy folder = true)
    by (unfold absolute in Habs; destruct folder; [discriminate | reflexivity]).
  destruct (archive_path_layout e trading_type market_data_type time_period symbol interval
              file_name folder Habs (no_slash_relative _ Hfn)) as [Hsp Hmade].
  fold bp in Hsp, Hmade.
  assert (Hjoin : joined_base bp (Some folder) = as_directory folder +:+ bp).
  { unfold joined_base. cbn [truthy_opt default from_option id]. rewrite Ht.
    apply os_path_join_rel, get_path_relative. }
  assert (Hslash : ends_with_slash (as_directory folder +:+ bp) = true)
    by apply ends_with_slash_append, get_path_directory.
  rewrite Hsp, Hmade, Hjoin. split; [|split; [exact Hslash | reflexivity]].
  rewrite <- append_assoc. now apply dirname_child.
Qed.

Lemma sound_trade_archives e symbols start_ end_ :
  absolute (cwd e) ->
  Forall no_slash symbols ->
  (forall a, In a (trade_archives symbols start_ end_) -> exists body, served e a body) ->
  sound_plan e (Some (cwd e +:+ "/test_data/binance")) (trade_archives symbols start_ end_).
Proof.
  intros Habs Hrel Hserved. rewrite List.Forall_forall in Hrel.
  assert (Hpath : forall a, In a (trade_archives symbols start_ end_) ->
            exists symbol d, a = trades_zip symbol d /\ starts_with_slash symbol = false
                             /\ no_slash symbol).
  { intros [bp fn] Ha. apply trade_archives_In in Ha as (symbol & d & Hs & _ & Heq).
    exists symbol, d. split; [exact Heq|]. split; [apply no_slash_relative|]; auto. }
  assert (Hmade : forall symbol d, no_slash symbol ->
            norm_path (dirname (archive_path e (Some (cwd e +:+ "/test_data/binance"))
                                  (trades_zip symbol d)))
            = norm_path (made_directory e (fst (trades_zip symbol d))
                           (Some (cwd e +:+ "/test_data/binance")))
            /\ ends_with_slash (joined_base (fst (trades_zip symbol d))
                                  (Some (cwd e +:+ "/test_data/binance"))) = true
            /\ made_directory e (fst (trades_zip symbol d))
                 (Some (cwd e +:+ "/test_data/binance"))
               = joined_base (fst (trades_zip symbol d)) (Some (cwd e +:+ "/test_data/binance"))).
  { intros symbol d Hn. unfold trades_zip. cbn [fst snd].
    apply archive_in_made_directory; [now apply absolute_binance|].
    apply no_slash_app; [now apply no_slash_upper|].
    apply no_slash_app; [no_slash_literal|].
    apply no_slash_app; [apply no_slash_strftime|].
    no_slash_literal. }
  constructor.
  - intros a Ha. destruct (Hpath a Ha) as (symbol & d & -> & Hr & _).
    destruct (trades_zip_paths e symbol d Habs Hr) as [-> _].
    rewrite <- append_assoc. apply ends_with_slash_zip.
  - intros a Ha. destruct (Hpath a Ha) as (symbol & d & -> & _ & Hn).
    apply (Hmade symbol d Hn).
  - intros a Ha. destruct (Hpath a Ha) as (symbol & d & -> & _ & Hn).
    apply (Hmade symbol d Hn).
  - intros a b Ha Hb.
    destruct (Hpath a Ha) as (sa & da & -> & Hra & _), (Hpath b Hb) as (sb & db & -> & Hrb & _).
    destruct (trades_zip_paths e sa da Habs Hra) as [_ ->].
    destruct (trades_zip_paths e sb db Habs Hrb) as [-> _].
    apply zip_not_made.
    rewrite chars_app. intros Hin. apply in_app_or in Hin as [Hin | Hin].
    + now apply upper_no_z in Hin.
    + simpl in Hin. destruct Hin as [Hin | []]. discriminate Hin.
  - intros a b Ha Hb Heq.
    destruct (Hpath a Ha) as (sa & da & -> & Hra & _), (Hpath b Hb) as (sb & db & -> & Hrb & _).
    destruct (archive_path_layout e "spot" "trades" "daily" sa None
                (upper sa +:+ "-trades-" +:+ strftime da +:+ ".zip")
                (cwd e +:+ "/test_data/binance")) as [H1 _];
      [now apply absolute_binance | now apply trades_file_relative |].
    destruct (archive_path_layout e "spot" "trades" "daily" sb None
                (upper sb +:+ "-trades-" +:+ strftime db +:+ ".zip")
                (cwd e +:+ "/test_data/binance")) as [H2 _];
      [now apply absolute_binance | now apply trades_file_relative |].
    unfold trades_zip in Heq. rewrite H1, H2 in Heq.
    exact (archive_url_of_path _ (trades_zip sa da) (trades_zip sb db) Heq).
  - exact Hserved.
Qed.

Lemma daily_no_z interval : In interval DAILY_INTERVALS -> ~ In "z"%char (chars interval).
Proof.
  intros Hin. simpl in Hin.
  repeat (destruct Hin as [<- | Hin];
          [simpl; intros H; repeat (destruct H as [H | H]; [discriminate H|]); exact H|]).
  destruct Hin.
Qed.

Lemma sound_kline_archives e (req : pydict (list string)) start_ end_ :
  absolute (cwd e) ->
  Forall (fun item : string * list string => no_slash (fst item)) req ->
  (forall a, In a (kline_archives req start_ end_) -> exists body, served e a body) ->
  sound_plan e (Some (cwd e +:+ "/test_data/binance/")) (kline_archives req start_ end_).
Proof.
  intros Habs Hrel Hserved. rewrite List.Forall_forall in Hrel.
  assert (Hpath : forall a, In a (kline_archives req start_ end_) ->
            exists symbol interval d,
              a = kline_zip "spot" symbol interval (strftime d)
              /\ starts_with_slash symbol = false /\ In interval DAILY_INTERVALS
              /\ no_slash symbol).
  { intros [bp fn] Ha.
    apply kline_archives_In in Ha as (symbol & intervals & interval & d & Hi & _ & Hd & _ & Heq).
    exists symbol, interval, d. split; [exact Heq|].
    split; [apply no_slash_relative, (Hrel _ Hi)|]. split; [exact Hd | apply (Hrel _ Hi)]. }
  assert (Hmade : forall symbol interval d, no_slash symbol -> In interval DAILY_INTERVALS ->
            let a := kline_zip "spot" symbol interval (strftime d) in
            norm_path (dirname (archive_path e (Some (cwd e +:+ "/test_data/binance/")) a))
            = norm_path (made_directory e (fst a) (Some (cwd e +:+ "/test_data/binance/")))
            /\ ends_with_slash (joined_base (fst a) (Some (cwd e +:+ "/test_data/binance/")))
               = true
            /\ made_directory e (fst a) (Some (cwd e +:+ "/test_data/binance/"))
               = joined_base (fst a) (Some (cwd e +:+ "/test_data/binance/"))).
  { intros symbol interval d Hn Hi a. subst a. unfold kline_zip. cbn [fst snd].
    apply archive_in_made_directory; [now apply absolute_binance_slash|].
    apply no_slash_app; [now apply no_slash_upper|].
    apply no_slash_app; [no_slash_literal|].
    apply no_slash_app; [now apply daily_no_slash|].
    apply no_slash_app; [no_slash_literal|].
    apply no_slash_app; [apply no_slash_strftime|].
    no_slash_literal. }
  constructor.
  - intros a Ha. destruct (Hpath a Ha) as (symbol & interval & d & -> & Hr & _).
    destruct (kline_zip_paths e symbol interval d Habs Hr) as [-> _].
    rewrite <- append_assoc. apply ends_with_slash_zip.
  - intros a Ha. destruct (Hpath a Ha) as (symbol & interval & d & -> & _ & Hi & Hn).
    apply (Hmade symbol interval d Hn Hi).
  - intros a Ha. destruct (Hpath a Ha) as (symbol & interval & d & -> & _ & Hi & Hn).
    apply (Hmade symbol interval d Hn Hi).
  - intros a b Ha Hb.
    destruct (Hpath a Ha) as (sa & ia & da & -> & Hra & Hia & _),
      (Hpath b Hb) as (sb & ib & db & -> & Hrb & Hib & _).
    destruct (kline_zip_paths e sa ia da Habs Hra) as [_ ->].
    destruct (kline_zip_paths e sb ib db Habs Hrb) as [-> _].
    apply zip_not_made.
    rewrite !chars_app. intros Hin.
    apply in_app_or in Hin as [Hin | Hin]; [now apply upper_no_z in Hin|].
    apply in_app_or in Hin as [Hin | Hin];
      [simpl in Hin; destruct Hin as [Hin | []]; discriminate Hin|].
    apply in_app_or in Hin as [Hin | Hin]; [now apply (daily_no_z ia Hia)|].
    simpl in Hin. destruct Hin as [Hin | []]. discriminate Hin.
  - intros a b Ha Hb Heq.
    destruct (Hpath a Ha) as (sa & ia & da & -> & Hra & _),
      (Hpath b Hb) as (sb & ib & db & -> & Hrb & _).
    destruct (archive_path_layout e "spot" "klines" "daily" sa (Some ia)
                (upper sa +:+ "-" +:+ ia +:+ "-" +:+ strftime da +:+ ".zip")
                (cwd e +:+ "/test_data/binance/")) as [H1 _];
      [now apply absolute_binance_slash | now apply upper_relative |].
    destruct (archive_path_layout e "spot" "klines" "daily" sb (Some ib)
                (upper sb +:+ "-" +:+ ib +:+ "-" +:+ strftime db +:+ ".zip")
                (cwd e +:+ "/test_data/binance/")) as [H2 _];
      [now apply absolute_binance_slash | now apply upper_relative |].
    unfold kline_zip in Heq. rewrite H1, H2 in Heq.
    exact (archive_url_of_path _ (kline_zip "spot" sa ia (strftime da))
             (kline_zip "spot" sb ib (strftime db)) Heq).
  - exact Hserved.
Qed.

Lemma disk_inv_fresh e folder plan w :
  (forall a, In a plan -> ends_with_slash (archive_path e folder a) = false) ->
  (forall a, In a plan -> os_path_exists w (archive_path e folder a) = false) ->
  disk_inv e folder plan [] w.
Proof.
  intros Hfile Hnone. split; [|split].
  - intros a Ha. specialize (Hnone a Ha). unfold os_path_exists in Hnone.
    now apply orb_false_iff in Hnone as [_ H].
  - intros a c body Ha Hc _.
    rewrite (not_exists_no_file w _ (Hnone a Ha) (Hfile a Ha)) in Hc. discriminate.
  - intros a [].
Qed.

(** X20. [download_binance_trade_data] against an archive that serves
    every file of the request, on a disk that holds none of them yet, for
    symbols that are written without a slash (so that every file lies in
    the directory that is made for it): the run returns normally, and
    afterwards the save path of every archive of the request holds the
    bytes the archive served for it.
    When the symbols are written in upper case, every path that
    [get_binance_trade_data] opens for the same symbols and dates is then
    a file on disk. *)
Theorem download_binance_trade_data_saves_every_file :
  forall to_datetime e symbols start_date end_date start_ end_ w,
    let folder := Some (cwd e +:+ "/test_data/binance") in
    let run := download_binance_trade_data to_datetime e symbols start_date end_date in
    to_datetime start_date = Ok start_ ->
    to_datetime end_date = Ok end_ ->
    strptime start_date = Ok start_ ->
    strptime end_date = Ok end_ ->
    in_timestamp_bounds start_ = true ->
    in_timestamp_bounds end_ = true ->
    absolute (cwd e) ->
    Forall no_slash symbols ->
    (forall a, In a (trade_archives symbols start_ end_) -> exists body, served e a body) ->
    (forall a, In a (trade_archives symbols start_ end_) ->
               os_path_exists w (archive_path e folder a) = false) ->
    fst (run w) = Ok tt
    /\ (forall a body,
          In a (trade_archives symbols start_ end_) -> served e a body ->
          files (snd (run w)) !! archive_path e folder a = Some body)
    /\ (Forall (fun symbol => upper symbol = symbol) symbols ->
        exists filepaths,
          downloaded_filepaths (cwd e) "trades" start_date end_date
            (fold_left (fun d symbol => dict_set d symbol []) symbols []) = Ok filepaths
          /\ forall p, In p (dict_keys filepaths) -> is_file (snd (run w)) p = true).
Proof.
  intros to_datetime e symbols sd ed start_ end_ w folder run
    Hts Hte Hs He Hbs Hbe Habs Hrel Hserved Hfresh.
  pose proof (strptime_convert _ _ Hs) as Hcs. pose proof (strptime_convert _ _ He) as Hce.
  pose proof (sound_trade_archives e symbols start_ end_ Habs Hrel Hserved) as Hplan.
  fold folder in Hplan.
  destruct (runs_binance_trade_data to_datetime e _ symbols sd ed start_ end_ Hplan
              Hts Hte Hcs Hce Hbs Hbe (incl_refl _) [] w) as [Hok (I1 & I2 & I3)].
  { apply disk_inv_fresh; [apply (plan_files _ _ _ Hplan) | exact Hfresh]. }
  fold run in Hok, I1, I2, I3.
  assert (Hsaved : forall a body,
            In a (trade_archives symbols start_ end_) -> served e a body ->
            files (snd (run w)) !! archive_path e folder a = Some body).
  { intros a body Ha Hb. apply (I3 a); [exact Ha | exact Hb]. }
  split; [exact Hok|]. split; [exact Hsaved|].
  intros Hup. rewrite List.Forall_forall in Hup, Hrel.
  destruct (trades_filepaths (cwd e) sd ed start_ end_ symbols Hs He Hbs Hbe)
    as (fps & Hfps & Hk).
  exists fps. split; [exact Hfps|].
  intros p Hp. apply Hk in Hp as (symbol & d & Hin & Hd & ->).
  destruct (reader_paths e symbol "" d Habs (no_slash_relative _ (Hrel symbol Hin)))
    as [_ [_ Ht]].
  rewrite <- (Ht (Hup symbol Hin)).
  assert (Ha : In (trades_zip symbol d) (trade_archives symbols start_ end_))
    by (apply trade_archives_In; eauto).
  destruct (Hserved _ Ha) as [body Hbody].
  pose proof (Hsaved _ body Ha Hbody) as Hfile.
  unfold is_file. change (save_path_of e (fst (trades_zip symbol d))
                            (snd (trades_zip symbol d)) (Some (cwd e +:+ "/test_data/binance")))
    with (archive_path e folder (trades_zip symbol d)).
  rewrite (plan_files _ _ _ Hplan _ Ha), Hfile. reflexivity.
Qed.

Lemma download_binance_trade_data_saves_every_file_witness :
  fst (download_binance_trade_data sample_to_datetime trades_env ["BTCUSDT"]
         "2021-11-01" "2021-11-02" fresh_world) = Ok tt
  /\ files (snd (download_binance_trade_data sample_to_datetime trades_env ["BTCUSDT"]
                   "2021-11-01" "2021-11-02" fresh_world))
       !! "/home/user/test_data/binance/data/spot/daily/trades/BTCUSDT/BTCUSDT-trades-2021-11-02.zip"
     = Some [Byte.x50; Byte.x4b].
Proof.
  assert (Hplan : trade_archives ["BTCUSDT"] (mkdate 2021 11 1) (mkdate 2021 11 2)
                  = [("data/spot/daily/trades/BTCUSDT/", "BTCUSDT-trades-2021-11-01.zip");
                     ("data/spot/daily/trades/BTCUSDT/", "BTCUSDT-trades-2021-11-02.zip")])
    by (vm_compute; reflexivity).
  destruct (download_binance_trade_data_saves_every_file sample_to_datetime trades_env
              ["BTCUSDT"] "2021-11-01" "2021-11-02" (mkdate 2021 11 1) (mkdate 2021 11 2)
              fresh_world) as (Hok & Hsaved & _).
  - reflexivity.
  - reflexivity.
  - reflexivity.
  - reflexivity.
  - reflexivity.
  - reflexivity.
  - reflexivity.
  - constructor; [no_slash_literal | constructor].
  - rewrite Hplan. intros a [<- | [<- | []]].
    + exists [Byte.x50; Byte.x4b; Byte.x03], "3", 3.
      split; [reflexivity|]. split; [reflexivity|]. split; [reflexivity | simpl; lia].
    + exists [Byte.x50; Byte.x4b], "2", 2.
      split; [reflexivity|]. split; [reflexivity|]. split; [reflexivity | simpl; lia].
  - rewrite Hplan. intros a [<- | [<- | []]]; vm_compute; reflexivity.
  - split; [exact Hok|].
    apply (Hsaved ("data/spot/daily/trades/BTCUSDT/", "BTCUSDT-trades-2021-11-02.zip")).
    + rewrite Hplan. right. left. reflexivity.
    + exists "2", 2.
      split; [reflexivity|]. split; [reflexivity|]. split; [reflexivity | simpl; lia].
Defined.

(** X21. [download_binance_kline_data] against an archive that serves
    every file of the request, on a disk that holds none of them yet, for
    symbols that are written without a slash (so that every file lies in
    the directory that is made for it): the run returns normally, and
    afterwards the save path of every archive of the request holds the
    bytes the archive served for it.
    When the request is a dictionary whose symbols are written in upper
    case and whose interval lists are not empty and hold daily intervals
    only, every path that [get_binance_kline_data] opens for the same
    request and dates is then a file on disk. *)
Theorem download_binance_kline_data_saves_every_file :
  forall to_datetime e (symbol_data_required : pydict (list string))
    start_date end_date start_ end_ w,
    let folder := Some (cwd e +:+ "/test_data/binance/") in
    let run := download_binance_kline_data to_datetime e symbol_data_required
                 start_date end_date in
    to_datetime start_date = Ok start_ ->
    to_datetime end_date = Ok end_ ->
    strptime start_date = Ok start_ ->
    strptime end_date = Ok end_ ->
    in_timestamp_bounds start_ = true ->
    in_timestamp_bounds end_ = true ->
    absolute (cwd e) ->
    Forall (fun item : string * list string => no_slash (fst item)) symbol_data_required ->
    (forall a, In a (kline_archives symbol_data_required start_ end_) ->
               exists body, served e a body) ->
    (forall a, In a (kline_archives symbol_data_required start_ end_) ->
               os_path_exists w (archive_path e folder a) = false) ->
    fst (run w) = Ok tt
    /\ (forall a body,
          In a (kline_archives symbol_data_required start_ end_) -> served e a body ->
          files (snd (run w)) !! archive_path e folder a = Some body)
    /\ (List.NoDup (dict_keys symbol_data_required) ->
        Forall (fun item : string * list string =>
                  snd item <> []
                  /\ Forall (fun i => In i DAILY_INTERVALS) (snd item)
                  /\ upper (fst item) = fst item) symbol_data_required ->
        exists filepaths,
          downloaded_filepaths (cwd e) "klines" start_date end_date symbol_data_required
            = Ok filepaths
          /\ forall p, In p (dict_keys filepaths) -> is_file (snd (run w)) p = true).
Proof.
  intros to_datetime e req sd ed start_ end_ w folder run
    Hts Hte Hs He Hbs Hbe Habs Hrel Hserved Hfresh.
  pose proof (strptime_convert _ _ Hs) as Hcs. pose proof (strptime_convert _ _ He) as Hce.
  pose proof (sound_kline_archives e req start_ end_ Habs Hrel Hserved) as Hplan.
  fold folder in Hplan.
  destruct (runs_binance_kline_data to_datetime e _ req sd ed start_ end_ Hplan
              Hts Hte Hcs Hce Hbs Hbe (incl_refl _) [] w) as [Hok (I1 & I2 & I3)].
  { apply disk_inv_fresh; [apply (plan_files _ _ _ Hplan) | exact Hfresh]. }
  fold run in Hok, I1, I2, I3.
  assert (Hsaved : forall a body,
            In a (kline_archives req start_ end_) -> served e a body ->
            files (snd (run w)) !! archive_path e folder a = Some body).
  { intros a body Ha Hb. apply (I3 a); [exact Ha | exact Hb]. }
  split; [exact Hok|]. split; [exact Hsaved|].
  intros Hnd Hreq.
  assert (Hne : Forall (fun item : string * list string => snd item <> []) req)
    by (eapply List.Forall_impl; [|exact Hreq]; simpl; tauto).
  rewrite List.Forall_forall in Hreq, Hrel.
  destruct (klines_filepaths (cwd e) sd ed start_ end_ req Hs He Hbs Hbe Hnd Hne)
    as (fps & Hfps & Hk).
  exists fps. split; [exact Hfps|].
  intros p Hp. apply Hk in Hp as (symbol & intervals & interval & d & Hitem & Hint & Hd & ->).
  destruct (Hreq _ Hitem) as (_ & Hdaily & Hu). cbn [fst snd] in Hdaily, Hu.
  rewrite List.Forall_forall in Hdaily.
  pose proof (no_slash_relative _ (Hrel _ Hitem)) as Hr. cbn [fst] in Hr.
  destruct (reader_paths e symbol interval d Habs Hr) as [[_ Hkl] _].
  rewrite <- (Hkl Hu).
  assert (Ha : In (kline_zip "spot" symbol interval (strftime d))
                  (kline_archives req start_ end_)).
  { apply kline_archives_In. exists symbol, intervals, interval, d.
    split; [exact Hitem|]. split; [exact Hint|]. split; [now apply Hdaily|].
    split; [exact Hd | reflexivity]. }
  destruct (Hserved _ Ha) as [body Hbody].
  pose proof (Hsaved _ body Ha Hbody) as Hfile.
  unfold is_file.
  change (save_path_of e (fst (kline_zip "spot" symbol interval (strftime d)))
            (snd (kline_zip "spot" symbol interval (strftime d)))
            (Some (cwd e +:+ "/test_data/binance/")))
    with (archive_path e folder (kline_zip "spot" symbol interval (strftime d))).
  rewrite (plan_files _ _ _ Hplan _ Ha), Hfile. reflexivity.
Qed.

Lemma download_binance_kline_data_saves_every_file_witness :
  fst (download_binance_kline_data sample_to_datetime klines_env [("ADAUSDT", ["15m"; "1w"])]
         "2021-11-01" "2021-11-02" fresh_world) = Ok tt
  /\ files (snd (download_binance_kline_data sample_to_datetime klines_env
                   [("ADAUSDT", ["15m"; "1w"])] "2021-11-01" "2021-11-02" fresh_world))
       !! "/home/user/test_data/binance/data/spot/daily/klines/ADAUSDT/15m/ADAUSDT-15m-2021-11-02.zip"
     = Some [Byte.x50; Byte.x4b].
Proof.
  assert (Hplan : kline_archives [("ADAUSDT", ["15m"; "1w"])]
                    (mkdate 2021 11 1) (mkdate 2021 11 2)
                  = [("data/spot/daily/klines/ADAUSDT/15m/", "ADAUSDT-15m-2021-11-01.zip");
                     ("data/spot/daily/klines/ADAUSDT/15m/", "ADAUSDT-15m-2021-11-02.zip")])
    by (vm_compute; reflexivity).
  destruct (download_binance_kline_data_saves_every_file sample_to_datetime klines_env
              [("ADAUSDT", ["15m"; "1w"])] "2021-11-01" "2021-11-02"
              (mkdate 2021 11 1) (mkdate 2021 11 2) fresh_world) as (Hok & Hsaved & _).
  - reflexivity.
  - reflexivity.
  - reflexivity.
  - reflexivity.
  - reflexivity.
  - reflexivity.
  - reflexivity.
  - constructor; [no_slash_literal | constructor].
  - rewrite Hplan. intros a [<- | [<- | []]].
    + exists [Byte.x50; Byte.x4b; Byte.x03], "3", 3.
      split; [reflexivity|]. split; [reflexivity|]. split; [reflexivity | simpl; lia].
    + exists [Byte.x50; Byte.x4b], "2", 2.
      split; [reflexivity|]. split; [reflexivity|]. split; [reflexivity | simpl; lia].
  - rewrite Hplan. intros a [<- | [<- | []]]; vm_compute; reflexivity.
  - split; [exact Hok|].
    apply (Hsaved ("data/spot/daily/klines/ADAUSDT/15m/", "ADAUSDT-15m-2021-11-02.zip")).
    + rewrite Hplan. right. left. reflexivity.
    + exists "2", 2.
      split; [reflexivity|]. split; [reflexivity|]. split; [reflexivity | simpl; lia].
Defined.

(** ** The downloader: failures that are not caught *)

Lemma full_blocks_short bs (body : list Byte.byte) :
  0 < bs -> Z.of_nat (List.length body) < bs -> full_blocks bs body = [].
Proof.
  intros Hbs Hlt. unfold full_blocks.
  rewrite Z.div_small by lia. now rewrite Z.mul_0_r.
Qed.

Lemma full_blocks_next bs (body : list Byte.byte) :
  0 < bs -> bs <= Z.of_nat (List.length body) ->
  full_blocks bs body
  = (take (Z.to_nat bs) body ++ full_blocks bs (drop (Z.to_nat bs) body))%list.
Proof.
  intros Hbs Hge. unfold full_blocks. rewrite take_take_drop. f_equal.
  rewrite length_drop.
  replace (Z.of_nat (List.length body))
    with (1 * bs + Z.of_nat (List.length body - Z.to_nat bs)) at 1 by lia.
  rewrite Z.div_add_l by lia.
  assert (0 <= Z.of_nat (List.length body - Z.to_nat bs) / bs)
    by (apply Z.div_pos; lia).
  rewrite Z.mul_add_distr_l, Z.mul_1_r, Z2Nat.inj_add by nia. reflexivity.
Qed.

(** a stream that breaks is copied as far as its whole blocks go *)
Lemma read_loop_breaks sp len bs body p w content :
  0 < bs ->
  len <> 0 \/ Z.of_nat (List.length body) < bs ->
  files w !! sp = Some content ->
  fst (read_loop sp (Some (len, bs)) true body p w) = Raise ConnectionError
  /\ files (snd (read_loop sp (Some (len, bs)) true body p w))
     = <[sp := content ++ full_blocks bs body]> (files w).
Proof.
  intros Hbs. revert content.
  funelim (read_loop sp (Some (len, bs)) true body p w); intros content Hlen Hsp.
  - clear Heqcall.
    assert (Hbody : body = []).
    { clear -e Hbs. unfold stream_read in e. destruct (blocksize <? 0) eqn:Hneg.
      - apply Z.ltb_lt in Hneg. lia.
      - injection e as He _. destruct body as [|b0 body]; [reflexivity|].
        destruct (Z.to_nat blocksize) eqn:Hn; [lia | discriminate]. }
    subst body. unfold read_breaks. cbn [andb List.length].
    assert (Hlt : (Z.of_nat 0 <? blocksize) = true) by (apply Z.ltb_lt; lia).
    rewrite Hlt, orb_true_r. cbn [fst snd].
    split; [reflexivity|]. rewrite full_blocks_short by (simpl; lia).
    rewrite app_nil_r. symmetry. now apply insert_id.
  - clear Heqcall. unfold read_breaks. cbn [andb].
    assert (Hneg : (blocksize <? 0) = false) by (apply Z.ltb_ge; lia).
    rewrite Hneg. cbn [orb].
    destruct (Z.of_nat (List.length body) <? blocksize) eqn:Hshort.
    + apply Z.ltb_lt in Hshort. cbn [fst snd]. split; [reflexivity|].
      rewrite full_blocks_short by assumption.
      rewrite app_nil_r. symmetry. now apply insert_id.
    + apply Z.ltb_ge in Hshort.
      destruct Hlen as [Hlen | Hlt]; [|lia].
      assert (Hsplit : b :: buf' = take (Z.to_nat blocksize) body
                       /\ rest = drop (Z.to_nat blocksize) body).
      { pose proof Hbuf as Hb'. unfold stream_read in Hb'. rewrite Hneg in Hb'.
        now injection Hb' as <- <-. }
      destruct Hsplit as [Hb Hrest].
      unfold_M. simpl.
      destruct (len =? 0) eqn:E; [apply Z.eqb_eq in E; contradiction|].
      match goal with
      | |- context [read_loop _ _ _ _ _ ?f] =>
          specialize (H (Ok tt) w tt (Ok tt) f tt Hbs (content ++ (b :: buf'))%list)
      end.
      destruct H as [H1 H2]; [now left | |].
      * simpl. rewrite Hsp. simpl. now rewrite lookup_insert_eq.
      * simpl in H1, H2. split; [exact H1|].
        rewrite H2. simpl. rewrite Hsp. simpl.
        rewrite insert_insert_eq, (full_blocks_next blocksize body Hbs Hshort).
        rewrite <- Hb, <- Hrest, <- app_assoc. reflexivity.
Qed.

Lemma download_file_skips e bp fn dr folder w :
  os_path_exists w (save_path_of e bp fn folder) = true ->
  fst (download_file e bp fn dr folder w) = Ok tt
  /\ files (snd (download_file e bp fn dr folder w)) = files w
  /\ requests (snd (download_file e bp fn dr folder w)) = requests w.
Proof. intros H. rewrite download_file_unfold. simpl. rewrite H. simpl. auto. Qed.

(** X22. Failures other than [HTTPError] are not caught, and a stream
    that breaks leaves its mark. When the archive cannot be reached the
    [URLError] escapes [download_file] and no file is written. When the
    connection breaks before the bytes that the header announces have
    arrived, the [ConnectionError] escapes, the file that was opened at
    the save path (which lies in the directory that [download_file] makes)
    holds the bytes that arrived in whole blocks, none when the stream
    breaks within its first block, and
    because the save path now exists the next call for the same file skips
    it without opening a connection: the truncated file is never
    completed. *)
Theorem uncaught_failures_of_download_file :
  forall e base_path file_name date_range folder w,
    let sp := save_path_of e base_path file_name folder in
    let url := get_download_url (base_path +:+ file_name) in
    let run := download_file e base_path file_name date_range folder in
    os_path_exists w sp = false ->
    (remote e url = RespURLError ->
     fst (run w) = Raise URLError /\ files (snd (run w)) = files w)
    /\ (forall header length_ body,
          ends_with_slash sp = false ->
          norm_path sp <> norm_path (made_directory e base_path folder) ->
          norm_path (dirname sp) = norm_path (made_directory e base_path folder) ->
          (os_path_exists w (joined_base base_path folder) = true ->
           dir_exists w (dirname sp) = true) ->
          remote e url = Resp (Some header) body true ->
          truthy header = true ->
          int header = Ok length_ ->
          Z.of_nat (List.length body) < length_ ->
          fst (run w) = Raise ConnectionError
          /\ files (snd (run w))
             = <[sp := full_blocks (Z.max 4096 (length_ / 100)) body]> (files w)
          /\ fst (run (snd (run w))) = Ok tt
          /\ files (snd (run (snd (run w)))) = files (snd (run w))
          /\ requests (snd (run (snd (run w)))) = requests (snd (run w))).
Proof.
  intros e bp fn dr folder w sp url run Hex. unfold run.
  destruct (download_file_started e bp fn dr folder w Hex) as (w0 & Hrun & Hf & Hq & Hd).
  fold sp url in Hrun. split.
  - intros Hr. rewrite Hrun. unfold attempt, fetch. unfold_M. rewrite Hr. simpl.
    split; [reflexivity | exact Hf].
  - intros h n body Hsl Hne Hin Hbase Hr Hh Hn Hlt.
    assert (Hlen : n <> 0 \/ Z.of_nat (List.length body) < Z.max 4096 (n / 100))
      by (left; lia).
    pose proof (save_path_opens e bp fn folder w w0 Hex Hsl Hne Hin Hbase Hd) as Hopen.
    fold sp in Hopen.
    assert (H1 : fst (attempt e url sp w0) = Raise ConnectionError
                 /\ files (snd (attempt e url sp w0))
                    = <[sp := full_blocks (Z.max 4096 (n / 100)) body]> (files w0)).
    { unfold attempt, fetch. unfold_M. rewrite Hr. simpl. rewrite Hh, Hn. simpl.
      match goal with
      | |- context [open_error ?x sp] => rewrite (open_error_congr w0 x sp eq_refl), Hopen
      end.
      simpl.
      match goal with
      | |- context [read_loop sp (Some (n, ?bs)) true body 0 ?w1] =>
          destruct (read_loop_breaks sp n bs body 0 w1 []) as [H1 H2];
            [lia | exact Hlen | simpl; now rewrite lookup_insert_eq |];
          destruct (read_loop sp (Some (n, bs)) true body 0 w1) as [r w2]
      end.
      simpl in H1, H2. subst r. simpl. split; [reflexivity|].
      rewrite H2. simpl. now rewrite insert_insert_eq. }
    destruct H1 as [Hraise Hfiles]. rewrite Hrun.
    split; [exact Hraise|]. split; [now rewrite Hfiles, Hf|].
    apply download_file_skips. fold sp.
    unfold os_path_exists, is_file. rewrite Hsl, Hfiles, lookup_insert_eq. reflexivity.
Qed.

Lemma uncaught_failures_of_download_file_witness :
  os_path_exists fresh_world
    (save_path_of breaking_env "data/spot/daily/trades/BTCUSDT/" "BTCUSDT-trades-2021-11-01.zip"
       (Some "/home/user/test_data/binance")) = false
  /\ fst (download_file breaking_env "data/spot/daily/trades/BTCUSDT/"
            "BTCUSDT-trades-2021-11-01.zip" None (Some "/home/user/test_data/binance")
            fresh_world) = Raise ConnectionError
  /\ files (snd (download_file breaking_env "data/spot/daily/trades/BTCUSDT/"
                   "BTCUSDT-trades-2021-11-01.zip" None (Some "/home/user/test_data/binance")
                   fresh_world))
       !! "/home/user/test_data/binance/data/spot/daily/trades/BTCUSDT/BTCUSDT-trades-2021-11-01.zip"
     = Some [].
Proof.
  split; [vm_compute; reflexivity|].
  destruct (uncaught_failures_of_download_file breaking_env "data/spot/daily/trades/BTCUSDT/"
              "BTCUSDT-trades-2021-11-01.zip" None (Some "/home/user/test_data/binance")
              fresh_world) as [_ Hbreak]; [vm_compute; reflexivity|].
  destruct (Hbreak "3" 3 [Byte.x50; Byte.x4b]) as (Hraise & Hfiles & _).
  - vm_compute; reflexivity.
  - vm_compute. discriminate.
  - vm_compute; reflexivity.
  - vm_compute. discriminate.
  - vm_compute; reflexivity.
  - reflexivity.
  - vm_compute; reflexivity.
  - simpl. lia.
  - split; [exact Hraise|]. rewrite Hfiles. vm_compute. reflexivity.
Defined.

(** ** The reader: a symbol that is listed twice *)

Lemma dict_set_fresh_key (acc : list string) s :
  dict_set (map (fun x : string => (x, ([] : list string))) acc) s []
  = map (fun x : string => (x, [])) (if bool_decide (s ∈ acc) then acc else acc ++ [s]).
Proof.
  induction acc as [|x acc IH]; [reflexivity|].
  cbn [map dict_set]. destruct (String.eqb x s) eqn:E.
  - apply String.eqb_eq in E. subst.
    rewrite bool_decide_eq_true_2 by apply list_elem_of_here. reflexivity.
  - apply String.eqb_neq in E. rewrite IH.
    destruct (bool_decide (s ∈ acc)) eqn:Hin.
    + apply bool_decide_eq_true in Hin.
      rewrite bool_decide_eq_true_2 by now apply list_elem_of_further. reflexivity.
    + apply bool_decide_eq_false in Hin.
      rewrite bool_decide_eq_false_2; [reflexivity|].
      intros H. apply elem_of_cons in H as [H | H]; [congruence | contradiction].
Qed.

Lemma symbols_dict_from symbols : forall acc : list string,
  fold_left (fun (d : pydict (list string)) symbol => dict_set d symbol []) symbols
    (map (fun x : string => (x, ([] : list string))) acc)
  = map (fun x : string => (x, ([] : list string)))
      (fold_left (fun acc symbol => if bool_decide (symbol ∈ acc) then acc else acc ++ [symbol])
         symbols acc).
Proof.
  induction symbols as [|s symbols IH]; intros acc; [reflexivity|].
  cbn [fold_left]. rewrite dict_set_fresh_key. apply IH.
Qed.

Lemma symbols_dict_first_occurrences symbols :
  fold_left (fun (d : pydict (list string)) symbol => dict_set d symbol []) symbols []
  = map (fun x : string => (x, ([] : list string))) (first_occurrences symbols).
Proof. apply (symbols_dict_from symbols []). Qed.

Lemma first_occurrences_spec symbols :
  List.NoDup (first_occurrences symbols)
  /\ forall s, In s (first_occurrences symbols) <-> In s symbols.
Proof.
  unfold first_occurrences.
  assert (H : forall acc, List.NoDup acc ->
            List.NoDup (fold_left (fun acc symbol =>
                                     if bool_decide (symbol ∈ acc) then acc else acc ++ [symbol])
                                  symbols acc)
            /\ forall s, In s (fold_left (fun acc symbol =>
                                           if bool_decide (symbol ∈ acc) then acc
                                           else acc ++ [symbol]) symbols acc)
                         <-> In s acc \/ In s symbols).
  { induction symbols as [|x symbols IH]; intros acc Hnd; cbn [fold_left].
    - split; [exact Hnd|]. intros s. simpl. tauto.
    - destruct (bool_decide (x ∈ acc)) eqn:E.
      + apply bool_decide_eq_true, list_elem_of_In in E.
        destruct (IH acc Hnd) as [H1 H2]. split; [exact H1|].
        intros s. rewrite H2. simpl. intuition congruence.
      + apply bool_decide_eq_false in E. rewrite list_elem_of_In in E.
        destruct (IH (acc ++ [x])) as [H1 H2].
        { apply NoDup_ListNoDup, NoDup_app. split; [now apply NoDup_ListNoDup|].
          split; [|apply NoDup_singleton].
          intros y Hy Hy'. apply list_elem_of_In in Hy. apply list_elem_of_singleton in Hy'.
          subst. contradiction. }
        split; [exact H1|].
        intros s. rewrite H2, in_app_iff. simpl. tauto. }
  destruct (H [] (List.NoDup_nil _)) as [H1 H2]. split; [exact H1|].
  intros s. rewrite H2. simpl. tauto.
Qed.

Lemma first_occurrences_from l : forall acc : list string,
  List.NoDup (acc ++ l) ->
  fold_left (fun acc symbol => if bool_decide (symbol ∈ acc) then acc else acc ++ [symbol]) l acc
  = acc ++ l.
Proof.
  induction l as [|x l IH]; intros acc Hacc; cbn [fold_left].
  - now rewrite app_nil_r.
  - rewrite bool_decide_eq_false_2.
    + rewrite IH by (rewrite <- app_assoc; exact Hacc). now rewrite <- app_assoc.
    + intros Hx. apply NoDup_ListNoDup, NoDup_app in Hacc as (_ & Hd & _).
      apply (Hd x Hx). apply list_elem_of_here.
Qed.

(** a list without repetition is the list of its first occurrences *)
Lemma first_occurrences_NoDup l : List.NoDup l -> first_occurrences l = l.
Proof. intros H. apply (first_occurrences_from l []). exact H. Qed.

(** X23. A symbol that is listed twice is read once. The list of symbols
    of [get_binance_trade_data] is turned into a dictionary, so the table
    it returns is the table of the list in which every symbol is kept at
    its first place only: the rows of a symbol are not repeated in the
    table however often the symbol is listed. *)
Theorem repeated_symbols_are_read_once :
  forall cwd dk start_date end_date symbols,
    get_binance_trade_data cwd dk start_date end_date symbols
    = get_binance_trade_data cwd dk start_date end_date (first_occurrences symbols)
    /\ List.NoDup (first_occurrences symbols)
    /\ (forall s, In s (first_occurrences symbols) <-> In s symbols).
Proof.
  intros cwd dk sd ed symbols.
  destruct (first_occurrences_spec symbols) as [Hnd Hin].
  split; [|split; [exact Hnd | exact Hin]].
  unfold get_binance_trade_data.
  rewrite !symbols_dict_first_occurrences.
  rewrite (first_occurrences_NoDup _ Hnd). reflexivity.
Qed.

Lemma repeated_symbols_are_read_once_witness :
  first_occurrences ["AAA"; "BBB"; "AAA"] = ["AAA"; "BBB"]
  /\ get_binance_trade_data "/home/user" sample_disk "2021-11-01" "2021-11-01" ["AAA"; "BBB"; "AAA"]
     = get_binance_trade_data "/home/user" sample_disk "2021-11-01" "2021-11-01" ["AAA"; "BBB"].
Proof.
  assert (Hfirst : first_occurrences ["AAA"; "BBB"; "AAA"] = ["AAA"; "BBB"])
    by (vm_compute; reflexivity).
  split; [exact Hfirst|].
  destruct (repeated_symbols_are_read_once "/home/user" sample_disk "2021-11-01" "2021-11-01"
              ["AAA"; "BBB"; "AAA"]) as (Hread & _).
  rewrite Hfirst in Hread. exact Hread.
Defined.

(** ** The command line's date arguments *)

Lemma strftime_chars d :
  chars (strftime d)
  = [digit_char (year d / 1000); digit_char (year d / 100); digit_char (year d / 10);
     digit_char (year d); "-"%char;
     digit_char (month d / 10); digit_char (month d); "-"%char;
     digit_char (day d / 10); digit_char (day d)].
Proof. unfold strftime, pad4, pad2. rewrite !chars_app, !chars_str. reflexivity. Qed.

Lemma digit_not_whitespace c : is_digit c = true -> is_whitespace c = false.
Proof.
  unfold is_digit, is_whitespace. cbv zeta.
  rewrite andb_true_iff, !Z.leb_le. intros [H1 H2].
  apply orb_false_iff. split; apply andb_false_iff.
  - right. apply Z.leb_gt. lia.
  - right. apply Z.leb_gt. lia.
Qed.

Lemma digit_char_not_space n : is_whitespace (digit_char n) = false.
Proof. apply digit_not_whitespace, digit_char_digit. Qed.

Lemma strftime_no_space d : Forall (fun c => is_whitespace c = false) (chars (strftime d)).
Proof.
  rewrite strftime_chars.
  repeat (constructor; [first [apply digit_char_not_space | reflexivity]|]). constructor.
Qed.

Lemma split_whitespace_skips ws rest :
  Forall (fun c => is_whitespace c = true) ws ->
  split_whitespace_chars [] (ws ++ rest) = split_whitespace_chars [] rest.
Proof.
  induction 1 as [|c ws Hc _ IH]; [reflexivity|].
  cbn [app split_whitespace_chars]. now rewrite Hc.
Qed.

Lemma split_whitespace_word w : forall cur,
  Forall (fun c => is_whitespace c = false) w ->
  forall rest, split_whitespace_chars cur (w ++ rest) = split_whitespace_chars (rev w ++ cur) rest.
Proof.
  induction w as [|c w IH]; intros cur Hw rest; [reflexivity|].
  inversion Hw as [|? ? Hc Hw']; subst.
  cbn [app split_whitespace_chars]. rewrite Hc, IH by exact Hw'.
  cbn [rev]. now rewrite <- app_assoc.
Qed.

(** a word that is followed by whitespace, or by the end of the text *)
Lemma split_whitespace_next w ws rest :
  w <> [] ->
  Forall (fun c => is_whitespace c = false) w ->
  ws <> [] ->
  Forall (fun c => is_whitespace c = true) ws ->
  split_whitespace_chars [] (w ++ ws ++ rest) = str w :: split_whitespace_chars [] rest.
Proof.
  intros Hne Hw Hwsne Hws. rewrite split_whitespace_word by exact Hw.
  destruct ws as [|c ws]; [contradiction|]. inversion Hws as [|? ? Hc Hws']; subst.
  cbn [app split_whitespace_chars]. rewrite Hc, app_nil_r.
  destruct (rev w) as [|x r] eqn:E.
  - apply (f_equal (@rev _)) in E. rewrite rev_involutive in E. contradiction.
  - rewrite <- E, rev_involutive. f_equal. now apply split_whitespace_skips.
Qed.

Lemma split_whitespace_last w ws :
  w <> [] ->
  Forall (fun c => is_whitespace c = false) w ->
  Forall (fun c => is_whitespace c = true) ws ->
  split_whitespace_chars [] (w ++ ws) = [str w].
Proof.
  intros Hne Hw Hws. destruct ws as [|c ws].
  - rewrite split_whitespace_word by exact Hw. cbn [split_whitespace_chars].
    rewrite app_nil_r.
    destruct (rev w) as [|x r] eqn:E.
    + apply (f_equal (@rev _)) in E. rewrite rev_involutive in E. contradiction.
    + now rewrite <- E, rev_involutive.
  - rewrite <- (app_nil_r (c :: ws)).
    rewrite split_whitespace_next by (assumption || discriminate). reflexivity.
Qed.

Lemma strftime_not_empty d : chars (strftime d) <> [].
Proof. rewrite strftime_chars. discriminate. Qed.

Lemma get_start_end_date_objects_raises s ex :
  get_start_end_date_objects s = Raise ex ->
  ex = ValueError
  \/ (ex = OverflowError
      /\ exists word y m dd,
           In word (split_whitespace s) /\ date_fields word = Some (y, m, dd)
           /\ fits_c_int y && fits_c_int m && fits_c_int dd = false).
Proof.
  unfold get_start_end_date_objects.
  destruct (split_whitespace s) as [|a [|b [|c l]]]; try (intros [= <-]; now left).
  destruct (convert_to_date_object a) as [x|e] eqn:Ea; simpl.
  - destruct (convert_to_date_object b) as [y|e] eqn:Eb; simpl; [discriminate|].
    intros [= <-]. apply convert_to_date_object_raises in Eb as [-> | [-> H]]; [now left|].
    right. split; [reflexivity|]. destruct H as (y' & m & dd & H1 & H2).
    exists b, y', m, dd. simpl. auto.
  - intros [= <-]. apply convert_to_date_object_raises in Ea as [-> | [-> H]]; [now left|].
    right. split; [reflexivity|]. destruct H as (y' & m & dd & H1 & H2).
    exists a, y', m, dd. simpl. auto.
Qed.

Lemma get_start_end_date_objects_valid s a b :
  get_start_end_date_objects s = Ok (a, b) -> valid_date a /\ valid_date b.
Proof.
  unfold get_start_end_date_objects.
  destruct (split_whitespace s) as [|x [|y [|c l]]]; try discriminate.
  destruct (convert_to_date_object x) as [x'|e] eqn:Ea; simpl; [|discriminate].
  destruct (convert_to_date_object y) as [y'|e] eqn:Eb; simpl; [|discriminate].
  intros [= <- <-]. split; eapply convert_valid; eassumption.
Qed.

Lemma get_start_end_date_objects_reads lead sep trail a b :
  Forall (fun c => is_whitespace c = true) lead ->
  Forall (fun c => is_whitespace c = true) sep -> sep <> [] ->
  Forall (fun c => is_whitespace c = true) trail ->
  valid_date a -> valid_date b ->
  get_start_end_date_objects
    (str lead +:+ strftime a +:+ str sep +:+ strftime b +:+ str trail) = Ok (a, b).
Proof.
  intros Hl Hs Hne Ht Ha Hb. unfold get_start_end_date_objects, split_whitespace.
  rewrite !chars_app, !chars_str.
  rewrite split_whitespace_skips by exact Hl.
  rewrite split_whitespace_next
    by (assumption || apply strftime_not_empty || apply strftime_no_space).
  rewrite split_whitespace_last
    by (assumption || apply strftime_not_empty || apply strftime_no_space).
  rewrite !str_chars, !convert_strftime by assumption. reflexivity.
Qed.

(** X24. The pair of dates of the command line. A text that holds two
    dates as [strftime] writes them, with whitespace between them and any
    whitespace before and after, is read by [get_start_end_date_objects]
    as these two dates; whatever it returns is a pair of dates of the
    calendar. On any text, what it raises is a [ValueError] or an
    [OverflowError]; the latter only when one of the words of the text is
    three numbers one of which is no C [int]. *)
Theorem get_start_end_date_objects_reads_two_dates :
  (forall lead sep trail a b,
      Forall (fun c => is_whitespace c = true) lead ->
      Forall (fun c => is_whitespace c = true) sep -> sep <> [] ->
      Forall (fun c => is_whitespace c = true) trail ->
      valid_date a -> valid_date b ->
      get_start_end_date_objects
        (str lead +:+ strftime a +:+ str sep +:+ strftime b +:+ str trail) = Ok (a, b))
  /\ (forall s a b, get_start_end_date_objects s = Ok (a, b) -> valid_date a /\ valid_date b)
  /\ (forall s ex, get_start_end_date_objects s = Raise ex ->
        ex = ValueError
        \/ (ex = OverflowError
            /\ exists word y m dd,
                 In word (split_whitespace s) /\ date_fields word = Some (y, m, dd)
                 /\ fits_c_int y && fits_c_int m && fits_c_int dd = false)).
Proof.
  split; [exact get_start_end_date_objects_reads|].
  split; [exact get_start_end_date_objects_valid | exact get_start_end_date_objects_raises].
Qed.

Lemma get_start_end_date_objects_reads_two_dates_witness :
  get_start_end_date_objects " 2021-11-01  2021-11-03 " = Ok (mkdate 2021 11 1, mkdate 2021 11 3)
  /\ (valid_date (mkdate 2021 11 1) /\ valid_date (mkdate 2021 11 3))
  /\ get_start_end_date_objects "99999999999-01-01 2021-01-01" = Raise OverflowError
  /\ (OverflowError = ValueError
      \/ (OverflowError = OverflowError
          /\ exists word y m dd,
               In word (split_whitespace "99999999999-01-01 2021-01-01")
               /\ date_fields word = Some (y, m, dd)
               /\ fits_c_int y && fits_c_int m && fits_c_int dd = false)).
Proof.
  destruct get_start_end_date_objects_reads_two_dates as (Hread & Hvalid & Hraise).
  split.
  - apply (Hread [" "%char] [" "%char; " "%char] [" "%char] (mkdate 2021 11 1) (mkdate 2021 11 3)).
    + repeat constructor.
    + repeat constructor.
    + discriminate.
    + repeat constructor.
    + reflexivity.
    + reflexivity.
  - split.
    + apply (Hvalid " 2021-11-01  2021-11-03 "). reflexivity.
    + split; [reflexivity|]. apply (Hraise "99999999999-01-01 2021-01-01"). reflexivity.
Defined.

(** ** The pattern of a date argument *)

Lemma match_date_regex_prefix d rest :
  match_date_regex (strftime d +:+ rest) = Some (strftime d +:+ rest).
Proof.
  unfold match_date_regex. rewrite chars_app, strftime_chars. cbn [app].
  now rewrite !(proj1 (digit_char_digit _)).
Qed.

Lemma match_date_regex_id s r :
  match_date_regex s = Some r -> r = s /\ (10 <= length (chars s))%nat.
Proof.
  unfold match_date_regex.
  destruct (chars s) as [|c1 [|c2 [|c3 [|c4 [|c5 [|c6 [|c7 [|c8 [|c9 [|c10 l]]]]]]]]]];
    try discriminate; intros H;
    destruct c5 as [[] [] [] [] [] [] [] []]; try discriminate H;
    try (destruct c8 as [[] [] [] [] [] [] [] []]; try discriminate H).
  split; [|cbn [length]; lia].
  destruct (_ && _) in H; [now injection H | discriminate].
Qed.

(** the text of three numbers is read field by field, in the calendar or not *)
Lemma convert_padded y m dd :
  0 <= y <= 9999 -> 0 <= m <= 99 -> 0 <= dd <= 99 ->
  convert_to_date_object (pad4 y +:+ "-" +:+ pad2 m +:+ "-" +:+ pad2 dd) = mk_date y m dd.
Proof.
  intros Hy Hm Hd.
  destruct (pad4_reads y Hy) as [H4 N4], (pad2_reads m Hm) as [H2 N2],
    (pad2_reads dd Hd) as [H2' N2'].
  rewrite convert_to_date_object_eq. unfold split. rewrite !chars_app.
  change (chars "-") with ["-"%char]. cbn [app].
  rewrite split_chars_next by exact N4.
  rewrite split_chars_next by exact N2.
  rewrite split_chars_last by exact N2'.
  cbn [rev app]. rewrite !str_chars.
  cbn [ints_of]. rewrite H4, H2, H2'. reflexivity.
Qed.

Lemma padded_outside_the_calendar y m dd :
  0 <= y <= 9999 -> 0 <= m <= 99 -> 0 <= dd <= 99 ->
  ~ valid_date (mkdate y m dd) ->
  match_date_regex (pad4 y +:+ "-" +:+ pad2 m +:+ "-" +:+ pad2 dd)
  = Some (pad4 y +:+ "-" +:+ pad2 m +:+ "-" +:+ pad2 dd)
  /\ convert_to_date_object (pad4 y +:+ "-" +:+ pad2 m +:+ "-" +:+ pad2 dd) = Raise ValueError.
Proof.
  intros Hy Hm Hd Hn. split.
  - pose proof (match_date_regex_prefix (mkdate y m dd) "") as H.
    rewrite append_nil_r in H. exact H.
  - rewrite convert_padded by assumption.
    destruct (mk_date y m dd) as [d|ex] eqn:E.
    + exfalso. apply Hn. pose proof (mk_date_Ok _ _ _ _ E) as ->. exact E.
    + apply mk_date_raises in E as [[_ F] | [-> _]]; [|reflexivity].
      assert (fits_c_int y && fits_c_int m && fits_c_int dd = true); [|congruence].
      unfold fits_c_int. repeat (apply andb_true_iff; split); lia.
Qed.

(** X25. The pattern of a date argument looks at digits only.
    [match_date_regex] accepts every text that starts with a date as
    [strftime] writes it, whatever follows the date, and returns the text
    as it is; a text it accepts has at least ten characters. It does not
    look at the calendar: three numbers written with four, two and two
    digits that are no date of the calendar are accepted by it, and
    refused by [convert_to_date_object] with [ValueError]. *)
Theorem match_date_regex_looks_at_digits_only :
  (forall d rest, match_date_regex (strftime d +:+ rest) = Some (strftime d +:+ rest))
  /\ (forall s r, match_date_regex s = Some r -> r = s /\ (10 <= length (chars s))%nat)
  /\ (forall y m dd,
        0 <= y <= 9999 -> 0 <= m <= 99 -> 0 <= dd <= 99 ->
        ~ valid_date (mkdate y m dd) ->
        match_date_regex (pad4 y +:+ "-" +:+ pad2 m +:+ "-" +:+ pad2 dd)
        = Some (pad4 y +:+ "-" +:+ pad2 m +:+ "-" +:+ pad2 dd)
        /\ convert_to_date_object (pad4 y +:+ "-" +:+ pad2 m +:+ "-" +:+ pad2 dd)
           = Raise ValueError).
Proof.
  split; [exact match_date_regex_prefix|].
  split; [exact match_date_regex_id | exact padded_outside_the_calendar].
Qed.

Lemma match_date_regex_looks_at_digits_only_witness :
  match_date_regex "2021-11-01T00:00" = Some "2021-11-01T00:00"
  /\ ("2021-11-01" = "2021-11-01" /\ (10 <= length (chars "2021-11-01"))%nat)
  /\ ~ valid_date (mkdate 2021 2 30)
  /\ match_date_regex "2021-02-30" = Some "2021-02-30"
  /\ convert_to_date_object "2021-02-30" = Raise ValueError.
Proof.
  destruct match_date_regex_looks_at_digits_only as (Hprefix & Hid & Hcal).
  split; [exact (Hprefix (mkdate 2021 11 1) "T00:00")|].
  split; [apply (Hid "2021-11-01" "2021-11-01"); reflexivity|].
  split; [discriminate|].
  apply (Hcal 2021 2 30); [lia | lia | lia | discriminate].
Defined.
